(** * HNSW index access method (src/index/hnsw_am.c): a shallow embedding

    The development follows the C source function by function.  C integers
    are [Z]; block numbers are unsigned 32-bit values with the sentinel
    [InvalidBlockNumber]; [float4] and [double] are IEEE-754 binary32 and
    binary64 values of the standard library's [spec_float], rounded to
    nearest-even after every operation.  Page contents are read and written
    through the relation held in the state of a small state-and-error monad;
    buffer pins and content locks are not part of that state. *)

From Stdlib Require Import ZArith List Bool Lia.
From Stdlib Require Import Floats.SpecFloat.
From Stdlib Require QArith.
From stdpp Require Import base list.
Import ListNotations.

Local Open Scope Z_scope.

(** ** Constants of the source *)

Definition HNSW_DEFAULT_M : Z := 16.
Definition HNSW_DEFAULT_EF_CONSTRUCTION : Z := 200.
Definition HNSW_DEFAULT_EF_SEARCH : Z := 64.
Definition HNSW_MAX_LEVEL : Z := 16.
Definition HNSW_MAGIC_NUMBER : Z := 0x48534E57.
Definition HNSW_VERSION : Z := 1.
Definition HNSW_MIN_M : Z := 2.
Definition HNSW_MAX_M : Z := 128.
Definition HNSW_MIN_EF_CONSTRUCTION : Z := 4.
Definition HNSW_MAX_EF_CONSTRUCTION : Z := 10000.
Definition HNSW_MIN_EF_SEARCH : Z := 4.
Definition HNSW_MAX_EF_SEARCH : Z := 10000.
Definition HNSW_MAX_VISITED_CAPACITY : Z := 1024 * 1024.

(** Host (PostgreSQL) constants the source relies on. *)
Definition BlockNumber := Z.
Definition InvalidBlockNumber : BlockNumber := 0xFFFFFFFF.
Definition FirstOffsetNumber : Z := 1.
Definition InvalidOffsetNumber : Z := 0.
Definition BLCKSZ : Z := 8192.
Definition INT64_MAX : Z := 9223372036854775807.
Definition INT_MIN : Z := -2147483648.
Definition INT_MAX : Z := 2147483647.
Definition RAND_MAX : Z := 2147483647.

(** ** Outcomes of a C computation *)

Variant ErrCode :=
| ERRCODE_INVALID_PARAMETER_VALUE
| ERRCODE_INTERNAL_ERROR
| ERRCODE_DATA_CORRUPTED
| ERRCODE_NUMERIC_VALUE_OUT_OF_RANGE
| ERRCODE_INSUFFICIENT_RESOURCES
| ERRCODE_PROGRAM_LIMIT_EXCEEDED
| ERRCODE_DATATYPE_MISMATCH.

(** [Raise] is [ereport(ERROR, ...)].  [Undefined] marks an execution the C
    standard gives no meaning to (an access outside an array, a read of an
    uninitialised cell, a signed overflow).  [OutOfFuel] is the embedding's
    own bound on loops the source does not bound. *)
Variant res (A : Type) :=
| Ok (a : A)
| Raise (e : ErrCode)
| Undefined
| OutOfFuel.
Arguments Ok {A} a.
Arguments Raise {A} e.
Arguments Undefined {A}.
Arguments OutOfFuel {A}.

Definition res_bind {A B} (r : res A) (k : A -> res B) : res B :=
  match r with
  | Ok a => k a
  | Raise e => Raise e
  | Undefined => Undefined
  | OutOfFuel => OutOfFuel
  end.

Definition is_Raise {A} (r : res A) : bool :=
  match r with Raise _ => true | _ => false end.

(** [arr[i]] for an array of known extent. *)
Definition aref {A} (arr : list A) (i : Z) : res A :=
  if i <? 0 then Undefined
  else match arr !! Z.to_nat i with
       | Some x => Ok x
       | None => Undefined
       end.

(** [arr[i] = x]. *)
Definition aset {A} (arr : list A) (i : Z) (x : A) : res (list A) :=
  if (0 <=? i) && (i <? Z.of_nat (length arr))
  then Ok (<[Z.to_nat i := x]> arr)
  else Undefined.

(** ** Floating point *)

Module FP.

Definition float4 := spec_float.
Definition double := spec_float.

Definition prec32 : Z := 24.
Definition emax32 : Z := 128.
Definition prec64 : Z := 53.
Definition emax64 : Z := 1024.

Definition round_to (prec emax : Z) (x : spec_float) : spec_float :=
  match x with
  | S754_finite s m e => binary_normalize prec emax (cond_Zopp s (Zpos m)) e s
  | _ => x
  end.

(** The implicit promotion [float4 -> double] and the cast [(float4) d]. *)
Definition to_double (x : float4) : double := round_to prec64 emax64 x.
Definition to_float4 (x : double) : float4 := round_to prec32 emax32 x.

Definition mul32 : float4 -> float4 -> float4 := SFmul prec32 emax32.
Definition sub32 : float4 -> float4 -> float4 := SFsub prec32 emax32.

Definition add64 : double -> double -> double := SFadd prec64 emax64.
Definition sub64 : double -> double -> double := SFsub prec64 emax64.
Definition mul64 : double -> double -> double := SFmul prec64 emax64.
Definition div64 : double -> double -> double := SFdiv prec64 emax64.
Definition sqrt64 : double -> double := SFsqrt prec64 emax64.
Definition neg64 : double -> double := SFopp.

Definition eqb (x y : spec_float) : bool := SFeqb x y.
Definition ltb (x y : spec_float) : bool := SFltb x y.

Definition zero : spec_float := S754_zero false.
(** [1.0f], [2.0f] and [FLT_MAX] in binary32. *)
Definition one32 : float4 := S754_finite false 8388608 (-23).
Definition two32 : float4 := S754_finite false 8388608 (-22).
Definition FLT_MAX : float4 := S754_finite false 16777215 104.

(** [(double) n] for an integer [n]. *)
Definition of_Z64 (n : Z) : double := binary_normalize prec64 emax64 n 0 false.
Definition of_Z32 (n : Z) : float4 := binary_normalize prec32 emax32 n 0 false.

(** [(int) d]: truncation toward zero; the conversion is undefined when
    the truncated value is not representable in [int]. *)
Definition trunc (d : double) : option Z :=
  match d with
  | S754_zero _ => Some 0
  | S754_finite s m e =>
      let mag := if 0 <=? e then Zpos m * 2 ^ e else Zpos m / 2 ^ (- e) in
      Some (cond_Zopp s mag)
  | _ => None
  end.

Definition to_int (d : double) : res Z :=
  match trunc d with
  | Some z => if (INT_MIN <=? z) && (z <=? INT_MAX) then Ok z else Undefined
  | None => Undefined
  end.

End FP.

Import FP.

(** ** hnswComputeDistance *)

(** One iteration body per strategy; [i] is the loop index. *)
Definition l2_step (vec1 vec2 : list float4) (i : Z) (sum : double) : res double :=
  res_bind (aref vec1 i) (fun x =>
  res_bind (aref vec2 i) (fun y =>
    let d := to_double (sub32 x y) in
    Ok (add64 sum (mul64 d d)))).

Definition cos_step (vec1 vec2 : list float4) (i : Z)
    (acc : double * double * double) : res (double * double * double) :=
  let '(dot_product, norm1, norm2) := acc in
  res_bind (aref vec1 i) (fun x =>
  res_bind (aref vec2 i) (fun y =>
    Ok (add64 dot_product (to_double (mul32 x y)),
        add64 norm1 (to_double (mul32 x x)),
        add64 norm2 (to_double (mul32 y y))))).

Definition ip_step (vec1 vec2 : list float4) (i : Z) (dot_product : double) : res double :=
  res_bind (aref vec1 i) (fun x =>
  res_bind (aref vec2 i) (fun y =>
    Ok (add64 dot_product (to_double (mul32 x y))))).

(** [for (i = lo; i < lo + n; i++) acc = body i acc]. *)
Fixpoint for_res {S : Type} (n : nat) (i : Z) (body : Z -> S -> res S) (acc : S) : res S :=
  match n with
  | O => Ok acc
  | S n' => res_bind (body i acc) (for_res n' (i + 1) body)
  end.

Definition hnswComputeDistance (vec1 vec2 : list float4) (dim strategy : Z) : res float4 :=
  if strategy =? 1 then
    res_bind (for_res (Z.to_nat dim) 0 (l2_step vec1 vec2) zero) (fun sum =>
    Ok (to_float4 (sqrt64 sum)))
  else if strategy =? 2 then
    res_bind (for_res (Z.to_nat dim) 0 (cos_step vec1 vec2) (zero, zero, zero))
      (fun '(dot_product, norm1, norm2) =>
         let norm1 := sqrt64 norm1 in
         let norm2 := sqrt64 norm2 in
         if eqb norm1 zero || eqb norm2 zero then Ok two32
         else Ok (to_float4 (sub64 (to_double one32)
                                   (div64 dot_product (mul64 norm1 norm2)))))
  else if strategy =? 3 then
    res_bind (for_res (Z.to_nat dim) 0 (ip_step vec1 vec2) zero) (fun dot_product =>
    Ok (to_float4 (neg64 dot_product)))
  else Raise ERRCODE_INVALID_PARAMETER_VALUE.

(** Reference definitions for the cosine distance, in the words of the
    specification: the inner product [a . b] and the norm [|a|], evaluated
    with the arithmetic of the source (binary32 products accumulated in
    binary64). *)
Definition dot_from (acc : double) (a b : list float4) : double :=
  fold_left (fun s '(x, y) => add64 s (to_double (mul32 x y))) (combine a b) acc.

Definition dot (a b : list float4) : double := dot_from zero a b.

Definition norm (a : list float4) : double := sqrt64 (dot a a).

Definition cosine_formula (a b : list float4) : float4 :=
  to_float4 (sub64 (to_double one32) (div64 (dot a b) (mul64 (norm a) (norm b)))).

(** ** hnswComputeNodeSizeSafe *)

(** [size_t] is a 64-bit unsigned type; conversions to it and arithmetic in
    it wrap modulo [2^64]. *)
Definition size_t (z : Z) : Z := z mod 2 ^ 64.

Definition sizeof_float4 : Z := 4.
Definition sizeof_BlockNumber : Z := 4.
(** [sizeof(HnswNodeData)]: a 6-byte item pointer, padding, an [int], an
    [int16] and sixteen [int16] counters. *)
Definition sizeof_HnswNodeData : Z := 48.

(** [MAXALIGN(len)] is [TYPEALIGN(8, len)], computed in [uintptr_t]. *)
Definition MAXALIGN (len : Z) : Z := Z.land (size_t (len + 7)) (Z.lnot 7).

(** The result is the pair of the returned [Size] and the flag stored
    through [overflow].  [level + 1] is an [int] addition in the source:
    the definition follows the code for [level < INT_MAX]. *)
Definition hnswComputeNodeSizeSafe (dim level m : Z) : Z * bool :=
  if (m <? HNSW_MIN_M) || (m >? HNSW_MAX_M) then (0, true)
  else
    let vectorSize := size_t (size_t dim * sizeof_float4) in
    if negb (vectorSize / sizeof_float4 =? size_t dim) then (0, true)
    else
      let slots := size_t (size_t (size_t (level + 1) * size_t m) * 2) in
      let neighborSize := size_t (slots * sizeof_BlockNumber) in
      if negb (neighborSize / sizeof_BlockNumber =? slots) then (0, true)
      else
        let totalSize := size_t (size_t (sizeof_HnswNodeData + vectorSize) + neighborSize) in
        if (totalSize <? sizeof_HnswNodeData) || (totalSize <? vectorSize)
           || (totalSize <? neighborSize)
        then (0, true)
        else
          let result := MAXALIGN totalSize in
          if result <? totalSize then (0, true) else (result, false).

(** The node size of the specification, over unbounded integers:
    [align(header + dim*4 + (level+1)*2m*4)]. *)
Definition align8 (x : Z) : Z := 8 * ((x + 7) / 8).

Definition node_size_exact (dim level m : Z) : Z :=
  align8 (sizeof_HnswNodeData + dim * 4 + (level + 1) * (2 * m) * 4).

(** ** hnswoptions *)

Record HnswOptions := {
  opt_m : Z;
  opt_ef_construction : Z;
  opt_ef_search : Z
}.

(** [parsed] is what the host's [build_reloptions] returned for the
    reloptions datum: [None] for a NULL result, the filled structure
    otherwise.  The function returns that same pointer.  The validation
    does not read the structure itself: it reads through
    [VARDATA(result)] cast to the structure, a pointer four bytes into it, so
    every field is taken one [int] too far.  What the checks call [m] is
    the field [ef_construction], what they call [ef_construction] is the
    field [ef_search], and what they call [ef_search] is the [int] that
    lies behind the structure in memory, here [past]. *)
Definition hnswoptions (parsed : option HnswOptions) (past : Z) (validate : bool)
  : res (option HnswOptions) :=
  match parsed with
  | Some opts =>
      if validate then
        let m := opt_ef_construction opts in
        let ef_construction := opt_ef_search opts in
        let ef_search := past in
        if (m <? HNSW_MIN_M) || (m >? HNSW_MAX_M)
        then Raise ERRCODE_INVALID_PARAMETER_VALUE
        else if (ef_construction <? HNSW_MIN_EF_CONSTRUCTION)
                || (ef_construction >? HNSW_MAX_EF_CONSTRUCTION)
        then Raise ERRCODE_INVALID_PARAMETER_VALUE
        else if (ef_search <? HNSW_MIN_EF_SEARCH) || (ef_search >? HNSW_MAX_EF_SEARCH)
        then Raise ERRCODE_INVALID_PARAMETER_VALUE
        else if ef_construction <? m
        then Raise ERRCODE_INVALID_PARAMETER_VALUE
        else if ef_search <? m
        then Raise ERRCODE_INVALID_PARAMETER_VALUE
        else Ok parsed
      else Ok parsed
  | None => Ok parsed
  end.

(** The rejection condition of the specification. *)
Definition options_rejected (o : HnswOptions) : Prop :=
  opt_m o < 2 \/ opt_m o > 128
  \/ opt_ef_construction o < 4 \/ opt_ef_construction o > 10000
  \/ opt_ef_search o < 4 \/ opt_ef_search o > 10000
  \/ opt_ef_construction o < opt_m o
  \/ opt_ef_search o < opt_m o.

(** ** Index pages *)

Record ItemPointerData := {
  ip_blkid : Z;
  ip_posid : Z
}.

Definition ItemPointerEquals (a b : ItemPointerData) : bool :=
  (ip_blkid a =? ip_blkid b) && (ip_posid a =? ip_posid b).

Record HnswMetaPageData := {
  meta_magicNumber : Z;
  meta_version : Z;
  meta_entryPoint : BlockNumber;
  meta_entryLevel : Z;
  meta_maxLevel : Z;
  meta_m : Z;
  meta_efConstruction : Z;
  meta_efSearch : Z;
  meta_ml : float4;
  meta_insertedVectors : Z
}.

(** A node item.  [node_neighborCount] is the array of [HNSW_MAX_LEVEL]
    counters; [node_vector] and [node_neighbors] are the two arrays that
    follow the fixed structure, the latter the flat table
    [neighbors[level+1][m*2]]. *)
Record HnswNodeData := {
  node_heapPtr : ItemPointerData;
  node_level : Z;
  node_dim : Z;
  node_neighborCount : list Z;
  node_vector : list float4;
  node_neighbors : list BlockNumber
}.

(** A line pointer with its item: [lp_dead] is the [LP_DEAD] flag. *)
Record Item := {
  lp_dead : bool;
  it_node : HnswNodeData
}.

Variant Page :=
| PageNew
| PageInit (items : list Item).

Definition PageIsNew (p : Page) : bool :=
  match p with PageNew => true | PageInit _ => false end.

Definition PageIsEmpty (p : Page) : bool :=
  match p with PageNew => true | PageInit [] => true | PageInit (_ :: _) => false end.

Definition page_items (p : Page) : list Item :=
  match p with PageNew => [] | PageInit items => items end.

Definition PageGetMaxOffsetNumber (p : Page) : Z := Z.of_nat (length (page_items p)).

(** [PageGetItem(page, PageGetItemId(page, offnum))].  The result is the
    item as it was stored.  Once an item is dead the host has dropped its
    storage, and a read through its line pointer no longer yields the node:
    what is stated about reads is stated for live items. *)
Definition PageGetItem (p : Page) (offnum : Z) : res Item :=
  aref (page_items p) (offnum - 1).

Definition first_node (p : Page) : res HnswNodeData :=
  res_bind (PageGetItem p FirstOffsetNumber) (fun it => Ok (it_node it)).

(** ** The state and its monad *)

Variant Event :=
| EvReadBuffer (blkno : BlockNumber)
| EvExtend (blkno : BlockNumber)
| EvDistance (strategy : Z)
| EvSearch.

(** [w_meta] is the content of block 0, [w_pages] are blocks 1, 2, ...;
    [w_rand] lists the values the next calls of [random()] return;
    [w_trace] records page reads and distance evaluations, newest first. *)
Record World := {
  w_meta : HnswMetaPageData;
  w_pages : list Page;
  w_rand : list Z;
  w_trace : list Event
}.

Definition M (A : Type) : Type := World -> res A * World.

Definition ret {A} (a : A) : M A := fun w => (Ok a, w).

Definition bind {A B} (c : M A) (k : A -> M B) : M B :=
  fun w =>
    match c w with
    | (Ok a, w') => k a w'
    | (Raise e, w') => (Raise e, w')
    | (Undefined, w') => (Undefined, w')
    | (OutOfFuel, w') => (OutOfFuel, w')
    end.

Notation "x <- c1 ;; c2" := (bind c1 (fun x => c2))
  (at level 90, c1 at next level, right associativity).
Notation "c1 ;;; c2" := (bind c1 (fun _ => c2))
  (at level 90, right associativity).

Definition lift {A} (r : res A) : M A := fun w => (r, w).
Definition ereport {A} (e : ErrCode) : M A := lift (Raise e).
Definition get : M World := fun w => (Ok w, w).
Definition log (ev : Event) : M unit :=
  fun w => (Ok tt, {| w_meta := w_meta w; w_pages := w_pages w;
                      w_rand := w_rand w; w_trace := ev :: w_trace w |}).
Definition set_meta (meta : HnswMetaPageData) : M unit :=
  fun w => (Ok tt, {| w_meta := meta; w_pages := w_pages w;
                      w_rand := w_rand w; w_trace := w_trace w |}).
Definition set_pages (pages : list Page) : M unit :=
  fun w => (Ok tt, {| w_meta := w_meta w; w_pages := pages;
                      w_rand := w_rand w; w_trace := w_trace w |}).
Definition get_meta : M HnswMetaPageData := fun w => (Ok (w_meta w), w).

(** [random()]. *)
Definition random : M Z :=
  fun w =>
    match w_rand w with
    | [] => (OutOfFuel, w)
    | x :: rest => (Ok x, {| w_meta := w_meta w; w_pages := w_pages w;
                             w_rand := rest; w_trace := w_trace w |})
    end.

(** Loop control: [Next] reaches the end of the body (or [continue]),
    [Break] leaves the loop. *)
Variant ctl (S : Type) :=
| Next (s : S)
| Break (s : S).
Arguments Next {S} s.
Arguments Break {S} s.

(** [for (i = i0; i < i0 + n; i++) body]. *)
Fixpoint for_up {S : Type} (n : nat) (i : Z) (body : Z -> S -> M (ctl S)) (s : S) : M S :=
  match n with
  | O => ret s
  | S n' =>
      r <- body i s ;;
      match r with
      | Next s' => for_up n' (i + 1) body s'
      | Break s' => ret s'
      end
  end.

Definition forZ {S : Type} (lo hi : Z) (body : Z -> S -> M (ctl S)) (s : S) : M S :=
  for_up (Z.to_nat (hi - lo)) lo body s.

(** [for (i = i0; i > i0 - n; i--) body]. *)
Fixpoint for_down {S : Type} (n : nat) (i : Z) (body : Z -> S -> M (ctl S)) (s : S) : M S :=
  match n with
  | O => ret s
  | S n' =>
      r <- body i s ;;
      match r with
      | Next s' => for_down n' (i - 1) body s'
      | Break s' => ret s'
      end
  end.

(** [for (i = hi; i >= lo; i--) body]. *)
Definition forZ_down {S : Type} (hi lo : Z) (body : Z -> S -> M (ctl S)) (s : S) : M S :=
  for_down (Z.to_nat (hi - lo + 1)) hi body s.

(** ** Host page access *)

Definition RelationGetNumberOfBlocks (w : World) : Z :=
  1 + Z.of_nat (length (w_pages w)).

(** Block 0 is the meta page: initialised, without line pointers. *)
Definition page_at (w : World) (blkno : BlockNumber) : option Page :=
  if blkno =? 0 then Some (PageInit [])
  else if blkno <? 0 then None
  else w_pages w !! Z.to_nat (blkno - 1).

(** [ReadBuffer(index, blkno)] followed by [BufferGetPage]; the host
    reports a block past the end of the relation as an error. *)
Definition ReadBuffer (blkno : BlockNumber) : M Page :=
  fun w =>
    match page_at w blkno with
    | Some p => log (EvReadBuffer blkno) ;;; ret p
    | None => ereport ERRCODE_DATA_CORRUPTED
    end w.

(** Store [p] as the content of block [blkno >= 1]. *)
Definition write_page (blkno : BlockNumber) (p : Page) : M unit :=
  w <- get ;;
  if (1 <=? blkno) && (blkno <? RelationGetNumberOfBlocks w)
  then set_pages (<[Z.to_nat (blkno - 1) := p]> (w_pages w))
  else lift Undefined.

(** The node stored at [(blkno, offnum)], as the shared buffer holds it
    now. *)
Definition node_at (blkno : BlockNumber) (offnum : Z) : M HnswNodeData :=
  w <- get ;;
  match page_at w blkno with
  | Some p => it <- lift (PageGetItem p offnum) ;; ret (it_node it)
  | None => lift Undefined
  end.

(** A store through a pointer to the node at [(blkno, offnum)]. *)
Definition store_node (blkno : BlockNumber) (offnum : Z) (node : HnswNodeData) : M unit :=
  w <- get ;;
  match page_at w blkno with
  | Some p =>
      it <- lift (PageGetItem p offnum) ;;
      items <- lift (aset (page_items p) (offnum - 1)
                          {| lp_dead := lp_dead it; it_node := node |}) ;;
      write_page blkno (PageInit items)
  | None => lift Undefined
  end.

(** ** Validation helpers *)

(** Conversion to [int16]. *)
Definition int16 (z : Z) : Z := (z + 32768) mod 65536 - 32768.

Definition hnswValidateNeighborCount (neighborCount m level : Z) : Z :=
  let maxNeighbors := int16 (m * 2) in
  if neighborCount <? 0 then 0
  else if neighborCount >? maxNeighbors then maxNeighbors
  else neighborCount.

Definition hnswValidateLevelSafe (level : Z) : bool :=
  if (level <? 0) || (level >=? HNSW_MAX_LEVEL) then false else true.

Definition valid_block (w : World) (blkno : BlockNumber) : bool :=
  let maxBlocks := RelationGetNumberOfBlocks w in
  if blkno =? InvalidBlockNumber then false
  else if blkno >=? maxBlocks then false
  else true.

Definition hnswValidateBlockNumber (blkno : BlockNumber) : M bool :=
  w <- get ;; ret (valid_block w blkno).

(** [HnswGetNeighborsSafe(node, level, m)[i]]: the slot lies [level*m*2 + i]
    entries into the neighbor table. *)
Definition neighbor_slot (level m i : Z) : Z := level * m * 2 + i.

Definition get_neighbor (node : HnswNodeData) (level m i : Z) : res BlockNumber :=
  aref (node_neighbors node) (neighbor_slot level m i).

Definition set_neighbor (node : HnswNodeData) (level m i : Z) (b : BlockNumber)
  : res HnswNodeData :=
  res_bind (aset (node_neighbors node) (neighbor_slot level m i) b) (fun nbrs =>
  Ok {| node_heapPtr := node_heapPtr node; node_level := node_level node;
        node_dim := node_dim node; node_neighborCount := node_neighborCount node;
        node_vector := node_vector node; node_neighbors := nbrs |}).

Definition get_count (node : HnswNodeData) (level : Z) : res Z :=
  aref (node_neighborCount node) level.

Definition set_count (node : HnswNodeData) (level : Z) (c : Z) : res HnswNodeData :=
  res_bind (aset (node_neighborCount node) level c) (fun cnts =>
  Ok {| node_heapPtr := node_heapPtr node; node_level := node_level node;
        node_dim := node_dim node; node_neighborCount := cnts;
        node_vector := node_vector node; node_neighbors := node_neighbors node |}).

(** A call of [hnswComputeDistance], recorded in the trace. *)
Definition ComputeDistance (vec1 vec2 : list float4) (dim strategy : Z) : M float4 :=
  log (EvDistance strategy) ;;;
  lift (hnswComputeDistance vec1 vec2 dim strategy).

(** ** hnswGetRandomLevel *)

(** [r = (double) random() / (double) RAND_MAX; while (r == 0.0) r = ...]. *)
Fixpoint draw_nonzero (fuel : nat) : M double :=
  match fuel with
  | O => lift OutOfFuel
  | S fuel' =>
      x <- random ;;
      let r := div64 (of_Z64 x) (of_Z64 RAND_MAX) in
      if eqb r zero then draw_nonzero fuel' else ret r
  end.

Definition clamp_level (level : Z) : Z :=
  let level := if level >? HNSW_MAX_LEVEL - 1 then HNSW_MAX_LEVEL - 1 else level in
  if level <? 0 then 0 else level.

(** [log] is the natural logarithm of the C library. *)
Definition hnswGetRandomLevel (log : double -> double) (ml : float4) : M Z :=
  w <- get ;;
  r <- draw_nonzero (S (length (w_rand w))) ;;
  level <- lift (to_int (mul64 (neg64 (log r)) (to_double ml))) ;;
  ret (clamp_level level).

(** ** hnswSearch *)

Record SearchResult := {
  sr_results : option (list BlockNumber);
  sr_distances : option (list float4);
  sr_resultCount : Z
}.

(** [*results = NULL; *distances = NULL; *resultCount = 0]. *)
Definition no_result : SearchResult :=
  {| sr_results := None; sr_distances := None; sr_resultCount := 0 |}.

(** The host allocator, for [n] cells: a negative request is an error. *)
Definition NDB_ALLOC (n : Z) : M unit :=
  if n <? 0 then ereport ERRCODE_INTERNAL_ERROR else ret tt.

Definition Min (x y : Z) : Z := if x <? y then x else y.

(** The neighbor loop of the greedy descent at [level]; the loop state is
    [(current, currentDist, foundBetter)]. *)
Definition greedy_scan (query : list float4) (dim strategy m level : Z)
    (node : HnswNodeData) (st0 : BlockNumber * float4 * bool)
  : M (BlockNumber * float4 * bool) :=
  cnt <- lift (get_count node level) ;;
  let neighborCount := hnswValidateNeighborCount cnt m level in
  forZ 0 neighborCount (fun i st =>
    let '(current, currentDist, foundBetter) := st in
    nb <- lift (get_neighbor node level m i) ;;
    if nb =? InvalidBlockNumber then ret (Next st)
    else
      valid <- hnswValidateBlockNumber nb ;;
      if negb valid then ret (Next st)
      else
        neighborPage <- ReadBuffer nb ;;
        if PageIsNew neighborPage || PageIsEmpty neighborPage then ret (Next st)
        else
          neighbor <- lift (first_node neighborPage) ;;
          neighborDist <- ComputeDistance query (node_vector neighbor) dim strategy ;;
          if ltb neighborDist currentDist
          then ret (Next (nb, neighborDist, true))
          else ret (Next st)) st0.

(** The [do ... while (foundBetter)] loop at one level; every [break]
    leaves it with the current block unchanged. *)
Fixpoint greedy_level (fuel : nat) (query : list float4) (dim strategy m level : Z)
    (current : BlockNumber) : M BlockNumber :=
  match fuel with
  | O => lift OutOfFuel
  | S fuel' =>
      valid <- hnswValidateBlockNumber current ;;
      if negb valid then ret current
      else
        nodePage <- ReadBuffer current ;;
        if PageIsNew nodePage || PageIsEmpty nodePage then ret current
        else
          node <- lift (first_node nodePage) ;;
          if negb (hnswValidateLevelSafe (node_level node)) then ret current
          else
            currentDist <- ComputeDistance query (node_vector node) dim strategy ;;
            st <- (if node_level node >=? level
                   then greedy_scan query dim strategy m level node
                                    (current, currentDist, false)
                   else ret (current, currentDist, false)) ;;
            let '(current', _, foundBetter) := st in
            if foundBetter
            then greedy_level fuel' query dim strategy m level current'
            else ret current'
  end.

(** The working arrays of the layer-0 exploration.  [st_candidates] and
    [st_candidateDists] hold the first [candidateCount] cells of the arrays
    of capacity [efSearch]; of the [visited] array only its fill count and
    capacity matter, since it is never read. *)
Record SearchState := {
  st_candidates : list BlockNumber;
  st_candidateDists : list float4;
  st_visitedSet : list bool;
  st_visitedCount : Z;
  st_visitedCapacity : Z
}.

Definition candidateCount (st : SearchState) : Z := Z.of_nat (length (st_candidates st)).

(** [visitedSet[blkno]], read only under the guard [blkno < numBlocks]. *)
Definition is_visited (st : SearchState) (numBlocks blkno : Z) : res bool :=
  if blkno <? numBlocks then aref (st_visitedSet st) blkno else Ok false.

Definition with_visited (st : SearchState) (vs : list bool) (count capacity : Z)
  : SearchState :=
  {| st_candidates := st_candidates st;
     st_candidateDists := st_candidateDists st;
     st_visitedSet := vs;
     st_visitedCount := count;
     st_visitedCapacity := capacity |}.

(** [visited[visitedCount++] = blkno]. *)
Definition visited_append (st : SearchState) : res SearchState :=
  if (0 <=? st_visitedCount st) && (st_visitedCount st <? st_visitedCapacity st)
  then Ok (with_visited st (st_visitedSet st) (st_visitedCount st + 1) (st_visitedCapacity st))
  else Undefined.

(** [if (blkno < numBlocks) visitedSet[blkno] = true]. *)
Definition visited_set (st : SearchState) (numBlocks blkno : Z) : res SearchState :=
  if blkno <? numBlocks then
    res_bind (aset (st_visitedSet st) blkno true) (fun vs =>
    Ok (with_visited st vs (st_visitedCount st) (st_visitedCapacity st)))
  else Ok st.

(** The growth of [visited] once it is full, up to the capacity limit. *)
Definition visited_grow (st : SearchState) : SearchState :=
  if st_visitedCount st >=? st_visitedCapacity st then
    if st_visitedCapacity st >=? HNSW_MAX_VISITED_CAPACITY then st
    else
      let newCapacity := Min (st_visitedCapacity st * 2) HNSW_MAX_VISITED_CAPACITY in
      if newCapacity >? st_visitedCapacity st
      then with_visited st (st_visitedSet st) (st_visitedCount st) newCapacity
      else st
  else st.

(** The scan for the worst candidate, state [(worstIdx, worstDist)]. *)
Definition worst_scan (dists : list float4) (l : Z) (acc : Z * float4) : res (Z * float4) :=
  let '(worstIdx, worstDist) := acc in
  res_bind (aref dists l) (fun d =>
  if ltb worstDist d then Ok (l, d) else Ok acc).

(** Admission of a neighbor with its distance into the candidate arrays. *)
Definition admit_candidate (efSearch : Z) (st : SearchState) (nb : BlockNumber)
    (neighborDist : float4) : res SearchState :=
  if candidateCount st <? efSearch then
    Ok {| st_candidates := st_candidates st ++ [nb];
          st_candidateDists := st_candidateDists st ++ [neighborDist];
          st_visitedSet := st_visitedSet st;
          st_visitedCount := st_visitedCount st;
          st_visitedCapacity := st_visitedCapacity st |}
  else
    res_bind (aref (st_candidateDists st) 0) (fun d0 =>
    res_bind (for_res (Z.to_nat (Min (candidateCount st) efSearch - 1)) 1
                      (worst_scan (st_candidateDists st)) (0, d0)) (fun worst =>
    let '(worstIdx, worstDist) := worst in
    if ltb neighborDist worstDist then
      res_bind (aset (st_candidates st) worstIdx nb) (fun cs =>
      res_bind (aset (st_candidateDists st) worstIdx neighborDist) (fun ds =>
      Ok {| st_candidates := cs;
            st_candidateDists := ds;
            st_visitedSet := st_visitedSet st;
            st_visitedCount := st_visitedCount st;
            st_visitedCapacity := st_visitedCapacity st |}))
    else Ok st)).

(** The body of the loop over the layer-0 neighbors of one candidate. *)
Definition explore_neighbor (query : list float4) (dim strategy m efSearch numBlocks : Z)
    (node : HnswNodeData) (j : Z) (st : SearchState) : M (ctl SearchState) :=
  nb <- lift (get_neighbor node 0 m j) ;;
  if nb =? InvalidBlockNumber then ret (Next st)
  else
    valid <- hnswValidateBlockNumber nb ;;
    if negb valid then ret (Next st)
    else
      seen <- lift (is_visited st numBlocks nb) ;;
      if seen then ret (Next st)
      else
        neighborPage <- ReadBuffer nb ;;
        if PageIsNew neighborPage || PageIsEmpty neighborPage then ret (Next st)
        else
          neighbor <- lift (first_node neighborPage) ;;
          neighborDist <- ComputeDistance query (node_vector neighbor) dim strategy ;;
          st1 <- lift (visited_set st numBlocks nb) ;;
          st2 <- lift (visited_append st1) ;;
          st3 <- lift (admit_candidate efSearch (visited_grow st2) nb neighborDist) ;;
          ret (Next st3).

(** The body of [for (i = 0; i < candidateCount && candidateCount < efSearch;
    i++)].  [candidateCount] never exceeds [efSearch], so [i] stays below
    [efSearch]; the loop condition is tested at the top of the body. *)
Definition explore_candidate (query : list float4) (dim strategy m efSearch numBlocks : Z)
    (i : Z) (st : SearchState) : M (ctl SearchState) :=
  if negb ((i <? candidateCount st) && (candidateCount st <? efSearch)) then ret (Break st)
  else
    candidate <- lift (aref (st_candidates st) i) ;;
    valid <- hnswValidateBlockNumber candidate ;;
    if negb valid then ret (Next st)
    else
      nodePage <- ReadBuffer candidate ;;
      if PageIsNew nodePage || PageIsEmpty nodePage then ret (Next st)
      else
        node <- lift (first_node nodePage) ;;
        if negb (hnswValidateLevelSafe (node_level node)) then ret (Next st)
        else
          cnt <- lift (get_count node 0) ;;
          let neighborCount := hnswValidateNeighborCount cnt m 0 in
          st' <- forZ 0 neighborCount
                   (explore_neighbor query dim strategy m efSearch numBlocks node) st ;;
          ret (Next st').

(** The partial selection sort over [indices]; the inner loop state is
    [(minIdx, minDist)]. *)
Definition min_scan (dists : list float4) (indices : list Z) (j : Z) (acc : Z * float4)
  : res (Z * float4) :=
  let '(minIdx, minDist) := acc in
  res_bind (aref indices j) (fun ij =>
  res_bind (aref dists ij) (fun d =>
  if ltb d minDist then Ok (j, d) else Ok acc)).

Definition sort_step (count : Z) (dists : list float4) (i : Z) (indices : list Z)
  : res (list Z) :=
  res_bind (aref indices i) (fun ii =>
  res_bind (aref dists ii) (fun minDist0 =>
  res_bind (for_res (Z.to_nat (count - (i + 1))) (i + 1) (min_scan dists indices)
                    (i, minDist0)) (fun best =>
  let '(minIdx, _) := best in
  if negb (minIdx =? i) then
    res_bind (aref indices minIdx) (fun im =>
    res_bind (aset indices i im) (fun indices1 =>
    aset indices1 minIdx ii))
  else Ok indices))).

Definition seqZ (n : nat) : list Z := map Z.of_nat (seq 0 n).

Definition top_k (k : Z) (cands : list BlockNumber) (dists : list float4)
  : res (list BlockNumber * list float4) :=
  let count := Z.of_nat (length cands) in
  let topKCount := Min k count in
  res_bind (for_res (Z.to_nat topKCount) 0 (sort_step count dists) (seqZ (length cands)))
    (fun indices =>
  for_res (Z.to_nat topKCount) 0
    (fun i acc =>
       let '(topK, topKDists) := acc in
       res_bind (aref indices i) (fun ii =>
       res_bind (aref cands ii) (fun c =>
       res_bind (aref dists ii) (fun d =>
       Ok (topK ++ [c], topKDists ++ [d])))))
    ([], [])).

(** [metaPage] points at the content of block 0 in every call of the
    source; [fuel] bounds the iterations of each greedy [do ... while]. *)
Definition hnswSearch (fuel : nat) (query : list float4) (dim strategy efSearch k : Z)
  : M SearchResult :=
  log EvSearch ;;;
  metaPage <- get_meta ;;
  if meta_entryPoint metaPage =? InvalidBlockNumber then ret no_result
  else
    let current := meta_entryPoint metaPage in
    let currentLevel :=
      if (meta_entryLevel metaPage <? 0) || (meta_entryLevel metaPage >=? HNSW_MAX_LEVEL)
      then 0 else meta_entryLevel metaPage in
    let visitedCapacity := if efSearch >? 1 then efSearch * 2 else 32 in
    NDB_ALLOC visitedCapacity ;;;
    w <- get ;;
    let numBlocks := RelationGetNumberOfBlocks w in
    NDB_ALLOC numBlocks ;;;
    NDB_ALLOC efSearch ;;;
    NDB_ALLOC efSearch ;;;
    current <- forZ_down currentLevel 1
                 (fun level current =>
                    c <- greedy_level fuel query dim strategy (meta_m metaPage) level current ;;
                    ret (Next c)) current ;;
    valid <- hnswValidateBlockNumber current ;;
    if negb valid then ret no_result
    else if efSearch <? 1 then lift Undefined
    else
      nodePage <- ReadBuffer current ;;
      if PageIsNew nodePage || PageIsEmpty nodePage then ret no_result
      else
        node <- lift (first_node nodePage) ;;
        if negb (hnswValidateLevelSafe (node_level node)) then ret no_result
        else
          d0 <- ComputeDistance query (node_vector node) dim strategy ;;
          st0 <- lift (visited_append
                         {| st_candidates := [current];
                            st_candidateDists := [d0];
                            st_visitedSet := replicate (Z.to_nat numBlocks) false;
                            st_visitedCount := 0;
                            st_visitedCapacity := visitedCapacity |}) ;;
          st0 <- lift (visited_set st0 numBlocks current) ;;
          st <- forZ 0 efSearch
                  (explore_candidate query dim strategy (meta_m metaPage) efSearch numBlocks)
                  st0 ;;
          NDB_ALLOC (candidateCount st) ;;;
          NDB_ALLOC (Min k (candidateCount st)) ;;;
          NDB_ALLOC (Min k (candidateCount st)) ;;;
          top <- lift (top_k k (st_candidates st) (st_candidateDists st)) ;;
          ret {| sr_results := Some (fst top);
                 sr_distances := Some (snd top);
                 sr_resultCount := Min k (candidateCount st) |}.

(** ** hnswInsertNode *)

(** Free space of a freshly initialised page: the block size less the page
    header and one line pointer. *)
Definition fresh_page_free_space : Z := BLCKSZ - 24 - 4.

(** [ReadBuffer(index, P_NEW)]: the relation grows by one new page; the
    host refuses to grow it beyond the last valid block number. *)
Definition ReadBuffer_P_NEW : M BlockNumber :=
  w <- get ;;
  let blkno := RelationGetNumberOfBlocks w in
  if blkno >=? InvalidBlockNumber then ereport ERRCODE_PROGRAM_LIMIT_EXCEEDED
  else
    log (EvExtend blkno) ;;;
    set_pages (w_pages w ++ [PageNew]) ;;;
    ret blkno.

(** The node image built in local memory before it is added to a page. *)
Definition new_node (heapPtr : ItemPointerData) (vector : list float4)
    (dim level m : Z) : res HnswNodeData :=
  if Z.of_nat (length vector) <? dim then Undefined
  else
    Ok {| node_heapPtr := heapPtr;
          node_level := level;
          node_dim := int16 dim;
          node_neighborCount := replicate (Z.to_nat HNSW_MAX_LEVEL) 0;
          node_vector := take (Z.to_nat dim) vector;
          node_neighbors := replicate (Z.to_nat ((level + 1) * (m * 2))) InvalidBlockNumber |}.

(** The neighbor loop of step 3, state [(bestEntry, bestDist, improved)]. *)
Definition insert_greedy_scan (vector : list float4) (dim m level : Z)
    (entryNode : HnswNodeData) (st0 : BlockNumber * float4 * bool)
  : M (BlockNumber * float4 * bool) :=
  cnt <- lift (get_count entryNode level) ;;
  let entryNeighborCount := hnswValidateNeighborCount cnt m level in
  forZ 0 entryNeighborCount (fun i st =>
    let '(bestEntry, bestDist, improved) := st in
    nb <- lift (get_neighbor entryNode level m i) ;;
    if nb =? InvalidBlockNumber then ret (Next st)
    else
      w <- get ;;
      if nb >=? RelationGetNumberOfBlocks w then ret (Next st)
      else
        neighborPage <- ReadBuffer nb ;;
        if PageIsNew neighborPage || PageIsEmpty neighborPage then ret (Next st)
        else
          neighbor <- lift (first_node neighborPage) ;;
          neighborDist <- ComputeDistance vector (node_vector neighbor) dim 1 ;;
          if ltb neighborDist bestDist
          then ret (Next (nb, neighborDist, true))
          else ret (Next st)) st0.

(** The body of [while (improved && iterations < maxIterations)], with
    [maxIterations = 10]; [improved] is reset at the top. *)
Definition insert_greedy_step (vector : list float4) (dim m level : Z)
    (iteration : Z) (st : BlockNumber * float4 * bool)
  : M (ctl (BlockNumber * float4 * bool)) :=
  let '(bestEntry, bestDist, improved) := st in
  if negb improved then ret (Break st)
  else
    let st := (bestEntry, bestDist, false) in
    valid <- hnswValidateBlockNumber bestEntry ;;
    if negb valid then ret (Break st)
    else
      entryPage <- ReadBuffer bestEntry ;;
      if PageIsNew entryPage || PageIsEmpty entryPage then ret (Break st)
      else
        entryNode <- lift (first_node entryPage) ;;
        if negb (hnswValidateLevelSafe (node_level entryNode)) then ret (Break st)
        else if node_level entryNode >=? level then
          bestDist <- ComputeDistance vector (node_vector entryNode) dim 1 ;;
          st' <- insert_greedy_scan vector dim m level entryNode (bestEntry, bestDist, false) ;;
          ret (Next st')
        else ret (Next st).

(** The selection of the [selectedCount] nearest candidates (step 5a): the
    inner scan has state [(bestIdx, bestDist)]; the outer state is the
    candidate arrays, permuted in place, and the selected arrays. *)
Definition select_scan (dists : list float4) (j : Z) (acc : Z * float4) : res (Z * float4) :=
  let '(bestIdx, bestDist) := acc in
  res_bind (aref dists j) (fun d =>
  if ltb d bestDist then Ok (j, d) else Ok acc).

Definition select_step (count : Z) (idx : Z)
    (st : list BlockNumber * list float4 * list BlockNumber * list float4)
  : res (list BlockNumber * list float4 * list BlockNumber * list float4) :=
  let '(candidates, candidateDistances, selectedNeighbors, selectedDistances) := st in
  res_bind (aref candidateDistances idx) (fun d0 =>
  res_bind (for_res (Z.to_nat (count - (idx + 1))) (idx + 1)
                    (select_scan candidateDistances) (idx, d0)) (fun best =>
  let '(bestIdx, _) := best in
  res_bind
    (if negb (bestIdx =? idx) then
       res_bind (aref candidates idx) (fun tempBlk =>
       res_bind (aref candidateDistances idx) (fun tempDist =>
       res_bind (aref candidates bestIdx) (fun cb =>
       res_bind (aref candidateDistances bestIdx) (fun db =>
       res_bind (aset candidates idx cb) (fun c1 =>
       res_bind (aset candidateDistances idx db) (fun d1 =>
       res_bind (aset c1 bestIdx tempBlk) (fun c2 =>
       res_bind (aset d1 bestIdx tempDist) (fun d2 =>
       Ok (c2, d2)))))))))
     else Ok (candidates, candidateDistances))
    (fun cd =>
       res_bind (aref (fst cd) idx) (fun c =>
       res_bind (aref (snd cd) idx) (fun d =>
       Ok (fst cd, snd cd, selectedNeighbors ++ [c], selectedDistances ++ [d])))))).

Definition select_neighbors (selectedCount : Z) (sr : SearchResult)
  : res (list BlockNumber * list float4) :=
  match sr_results sr, sr_distances sr with
  | Some candidates, Some candidateDistances =>
      res_bind (for_res (Z.to_nat selectedCount) 0 (select_step (sr_resultCount sr))
                        (candidates, candidateDistances, [], []))
        (fun st => let '(_, _, sn, sd) := st in Ok (sn, sd))
  | _, _ => Ok ([], [])
  end.

(** The first free slot among the first [count] neighbors, else [count]. *)
Definition find_insert_pos (node : HnswNodeData) (level m count : Z) : res Z :=
  res_bind
    (for_res (Z.to_nat count) 0
       (fun j acc =>
          let '(insertPos, found) := acc in
          if found : bool then Ok acc
          else res_bind (get_neighbor node level m j) (fun nb =>
               if nb =? InvalidBlockNumber then Ok (j, true) else Ok acc))
       (count, false))
    (fun acc => Ok (fst acc)).

(** A read of a cell of a freshly allocated array: [None] is a cell that
    was never written. *)
Definition cell_ref {A} (arr : list (option A)) (i : Z) : res A :=
  res_bind (aref arr i) (fun c =>
  match c with Some x => Ok x | None => Undefined end).

(** The distance-filling loop of the pruning; state
    [(neighborDists, neighborIndices)]. *)
Definition prune_fill (dim m currentLevel : Z) (blkno : BlockNumber)
    (neighborNode : HnswNodeData) (selectedDistance : float4) (pruneCount : Z)
  : M (list (option float4) * list (option Z)) :=
  forZ 0 pruneCount (fun j st =>
    let '(neighborDists, neighborIndices) := st in
    nn <- lift (get_neighbor neighborNode currentLevel m j) ;;
    if nn =? InvalidBlockNumber then ret (Break st)
    else
      idxs <- lift (aset neighborIndices j (Some j)) ;;
      if nn =? blkno then
        ds <- lift (aset neighborDists j (Some selectedDistance)) ;;
        ret (Next (ds, idxs))
      else
        valid <- hnswValidateBlockNumber nn ;;
        if negb valid then
          ds <- lift (aset neighborDists j (Some FLT_MAX)) ;;
          ret (Next (ds, idxs))
        else
          otherPage <- ReadBuffer nn ;;
          if PageIsNew otherPage || PageIsEmpty otherPage then
            ds <- lift (aset neighborDists j (Some FLT_MAX)) ;;
            ret (Next (ds, idxs))
          else
            otherNode <- lift (first_node otherPage) ;;
            d <- ComputeDistance (node_vector neighborNode) (node_vector otherNode) dim 1 ;;
            ds <- lift (aset neighborDists j (Some d)) ;;
            ret (Next (ds, idxs)))
    (replicate (Z.to_nat pruneCount) None, replicate (Z.to_nat pruneCount) None).

(** The exchange sort of the pruning, on both arrays. *)
Definition prune_sort_inner (j k : Z)
    (st : list (option float4) * list (option Z))
  : res (list (option float4) * list (option Z)) :=
  let '(neighborDists, neighborIndices) := st in
  res_bind (cell_ref neighborDists k) (fun dk =>
  res_bind (cell_ref neighborDists j) (fun dj =>
  if ltb dk dj then
    res_bind (cell_ref neighborIndices j) (fun tmpIdx =>
    res_bind (cell_ref neighborIndices k) (fun ik =>
    res_bind (aset neighborDists j (Some dk)) (fun d1 =>
    res_bind (aset neighborIndices j (Some ik)) (fun i1 =>
    res_bind (aset d1 k (Some dj)) (fun d2 =>
    res_bind (aset i1 k (Some tmpIdx)) (fun i2 =>
    Ok (d2, i2)))))))
  else Ok st)).

Definition prune_sort (pruneCount : Z) (st : list (option float4) * list (option Z))
  : res (list (option float4) * list (option Z)) :=
  for_res (Z.to_nat (pruneCount - 1)) 0
    (fun j st => for_res (Z.to_nat (pruneCount - (j + 1))) (j + 1) (prune_sort_inner j) st)
    st.

(** [for (j = 0; j < m*2; j++) nn[j] = nn[neighborIndices[j]]], in place. *)
Definition prune_apply (m currentLevel : Z) (neighborIndices : list (option Z))
    (node : HnswNodeData) : res HnswNodeData :=
  for_res (Z.to_nat (m * 2)) 0
    (fun j node =>
       res_bind (cell_ref neighborIndices j) (fun ij =>
       res_bind (get_neighbor node currentLevel m ij) (fun b =>
       set_neighbor node currentLevel m j b)))
    node.

Definition prune_neighbor (dim m currentLevel : Z) (blkno sel : BlockNumber)
    (selectedDistance : float4) : M unit :=
  neighborNode <- node_at sel FirstOffsetNumber ;;
  cnt <- lift (get_count neighborNode currentLevel) ;;
  let pruneCount := if cnt >? m * 2 then int16 (m * 2) else cnt in
  let pruneCount := if pruneCount <? 0 then 0 else pruneCount in
  NDB_ALLOC pruneCount ;;;
  NDB_ALLOC pruneCount ;;;
  filled <- prune_fill dim m currentLevel blkno neighborNode selectedDistance pruneCount ;;
  sorted <- lift (prune_sort pruneCount filled) ;;
  n1 <- lift (set_count neighborNode currentLevel (int16 (m * 2))) ;;
  n2 <- lift (prune_apply m currentLevel (snd sorted) n1) ;;
  store_node sel FirstOffsetNumber n2.

(** The body of the linking loop over the selected neighbors.  [newNode]
    and [neighborNode] are pointers into the shared pages [blkno] and
    [selectedNeighbors[idx]]: every access goes through the current state. *)
Definition link_neighbor (dim m currentLevel : Z) (blkno : BlockNumber)
    (selectedNeighbors : list BlockNumber) (selectedDistances : list float4)
    (idx : Z) (_ : unit) : M (ctl unit) :=
  sel <- lift (aref selectedNeighbors idx) ;;
  (if idx <? m then
     newNode <- node_at blkno FirstOffsetNumber ;;
     n1 <- lift (set_neighbor newNode currentLevel m idx sel) ;;
     n2 <- lift (set_count n1 currentLevel (int16 (idx + 1))) ;;
     store_node blkno FirstOffsetNumber n2
   else ret tt) ;;;
  ReadBuffer sel ;;;
  neighborNode <- node_at sel FirstOffsetNumber ;;
  if negb (hnswValidateLevelSafe (node_level neighborNode)) then ret (Next tt)
  else
    cnt <- lift (get_count neighborNode currentLevel) ;;
    let neighborNeighborCount := hnswValidateNeighborCount cnt m currentLevel in
    insertPos <- lift (find_insert_pos neighborNode currentLevel m neighborNeighborCount) ;;
    (if insertPos <? m * 2 then
       n1 <- lift (set_neighbor neighborNode currentLevel m insertPos blkno) ;;
       n2 <- lift (if insertPos >=? neighborNeighborCount
                   then set_count n1 currentLevel (int16 (insertPos + 1))
                   else Ok n1) ;;
       store_node sel FirstOffsetNumber n2
     else ret tt) ;;;
    neighborNode' <- node_at sel FirstOffsetNumber ;;
    cnt' <- lift (get_count neighborNode' currentLevel) ;;
    (if cnt' >? m * 2 then
       selectedDistance <- lift (aref selectedDistances idx) ;;
       prune_neighbor dim m currentLevel blkno sel selectedDistance
     else ret tt) ;;;
    ret (Next tt).

(** The body of the loop over the levels [maxLevel .. 0] (step 5). *)
Definition link_level (fuel : nat) (vector : list float4) (dim m efConstruction : Z)
    (blkno : BlockNumber) (currentLevel : Z) (_ : unit) : M (ctl unit) :=
  found <- hnswSearch fuel vector dim 1 efConstruction efConstruction ;;
  let selectedCount := Min m (sr_resultCount found) in
  (if selectedCount >? 0
   then NDB_ALLOC selectedCount ;;; NDB_ALLOC selectedCount
   else ret tt) ;;;
  selected <- lift (select_neighbors selectedCount found) ;;
  newNodePage <- ReadBuffer blkno ;;
  if PageIsNew newNodePage || PageIsEmpty newNodePage
  then ereport ERRCODE_INTERNAL_ERROR
  else
    forZ 0 selectedCount
      (link_neighbor dim m currentLevel blkno (fst selected) (snd selected)) tt ;;;
    ret (Next tt).

(** Step 6: the update of the meta page. *)
Definition update_meta (blkno : BlockNumber) (level : Z) : M unit :=
  metaPage <- get_meta ;;
  entry <- (if (meta_entryPoint metaPage =? InvalidBlockNumber)
               || (level >? meta_entryLevel metaPage)
            then
              valid <- hnswValidateBlockNumber blkno ;;
              if valid then ret (blkno, level)
              else ereport ERRCODE_INTERNAL_ERROR
            else ret (meta_entryPoint metaPage, meta_entryLevel metaPage)) ;;
  if meta_insertedVectors metaPage >=? INT64_MAX then lift Undefined
  else
    set_meta {| meta_magicNumber := meta_magicNumber metaPage;
                meta_version := meta_version metaPage;
                meta_entryPoint := fst entry;
                meta_entryLevel := snd entry;
                meta_maxLevel := if level >? meta_maxLevel metaPage
                                 then level else meta_maxLevel metaPage;
                meta_m := meta_m metaPage;
                meta_efConstruction := meta_efConstruction metaPage;
                meta_efSearch := meta_efSearch metaPage;
                meta_ml := meta_ml metaPage;
                meta_insertedVectors := meta_insertedVectors metaPage + 1 |}.

(** [metaPage] is the content of block 0, which the caller holds; [log] is
    the logarithm of the C library and [fuel] bounds the greedy loops of
    the searches. *)
Definition hnswInsertNode (log : double -> double) (fuel : nat)
    (vector : list float4) (dim : Z) (heapPtr : ItemPointerData) : M unit :=
  metaPage <- get_meta ;;
  level <- hnswGetRandomLevel log (meta_ml metaPage) ;;
  let level := if level >=? HNSW_MAX_LEVEL then HNSW_MAX_LEVEL - 1 else level in
  if negb (hnswValidateLevelSafe level) then ereport ERRCODE_INTERNAL_ERROR
  else
    let m := meta_m metaPage in
    let '(nodeSize, overflow) := hnswComputeNodeSizeSafe dim level m in
    if overflow || (nodeSize =? 0) then ereport ERRCODE_NUMERIC_VALUE_OUT_OF_RANGE
    else
      NDB_ALLOC nodeSize ;;;
      node <- lift (new_node heapPtr vector dim level m) ;;
      (* Step 3 *)
      (if negb (meta_entryPoint metaPage =? InvalidBlockNumber) && (level >? 0)
       then
         forZ 0 10 (insert_greedy_step vector dim m level)
              (meta_entryPoint metaPage, FLT_MAX, true) ;;;
         ret tt
       else ret tt) ;;;
      (* Step 4 *)
      blkno <- ReadBuffer_P_NEW ;;
      write_page blkno (PageInit []) ;;;
      (if fresh_page_free_space <? nodeSize
       then ereport ERRCODE_INSUFFICIENT_RESOURCES
       else write_page blkno (PageInit [{| lp_dead := false; it_node := node |}])) ;;;
      (* Step 5 *)
      (let entryLevel := meta_entryLevel metaPage in
       let efConstruction := meta_efConstruction metaPage in
       if negb (meta_entryPoint metaPage =? InvalidBlockNumber) && (entryLevel >=? 0)
       then
         let maxLevel := Min level entryLevel in
         valid <- hnswValidateBlockNumber blkno ;;
         if negb valid then ereport ERRCODE_INTERNAL_ERROR
         else
           NDB_ALLOC (maxLevel + 1) ;;;
           NDB_ALLOC (maxLevel + 1) ;;;
           forZ_down maxLevel 0 (link_level fuel vector dim m efConstruction blkno) tt
       else ret tt) ;;;
      (* Step 6 *)
      update_meta blkno level.

(** ** hnswRemoveNodeFromNeighbor *)

(** The shift of the tail over position [i]:
    [for (j = i; j < neighborCount - 1; j++) neighbors[j] = neighbors[j + 1]]. *)
Definition shift_left (level m i neighborCount : Z) (node : HnswNodeData) : res HnswNodeData :=
  for_res (Z.to_nat (neighborCount - 1 - i)) i
    (fun j node =>
       res_bind (get_neighbor node level m (j + 1)) (fun b =>
       set_neighbor node level m j b))
    node.

(** The search-and-remove loop; [None] when [nodeBlkno] was not found. *)
Definition remove_from_list (level m neighborCount : Z) (nodeBlkno : BlockNumber)
    (neighbor : HnswNodeData) : res (option HnswNodeData) :=
  for_res (Z.to_nat neighborCount) 0
    (fun i acc =>
       match acc with
       | Some _ => Ok acc
       | None =>
           res_bind (get_neighbor neighbor level m i) (fun b =>
           if b =? nodeBlkno then
             res_bind (shift_left level m i neighborCount neighbor) (fun n1 =>
             res_bind (set_neighbor n1 level m (neighborCount - 1) InvalidBlockNumber) (fun n2 =>
             res_bind (get_count n2 level) (fun c =>
             res_bind (set_count n2 level (int16 (c - 1))) (fun n3 =>
             Ok (Some n3)))))
           else Ok None)
       end)
    None.

Definition hnswRemoveNodeFromNeighbor (neighborBlkno nodeBlkno : BlockNumber) (level : Z)
  : M unit :=
  valid <- hnswValidateBlockNumber neighborBlkno ;;
  if negb valid then ret tt
  else if negb (hnswValidateLevelSafe level) then ret tt
  else
    page <- ReadBuffer neighborBlkno ;;
    if PageIsEmpty page then ret tt
    else
      neighbor <- lift (first_node page) ;;
      if negb (hnswValidateLevelSafe (node_level neighbor)) then ret tt
      else
        ReadBuffer 0 ;;;
        meta <- get_meta ;;
        let m := meta_m meta in
        cnt <- lift (get_count neighbor level) ;;
        let neighborCount := hnswValidateNeighborCount cnt m level in
        r <- lift (remove_from_list level m neighborCount nodeBlkno neighbor) ;;
        match r with
        | Some neighbor' => store_node neighborBlkno FirstOffsetNumber neighbor'
        | None => ret tt
        end.

(** ** Deletion: the steps shared by hnswbulkdelete and hnswdelete *)

(** The removal of the node at [(blkno, offnum)] from the lists of its own
    neighbors, at every level of the node.  [node] is a pointer into the
    page, so each neighbor is read from the current state. *)
Definition remove_back_links (blkno : BlockNumber) (offnum : Z) : M unit :=
  node <- node_at blkno offnum ;;
  meta <- get_meta ;;
  forZ 0 (node_level node + 1) (fun level _ =>
    node <- node_at blkno offnum ;;
    cnt <- lift (get_count node level) ;;
    let neighborCount := hnswValidateNeighborCount cnt (meta_m meta) level in
    forZ 0 neighborCount (fun i _ =>
      node <- node_at blkno offnum ;;
      nb <- lift (get_neighbor node level (meta_m meta) i) ;;
      if nb =? InvalidBlockNumber then ret (Next tt)
      else
        valid <- hnswValidateBlockNumber nb ;;
        if valid
        then hnswRemoveNodeFromNeighbor nb blkno level ;;; ret (Next tt)
        else ret (Next tt)) tt ;;;
    ret (Next tt)) tt.

Definition with_entry (meta : HnswMetaPageData) (entryPoint : BlockNumber) (entryLevel : Z)
  : HnswMetaPageData :=
  {| meta_magicNumber := meta_magicNumber meta;
     meta_version := meta_version meta;
     meta_entryPoint := entryPoint;
     meta_entryLevel := entryLevel;
     meta_maxLevel := meta_maxLevel meta;
     meta_m := meta_m meta;
     meta_efConstruction := meta_efConstruction meta;
     meta_efSearch := meta_efSearch meta;
     meta_ml := meta_ml meta;
     meta_insertedVectors := meta_insertedVectors meta |}.

Definition with_inserted (meta : HnswMetaPageData) (n : Z) : HnswMetaPageData :=
  {| meta_magicNumber := meta_magicNumber meta;
     meta_version := meta_version meta;
     meta_entryPoint := meta_entryPoint meta;
     meta_entryLevel := meta_entryLevel meta;
     meta_maxLevel := meta_maxLevel meta;
     meta_m := meta_m meta;
     meta_efConstruction := meta_efConstruction meta;
     meta_efSearch := meta_efSearch meta;
     meta_ml := meta_ml meta;
     meta_insertedVectors := n |}.

(** [ItemIdSetDead] on the line pointer [(blkno, offnum)].  The host also
    drops the storage of the item ([lp_off = 0], [lp_len = 0]): what the
    code reads through a dead line pointer afterwards is the page header.
    The model keeps the node under the flag and does not follow such
    reads; the statements about reads are made for live items. *)
Definition set_dead (blkno : BlockNumber) (offnum : Z) : M unit :=
  w <- get ;;
  match page_at w blkno with
  | Some p =>
      it <- lift (PageGetItem p offnum) ;;
      items <- lift (aset (page_items p) (offnum - 1)
                          {| lp_dead := true; it_node := it_node it |}) ;;
      write_page blkno (PageInit items)
  | None => lift Undefined
  end.

(** [meta->insertedVectors--; if (meta->insertedVectors < 0)
    meta->insertedVectors = 0]. *)
Definition decrement_inserted : M unit :=
  meta <- get_meta ;;
  if meta_insertedVectors meta <=? - INT64_MAX - 1 then lift Undefined
  else
    let n := meta_insertedVectors meta - 1 in
    set_meta (with_inserted meta (if n <? 0 then 0 else n)).

(** ** hnswbulkdelete *)

(** The replacement of the entry point in [hnswbulkdelete]: the levels of
    the deleted node from its own level down, the slots in order, and the
    first valid neighbor taken.  The loop state is [foundNewEntry], tested
    by both loop conditions. *)
Definition replace_entry_slot (blkno : BlockNumber) (offnum level : Z)
    (i : Z) (foundNewEntry : bool) : M (ctl bool) :=
  if foundNewEntry then ret (Break foundNewEntry)
  else
    node <- node_at blkno offnum ;;
    meta <- get_meta ;;
    nb <- lift (get_neighbor node level (meta_m meta) i) ;;
    if nb =? InvalidBlockNumber then ret (Next foundNewEntry)
    else
      valid <- hnswValidateBlockNumber nb ;;
      if negb valid then ret (Next foundNewEntry)
      else
        tmpPage <- ReadBuffer nb ;;
        if PageIsEmpty tmpPage then ret (Next foundNewEntry)
        else
          tmpNode <- lift (first_node tmpPage) ;;
          if hnswValidateLevelSafe (node_level tmpNode) then
            set_meta (with_entry meta nb (node_level tmpNode)) ;;;
            ret (Next true)
          else ret (Next foundNewEntry).

Definition replace_entry_level (blkno : BlockNumber) (offnum : Z)
    (level : Z) (foundNewEntry : bool) : M (ctl bool) :=
  if foundNewEntry then ret (Break foundNewEntry)
  else
    node <- node_at blkno offnum ;;
    meta <- get_meta ;;
    cnt <- lift (get_count node level) ;;
    let neighborCount := hnswValidateNeighborCount cnt (meta_m meta) level in
    f <- forZ 0 neighborCount (replace_entry_slot blkno offnum level) foundNewEntry ;;
    ret (Next f).

Definition bulkdelete_replace_entry (blkno : BlockNumber) (offnum : Z) : M unit :=
  node <- node_at blkno offnum ;;
  found <- forZ_down (node_level node) 0 (replace_entry_level blkno offnum) false ;;
  if negb found then
    meta <- get_meta ;;
    set_meta (with_entry meta InvalidBlockNumber (-1))
  else ret tt.

(** The deletion of one tuple inside [hnswbulkdelete], once the callback
    has asked for it. *)
Definition bulkdelete_tuple (blkno : BlockNumber) (offnum : Z) : M unit :=
  remove_back_links blkno offnum ;;;
  meta <- get_meta ;;
  (if meta_entryPoint meta =? blkno
   then bulkdelete_replace_entry blkno offnum
   else ret tt) ;;;
  set_dead blkno offnum ;;;
  decrement_inserted.

(** The loop over the line pointers of one page; the state is
    [stats->tuples_removed]. *)
Definition bulkdelete_item (callback : ItemPointerData -> bool) (blkno : BlockNumber)
    (offnum : Z) (tuples_removed : Z) : M (ctl Z) :=
  w <- get ;;
  match page_at w blkno with
  | Some p =>
      it <- lift (PageGetItem p offnum) ;;
      if lp_dead it then ret (Next tuples_removed)
      else if negb (hnswValidateLevelSafe (node_level (it_node it)))
      then ret (Next tuples_removed)
      else if callback (node_heapPtr (it_node it)) then
        bulkdelete_tuple blkno offnum ;;;
        ret (Next (tuples_removed + 1))
      else ret (Next tuples_removed)
  | None => lift Undefined
  end.

Definition bulkdelete_page (callback : ItemPointerData -> bool) (blkno : BlockNumber)
    (tuples_removed : Z) : M (ctl Z) :=
  nodePage <- ReadBuffer blkno ;;
  if PageIsNew nodePage || PageIsEmpty nodePage then ret (Next tuples_removed)
  else
    let maxoff := PageGetMaxOffsetNumber nodePage in
    n <- forZ FirstOffsetNumber (maxoff + 1) (bulkdelete_item callback blkno) tuples_removed ;;
    ret (Next n).

(** [stats] is the count carried by the statistics record passed in
    ([None] for a NULL pointer); the result is [stats->tuples_removed]. *)
Definition hnswbulkdelete (callback : ItemPointerData -> bool) (stats : option Z) : M Z :=
  let tuples_removed := match stats with Some n => n | None => 0 end in
  ReadBuffer 0 ;;;
  w <- get ;;
  forZ 1 (RelationGetNumberOfBlocks w) (bulkdelete_page callback) tuples_removed.

(** ** hnswFindNodeByTid and hnswdelete *)

(** The result is [Some (blkno, offnum)] when the function returns true.
    The first item is read without a test of its line pointer; the
    definition follows the code on pages whose first item is live. *)
Definition hnswFindNodeByTid (tid : ItemPointerData) : M (option (BlockNumber * Z)) :=
  w <- get ;;
  forZ 1 (RelationGetNumberOfBlocks w) (fun blkno acc =>
    page <- ReadBuffer blkno ;;
    if PageIsNew page || PageIsEmpty page then ret (Next acc)
    else if negb (PageGetMaxOffsetNumber page =? FirstOffsetNumber) then ret (Next acc)
    else
      it <- lift (PageGetItem page FirstOffsetNumber) ;;
      if ItemPointerEquals (node_heapPtr (it_node it)) tid
      then ret (Break (Some (blkno, FirstOffsetNumber)))
      else ret (Next acc)) None.

(** The replacement of the entry point in [hnswdelete]: every valid
    neighbor is examined and the first one of the highest level is kept.
    The loop state is [(foundNewEntry, bestLevel, bestEntry)]. *)
Definition delete_replace_entry (nodeBlkno : BlockNumber) (nodeOffset : Z) : M unit :=
  node <- node_at nodeBlkno nodeOffset ;;
  meta <- get_meta ;;
  best <- forZ_down (node_level node) 0 (fun level st =>
    node <- node_at nodeBlkno nodeOffset ;;
    cnt <- lift (get_count node level) ;;
    let neighborCount := hnswValidateNeighborCount cnt (meta_m meta) level in
    st' <- forZ 0 neighborCount (fun i st =>
      let '(foundNewEntry, bestLevel, bestEntry) := st in
      node <- node_at nodeBlkno nodeOffset ;;
      nb <- lift (get_neighbor node level (meta_m meta) i) ;;
      if nb =? InvalidBlockNumber then ret (Next st)
      else
        valid <- hnswValidateBlockNumber nb ;;
        if negb valid then ret (Next st)
        else
          neighborPage <- ReadBuffer nb ;;
          if PageIsEmpty neighborPage then ret (Next st)
          else
            neighborNode <- lift (first_node neighborPage) ;;
            if hnswValidateLevelSafe (node_level neighborNode)
               && (node_level neighborNode >? bestLevel)
            then ret (Next (true, node_level neighborNode, nb))
            else ret (Next st)) st ;;
    ret (Next st')) (false, -1, InvalidBlockNumber) ;;
  let '(foundNewEntry, bestLevel, bestEntry) := best in
  meta <- get_meta ;;
  if foundNewEntry : bool
  then set_meta (with_entry meta bestEntry bestLevel)
  else set_meta (with_entry meta InvalidBlockNumber (-1)).

Definition hnswdelete (tid : ItemPointerData) : M bool :=
  found <- hnswFindNodeByTid tid ;;
  match found with
  | None => ret true
  | Some (nodeBlkno, nodeOffset) =>
      ReadBuffer 0 ;;;
      ReadBuffer nodeBlkno ;;;
      node <- node_at nodeBlkno nodeOffset ;;
      if negb (hnswValidateLevelSafe (node_level node)) then ereport ERRCODE_DATA_CORRUPTED
      else
        remove_back_links nodeBlkno nodeOffset ;;;
        meta <- get_meta ;;
        (if meta_entryPoint meta =? nodeBlkno
         then delete_replace_entry nodeBlkno nodeOffset
         else ret tt) ;;;
        set_dead nodeBlkno nodeOffset ;;;
        decrement_inserted ;;;
        ret true
  end.

(** ** hnswExtractVectorData *)

(** Modelled from the spec: [fp16_to_float] (quantization.c) expands a
    16-bit IEEE-754 half to a [float4]. *)
Definition fp16_to_float (h : Z) : float4 :=
  let sign := Z.testbit h 15 in
  let e := Z.land (Z.shiftr h 10) 31 in
  let frac := Z.land h 1023 in
  if e =? 0 then binary_normalize prec32 emax32 (cond_Zopp sign frac) (-24) sign
  else if e =? 31 then (if frac =? 0 then S754_infinity sign else S754_nan)
  else binary_normalize prec32 emax32 (cond_Zopp sign (1024 + frac)) (e - 25) sign.

(** A key value, tagged with the type the index column declares for it. *)
Variant KeyDatum :=
| DatumVector (dim : Z) (data : list float4)
| DatumHalfvec (dim : Z) (data : list Z)
| DatumSparsevec (total_dim nnz : Z) (indices : list Z) (values : list float4)
| DatumBit (nbits : Z) (bit_data : list Z)
| DatumOther.

(** The result is the dense array with [*out_dim].  Modelled from the
    spec: the validity check of the dense case ([NDB_CHECK_VECTOR_VALID])
    rejects dimensions outside [(0, 32767]]. *)
Definition hnswExtractVectorData (value : KeyDatum) : res (list float4 * Z) :=
  match value with
  | DatumVector dim data =>
      if (dim <=? 0) || (dim >? 32767) then Raise ERRCODE_INVALID_PARAMETER_VALUE
      else
        res_bind (for_res (Z.to_nat dim) 0
                    (fun i acc => res_bind (aref data i) (fun x => Ok (acc ++ [x]))) [])
          (fun result => Ok (result, dim))
  | DatumHalfvec dim data =>
      if (dim <=? 0) || (dim >? 32767) then Raise ERRCODE_INVALID_PARAMETER_VALUE
      else
        res_bind (for_res (Z.to_nat dim) 0
                    (fun i acc => res_bind (aref data i) (fun h =>
                                  Ok (acc ++ [fp16_to_float h]))) [])
          (fun result => Ok (result, dim))
  | DatumSparsevec total_dim nnz indices values =>
      if (total_dim <=? 0) || (total_dim >? 32767) then Raise ERRCODE_INVALID_PARAMETER_VALUE
      else
        res_bind (for_res (Z.to_nat nnz) 0
                    (fun i result =>
                       res_bind (aref indices i) (fun ix =>
                       if (0 <=? ix) && (ix <? total_dim) then
                         res_bind (aref values i) (fun v => aset result ix v)
                       else Ok result))
                    (replicate (Z.to_nat total_dim) zero))
          (fun result => Ok (result, total_dim))
  | DatumBit nbits bit_data =>
      if (nbits <=? 0) || (nbits >? 32767) then Raise ERRCODE_INVALID_PARAMETER_VALUE
      else
        res_bind (for_res (Z.to_nat nbits) 0
                    (fun i acc =>
                       let byte_idx := i / 8 in
                       let bit_idx := i mod 8 in
                       res_bind (aref bit_data byte_idx) (fun byte =>
                       let bit_val := Z.land (Z.shiftr byte (8 - 1 - bit_idx)) 1 in
                       Ok (acc ++ [if bit_val =? 0 then SFopp one32 else one32]))) [])
          (fun result => Ok (result, nbits))
  | DatumOther => Raise ERRCODE_DATATYPE_MISMATCH
  end.

(** ** The scan: hnswbeginscan, hnswrescan, hnswgettuple *)

(** The query vector with its [dim] field. *)
Record Vector := {
  vec_dim : Z;
  vec_data : list float4
}.

(** [HnswScanOpaqueData], together with the [xs_heaptid] field of the scan
    descriptor that [hnswgettuple] fills. *)
Record HnswScanOpaqueData := {
  so_efSearch : Z;
  so_strategy : Z;
  so_queryVector : option Vector;
  so_k : Z;
  so_firstCall : bool;
  so_resultCount : Z;
  so_results : option (list BlockNumber);
  so_distances : option (list float4);
  so_currentResult : Z;
  xs_heaptid : option ItemPointerData
}.

(** An order-by scan key; [sk_argument = None] is the zero datum. *)
Record ScanKeyData := {
  sk_strategy : Z;
  sk_argument : option KeyDatum
}.

Definition hnswbeginscan : HnswScanOpaqueData :=
  {| so_efSearch := HNSW_DEFAULT_EF_SEARCH;
     so_strategy := 1;
     so_queryVector := None;
     so_k := 0;
     so_firstCall := true;
     so_resultCount := 0;
     so_results := None;
     so_distances := None;
     so_currentResult := 0;
     xs_heaptid := None |}.

(** [neurondb_hnsw_ef_search] and [neurondb_hnsw_k] are the session
    settings; [norderbys] is the length of [orderbys], so [norderbys > 0]
    is a non-empty list. *)
Definition hnswrescan (neurondb_hnsw_ef_search neurondb_hnsw_k : Z)
    (so : HnswScanOpaqueData) (orderbys : list ScanKeyData) : M HnswScanOpaqueData :=
  let strategy :=
    match orderbys with
    | key :: _ => sk_strategy key
    | [] => 1
    end in
  efSearch <- (if neurondb_hnsw_ef_search >? 0 then ret neurondb_hnsw_ef_search
               else
                 ReadBuffer 0 ;;;
                 meta <- get_meta ;;
                 ret (meta_efSearch meta)) ;;
  let efSearch := if efSearch >? 100000 then 100000 else efSearch in
  let so1 :=
    {| so_efSearch := efSearch;
       so_strategy := strategy;
       so_queryVector := so_queryVector so;
       so_k := so_k so;
       so_firstCall := true;
       so_resultCount := 0;
       so_results := so_results so;
       so_distances := so_distances so;
       so_currentResult := 0;
       xs_heaptid := xs_heaptid so |} in
  match orderbys with
  | {| sk_strategy := _; sk_argument := Some arg |} :: _ =>
      extracted <- lift (hnswExtractVectorData arg) ;;
      let '(vectorData, dim) := extracted in
      ret {| so_efSearch := so_efSearch so1;
             so_strategy := so_strategy so1;
             so_queryVector := Some {| vec_dim := dim; vec_data := vectorData |};
             so_k := if neurondb_hnsw_k >? 0 then neurondb_hnsw_k else 10;
             so_firstCall := so_firstCall so1;
             so_resultCount := so_resultCount so1;
             so_results := so_results so1;
             so_distances := so_distances so1;
             so_currentResult := so_currentResult so1;
             xs_heaptid := xs_heaptid so1 |}
  | _ => ret so1
  end.

Definition with_current (so : HnswScanOpaqueData) (currentResult : Z)
    (heaptid : option ItemPointerData) : HnswScanOpaqueData :=
  {| so_efSearch := so_efSearch so;
     so_strategy := so_strategy so;
     so_queryVector := so_queryVector so;
     so_k := so_k so;
     so_firstCall := so_firstCall so;
     so_resultCount := so_resultCount so;
     so_results := so_results so;
     so_distances := so_distances so;
     so_currentResult := currentResult;
     xs_heaptid := heaptid |}.

(** The part of [hnswgettuple] after the first-call block: the next result
    is resolved to its heap pointer. *)
Definition gettuple_next (so : HnswScanOpaqueData) : M (bool * HnswScanOpaqueData) :=
  if so_currentResult so <? so_resultCount so then
    match so_results so with
    | None => lift Undefined
    | Some results =>
        resultBlkno <- lift (aref results (so_currentResult so)) ;;
        valid <- hnswValidateBlockNumber resultBlkno ;;
        if negb valid
        then ret (false, with_current so (so_currentResult so + 1) (xs_heaptid so))
        else
          page <- ReadBuffer resultBlkno ;;
          if PageIsEmpty page
          then ret (false, with_current so (so_currentResult so + 1) (xs_heaptid so))
          else
            node <- lift (first_node page) ;;
            ret (true, with_current so (so_currentResult so + 1) (Some (node_heapPtr node)))
    end
  else ret (false, so).

(** The result is the returned boolean with the scan state left behind. *)
Definition hnswgettuple (fuel : nat) (so : HnswScanOpaqueData)
  : M (bool * HnswScanOpaqueData) :=
  if so_firstCall so then
    ReadBuffer 0 ;;;
    match so_queryVector so with
    | None => ret (false, so)
    | Some queryVector =>
        found <- hnswSearch fuel (vec_data queryVector) (vec_dim queryVector)
                            (so_strategy so) (so_efSearch so) (so_k so) ;;
        gettuple_next
          {| so_efSearch := so_efSearch so;
             so_strategy := so_strategy so;
             so_queryVector := so_queryVector so;
             so_k := so_k so;
             so_firstCall := false;
             so_resultCount := sr_resultCount found;
             so_results := sr_results found;
             so_distances := sr_distances found;
             so_currentResult := 0;
             xs_heaptid := xs_heaptid so |}
    end
  else gettuple_next so.

(** ** Reference notions for the claims *)

(** A rescan "without an order-by query vector": no order-by key, or a
    first key whose argument is the zero datum. *)
Definition no_query_argument (orderbys : list ScanKeyData) : Prop :=
  match orderbys with
  | [] => True
  | key :: _ => sk_argument key = None
  end.

(** The state after one more event. *)
Definition logged (ev : Event) (w : World) : World :=
  {| w_meta := w_meta w; w_pages := w_pages w; w_rand := w_rand w;
     w_trace := ev :: w_trace w |}.

(** The uniform draw made from one value of [random()]. *)
Definition uniform_of (x : Z) : double := div64 (of_Z64 x) (of_Z64 RAND_MAX).

(** *** Neighbor lists and well-formed indexes *)

(** The cell [z] of an array, if there is one. *)
Definition tbl {A} (T : list A) (z : Z) : option A :=
  if z <? 0 then None else T !! Z.to_nat z.

(** The counter of [level], clamped as the code clamps it before use. *)
Definition layer_count (m : Z) (node : HnswNodeData) (level : Z) : Z :=
  hnswValidateNeighborCount (default 0 (tbl (node_neighborCount node) level)) m level.

(** The neighbor list of a node at [level]: the first [layer_count] slots
    of that level's part of the table. *)
Definition layer_list (m : Z) (node : HnswNodeData) (level : Z) : list BlockNumber :=
  take (Z.to_nat (layer_count m node level))
       (drop (Z.to_nat (level * m * 2)) (node_neighbors node)).

(** A node lists [blkno] when one of its lists, at a level it has, does. *)
Definition lists_block (m : Z) (node : HnswNodeData) (blkno : BlockNumber) : Prop :=
  exists level, 0 <= level <= node_level node /\ In blkno (layer_list m node level).

(** The node the code finds on block [b]: the first item of a page that is
    not empty. *)
Definition first_node_at (w : World) (b : BlockNumber) : option HnswNodeData :=
  match page_at w b with
  | Some (PageInit (it :: _)) => Some (it_node it)
  | _ => None
  end.

(** Two node images that differ at most in their lists: the neighbor
    table and the counters. *)
Definition same_but_lists (node node' : HnswNodeData) : Prop :=
  node_heapPtr node' = node_heapPtr node
  /\ node_level node' = node_level node
  /\ node_dim node' = node_dim node
  /\ node_vector node' = node_vector node
  /\ length (node_neighborCount node') = length (node_neighborCount node)
  /\ length (node_neighbors node') = length (node_neighbors node).

(** [node'] is [node] after the removal of the entry at position [i] of
    the list of [c] entries at [level]: the tail is shifted left by one,
    the last slot is emptied and the counter is decremented. *)
Definition removed_at (level m c : Z) (u : BlockNumber) (node node' : HnswNodeData)
    (i : Z) : Prop :=
  0 <= i < c
  /\ tbl (node_neighbors node) (level * m * 2 + i) = Some u
  /\ same_but_lists node node'
  /\ level * m * 2 + c <= Z.of_nat (length (node_neighbors node))
  /\ (forall p, tbl (node_neighbors node') p
                = if (level * m * 2 + i <=? p) && (p <? level * m * 2 + c - 1)
                  then tbl (node_neighbors node) (p + 1)
                  else if p =? level * m * 2 + c - 1 then Some InvalidBlockNumber
                  else tbl (node_neighbors node) p)
  /\ exists raw, tbl (node_neighborCount node) level = Some raw
                 /\ forall q, tbl (node_neighborCount node') q
                              = if q =? level then Some (int16 (raw - 1))
                                else tbl (node_neighborCount node) q.

(** Position [i] of the list of [node] at [level] holds [x]. *)
Definition holds_at (m : Z) (node : HnswNodeData) (level : Z) (x : BlockNumber) (i : Z)
  : Prop :=
  0 <= i < layer_count m node level
  /\ tbl (node_neighbors node) (level * m * 2 + i) = Some x.

(** The list of [node] at [level] holds [x] at one position at most. *)
Definition unique_at (m : Z) (node : HnswNodeData) (level : Z) (x : BlockNumber) : Prop :=
  forall i j, holds_at m node level x i -> holds_at m node level x j -> i = j.

(** The data-model invariants: the level within bounds, sixteen counters
    each within [0, 2m], a table of [(level+1) * 2m] slots. *)
Definition node_ok (m : Z) (node : HnswNodeData) : bool :=
  (0 <=? node_level node) && (node_level node <? HNSW_MAX_LEVEL)
  && (Z.of_nat (length (node_neighborCount node)) =? HNSW_MAX_LEVEL)
  && forallb (fun c => (0 <=? c) && (c <=? m * 2)) (node_neighborCount node)
  && (Z.of_nat (length (node_neighbors node)) =? (node_level node + 1) * (m * 2)).

(** One node per page. *)
Definition page_ok (m : Z) (p : Page) : bool :=
  match p with
  | PageNew => true
  | PageInit [] => true
  | PageInit [it] => node_ok m (it_node it)
  | PageInit (_ :: _ :: _) => false
  end.

Definition index_ok (w : World) : bool :=
  (HNSW_MIN_M <=? meta_m (w_meta w)) && (meta_m (w_meta w) <=? HNSW_MAX_M)
  && (RelationGetNumberOfBlocks w <=? InvalidBlockNumber)
  && forallb (page_ok (meta_m (w_meta w))) (w_pages w).

(** Two pages with the same skeleton: the same items under the same
    flags, their nodes differing at most in their lists. *)
Definition same_skeleton (p p' : option Page) : Prop :=
  match p, p' with
  | Some (PageInit items), Some (PageInit items') =>
      Forall2 (fun it it' => lp_dead it' = lp_dead it
                             /\ same_but_lists (it_node it) (it_node it'))
              items items'
  | _, _ => p' = p
  end.

(** What the removal of the back links of block [blkno] may change between
    [w] and [w']: lists only, never those of the page [blkno] itself, and a
    list never gains [blkno]. *)
Definition removal_step (blkno : BlockNumber) (w w' : World) : Prop :=
  w_meta w' = w_meta w
  /\ length (w_pages w') = length (w_pages w)
  /\ page_at w' blkno = page_at w blkno
  /\ (forall b, same_skeleton (page_at w b) (page_at w' b))
  /\ (forall b node' level,
        0 <= level < HNSW_MAX_LEVEL ->
        first_node_at w' b = Some node' ->
        In blkno (layer_list (meta_m (w_meta w')) node' level) ->
        exists node, first_node_at w b = Some node
                     /\ In blkno (layer_list (meta_m (w_meta w)) node level)).

(** Every list of the index holds [blkno] once at most. *)
Definition all_unique (blkno : BlockNumber) (w : World) : Prop :=
  forall b node level,
    0 <= level < HNSW_MAX_LEVEL ->
    first_node_at w b = Some node ->
    unique_at (meta_m (w_meta w)) node level blkno.

(** The node on block [b], if any, does not list [blkno] at [level]. *)
Definition not_listed_by (blkno : BlockNumber) (w : World) (b : BlockNumber) (level : Z)
  : Prop :=
  forall node, first_node_at w b = Some node ->
               ~ In blkno (layer_list (meta_m (w_meta w)) node level).

(** The levels of a node from its own level down to 0. *)
Definition levels_down (level : Z) : list Z :=
  map (fun i => level - Z.of_nat i) (seq 0 (Z.to_nat (level + 1))).

(** The order in which [hnswbulkdelete] looks at the neighbors of a
    deleted entry point. *)
Definition scan_order (m : Z) (node : HnswNodeData) : list BlockNumber :=
  flat_map (layer_list m node) (levels_down (node_level node)).

(** What [hnswbulkdelete] accepts as a new entry point: a valid block whose
    page is not empty and whose node has a valid level; the result is that
    level. *)
Definition entry_candidate (w : World) (b : BlockNumber) : option Z :=
  if b =? InvalidBlockNumber then None
  else if negb (valid_block w b) then None
  else match first_node_at w b with
       | Some node =>
           if hnswValidateLevelSafe (node_level node) then Some (node_level node) else None
       | None => None
       end.

Fixpoint first_valid (w : World) (bs : list BlockNumber) : option (BlockNumber * Z) :=
  match bs with
  | [] => None
  | b :: rest =>
      match entry_candidate w b with
      | Some level => Some (b, level)
      | None => first_valid w rest
      end
  end.

(** The outcome of a scan of the blocks [bs] for a new entry point, started
    with the meta page [meta0]: the pages are untouched; the flag tells
    whether a valid neighbor was met, and the first one met is the entry
    point. *)
Definition entry_scan_result (w : World) (bs : list BlockNumber) (meta0 : HnswMetaPageData)
    (found : bool) (w' : World) : Prop :=
  w_pages w' = w_pages w
  /\ match first_valid w bs with
     | Some (b, l) => found = true /\ w_meta w' = with_entry meta0 b l
     | None => found = false /\ w_meta w' = meta0
     end.

(** Every list of the index holds [blkno] at most once, and where the list
    of block [k + 1] at some level holds it, the node [U] stored on [blkno]
    lists block [k + 1] at that level in return. *)
Definition back_linked (m : Z) (blkno : BlockNumber) (U : HnswNodeData)
    (k : nat) (p : Page) : bool :=
  match p with
  | PageInit (it :: _) =>
      forallb (fun level =>
                 match count_occ Z.eq_dec (layer_list m (it_node it) level) blkno with
                 | O => true
                 | S O => negb (Z.of_nat k + 1 =? blkno)
                          && (level <=? node_level U)
                          && existsb (Z.eqb (Z.of_nat k + 1)) (layer_list m U level)
                 | _ => false
                 end)
              (seqZ (Z.to_nat HNSW_MAX_LEVEL))
  | _ => true
  end.

Definition links_symmetric (w : World) (blkno : BlockNumber) (U : HnswNodeData) : bool :=
  forallb (fun k => match w_pages w !! k with
                    | Some p => back_linked (meta_m (w_meta w)) blkno U k p
                    | None => true
                    end)
          (seq 0 (length (w_pages w))).

(** A relation between the state before and the state a computation
    leaves behind, whatever its outcome. *)
Definition preserves {A} (R : World -> World -> Prop) (c : M A) : Prop :=
  forall w, R w (snd (c w)).

(** An event is consistent with distance strategy [s] when it is not a
    distance evaluation under another strategy. *)
Definition uses_strategy (s : Z) (ev : Event) : Prop :=
  match ev with
  | EvDistance s' => s' = s
  | _ => True
  end.

(** The trace grew by events that all satisfy [P]. *)
Definition trace_grows (P : Event -> Prop) (w w' : World) : Prop :=
  exists evs, w_trace w' = evs ++ w_trace w /\ Forall P evs.

(** The meta page and the number of blocks are the same. *)
Definition same_meta_size (w w' : World) : Prop :=
  w_meta w' = w_meta w /\ length (w_pages w') = length (w_pages w).

(** ** Example states *)

(** [0.36f], the default level factor. *)
Definition ml_default : float4 := to_float4 (div64 (of_Z64 36) (of_Z64 100)).

(** The meta page as [hnswInitMetaPage] leaves it for [m = 2],
    [ef_construction = 4], [ef_search = 4]. *)
Definition meta_init : HnswMetaPageData :=
  {| meta_magicNumber := HNSW_MAGIC_NUMBER;
     meta_version := HNSW_VERSION;
     meta_entryPoint := InvalidBlockNumber;
     meta_entryLevel := -1;
     meta_maxLevel := -1;
     meta_m := 2;
     meta_efConstruction := 4;
     meta_efSearch := 4;
     meta_ml := ml_default;
     meta_insertedVectors := 0 |}.

(** A two-valued stand-in for the logarithm of the C library, to run
    examples: [-6] below one half, [0] from there on. *)
Definition log_example (r : double) : double :=
  if ltb r (div64 (of_Z64 1) (of_Z64 2)) then of_Z64 (-6) else zero.

(** The empty index with the given future values of [random()]. *)
Definition world_init (draws : list Z) : World :=
  {| w_meta := meta_init; w_pages := []; w_rand := draws; w_trace := [] |}.

(** Insertion of the integer vector [v] for the heap tuple [(0, n)], with
    the stand-in logarithm and search fuel 8. *)
Definition insert_example (v : list Z) (n : Z) : M unit :=
  hnswInsertNode log_example 8 (map of_Z32 v) (Z.of_nat (length v))
                 {| ip_blkid := 0; ip_posid := n |}.

(** A draw that leads to level 0 under [log_example]. *)
Definition draw0 : Z := 2000000000.

(** The index after one and after two insertions at level 0: the origin,
    then the first unit vector. *)
Definition world_one : World :=
  Eval vm_compute in snd (insert_example [0; 0; 0] 1 (world_init [draw0; draw0])).

Definition world_two : World :=
  Eval vm_compute in snd (insert_example [1; 0; 0] 2 world_one).

(** The node of the origin as [world_two] holds it on block 1: one
    neighbor, block 2, at level 0. *)
Definition origin_node : HnswNodeData :=
  {| node_heapPtr := {| ip_blkid := 0; ip_posid := 1 |};
     node_level := 0;
     node_dim := 3;
     node_neighborCount := 1 :: replicate 15 0;
     node_vector := [zero; zero; zero];
     node_neighbors := [2; InvalidBlockNumber; InvalidBlockNumber; InvalidBlockNumber] |}.

(** Six insertions at level 0: the origin, then the unit vectors
    [e1], [e2], [e3], [-e3], [-e2].  With [m = 2] the lists of the first
    two nodes fill up, and the last node links to nodes that have no room
    to link back. *)
Definition star_inserts : M unit :=
  insert_example [0; 0; 0] 1 ;;; insert_example [1; 0; 0] 2 ;;;
  insert_example [0; 1; 0] 3 ;;; insert_example [0; 0; 1] 4 ;;;
  insert_example [0; 0; -1] 5 ;;; insert_example [0; -1; 0] 6.

Definition world_star : World :=
  Eval vm_compute in snd (star_inserts (world_init (replicate 6 draw0))).

(** The callback of a vacuum that removes the heap tuple [(0, n)]. *)
Definition dead_tuple (n : Z) (tid : ItemPointerData) : bool :=
  ItemPointerEquals tid {| ip_blkid := 0; ip_posid := n |}.

(** A second stand-in for the logarithm: [-3] below one half, which leads
    to level 1 under the default factor. *)
Definition log_low (r : double) : double :=
  if ltb r (div64 (of_Z64 1) (of_Z64 2)) then of_Z64 (-3) else zero.

Definition insert_low (v : list Z) (n : Z) : M unit :=
  hnswInsertNode log_low 8 (map of_Z32 v) (Z.of_nat (length v))
                 {| ip_blkid := 0; ip_posid := n |}.

(** A draw that leads to level 1 under [log_low]. *)
Definition draw1 : Z := 5.

(** Eight insertions: the origin at level 1, four unit vectors at level 1
    that fill its list at level 1, then [-e2] at level 1, [-e1] at level 0
    and [2 * -e2] at level 1, which link to the origin at level 0. *)
Definition layered_inserts : M unit :=
  insert_low [0; 0; 0] 1 ;;; insert_low [1; 0; 0] 2 ;;;
  insert_low [0; 1; 0] 3 ;;; insert_low [0; 0; 1] 4 ;;;
  insert_low [0; 0; -1] 5 ;;; insert_low [0; -1; 0] 6 ;;;
  insert_low [-1; 0; 0] 7 ;;; insert_low [0; -2; 0] 8.

Definition layered_draws : list Z :=
  [draw1; draw1; draw1; draw1; draw1; draw1; draw0; draw1].

(** The callback of a vacuum that removes the heap tuples [(0, lo)] to
    [(0, hi)]. *)
Definition dead_tuples (lo hi : Z) (tid : ItemPointerData) : bool :=
  (ip_blkid tid =? 0) && (lo <=? ip_posid tid) && (ip_posid tid <=? hi).

(** The index after these insertions and the bulk deletion of the tuples
    2 to 6: the origin, on block 1, is the entry point at level 1, with an
    empty list at level 1 and the blocks 7 and 8 at level 0. *)
Definition world_layers : World :=
  Eval vm_compute in
    snd ((layered_inserts ;;; hnswbulkdelete (dead_tuples 2 6) None)
           (world_init layered_draws)).

(** The node of the origin as [world_layers] holds it on block 1. *)
Definition layers_entry_node : HnswNodeData :=
  {| node_heapPtr := {| ip_blkid := 0; ip_posid := 1 |};
     node_level := 1;
     node_dim := 3;
     node_neighborCount := 2 :: replicate 15 0;
     node_vector := [zero; zero; zero];
     node_neighbors := 7 :: 8 :: replicate 6 InvalidBlockNumber |}.

(** ** Notions for the further properties *)

(** The index and the generator are the same in [w'] as in [w]: only the
    trace may differ. *)
Definition read_only (w w' : World) : Prop :=
  w_meta w' = w_meta w /\ w_pages w' = w_pages w /\ w_rand w' = w_rand w.

(** Block [b] holds exactly one item and its node carries the heap
    pointer [tid]. *)
Definition holds_tid (w : World) (tid : ItemPointerData) (b : BlockNumber) : bool :=
  match page_at w b with
  | Some (PageInit [it]) => ItemPointerEquals (node_heapPtr (it_node it)) tid
  | _ => false
  end.

(** The value a sparse vector of [nnz] entries gives to position [j]: the
    value of the last entry with index [j], zero when there is none. *)
Definition sparse_entry (indices : list Z) (values : list float4) (nnz j : Z) : float4 :=
  match find (fun p => fst p =? j)
             (rev (take (Z.to_nat nnz) (combine indices values))) with
  | Some p => snd p
  | None => zero
  end.

(** Bit [i] of a bit string stored most significant bit first. *)
Definition bit_at (bit_data : list Z) (i : Z) : bool :=
  Z.testbit (default 0 (tbl bit_data (i / 8))) (7 - i mod 8).

(** A floating-point value that is a number: neither an infinity nor a
    NaN. *)
Definition is_number (x : spec_float) : bool :=
  match x with
  | S754_zero _ | S754_finite _ _ _ => true
  | _ => false
  end.

(** The meta page and the node pages are the same. *)
Definition same_index (w w' : World) : Prop :=
  w_meta w' = w_meta w /\ w_pages w' = w_pages w.

(** The computation [c], started in [w], returns [a] and leaves the index
    and the generator as they were. *)
Definition returns {A} (c : M A) (w : World) (a : A) : Prop :=
  exists w', c w = (Ok a, w') /\ read_only w w'.

(** The node that block [b] holds first has no neighbor at any level. *)
Definition isolated (w : World) (b : BlockNumber) (node : HnswNodeData) : Prop :=
  first_node_at w b = Some node
  /\ valid_block w b = true
  /\ hnswValidateLevelSafe (node_level node) = true
  /\ forall l, 0 <= l < HNSW_MAX_LEVEL ->
        exists c, tbl (node_neighborCount node) l = Some c
                  /\ hnswValidateNeighborCount c (meta_m (w_meta w)) l = 0.

(** The node of the origin as [world_one] holds it on block 1: no
    neighbor at any level. *)
Definition lone_node : HnswNodeData :=
  {| node_heapPtr := {| ip_blkid := 0; ip_posid := 1 |};
     node_level := 0;
     node_dim := 3;
     node_neighborCount := replicate 16 0;
     node_vector := [zero; zero; zero];
     node_neighbors := replicate 4 InvalidBlockNumber |}.

(** The distance that cell [q] of the index array of [top_k] addresses. *)
Definition dist_at (dists : list float4) (indices : list Z) (q : Z) (d : float4) : Prop :=
  exists a, tbl indices q = Some a /\ tbl dists a = Some d.

(** The first [i] cells of the index array are in their final place: no
    later cell below [count] addresses a smaller distance. *)
Definition sorted_upto (dists : list float4) (count : Z) (indices : list Z) (i : Z) : Prop :=
  forall p q dp dq,
    0 <= p < i -> p < q < count ->
    dist_at dists indices p dp -> dist_at dists indices q dq -> ltb dq dp = false.

(** No two cells of the index array hold the same index. *)
Definition distinct_cells (indices : list Z) : Prop :=
  forall p q a, tbl indices p = Some a -> tbl indices q = Some a -> p = q.

(** A candidate of a search: a valid block whose first node lies at
    distance [d] from the query. *)
Definition candidate_ok (query : list float4) (dim strategy : Z) (w : World)
    (b : BlockNumber) (d : float4) : Prop :=
  valid_block w b = true
  /\ exists node, first_node_at w b = Some node
                  /\ hnswComputeDistance query (node_vector node) dim strategy = Ok d.

(** What the layer-0 exploration keeps true of its arrays: the candidates
    are nodes of the index paired with their distances, no block is listed
    twice, every candidate is marked as visited, and there are between one
    and [efSearch] of them. *)
Definition search_inv (query : list float4) (dim strategy efSearch : Z) (w : World)
    (st : SearchState) : Prop :=
  Forall2 (candidate_ok query dim strategy w) (st_candidates st) (st_candidateDists st)
  /\ NoDup (st_candidates st)
  /\ (forall b, b ∈ st_candidates st -> tbl (st_visitedSet st) b = Some true)
  /\ 1 <= candidateCount st <= efSearch.

Definition ctl_state {S} (r : ctl S) : S :=
  match r with Next s => s | Break s => s end.

(** Distances in ascending order: no later one is below an earlier one. *)
Definition ascending (ds : list float4) : Prop :=
  forall i j di dj,
    (i < j)%nat -> ds !! i = Some di -> ds !! j = Some dj -> ltb dj di = false.

(** A search of [world_star] for the three nodes nearest to [(1, 0, 0)],
    with [efSearch = 4], and what it returns. *)
Definition search_example : M SearchResult :=
  hnswSearch 8 (map of_Z32 [1; 0; 0]) 3 1 4 3.

Definition search_example_result : SearchResult :=
  {| sr_results := Some [2; 1; 3];
     sr_distances := Some [zero; one32; S754_finite false 11863283 (-23)];
     sr_resultCount := 3 |}.

(** ** hnswinsert *)

(** [value] is [values[0]] under the type of the first index column and
    [isnull] is [isnull[0]].  [hnswExtractVectorData] raises an error
    rather than return NULL, so the test of its result never fires. *)
Definition hnswinsert (log : double -> double) (fuel : nat) (value : KeyDatum)
    (isnull : bool) (ht_ctid : ItemPointerData) : M bool :=
  if isnull then ret false
  else
    extracted <- lift (hnswExtractVectorData value) ;;
    let '(vectorData, dim) := extracted in
    ReadBuffer 0 ;;;
    hnswInsertNode log fuel vectorData dim ht_ctid ;;;
    ret true.

(** The callback of a vacuum asks for no live tuple of the index. *)
Definition selects_none (callback : ItemPointerData -> bool) (w : World) : bool :=
  forallb (fun p =>
             forallb (fun it => lp_dead it || negb (callback (node_heapPtr (it_node it))))
                     (page_items p))
          (w_pages w).

(** Between [w] and [w'] every block of [w] has kept its items, their
    flags and, in each node, everything but the neighbor lists. *)
Definition keeps_data (w w' : World) : Prop :=
  RelationGetNumberOfBlocks w <= RelationGetNumberOfBlocks w'
  /\ forall b, 1 <= b < RelationGetNumberOfBlocks w ->
                same_skeleton (page_at w b) (page_at w' b).

(** The scan of [search_example] after it has delivered its first result. *)
Definition scan_example : HnswScanOpaqueData :=
  {| so_efSearch := 4;
     so_strategy := 1;
     so_queryVector := Some {| vec_dim := 3; vec_data := map of_Z32 [1; 0; 0] |};
     so_k := 3;
     so_firstCall := false;
     so_resultCount := 3;
     so_results := sr_results search_example_result;
     so_distances := sr_distances search_example_result;
     so_currentResult := 1;
     xs_heaptid := Some {| ip_blkid := 0; ip_posid := 2 |} |}.

(** The same scan before its first [hnswgettuple]. *)
Definition scan_start : HnswScanOpaqueData :=
  {| so_efSearch := 4;
     so_strategy := 1;
     so_queryVector := Some {| vec_dim := 3; vec_data := map of_Z32 [1; 0; 0] |};
     so_k := 3;
     so_firstCall := true;
     so_resultCount := 0;
     so_results := None;
     so_distances := None;
     so_currentResult := 0;
     xs_heaptid := None |}.

(** A list without the first occurrence of [u]. *)
Fixpoint remove_first (u : BlockNumber) (l : list BlockNumber) : list BlockNumber :=
  match l with
  | [] => []
  | x :: t => if x =? u then t else x :: remove_first u t
  end.

(** The dimension field of a key value: [dim], [total_dim] or the bit
    length; none for a type the index does not support. *)
Definition datum_dim (value : KeyDatum) : option Z :=
  match value with
  | DatumVector dim _ => Some dim
  | DatumHalfvec dim _ => Some dim
  | DatumSparsevec total_dim _ _ _ => Some total_dim
  | DatumBit nbits _ => Some nbits
  | DatumOther => None
  end.

(** The dense type, whose validity check is a macro of another file. *)
Definition is_dense (value : KeyDatum) : bool :=
  match value with DatumVector _ _ => true | _ => false end.

(** ** Live items *)

(** The first item of block [b], if there is one, is live. *)
Definition live_at (w : World) (b : BlockNumber) : bool :=
  match page_at w b with
  | Some (PageInit (it :: _)) => negb (lp_dead it)
  | _ => true
  end.

(** The item at [(b, offnum)] exists and is live. *)
Definition live_item (w : World) (b : BlockNumber) (offnum : Z) : bool :=
  match page_at w b with
  | Some p =>
      match PageGetItem p offnum with
      | Ok it => negb (lp_dead it)
      | _ => false
      end
  | None => false
  end.

(** No item of the index is dead: no vacuum has removed a tuple yet. *)
Definition live_index (w : World) : bool :=
  forallb (fun p => forallb (fun it => negb (lp_dead it)) (page_items p)) (w_pages w).

(** A float4 whose square underflows to zero: [2^-100]. *)
Definition tiny32 : float4 := S754_finite false 8388608 (-123).

(** A level factor far above the default: [2^100]. *)
Definition ml_huge : float4 := S754_finite false 8388608 77.

(** The number a finite [float4] stands for, as a rational, and the inner
    product of two vectors over the rationals: the quantities the
    specification's formula is written in, free of rounding. *)
Definition exact (x : float4) : QArith_base.Q :=
  match x with
  | S754_finite s m e =>
      QArith_base.Qmult (QArith_base.inject_Z (cond_Zopp s (Zpos m)))
                        (QArith_base.Qpower (QArith_base.inject_Z 2) e)
  | _ => QArith_base.inject_Z 0
  end.

Definition exact_dot (a b : list float4) : QArith_base.Q :=
  fold_right (fun '(x, y) s => QArith_base.Qplus (QArith_base.Qmult (exact x) (exact y)) s)
             (QArith_base.inject_Z 0) (combine a b).

(** * Part II: lemmas and theorems *)

(** ** Facts about array reads and the distance loops *)

Lemma aref_app_head {A} (pre : list A) (x : A) (post : list A) :
  aref (pre ++ x :: post) (Z.of_nat (length pre)) = Ok x.
Proof.
  unfold aref.
  destruct (Z.ltb_spec (Z.of_nat (length pre)) 0) as [H|_]; [lia|].
  rewrite Nat2Z.id.
  rewrite list_lookup_middle; reflexivity.
Qed.

Lemma cos_loop_spec (a b : list float4) :
  length a = length b ->
  forall (pa pb : list float4) (d n1 n2 : double),
    length pa = length pb ->
    for_res (length a) (Z.of_nat (length pa))
            (cos_step (pa ++ a) (pb ++ b)) (d, n1, n2)
    = Ok (dot_from d a b, dot_from n1 a a, dot_from n2 b b).
Proof.
  revert b. induction a as [|x a IH]; intros [|y b] Hlen; try discriminate.
  - reflexivity.
  - intros pa pb d n1 n2 Hp. cbn [length for_res].
    unfold cos_step at 1.
    rewrite aref_app_head. rewrite Hp, aref_app_head. cbn [res_bind].
    replace (Z.of_nat (length pb) + 1) with (Z.of_nat (length (pb ++ [y])))
      by (rewrite length_app; cbn; lia).
    replace (pa ++ x :: a) with ((pa ++ [x]) ++ a) by (rewrite <- app_assoc; reflexivity).
    replace (pb ++ y :: b) with ((pb ++ [y]) ++ b) by (rewrite <- app_assoc; reflexivity).
    replace (length (pb ++ [y])) with (length (pa ++ [x]))
      by (rewrite !length_app; cbn; lia).
    rewrite IH.
    + reflexivity.
    + cbn in Hlen. lia.
    + rewrite !length_app. cbn. lia.
Qed.

Lemma cos_loop_whole (a b : list float4) :
  length a = length b ->
  for_res (Z.to_nat (Z.of_nat (length a))) 0 (cos_step a b) (zero, zero, zero)
  = Ok (dot a b, dot a a, dot b b).
Proof.
  intros Hlen. rewrite Nat2Z.id.
  exact (cos_loop_spec a b Hlen [] [] zero zero zero eq_refl).
Qed.

(** C6 (as amended).  For two vectors of equal dimension the cosine
    distance (strategy 2) is [1 - (a . b) / (|a| * |b|)], evaluated in the
    arithmetic of the code (products in single precision, sums, roots and
    the quotient in double precision, the result rounded to [float4]), when
    both norms computed in that arithmetic are non-zero, and exactly [2.0]
    when either computed norm is zero. *)
Theorem cosine_distance_formula (a b : list float4) :
  length a = length b ->
  (eqb (norm a) zero = false -> eqb (norm b) zero = false ->
     hnswComputeDistance a b (Z.of_nat (length a)) 2 = Ok (cosine_formula a b))
  /\ (eqb (norm a) zero = true \/ eqb (norm b) zero = true ->
     hnswComputeDistance a b (Z.of_nat (length a)) 2 = Ok two32).
Proof.
  intros Hlen. unfold hnswComputeDistance. cbn [Z.eqb Pos.eqb].
  rewrite (cos_loop_whole a b Hlen). cbn [res_bind].
  fold (norm a). fold (norm b). split.
  - intros Ha Hb. rewrite Ha, Hb. reflexivity.
  - intros [Ha|Hb].
    + rewrite Ha. reflexivity.
    + rewrite Hb, orb_true_r. reflexivity.
Qed.

Lemma cosine_distance_formula_witness :
  hnswComputeDistance [of_Z32 3; of_Z32 4] [of_Z32 4; of_Z32 3] 2 2
  = Ok (cosine_formula [of_Z32 3; of_Z32 4] [of_Z32 4; of_Z32 3]).
Proof.
  apply (cosine_distance_formula [of_Z32 3; of_Z32 4] [of_Z32 4; of_Z32 3] eq_refl);
    vm_compute; reflexivity.
Defined.

(** C6 (counterexample).  The vectors [a = (2^-100, 0)] and [b = (1, 0)]
    have non-zero norms, and [a . b = |a| * |b|], so the formula gives the
    distance 0.  The code squares [2^-100] in single precision, where the
    square is zero, takes the norm of [a] for zero and returns 2.0. *)
Lemma cosine_of_small_vector :
  QArith_base.Qlt (QArith_base.inject_Z 0) (exact_dot [tiny32; zero] [tiny32; zero])
  /\ QArith_base.Qlt (QArith_base.inject_Z 0) (exact_dot [one32; zero] [one32; zero])
  /\ QArith_base.Qlt (QArith_base.inject_Z 0) (exact_dot [tiny32; zero] [one32; zero])
  /\ QArith_base.Qeq
       (QArith_base.Qmult (exact_dot [tiny32; zero] [one32; zero])
                          (exact_dot [tiny32; zero] [one32; zero]))
       (QArith_base.Qmult (exact_dot [tiny32; zero] [tiny32; zero])
                          (exact_dot [one32; zero] [one32; zero]))
  /\ eqb (norm [tiny32; zero]) zero = true
  /\ hnswComputeDistance [tiny32; zero] [one32; zero] 2 2 = Ok two32
  /\ eqb two32 zero = false.
Proof.
  repeat split; vm_compute; reflexivity.
Qed.

(** ** Node size *)

Lemma size_t_small z : 0 <= z < 2 ^ 64 -> size_t z = z.
Proof. intros H. unfold size_t. apply Z.mod_small. exact H. Qed.

Lemma MAXALIGN_align8 x : 0 <= x < 2 ^ 64 - 7 -> MAXALIGN x = align8 x.
Proof.
  intros H. unfold MAXALIGN, align8.
  rewrite size_t_small by lia.
  rewrite <- Z.ldiff_land.
  change 7 with (Z.ones 3).
  rewrite Z.ldiff_ones_r by lia.
  rewrite Z.shiftl_mul_pow2, Z.shiftr_div_pow2 by lia.
  change (2 ^ 3) with 8. lia.
Qed.

Lemma align8_bounds x : x <= align8 x < x + 8 /\ align8 x mod 8 = 0.
Proof.
  unfold align8. split.
  - pose proof (Z.div_mod (x + 7) 8 ltac:(lia)) as Hdm.
    pose proof (Z.mod_pos_bound (x + 7) 8 ltac:(lia)). lia.
  - rewrite Z.mul_comm. apply Z.mod_mul. lia.
Qed.

(** C3 (as amended). On the whole parameter range the size computation
    signals no overflow and returns the exact, unwrapped node size
    [align(header + dim*4 + (level+1)*2m*4)]; it does not compare that size
    with the page size. *)
Theorem node_size_exact_in_range (dim level m : Z) :
  1 <= dim <= 32767 -> 0 <= level <= 15 -> 2 <= m <= 128 ->
  hnswComputeNodeSizeSafe dim level m = (node_size_exact dim level m, false)
  /\ sizeof_HnswNodeData + dim * 4 + (level + 1) * (2 * m) * 4
     <= node_size_exact dim level m < 2 ^ 64.
Proof.
  intros Hd Hl Hm.
  assert (Hb : 0 <= (level + 1) * m <= 16 * 128) by nia.
  assert (Hx : node_size_exact dim level m
               = align8 (48 + dim * 4 + (level + 1) * m * 2 * 4)).
  { unfold node_size_exact, sizeof_HnswNodeData. f_equal. lia. }
  pose proof (align8_bounds (48 + dim * 4 + (level + 1) * m * 2 * 4)) as [Hal _].
  split.
  - unfold hnswComputeNodeSizeSafe, HNSW_MIN_M, HNSW_MAX_M,
      sizeof_float4, sizeof_BlockNumber, sizeof_HnswNodeData.
    destruct (Z.ltb_spec m 2); [lia|].
    destruct (Z.gtb_spec m 128); [lia|]. cbn [orb].
    rewrite (size_t_small dim) by lia.
    rewrite (size_t_small (dim * 4)) by lia.
    rewrite Z.div_mul by lia. rewrite Z.eqb_refl. cbn [negb].
    rewrite (size_t_small (level + 1)) by lia.
    rewrite (size_t_small m) by lia.
    rewrite (size_t_small ((level + 1) * m)) by lia.
    rewrite (size_t_small ((level + 1) * m * 2)) by lia.
    rewrite (size_t_small ((level + 1) * m * 2 * 4)) by lia.
    rewrite Z.div_mul by lia. rewrite Z.eqb_refl. cbn [negb].
    rewrite (size_t_small (48 + dim * 4)) by lia.
    rewrite (size_t_small (48 + dim * 4 + (level + 1) * m * 2 * 4)) by lia.
    destruct (Z.ltb_spec (48 + dim * 4 + (level + 1) * m * 2 * 4) 48); [lia|].
    destruct (Z.ltb_spec (48 + dim * 4 + (level + 1) * m * 2 * 4) (dim * 4)); [lia|].
    destruct (Z.ltb_spec (48 + dim * 4 + (level + 1) * m * 2 * 4)
                         ((level + 1) * m * 2 * 4)); [lia|].
    cbn [orb].
    rewrite MAXALIGN_align8 by lia.
    destruct (Z.ltb_spec (align8 (48 + dim * 4 + (level + 1) * m * 2 * 4))
                         (48 + dim * 4 + (level + 1) * m * 2 * 4)); [lia|].
    rewrite Hx. reflexivity.
  - rewrite Hx. unfold sizeof_HnswNodeData. lia.
Qed.

Lemma node_size_exact_in_range_witness :
  hnswComputeNodeSizeSafe 3 0 16 = (node_size_exact 3 0 16, false)
  /\ sizeof_HnswNodeData + 3 * 4 + (0 + 1) * (2 * 16) * 4
     <= node_size_exact 3 0 16 < 2 ^ 64.
Proof. apply (node_size_exact_in_range 3 0 16); lia. Defined.

(** C3: the claim as stated fails.  For [dim = 32767], [level = 0], [m = 2]
    (inside the ranges) the computation reports no overflow and returns a
    size far above the page size. *)
Lemma node_size_exceeds_page :
  hnswComputeNodeSizeSafe 32767 0 2 = (131136, false) /\ 131136 > BLCKSZ.
Proof. split; [vm_compute; reflexivity | unfold BLCKSZ; lia]. Qed.

(** ** Option validation *)

(** What the validation tests: the constraints of the specification on
    the three values it reads, each one field behind the option it is
    named after. *)
Lemma hnswoptions_tests_shifted_fields (o : HnswOptions) (past : Z) :
  (is_Raise (hnswoptions (Some o) past true) = true
   <-> options_rejected {| opt_m := opt_ef_construction o;
                           opt_ef_construction := opt_ef_search o;
                           opt_ef_search := past |})
  /\ (is_Raise (hnswoptions (Some o) past true) = false ->
      hnswoptions (Some o) past true = Ok (Some o)).
Proof.
  unfold hnswoptions, options_rejected, HNSW_MIN_M, HNSW_MAX_M,
    HNSW_MIN_EF_CONSTRUCTION, HNSW_MAX_EF_CONSTRUCTION,
    HNSW_MIN_EF_SEARCH, HNSW_MAX_EF_SEARCH.
  destruct o as [m0 m efc]. cbn [opt_m opt_ef_construction opt_ef_search].
  set (efs := past).
  destruct (Z.ltb_spec m 2); cbn [orb is_Raise];
    [split; [split; [lia|reflexivity] | discriminate] |].
  destruct (Z.gtb_spec m 128); cbn [orb is_Raise];
    [split; [split; [lia|reflexivity] | discriminate] |].
  destruct (Z.ltb_spec efc 4); cbn [orb is_Raise];
    [split; [split; [lia|reflexivity] | discriminate] |].
  destruct (Z.gtb_spec efc 10000); cbn [orb is_Raise];
    [split; [split; [lia|reflexivity] | discriminate] |].
  destruct (Z.ltb_spec efs 4); cbn [orb is_Raise];
    [split; [split; [lia|reflexivity] | discriminate] |].
  destruct (Z.gtb_spec efs 10000); cbn [orb is_Raise];
    [split; [split; [lia|reflexivity] | discriminate] |].
  destruct (Z.ltb_spec efc m); cbn [is_Raise];
    [split; [split; [lia|reflexivity] | discriminate] |].
  destruct (Z.ltb_spec efs m); cbn [is_Raise];
    [split; [split; [lia|reflexivity] | discriminate] |].
  split; [split; [discriminate | lia] | reflexivity].
Qed.

(** C9 (a defect of the code).  The options [m = 16],
    [ef_construction = 200], [ef_search = 64] satisfy every constraint, and
    the validation rejects them: it takes [ef_construction] for [m] and
    finds 200 above 128.  This holds whatever lies behind the structure. *)
Theorem hnswoptions_rejects_valid_options (past : Z) :
  ~ options_rejected {| opt_m := 16; opt_ef_construction := 200; opt_ef_search := 64 |}
  /\ hnswoptions (Some {| opt_m := 16; opt_ef_construction := 200; opt_ef_search := 64 |})
                 past true
     = Raise ERRCODE_INVALID_PARAMETER_VALUE.
Proof.
  split; [|reflexivity].
  unfold options_rejected. cbn. lia.
Qed.

(** ** The monad *)

Lemma bind_Ok {A B} (c : M A) (k : A -> M B) (w w' : World) (b : B) :
  bind c k w = (Ok b, w') ->
  exists a w1, c w = (Ok a, w1) /\ k a w1 = (Ok b, w').
Proof.
  unfold bind. destruct (c w) as [[a| e | |] w1]; intros H; try discriminate.
  exists a, w1. split; [reflexivity | exact H].
Qed.

Lemma bind_Ok_intro {A B} (c : M A) (k : A -> M B) (w w1 : World) (a : A) :
  c w = (Ok a, w1) -> bind c k w = k a w1.
Proof. intros H. unfold bind. rewrite H. reflexivity. Qed.

Lemma lift_Ok {A} (r : res A) (w w' : World) (a : A) :
  lift r w = (Ok a, w') -> r = Ok a /\ w' = w.
Proof. unfold lift. intros H. inversion H. split; reflexivity. Qed.

(** ** Search on an empty index *)

(** C8. When the meta page has no entry point, the search returns the empty
    result (no result array, no distance array, count 0) and the only
    thing it leaves in the trace is its own call: no page is read. *)
Theorem search_without_entry_point (fuel : nat) (query : list float4)
    (dim strategy efSearch k : Z) (w : World) :
  meta_entryPoint (w_meta w) = InvalidBlockNumber ->
  hnswSearch fuel query dim strategy efSearch k w
  = (Ok no_result,
     {| w_meta := w_meta w; w_pages := w_pages w; w_rand := w_rand w;
        w_trace := EvSearch :: w_trace w |}).
Proof.
  intros H. unfold hnswSearch, bind, log, get_meta. cbn [w_meta].
  rewrite H. reflexivity.
Qed.

Lemma search_without_entry_point_witness :
  meta_entryPoint (w_meta (world_init [])) = InvalidBlockNumber
  /\ fst (hnswSearch 5 [of_Z32 1; of_Z32 0] 2 1 4 3 (world_init [])) = Ok no_result.
Proof.
  split; [reflexivity |].
  rewrite (search_without_entry_point 5 [of_Z32 1; of_Z32 0] 2 1 4 3 (world_init []) eq_refl).
  reflexivity.
Defined.

(** ** A scan without a query vector *)

Lemma rescan_without_query (ef_guc k_guc : Z) (so : HnswScanOpaqueData)
    (orderbys : list ScanKeyData) (w : World) :
  no_query_argument orderbys ->
  exists so' w1,
    hnswrescan ef_guc k_guc so orderbys w = (Ok so', w1)
    /\ so_queryVector so' = so_queryVector so
    /\ so_firstCall so' = true
    /\ (w1 = w \/ w1 = logged (EvReadBuffer 0) w).
Proof.
  intros Hno. unfold hnswrescan.
  destruct (Z.gtb_spec ef_guc 0) as [Hg|Hg].
  - unfold bind at 1. unfold ret at 1.
    destruct orderbys as [|[strat [arg|]] rest]; cbn in Hno; try discriminate;
      unfold ret; eexists; eexists; (split; [reflexivity|]);
      cbn; auto.
  - unfold bind, ReadBuffer, page_at, log, get_meta, ret. cbn [Z.eqb].
    destruct orderbys as [|[strat [arg|]] rest]; cbn in Hno; try discriminate;
      eexists; eexists; (split; [reflexivity|]); cbn; auto.
Qed.

(** C10 (as amended).  After a rescan that brings no order-by query vector,
    on a scan state that holds none (as [hnswbeginscan] leaves it), the first
    [hnswgettuple] returns false: it reads the meta page and nothing else,
    runs no search, raises no error and leaves the scan state as it was. *)
Theorem gettuple_without_query_vector (ef_guc k_guc : Z) (fuel : nat)
    (so : HnswScanOpaqueData) (orderbys : list ScanKeyData) (w : World) :
  so_queryVector so = None ->
  no_query_argument orderbys ->
  exists so' w1,
    hnswrescan ef_guc k_guc so orderbys w = (Ok so', w1)
    /\ hnswgettuple fuel so' w1 = (Ok (false, so'), logged (EvReadBuffer 0) w1).
Proof.
  intros Hq Hno.
  destruct (rescan_without_query ef_guc k_guc so orderbys w Hno)
    as (so' & w1 & Hre & Hqv & Hfc & _).
  exists so', w1. split; [exact Hre|].
  unfold hnswgettuple. rewrite Hfc.
  unfold bind, ReadBuffer, page_at, log, ret. cbn [Z.eqb].
  rewrite Hqv, Hq. reflexivity.
Qed.

Lemma gettuple_without_query_vector_witness :
  so_queryVector hnswbeginscan = None
  /\ no_query_argument []
  /\ exists so' w1,
       hnswrescan 0 0 hnswbeginscan [] (world_init []) = (Ok so', w1)
       /\ hnswgettuple 3 so' w1 = (Ok (false, so'), logged (EvReadBuffer 0) w1).
Proof.
  split; [reflexivity|]. split; [exact I|].
  exact (gettuple_without_query_vector 0 0 3 hnswbeginscan [] (world_init []) eq_refl I).
Defined.

(** C10 (counterexample).  A scan of [world_one] is rescanned with a query
    vector and then rescanned with an order-by key that carries none.  The
    second rescan leaves the stored query vector in place, and the first
    [hnswgettuple] after it runs the search and returns true. *)
Lemma rescan_keeps_query_vector :
  no_query_argument [{| sk_strategy := 1; sk_argument := None |}]
  /\ exists so1 w1 so2 w2 so3 w3,
       hnswrescan 0 0 hnswbeginscan
                  [{| sk_strategy := 1; sk_argument := Some (DatumBit 3 [160]) |}]
                  world_one = (Ok so1, w1)
       /\ hnswrescan 0 0 so1 [{| sk_strategy := 1; sk_argument := None |}] w1
          = (Ok so2, w2)
       /\ so_queryVector so2 <> None
       /\ hnswgettuple 8 so2 w2 = (Ok (true, so3), w3)
       /\ In EvSearch (w_trace w3).
Proof.
  split; [reflexivity|].
  do 6 eexists.
  split; [vm_compute; reflexivity|].
  split; [vm_compute; reflexivity|].
  split; [discriminate|].
  split; [vm_compute; reflexivity|].
  vm_compute. tauto.
Qed.

(** ** Level assignment *)

Lemma clamp_level_range (raw : Z) : 0 <= clamp_level raw <= 15.
Proof.
  unfold clamp_level, HNSW_MAX_LEVEL.
  destruct (Z.gtb_spec raw (16 - 1));
    [ destruct (Z.ltb_spec (16 - 1) 0) | destruct (Z.ltb_spec raw 0) ]; lia.
Qed.

Lemma clamp_level_spec (raw : Z) : clamp_level raw = Z.max 0 (Z.min 15 raw).
Proof.
  unfold clamp_level, HNSW_MAX_LEVEL.
  destruct (Z.gtb_spec raw (16 - 1));
    [ destruct (Z.ltb_spec (16 - 1) 0) | destruct (Z.ltb_spec raw 0) ]; lia.
Qed.

Lemma to_int_trunc (d : double) (z : Z) :
  to_int d = Ok z -> trunc d = Some z /\ INT_MIN <= z <= INT_MAX.
Proof.
  unfold to_int. destruct (trunc d) as [t|]; [|discriminate].
  destruct (Z.leb_spec INT_MIN t) as [Hlo|Hlo]; cbn [andb]; [|discriminate].
  destruct (Z.leb_spec t INT_MAX) as [Hhi|Hhi]; [|discriminate].
  intros Heq. inversion Heq. subst. split; [reflexivity | lia].
Qed.

(** The redraw loop consumes the draws whose quotient is zero and stops at
    the first one whose quotient is not. *)
Lemma draw_nonzero_Ok (fuel : nat) (w w' : World) (r : double) :
  draw_nonzero fuel w = (Ok r, w') ->
  exists zeros x,
    w_rand w = zeros ++ x :: w_rand w'
    /\ Forall (fun z => eqb (uniform_of z) zero = true) zeros
    /\ r = uniform_of x
    /\ eqb r zero = false
    /\ w_meta w' = w_meta w /\ w_pages w' = w_pages w /\ w_trace w' = w_trace w.
Proof.
  revert w. induction fuel as [|fuel IH]; intros w H; [discriminate|].
  cbn [draw_nonzero] in H. unfold bind at 1, random in H.
  destruct (w_rand w) as [|x rest] eqn:Hr; [discriminate|].
  fold (uniform_of x) in H.
  destruct (eqb (uniform_of x) zero) eqn:Hz.
  - apply IH in H. destruct H as (zeros & y & Hrand & Hall & Hr' & Hnz & Hm & Hp & Ht).
    cbn in Hrand, Hm, Hp, Ht.
    exists (x :: zeros), y. rewrite Hrand. repeat split; auto.
  - unfold ret in H. inversion H. subst. cbn.
    exists [], x. repeat split; auto.
Qed.

Lemma hnswGetRandomLevel_Ok (log : double -> double) (ml : float4)
    (w w' : World) (level : Z) :
  hnswGetRandomLevel log ml w = (Ok level, w') ->
  0 <= level <= 15
  /\ exists zeros x raw,
       w_rand w = zeros ++ x :: w_rand w'
       /\ Forall (fun z => eqb (uniform_of z) zero = true) zeros
       /\ eqb (uniform_of x) zero = false
       /\ trunc (mul64 (neg64 (log (uniform_of x))) (to_double ml)) = Some raw
       /\ level = Z.max 0 (Z.min 15 raw).
Proof.
  unfold hnswGetRandomLevel. intros H.
  apply bind_Ok in H. destruct H as (w0 & w1 & Hget & H).
  unfold get in Hget. inversion Hget. subst w0 w1. clear Hget.
  apply bind_Ok in H. destruct H as (r & w1 & Hdraw & H).
  apply bind_Ok in H. destruct H as (raw & w2 & Hint & H).
  apply lift_Ok in Hint. destruct Hint as [Hint ->].
  unfold ret in H. inversion H. subst. clear H.
  apply draw_nonzero_Ok in Hdraw.
  destruct Hdraw as (zeros & x & Hrand & Hall & -> & Hnz & _).
  apply to_int_trunc in Hint. destruct Hint as [Htr _].
  split; [apply clamp_level_range|].
  exists zeros, x, raw. repeat split; auto. apply clamp_level_spec.
Qed.

(** The redraw loop, run forward: it skips the draws whose quotient is zero
    and returns the first quotient that is not. *)
Lemma draw_nonzero_run (zeros : list Z) (x : Z) (rest : list Z) :
  Forall (fun z => eqb (uniform_of z) zero = true) zeros ->
  eqb (uniform_of x) zero = false ->
  forall (fuel : nat) (w : World),
    w_rand w = zeros ++ x :: rest ->
    (length zeros < fuel)%nat ->
    draw_nonzero fuel w
    = (Ok (uniform_of x),
       {| w_meta := w_meta w; w_pages := w_pages w; w_rand := rest;
          w_trace := w_trace w |}).
Proof.
  intros Hall Hnz. induction Hall as [|z zeros Hz Hall IH]; intros fuel w Hr Hf.
  - destruct fuel as [|fuel]; [cbn in Hf; lia|].
    cbn [draw_nonzero]. unfold bind at 1, random. rewrite Hr. cbn [app].
    fold (uniform_of x). rewrite Hnz. reflexivity.
  - destruct fuel as [|fuel]; [cbn in Hf; lia|].
    cbn [draw_nonzero]. unfold bind at 1, random. rewrite Hr. cbn [app].
    fold (uniform_of z). rewrite Hz.
    refine (IH fuel {| w_meta := w_meta w; w_pages := w_pages w;
                       w_rand := zeros ++ x :: rest; w_trace := w_trace w |}
               eq_refl _).
    cbn in Hf. lia.
Qed.

(** C7 (as amended).  Let the generator deliver zero quotients and then a
    draw [x] whose quotient [U] is not zero, and let the truncation of
    [-ln(U) * ml] toward zero fit [int].  Then the level assignment returns;
    it has consumed the draws up to [x] and nothing else of the state has
    changed; the level is that truncation clamped to [0, 15]. *)
Theorem random_level_spec (log : double -> double) (ml : float4) (w : World)
    (zeros : list Z) (x : Z) (rest : list Z) (raw : Z) :
  w_rand w = zeros ++ x :: rest ->
  Forall (fun z => eqb (uniform_of z) zero = true) zeros ->
  eqb (uniform_of x) zero = false ->
  trunc (mul64 (neg64 (log (uniform_of x))) (to_double ml)) = Some raw ->
  INT_MIN <= raw <= INT_MAX ->
  hnswGetRandomLevel log ml w
  = (Ok (Z.max 0 (Z.min 15 raw)),
     {| w_meta := w_meta w; w_pages := w_pages w; w_rand := rest;
        w_trace := w_trace w |})
  /\ 0 <= Z.max 0 (Z.min 15 raw) <= 15.
Proof.
  intros Hr Hall Hnz Htr Hrange. split; [|lia].
  unfold hnswGetRandomLevel. unfold bind at 1, get.
  unfold bind at 1.
  rewrite (draw_nonzero_run zeros x rest Hall Hnz (S (length (w_rand w))) w Hr)
    by (rewrite Hr, length_app; cbn [length]; lia).
  unfold bind at 1, lift, to_int. rewrite Htr.
  destruct (Z.leb_spec INT_MIN raw) as [_|Hlo]; [|lia].
  destruct (Z.leb_spec raw INT_MAX) as [_|Hhi]; [|lia].
  cbn [andb]. unfold ret. rewrite clamp_level_spec. reflexivity.
Qed.

Lemma random_level_spec_witness :
  hnswGetRandomLevel log_example ml_default (world_init [0; 5; 7])
  = (Ok 2, world_init [7])
  /\ 0 <= 2 <= 15.
Proof.
  apply (random_level_spec log_example ml_default (world_init [0; 5; 7]) [0] 5 [7] 2).
  - reflexivity.
  - constructor; [vm_compute; reflexivity | constructor].
  - vm_compute. reflexivity.
  - vm_compute. reflexivity.
  - vm_compute. split; discriminate.
Defined.

(** C7 (counterexample).  With the level factor [2^100] and the draw 5, the
    truncation of [-ln(U) * ml] is above [INT_MAX]: the conversion to [int]
    has no defined result, and no level in [0, 15] is returned as the clamped
    truncation. *)
Lemma random_level_outside_int :
  eqb (uniform_of 5) zero = false
  /\ (exists raw,
        trunc (mul64 (neg64 (log_example (uniform_of 5))) (to_double ml_huge)) = Some raw
        /\ INT_MAX < raw)
  /\ fst (hnswGetRandomLevel log_example ml_huge (world_init [5])) = Undefined.
Proof.
  split; [vm_compute; reflexivity|]. split.
  - eexists. split; [vm_compute; reflexivity | vm_compute; reflexivity].
  - vm_compute. reflexivity.
Qed.

(** ** Frame reasoning: what a computation leaves unchanged *)

Section Frame.

Variable R : World -> World -> Prop.
Variable P : Event -> Prop.
Hypothesis R_refl : forall w, R w w.
Hypothesis R_trans : forall w1 w2 w3, R w1 w2 -> R w2 w3 -> R w1 w3.
Hypothesis R_log : forall ev w, P ev -> R w (logged ev w).
Hypothesis R_pages :
  forall w pages, length pages = length (w_pages w) ->
    R w {| w_meta := w_meta w; w_pages := pages; w_rand := w_rand w;
           w_trace := w_trace w |}.
Hypothesis R_rand :
  forall w draws,
    R w {| w_meta := w_meta w; w_pages := w_pages w; w_rand := draws;
           w_trace := w_trace w |}.
Hypothesis R_extend :
  forall w,
    R w {| w_meta := w_meta w; w_pages := w_pages w ++ [PageNew]; w_rand := w_rand w;
           w_trace := w_trace w |}.
Hypothesis R_meta :
  forall w meta,
    R w {| w_meta := meta; w_pages := w_pages w; w_rand := w_rand w;
           w_trace := w_trace w |}.

Lemma preserves_ret {A} (a : A) : preserves R (ret a).
Proof. intros w. apply R_refl. Qed.

Lemma preserves_lift {A} (r : res A) : preserves R (lift r).
Proof. intros w. apply R_refl. Qed.

Lemma preserves_ereport {A} (e : ErrCode) : preserves R (@ereport A e).
Proof. intros w. apply R_refl. Qed.

Lemma preserves_get : preserves R get.
Proof. intros w. apply R_refl. Qed.

Lemma preserves_get_meta : preserves R get_meta.
Proof. intros w. apply R_refl. Qed.

Lemma preserves_bind {A B} (c : M A) (k : A -> M B) :
  preserves R c -> (forall a, preserves R (k a)) -> preserves R (bind c k).
Proof.
  intros Hc Hk w. unfold bind. specialize (Hc w).
  destruct (c w) as [[a| e | |] w1]; cbn [snd] in *; try exact Hc.
  eapply R_trans; [exact Hc | apply Hk].
Qed.

Lemma preserves_log (ev : Event) : P ev -> preserves R (log ev).
Proof. intros HP w. apply R_log. exact HP. Qed.

Lemma preserves_for_up {S} (body : Z -> S -> M (ctl S)) :
  (forall i s, preserves R (body i s)) ->
  forall n i s, preserves R (for_up n i body s).
Proof.
  intros Hb. induction n as [|n IH]; intros i s; cbn [for_up].
  - apply preserves_ret.
  - apply preserves_bind; [apply Hb|]. intros [s'|s']; [apply IH | apply preserves_ret].
Qed.

Lemma preserves_forZ {S} (lo hi : Z) (body : Z -> S -> M (ctl S)) (s : S) :
  (forall i s, preserves R (body i s)) -> preserves R (forZ lo hi body s).
Proof. intros Hb. apply preserves_for_up. exact Hb. Qed.

Lemma preserves_for_down {S} (body : Z -> S -> M (ctl S)) :
  (forall i s, preserves R (body i s)) ->
  forall n i s, preserves R (for_down n i body s).
Proof.
  intros Hb. induction n as [|n IH]; intros i s; cbn [for_down].
  - apply preserves_ret.
  - apply preserves_bind; [apply Hb|]. intros [s'|s']; [apply IH | apply preserves_ret].
Qed.

Lemma preserves_forZ_down {S} (hi lo : Z) (body : Z -> S -> M (ctl S)) (s : S) :
  (forall i s, preserves R (body i s)) -> preserves R (forZ_down hi lo body s).
Proof. intros Hb. apply preserves_for_down. exact Hb. Qed.

Lemma preserves_ReadBuffer (blkno : BlockNumber) :
  P (EvReadBuffer blkno) -> preserves R (ReadBuffer blkno).
Proof.
  intros HP w. unfold ReadBuffer.
  destruct (page_at w blkno) as [p|].
  - apply preserves_bind; [apply preserves_log; exact HP | intros; apply preserves_ret].
  - apply preserves_ereport.
Qed.

Lemma preserves_write_page (blkno : BlockNumber) (p : Page) :
  preserves R (write_page blkno p).
Proof.
  intros w. unfold write_page, bind, get.
  destruct ((1 <=? blkno) && (blkno <? RelationGetNumberOfBlocks w)).
  - unfold set_pages. cbn [snd]. apply R_pages. apply length_insert.
  - apply R_refl.
Qed.

Lemma preserves_hnswValidateBlockNumber (blkno : BlockNumber) :
  preserves R (hnswValidateBlockNumber blkno).
Proof. intros w. apply R_refl. Qed.

Lemma preserves_NDB_ALLOC (n : Z) : preserves R (NDB_ALLOC n).
Proof. unfold NDB_ALLOC. destruct (n <? 0); [apply preserves_ereport | apply preserves_ret]. Qed.

Lemma preserves_node_at (blkno : BlockNumber) (offnum : Z) :
  preserves R (node_at blkno offnum).
Proof.
  unfold node_at. apply preserves_bind; [apply preserves_get|]. intros w.
  destruct (page_at w blkno).
  - apply preserves_bind; [apply preserves_lift | intros; apply preserves_ret].
  - apply preserves_lift.
Qed.

Lemma preserves_store_node (blkno : BlockNumber) (offnum : Z) (node : HnswNodeData) :
  preserves R (store_node blkno offnum node).
Proof.
  unfold store_node. apply preserves_bind; [apply preserves_get|]. intros w.
  destruct (page_at w blkno).
  - apply preserves_bind; [apply preserves_lift|]. intros it.
    apply preserves_bind; [apply preserves_lift|]. intros items.
    apply preserves_write_page.
  - apply preserves_lift.
Qed.

Lemma preserves_ComputeDistance (v1 v2 : list float4) (dim s : Z) :
  P (EvDistance s) -> preserves R (ComputeDistance v1 v2 dim s).
Proof.
  intros HP. unfold ComputeDistance.
  apply preserves_bind; [apply preserves_log; exact HP | intros; apply preserves_lift].
Qed.

Ltac frame_step :=
  match goal with
  | |- preserves _ (ret _) => apply preserves_ret
  | |- preserves _ (lift _) => apply preserves_lift
  | |- preserves _ (ereport _) => apply preserves_ereport
  | |- preserves _ get => apply preserves_get
  | |- preserves _ get_meta => apply preserves_get_meta
  | |- preserves _ (NDB_ALLOC _) => apply preserves_NDB_ALLOC
  | |- preserves _ (hnswValidateBlockNumber _) => apply preserves_hnswValidateBlockNumber
  | |- preserves _ (node_at _ _) => apply preserves_node_at
  | |- preserves _ (store_node _ _ _) => apply preserves_store_node
  | |- preserves _ (write_page _ _) => apply preserves_write_page
  | |- preserves _ (ReadBuffer _) => apply preserves_ReadBuffer; solve [auto]
  | |- preserves _ (ComputeDistance _ _ _ _) => apply preserves_ComputeDistance; solve [auto]
  | |- preserves _ (log _) => apply preserves_log; solve [auto]
  | |- preserves _ (bind _ _) => apply preserves_bind; [| intros ?]
  | |- preserves _ (forZ _ _ _ _) => apply preserves_forZ; intros ? ?
  | |- preserves _ (forZ_down _ _ _ _) => apply preserves_forZ_down; intros ? ?
  | |- preserves _ (if ?b then _ else _) => destruct b
  | |- preserves _ (match ?x with _ => _ end) => destruct x
  end.

Ltac frame := repeat frame_step.

Lemma preserves_random : preserves R random.
Proof.
  intros w. unfold random. destruct (w_rand w); cbn [snd]; [apply R_refl | apply R_rand].
Qed.

Lemma preserves_draw_nonzero (fuel : nat) : preserves R (draw_nonzero fuel).
Proof.
  induction fuel as [|fuel IH]; cbn [draw_nonzero]; [apply preserves_lift|].
  apply preserves_bind; [apply preserves_random|]. intros x.
  destruct (eqb _ zero); [exact IH | apply preserves_ret].
Qed.

Lemma preserves_hnswGetRandomLevel (log : double -> double) (ml : float4) :
  preserves R (hnswGetRandomLevel log ml).
Proof.
  unfold hnswGetRandomLevel. frame_step; [frame_step|].
  frame_step; [apply preserves_draw_nonzero|]. frame.
Qed.

Lemma preserves_set_meta (meta : HnswMetaPageData) : preserves R (set_meta meta).
Proof. intros w. apply R_meta. Qed.

Lemma preserves_ReadBuffer_P_NEW :
  (forall b, P (EvExtend b)) -> preserves R ReadBuffer_P_NEW.
Proof.
  intros HP w. unfold ReadBuffer_P_NEW, bind, get, log, set_pages, ret, ereport, lift.
  destruct (RelationGetNumberOfBlocks w >=? InvalidBlockNumber); cbn [snd].
  - apply R_refl.
  - eapply R_trans; [apply (R_log (EvExtend (RelationGetNumberOfBlocks w)) w (HP _))|].
    apply (R_extend (logged (EvExtend (RelationGetNumberOfBlocks w)) w)).
Qed.

Section Search.

Variable strategy : Z.
Hypothesis P_read : forall b, P (EvReadBuffer b).
Hypothesis P_dist : P (EvDistance strategy).
Hypothesis P_search : P EvSearch.

Lemma preserves_greedy_scan (query : list float4) (dim m level : Z)
    (node : HnswNodeData) (st0 : BlockNumber * float4 * bool) :
  preserves R (greedy_scan query dim strategy m level node st0).
Proof. unfold greedy_scan. frame. Qed.

Lemma preserves_greedy_level (fuel : nat) (query : list float4) (dim m level : Z) :
  forall current, preserves R (greedy_level fuel query dim strategy m level current).
Proof.
  induction fuel as [|fuel IH]; intros current; cbn [greedy_level]; [apply preserves_lift|].
  frame; try apply preserves_greedy_scan; apply IH.
Qed.

Lemma preserves_explore_neighbor (query : list float4) (dim m efSearch numBlocks : Z)
    (node : HnswNodeData) (j : Z) (st : SearchState) :
  preserves R (explore_neighbor query dim strategy m efSearch numBlocks node j st).
Proof. unfold explore_neighbor. frame. Qed.

Lemma preserves_explore_candidate (query : list float4) (dim m efSearch numBlocks : Z)
    (i : Z) (st : SearchState) :
  preserves R (explore_candidate query dim strategy m efSearch numBlocks i st).
Proof.
  unfold explore_candidate.
  repeat first [apply preserves_explore_neighbor | frame_step].
Qed.

Lemma preserves_hnswSearch (fuel : nat) (query : list float4) (dim efSearch k : Z) :
  preserves R (hnswSearch fuel query dim strategy efSearch k).
Proof.
  unfold hnswSearch.
  repeat first [apply preserves_explore_candidate | apply preserves_greedy_level
               | frame_step].
Qed.

End Search.

Section Insert.

Hypothesis P_read : forall b, P (EvReadBuffer b).
Hypothesis P_extend : forall b, P (EvExtend b).
Hypothesis P_dist : P (EvDistance 1).
Hypothesis P_search : P EvSearch.

Lemma preserves_insert_greedy_scan (vector : list float4) (dim m level : Z)
    (entryNode : HnswNodeData) (st0 : BlockNumber * float4 * bool) :
  preserves R (insert_greedy_scan vector dim m level entryNode st0).
Proof. unfold insert_greedy_scan. frame. Qed.

Lemma preserves_insert_greedy_step (vector : list float4) (dim m level : Z)
    (iteration : Z) (st : BlockNumber * float4 * bool) :
  preserves R (insert_greedy_step vector dim m level iteration st).
Proof.
  unfold insert_greedy_step.
  repeat first [apply preserves_insert_greedy_scan | frame_step].
Qed.

Lemma preserves_prune_fill (dim m currentLevel : Z) (blkno : BlockNumber)
    (neighborNode : HnswNodeData) (selectedDistance : float4) (pruneCount : Z) :
  preserves R (prune_fill dim m currentLevel blkno neighborNode selectedDistance pruneCount).
Proof. unfold prune_fill. frame. Qed.

Lemma preserves_prune_neighbor (dim m currentLevel : Z) (blkno sel : BlockNumber)
    (selectedDistance : float4) :
  preserves R (prune_neighbor dim m currentLevel blkno sel selectedDistance).
Proof.
  unfold prune_neighbor.
  repeat first [apply preserves_prune_fill | frame_step].
Qed.

Lemma preserves_link_neighbor (dim m currentLevel : Z) (blkno : BlockNumber)
    (selectedNeighbors : list BlockNumber) (selectedDistances : list float4)
    (idx : Z) (u : unit) :
  preserves R (link_neighbor dim m currentLevel blkno selectedNeighbors
                             selectedDistances idx u).
Proof.
  unfold link_neighbor.
  repeat first [apply preserves_prune_neighbor | frame_step].
Qed.

Lemma preserves_link_level (fuel : nat) (vector : list float4) (dim m efConstruction : Z)
    (blkno : BlockNumber) (currentLevel : Z) (u : unit) :
  preserves R (link_level fuel vector dim m efConstruction blkno currentLevel u).
Proof.
  unfold link_level.
  repeat first [apply preserves_link_neighbor
               | apply (preserves_hnswSearch 1 P_read P_dist P_search)
               | frame_step].
Qed.

Lemma preserves_update_meta (blkno : BlockNumber) (level : Z) :
  preserves R (update_meta blkno level).
Proof.
  unfold update_meta.
  repeat first [apply preserves_set_meta | frame_step].
Qed.

Lemma preserves_hnswInsertNode (log : double -> double) (fuel : nat)
    (vector : list float4) (dim : Z) (heapPtr : ItemPointerData) :
  preserves R (hnswInsertNode log fuel vector dim heapPtr).
Proof.
  unfold hnswInsertNode.
  repeat first [apply preserves_hnswGetRandomLevel
               | apply preserves_insert_greedy_step
               | apply preserves_link_level
               | apply preserves_update_meta
               | apply (preserves_ReadBuffer_P_NEW P_extend)
               | frame_step].
Qed.

End Insert.

End Frame.

(** ** The distance strategy of an insertion *)

Lemma trace_grows_same (P : Event -> Prop) (w w' : World) :
  w_trace w' = w_trace w -> trace_grows P w w'.
Proof. intros H. exists []. split; [exact H | constructor]. Qed.

Lemma trace_grows_refl (P : Event -> Prop) (w : World) : trace_grows P w w.
Proof. apply trace_grows_same. reflexivity. Qed.

Lemma trace_grows_trans (P : Event -> Prop) (w1 w2 w3 : World) :
  trace_grows P w1 w2 -> trace_grows P w2 w3 -> trace_grows P w1 w3.
Proof.
  intros (e1 & H1 & F1) (e2 & H2 & F2). exists (e2 ++ e1). split.
  - rewrite H2, H1. apply app_assoc.
  - apply Forall_app. split; assumption.
Qed.

Lemma trace_grows_log (P : Event -> Prop) (ev : Event) (w : World) :
  P ev -> trace_grows P w (logged ev w).
Proof.
  intros HP. exists [ev]. split; [reflexivity | constructor; [exact HP | constructor]].
Qed.

(** C5. Every distance evaluated by an insertion, whatever its outcome, is
    evaluated under strategy 1 (L2): the events an insertion adds to the
    trace contain no distance evaluation under another strategy. *)
Theorem insert_uses_l2_only (log : double -> double) (fuel : nat)
    (vector : list float4) (dim : Z) (heapPtr : ItemPointerData) (w : World) :
  exists evs,
    w_trace (snd (hnswInsertNode log fuel vector dim heapPtr w)) = evs ++ w_trace w
    /\ forall s, In (EvDistance s) evs -> s = 1.
Proof.
  assert (H : preserves (trace_grows (uses_strategy 1))
                        (hnswInsertNode log fuel vector dim heapPtr)).
  { apply (preserves_hnswInsertNode (trace_grows (uses_strategy 1)) (uses_strategy 1)).
    - apply trace_grows_refl.
    - apply trace_grows_trans.
    - intros ev w0 HP. apply trace_grows_log. exact HP.
    - intros w0 pages _. apply trace_grows_same. reflexivity.
    - intros w0 draws. apply trace_grows_same. reflexivity.
    - intros w0. apply trace_grows_same. reflexivity.
    - intros w0 meta. apply trace_grows_same. reflexivity.
    - intros b. exact I.
    - intros b. exact I.
    - reflexivity.
    - exact I. }
  destruct (H w) as (evs & Htr & Hall).
  exists evs. split; [exact Htr|].
  intros s Hin. rewrite List.Forall_forall in Hall. exact (Hall _ Hin).
Qed.

(** The statement is not empty: the second insertion of the example
    evaluates distances, all of them under strategy 1. *)
Example insert_evaluates_distances :
  In (EvDistance 1) (w_trace (snd (insert_example [1; 0; 0] 2 world_one))).
Proof. vm_compute. tauto. Qed.

(** ** The meta page after an insertion *)

Lemma same_meta_size_refl (w : World) : same_meta_size w w.
Proof. split; reflexivity. Qed.

Lemma same_meta_size_trans (w1 w2 w3 : World) :
  same_meta_size w1 w2 -> same_meta_size w2 w3 -> same_meta_size w1 w3.
Proof. intros [A1 B1] [A2 B2]. split; congruence. Qed.

Lemma preserves_Ok {A} (R : World -> World -> Prop) (c : M A) (w w' : World) (r : res A) :
  preserves R c -> c w = (r, w') -> R w w'.
Proof. intros H E. specialize (H w). rewrite E in H. exact H. Qed.

Lemma random_level_same (log : double -> double) (ml : float4) :
  preserves same_meta_size (hnswGetRandomLevel log ml).
Proof.
  apply (preserves_hnswGetRandomLevel same_meta_size);
    [ apply same_meta_size_refl | apply same_meta_size_trans
    | intros; split; reflexivity ].
Qed.

Lemma insert_greedy_same (vector : list float4) (dim m level : Z)
    (st : BlockNumber * float4 * bool) :
  preserves same_meta_size (forZ 0 10 (insert_greedy_step vector dim m level) st).
Proof.
  apply (preserves_forZ same_meta_size);
    [ apply same_meta_size_refl | apply same_meta_size_trans |].
  intros i s.
  apply (preserves_insert_greedy_step same_meta_size (fun _ => True));
    solve [ apply same_meta_size_refl | apply same_meta_size_trans
          | intros; split; reflexivity | intros; exact I | exact I ].
Qed.

Lemma write_page_same (blkno : BlockNumber) (p : Page) :
  preserves same_meta_size (write_page blkno p).
Proof.
  apply (preserves_write_page same_meta_size);
    [ apply same_meta_size_refl |].
  intros w pages Hlen. split; [reflexivity | exact Hlen].
Qed.

Lemma link_levels_same (fuel : nat) (vector : list float4) (dim m efConstruction : Z)
    (blkno : BlockNumber) (maxLevel : Z) :
  preserves same_meta_size
    (forZ_down maxLevel 0 (link_level fuel vector dim m efConstruction blkno) tt).
Proof.
  apply (preserves_forZ_down same_meta_size);
    [ apply same_meta_size_refl | apply same_meta_size_trans |].
  intros i s.
  apply (preserves_link_level same_meta_size (fun _ => True));
    solve [ apply same_meta_size_refl | apply same_meta_size_trans
          | intros; split; reflexivity | intros; exact I | exact I
          | intros w pages Hlen; split; [reflexivity | exact Hlen] ].
Qed.
Ltac bind_inv H :=
  let a := fresh "a" in let w1 := fresh "w" in let E := fresh "E" in
  apply bind_Ok in H; destruct H as (a & w1 & E & H).

Tactic Notation "step" hyp(H) "as" ident(a) ident(w1) ident(E) :=
  apply bind_Ok in H; destruct H as (a & w1 & E & H).

Lemma update_meta_Ok (blkno : BlockNumber) (level : Z) (w w' : World) :
  update_meta blkno level w = (Ok tt, w') ->
  w_pages w' = w_pages w
  /\ meta_insertedVectors (w_meta w') = meta_insertedVectors (w_meta w) + 1
  /\ meta_maxLevel (w_meta w') = Z.max (meta_maxLevel (w_meta w)) level
  /\ (meta_entryPoint (w_meta w) = InvalidBlockNumber \/ level > meta_entryLevel (w_meta w) ->
      meta_entryPoint (w_meta w') = blkno /\ meta_entryLevel (w_meta w') = level)
  /\ (~ (meta_entryPoint (w_meta w) = InvalidBlockNumber \/ level > meta_entryLevel (w_meta w)) ->
      meta_entryPoint (w_meta w') = meta_entryPoint (w_meta w)
      /\ meta_entryLevel (w_meta w') = meta_entryLevel (w_meta w)).
Proof.
  unfold update_meta. intros H.
  bind_inv H. unfold get_meta in E. inversion E; subst a w0; clear E.
  bind_inv H.
  assert (Hentry :
    w0 = w /\
    ((meta_entryPoint (w_meta w) = InvalidBlockNumber \/ level > meta_entryLevel (w_meta w)) ->
       a = (blkno, level)) /\
    (~ (meta_entryPoint (w_meta w) = InvalidBlockNumber \/ level > meta_entryLevel (w_meta w)) ->
       a = (meta_entryPoint (w_meta w), meta_entryLevel (w_meta w)))).
  { destruct (Z.eqb_spec (meta_entryPoint (w_meta w)) InvalidBlockNumber) as [He|He];
      destruct (Z.gtb_spec level (meta_entryLevel (w_meta w))) as [Hl|Hl];
      cbn [orb] in E.
    1-3: (unfold bind, hnswValidateBlockNumber, get, ret in E; cbn in E;
          destruct (valid_block w blkno); [|discriminate];
          inversion E; subst; split; [reflexivity|]; split; [reflexivity | intros Hn; exfalso; apply Hn; lia]).
    unfold ret in E. inversion E; subst. split; [reflexivity|].
    split; [intros [?|?]; [contradiction | lia] | reflexivity]. }
  destruct Hentry as (-> & Hyes & Hno).
  destruct (Z.geb_spec (meta_insertedVectors (w_meta w)) INT64_MAX); [discriminate|].
  unfold set_meta in H. inversion H; subst; clear H. cbn.
  split; [reflexivity|]. split; [reflexivity|].
  split; [destruct (Z.gtb_spec level (meta_maxLevel (w_meta w))); lia|].
  split.
  - intros Hc. rewrite (Hyes Hc). split; reflexivity.
  - intros Hc. rewrite (Hno Hc). split; reflexivity.
Qed.

Lemma ReadBuffer_P_NEW_Ok (w w' : World) (blkno : BlockNumber) :
  ReadBuffer_P_NEW w = (Ok blkno, w') ->
  blkno = RelationGetNumberOfBlocks w
  /\ w_meta w' = w_meta w
  /\ length (w_pages w') = S (length (w_pages w)).
Proof.
  unfold ReadBuffer_P_NEW, bind, get, log, set_pages, ret, ereport, lift.
  destruct (RelationGetNumberOfBlocks w >=? InvalidBlockNumber); [discriminate|].
  intros H. inversion H; subst; clear H. cbn.
  split; [reflexivity|]. split; [reflexivity|].
  rewrite length_app. cbn. lia.
Qed.

(** C4. After a successful insertion whose drawn level is [L]: the counter
    of inserted vectors has grown by exactly one; if there was no entry
    point or [L] exceeds the entry level, the entry point is the newly
    allocated page (the block whose number is the old number of blocks) and
    the entry level is [L], otherwise both are unchanged; the maximum level
    is the maximum of its old value and [L]; and the relation has one more
    block. *)
Theorem insert_updates_meta (log : double -> double) (fuel : nat)
    (vector : list float4) (dim : Z) (heapPtr : ItemPointerData) (w w' : World) :
  hnswInsertNode log fuel vector dim heapPtr w = (Ok tt, w') ->
  exists L w1,
    hnswGetRandomLevel log (meta_ml (w_meta w)) w = (Ok L, w1)
    /\ meta_insertedVectors (w_meta w') = meta_insertedVectors (w_meta w) + 1
    /\ (meta_entryPoint (w_meta w) = InvalidBlockNumber \/ L > meta_entryLevel (w_meta w) ->
        meta_entryPoint (w_meta w') = RelationGetNumberOfBlocks w
        /\ meta_entryLevel (w_meta w') = L)
    /\ (~ (meta_entryPoint (w_meta w) = InvalidBlockNumber \/ L > meta_entryLevel (w_meta w)) ->
        meta_entryPoint (w_meta w') = meta_entryPoint (w_meta w)
        /\ meta_entryLevel (w_meta w') = meta_entryLevel (w_meta w))
    /\ meta_maxLevel (w_meta w') = Z.max (meta_maxLevel (w_meta w)) L
    /\ RelationGetNumberOfBlocks w' = RelationGetNumberOfBlocks w + 1.
Proof.
  unfold hnswInsertNode. intros H.
  bind_inv H. unfold get_meta in E. inversion E; subst a w0; clear E.
  bind_inv H. rename a into L, w0 into w1, E into Hlevel.
  exists L, w1. split; [exact Hlevel|].
  pose proof (preserves_Ok _ _ _ _ _ (random_level_same log (meta_ml (w_meta w))) Hlevel)
    as [Hm1 Hs1].
  apply hnswGetRandomLevel_Ok in Hlevel. destruct Hlevel as [HL _].
  destruct (Z.geb_spec L HNSW_MAX_LEVEL) as [Hge|_]; [unfold HNSW_MAX_LEVEL in Hge; lia|].
  destruct (hnswValidateLevelSafe L); cbn [negb] in H; [|discriminate].
  destruct (hnswComputeNodeSizeSafe dim L (meta_m (w_meta w))) as [nodeSize overflow].
  destruct (overflow || (nodeSize =? 0)); [discriminate|].
  bind_inv H. pose proof (preserves_Ok _ _ _ _ _
    (preserves_NDB_ALLOC same_meta_size same_meta_size_refl nodeSize) E) as [Hm2 Hs2].
  clear E.
  bind_inv H. apply lift_Ok in E. destruct E as [_ ->].
  bind_inv H.
  assert (Hstep3 : same_meta_size w0 w2).
  { destruct (negb (meta_entryPoint (w_meta w) =? InvalidBlockNumber) && (L >? 0)).
    - bind_inv E. unfold ret in E. inversion E; subst.
      exact (preserves_Ok _ _ _ _ _ (insert_greedy_same _ _ _ _ _) E0).
    - unfold ret in E. inversion E; subst. apply same_meta_size_refl. }
  destruct Hstep3 as [Hm3 Hs3]. clear E.
  bind_inv H. rename a2 into blkno.
  apply ReadBuffer_P_NEW_Ok in E. destruct E as (Hblk & Hm4 & Hs4).
  bind_inv H. pose proof (preserves_Ok _ _ _ _ _ (write_page_same _ _) E) as [Hm5 Hs5].
  clear E.
  bind_inv H.
  assert (Hadd : same_meta_size w4 w5).
  { destruct (fresh_page_free_space <? nodeSize); [discriminate|].
    exact (preserves_Ok _ _ _ _ _ (write_page_same _ _) E). }
  destruct Hadd as [Hm6 Hs6]. clear E.
  bind_inv H.
  assert (Hlink : same_meta_size w5 w6).
  { destruct (negb (meta_entryPoint (w_meta w) =? InvalidBlockNumber)
              && (meta_entryLevel (w_meta w) >=? 0)).
    - bind_inv E. unfold hnswValidateBlockNumber, bind, get, ret in E0.
      inversion E0; subst a5 w7; clear E0.
      destruct (negb (valid_block w5 blkno)); [discriminate|].
      bind_inv E. pose proof (preserves_Ok _ _ _ _ _
        (preserves_NDB_ALLOC same_meta_size same_meta_size_refl _) E0) as HA.
      bind_inv E. pose proof (preserves_Ok _ _ _ _ _
        (preserves_NDB_ALLOC same_meta_size same_meta_size_refl _) E1) as HB.
      pose proof (preserves_Ok _ _ _ _ _ (link_levels_same _ _ _ _ _ _ _) E) as HC.
      eapply same_meta_size_trans; [exact HA|].
      eapply same_meta_size_trans; [exact HB| exact HC].
    - unfold ret in E. inversion E; subst. apply same_meta_size_refl. }
  destruct Hlink as [Hm7 Hs7]. clear E.
  apply update_meta_Ok in H. destruct H as (Hp & Hins & Hmax & Hyes & Hno).
  assert (Hmeta : w_meta w6 = w_meta w) by congruence.
  assert (Hblocks : RelationGetNumberOfBlocks w0 = RelationGetNumberOfBlocks w).
  { unfold RelationGetNumberOfBlocks. rewrite Hs2, Hs1. reflexivity. }
  rewrite Hmeta in Hins, Hmax, Hyes, Hno.
  split; [exact Hins|].
  split; [intros Hc; rewrite <- Hblocks; unfold RelationGetNumberOfBlocks in *;
          destruct (Hyes Hc) as [-> ->]; split; [rewrite Hblk; lia | reflexivity]|].
  split; [exact Hno|]. split; [exact Hmax|].
  unfold RelationGetNumberOfBlocks. rewrite Hp. lia.
Qed.

Lemma insert_updates_meta_witness :
  hnswInsertNode log_example 4 [of_Z32 1; of_Z32 0; of_Z32 0] 3
                 {| ip_blkid := 0; ip_posid := 2 |} world_one
  = (Ok tt, world_two)
  /\ exists L w1,
       hnswGetRandomLevel log_example (meta_ml (w_meta world_one)) world_one = (Ok L, w1)
       /\ meta_insertedVectors (w_meta world_two)
          = meta_insertedVectors (w_meta world_one) + 1
       /\ (meta_entryPoint (w_meta world_one) = InvalidBlockNumber
           \/ L > meta_entryLevel (w_meta world_one) ->
           meta_entryPoint (w_meta world_two) = RelationGetNumberOfBlocks world_one
           /\ meta_entryLevel (w_meta world_two) = L)
       /\ (~ (meta_entryPoint (w_meta world_one) = InvalidBlockNumber
              \/ L > meta_entryLevel (w_meta world_one)) ->
           meta_entryPoint (w_meta world_two) = meta_entryPoint (w_meta world_one)
           /\ meta_entryLevel (w_meta world_two) = meta_entryLevel (w_meta world_one))
       /\ meta_maxLevel (w_meta world_two) = Z.max (meta_maxLevel (w_meta world_one)) L
       /\ RelationGetNumberOfBlocks world_two = RelationGetNumberOfBlocks world_one + 1.
Proof.
  assert (Hrun : hnswInsertNode log_example 4 [of_Z32 1; of_Z32 0; of_Z32 0] 3
                   {| ip_blkid := 0; ip_posid := 2 |} world_one
                 = (Ok tt, world_two)) by (vm_compute; reflexivity).
  split; [exact Hrun|].
  exact (insert_updates_meta log_example 4 [of_Z32 1; of_Z32 0; of_Z32 0] 3
           {| ip_blkid := 0; ip_posid := 2 |} world_one world_two Hrun).
Defined.
(** ** Arrays *)

Lemma aref_tbl {A} (T : list A) (z : Z) (x : A) :
  aref T z = Ok x <-> tbl T z = Some x.
Proof.
  unfold aref, tbl. destruct (z <? 0); [split; discriminate|].
  destruct (T !! Z.to_nat z); split; intros H; inversion H; reflexivity.
Qed.

Lemma tbl_Some_bound {A} (T : list A) (z : Z) (x : A) :
  tbl T z = Some x -> 0 <= z < Z.of_nat (length T).
Proof.
  unfold tbl. destruct (Z.ltb_spec z 0) as [Hz|Hz]; [discriminate|].
  intros H. apply lookup_lt_Some in H. lia.
Qed.

Lemma tbl_in_bound {A} (T : list A) (z : Z) :
  0 <= z < Z.of_nat (length T) -> exists x, tbl T z = Some x.
Proof.
  intros Hz. unfold tbl. destruct (Z.ltb_spec z 0) as [H0|H0]; [lia|].
  destruct (lookup_lt_is_Some_2 T (Z.to_nat z)) as [x Hx]; [lia|]. eauto.
Qed.

Lemma aset_Ok {A} (T T' : list A) (z : Z) (x : A) :
  aset T z x = Ok T' ->
  0 <= z < Z.of_nat (length T)
  /\ length T' = length T
  /\ forall q, tbl T' q = if q =? z then Some x else tbl T q.
Proof.
  unfold aset.
  destruct (Z.leb_spec 0 z) as [H0|H0]; cbn [andb]; [|discriminate].
  destruct (Z.ltb_spec z (Z.of_nat (length T))) as [H1|H1]; [|discriminate].
  intros H. inversion H; subst; clear H.
  split; [lia|]. split; [apply length_insert|].
  intros q. unfold tbl.
  destruct (Z.ltb_spec q 0) as [Hq|Hq].
  - destruct (Z.eqb_spec q z); [lia | reflexivity].
  - destruct (Z.eqb_spec q z) as [->|Hne].
    + apply list_lookup_insert_eq. lia.
    + apply list_lookup_insert_ne. lia.
Qed.

Lemma in_take_drop {A} (T : list A) (c base : Z) (x : A) :
  0 <= base ->
  In x (take (Z.to_nat c) (drop (Z.to_nat base) T))
  <-> exists i, 0 <= i < c /\ tbl T (base + i) = Some x.
Proof.
  intros Hb. rewrite <- list_elem_of_In, list_elem_of_lookup. split.
  - intros [k Hk].
    assert (Hlt : (k < Z.to_nat c)%nat).
    { destruct (Nat.lt_ge_cases k (Z.to_nat c)) as [?|Hge]; [assumption|].
      rewrite lookup_take_ge in Hk by lia. discriminate. }
    rewrite lookup_take_lt in Hk by exact Hlt. rewrite lookup_drop in Hk.
    exists (Z.of_nat k). split; [lia|].
    unfold tbl. destruct (Z.ltb_spec (base + Z.of_nat k) 0); [lia|].
    replace (Z.to_nat (base + Z.of_nat k)) with (Z.to_nat base + k)%nat by lia.
    exact Hk.
  - intros (i & Hi & Ht). exists (Z.to_nat i).
    rewrite lookup_take_lt by lia. rewrite lookup_drop.
    unfold tbl in Ht. destruct (Z.ltb_spec (base + i) 0); [lia|].
    replace (Z.to_nat base + Z.to_nat i)%nat with (Z.to_nat (base + i)) by lia.
    exact Ht.
Qed.

(** ** Removal from one neighbor list *)

Ltac zbool :=
  repeat match goal with
         | |- context [?a <=? ?b] => destruct (Z.leb_spec a b)
         | |- context [?a <? ?b] => destruct (Z.ltb_spec a b)
         | |- context [?a >=? ?b] => destruct (Z.geb_spec a b)
         | |- context [?a >? ?b] => destruct (Z.gtb_spec a b)
         | |- context [?a =? ?b] => destruct (Z.eqb_spec a b)
         end;
  cbn [andb orb negb] in *; try lia.

Lemma get_neighbor_tbl (node : HnswNodeData) (level m i : Z) (b : BlockNumber) :
  get_neighbor node level m i = Ok b
  <-> tbl (node_neighbors node) (level * m * 2 + i) = Some b.
Proof. unfold get_neighbor, neighbor_slot. apply aref_tbl. Qed.

Lemma set_neighbor_Ok (node node' : HnswNodeData) (level m i : Z) (b : BlockNumber) :
  set_neighbor node level m i b = Ok node' ->
  same_but_lists node node'
  /\ node_neighborCount node' = node_neighborCount node
  /\ 0 <= level * m * 2 + i < Z.of_nat (length (node_neighbors node))
  /\ forall q, tbl (node_neighbors node') q
               = if q =? level * m * 2 + i then Some b else tbl (node_neighbors node) q.
Proof.
  unfold set_neighbor, neighbor_slot.
  destruct (aset (node_neighbors node) (level * m * 2 + i) b) as [T'| | |] eqn:E;
    cbn [res_bind]; try discriminate.
  intros H. inversion H; subst; clear H. cbn.
  apply aset_Ok in E. destruct E as (Hb & Hlen & Hq).
  unfold same_but_lists. cbn. repeat split; auto; lia.
Qed.

Lemma set_count_Ok (node node' : HnswNodeData) (level c : Z) :
  set_count node level c = Ok node' ->
  same_but_lists node node'
  /\ node_neighbors node' = node_neighbors node
  /\ 0 <= level < Z.of_nat (length (node_neighborCount node))
  /\ forall q, tbl (node_neighborCount node') q
               = if q =? level then Some c else tbl (node_neighborCount node) q.
Proof.
  unfold set_count.
  destruct (aset (node_neighborCount node) level c) as [T'| | |] eqn:E;
    cbn [res_bind]; try discriminate.
  intros H. inversion H; subst; clear H. cbn.
  apply aset_Ok in E. destruct E as (Hb & Hlen & Hq).
  unfold same_but_lists. cbn. repeat split; auto; lia.
Qed.

Lemma same_but_lists_refl (node : HnswNodeData) : same_but_lists node node.
Proof. unfold same_but_lists. repeat split; reflexivity. Qed.

Lemma same_but_lists_trans (n1 n2 n3 : HnswNodeData) :
  same_but_lists n1 n2 -> same_but_lists n2 n3 -> same_but_lists n1 n3.
Proof.
  unfold same_but_lists. intros (A1 & A2 & A3 & A4 & A5 & A6) (B1 & B2 & B3 & B4 & B5 & B6).
  repeat split; congruence.
Qed.

Lemma res_bind_Ok {A B} (r : res A) (k : A -> res B) (b : B) :
  res_bind r k = Ok b -> exists a, r = Ok a /\ k a = Ok b.
Proof. destruct r; cbn; intros H; try discriminate. eauto. Qed.

Lemma shift_left_Ok (level m c : Z) :
  0 <= level * m * 2 ->
  forall (n : nat) (i : Z) (node node' : HnswNodeData),
    0 <= i ->
    for_res n i
      (fun j node => res_bind (get_neighbor node level m (j + 1))
                              (fun b => set_neighbor node level m j b)) node = Ok node' ->
    same_but_lists node node'
    /\ node_neighborCount node' = node_neighborCount node
    /\ forall p, tbl (node_neighbors node') p
                 = if (level * m * 2 + i <=? p) && (p <? level * m * 2 + i + Z.of_nat n)
                   then tbl (node_neighbors node) (p + 1)
                   else tbl (node_neighbors node) p.
Proof.
  intros HB. induction n as [|n IH]; intros i node node' Hi H.
  - cbn in H. inversion H; subst. split; [apply same_but_lists_refl|].
    split; [reflexivity|]. intros p. zbool; reflexivity.
  - cbn [for_res] in H. apply res_bind_Ok in H. destruct H as (node1 & H1 & H).
    apply res_bind_Ok in H1. destruct H1 as (b & Hb & Hset).
    apply get_neighbor_tbl in Hb. apply set_neighbor_Ok in Hset.
    destruct Hset as (Hs1 & Hc1 & Hbound & Hq1).
    apply IH in H; [|lia]. destruct H as (Hs2 & Hc2 & Hq2).
    split; [eapply same_but_lists_trans; eassumption|].
    split; [congruence|]. intros p. rewrite Hq2, !Hq1.
    zbool; try reflexivity.
    subst p. rewrite <- Hb. f_equal. lia.
Qed.

Lemma remove_loop_done (level m c : Z) (u : BlockNumber) (node x : HnswNodeData) :
  forall (n : nat) (i : Z),
    for_res n i
      (fun i acc =>
         match acc with
         | Some _ => Ok acc
         | None =>
             res_bind (get_neighbor node level m i) (fun b =>
             if b =? u then
               res_bind (shift_left level m i c node) (fun n1 =>
               res_bind (set_neighbor n1 level m (c - 1) InvalidBlockNumber) (fun n2 =>
               res_bind (get_count n2 level) (fun cnt =>
               res_bind (set_count n2 level (int16 (cnt - 1))) (fun n3 =>
               Ok (Some n3)))))
             else Ok None)
         end) (Some x) = Ok (Some x).
Proof. induction n as [|n IH]; intros i; cbn [for_res res_bind]; [reflexivity | apply IH]. Qed.

Lemma remove_found (level m c : Z) (u : BlockNumber) (node n3 : HnswNodeData) (i : Z) :
  0 <= level * m * 2 -> 0 <= i < c ->
  tbl (node_neighbors node) (level * m * 2 + i) = Some u ->
  res_bind (shift_left level m i c node) (fun n1 =>
  res_bind (set_neighbor n1 level m (c - 1) InvalidBlockNumber) (fun n2 =>
  res_bind (get_count n2 level) (fun cnt =>
  res_bind (set_count n2 level (int16 (cnt - 1))) (fun n3 =>
  Ok (Some n3))))) = Ok (Some n3) ->
  removed_at level m c u node n3 i.
Proof.
  intros HB Hi Hu H.
  apply res_bind_Ok in H. destruct H as (n1 & Hshift & H).
  apply res_bind_Ok in H. destruct H as (n2 & Hset & H).
  apply res_bind_Ok in H. destruct H as (cnt & Hcnt & H).
  apply res_bind_Ok in H. destruct H as (n3' & Hsc & H).
  inversion H; subst n3'; clear H.
  unfold shift_left in Hshift.
  apply (shift_left_Ok level m c HB) in Hshift; [|lia].
  destruct Hshift as (S1 & C1 & Q1).
  apply set_neighbor_Ok in Hset. destruct Hset as (S2 & C2 & B2 & Q2).
  apply set_count_Ok in Hsc. destruct Hsc as (S3 & T3 & B3 & Q3).
  unfold get_count in Hcnt. apply aref_tbl in Hcnt.
  assert (Hlen1 : length (node_neighbors n1) = length (node_neighbors node))
    by (destruct S1 as (_ & _ & _ & _ & _ & L); exact L).
  unfold removed_at. split; [exact Hi|]. split; [exact Hu|].
  split; [eapply same_but_lists_trans; [exact S1|];
          eapply same_but_lists_trans; [exact S2 | exact S3]|].
  split; [lia|]. split.
  - intros p. rewrite T3, Q2, Q1.
    replace (level * m * 2 + i + Z.of_nat (Z.to_nat (c - 1 - i)))
      with (level * m * 2 + c - 1) by lia.
    zbool; reflexivity.
  - exists cnt. split; [congruence|]. intros q. rewrite Q3. rewrite C2, C1. reflexivity.
Qed.

Lemma remove_loop_Ok (level m c : Z) (u : BlockNumber) (node : HnswNodeData) :
  0 <= level * m * 2 ->
  forall (n : nat) (i0 : Z) (r : option HnswNodeData),
    0 <= i0 -> i0 + Z.of_nat n = c ->
    for_res n i0
      (fun i acc =>
         match acc with
         | Some _ => Ok acc
         | None =>
             res_bind (get_neighbor node level m i) (fun b =>
             if b =? u then
               res_bind (shift_left level m i c node) (fun n1 =>
               res_bind (set_neighbor n1 level m (c - 1) InvalidBlockNumber) (fun n2 =>
               res_bind (get_count n2 level) (fun cnt =>
               res_bind (set_count n2 level (int16 (cnt - 1))) (fun n3 =>
               Ok (Some n3)))))
             else Ok None)
         end) None = Ok r ->
    match r with
    | None => forall i, i0 <= i < c ->
                exists x, tbl (node_neighbors node) (level * m * 2 + i) = Some x /\ x <> u
    | Some node' =>
        exists i, i0 <= i
                  /\ (forall j, i0 <= j < i ->
                        tbl (node_neighbors node) (level * m * 2 + j) <> Some u)
                  /\ removed_at level m c u node node' i
    end.
Proof.
  intros HB. induction n as [|n IH]; intros i0 r Hi0 Hc H.
  - cbn in H. inversion H; subst. intros i Hi. lia.
  - cbn [for_res] in H. apply res_bind_Ok in H. destruct H as (acc & Hbody & H).
    apply res_bind_Ok in Hbody. destruct Hbody as (b & Hb & Hbody).
    apply get_neighbor_tbl in Hb.
    destruct (Z.eqb_spec b u) as [->|Hne].
    + destruct acc as [n3|];
        [|apply res_bind_Ok in Hbody; destruct Hbody as (? & _ & Hbody);
          apply res_bind_Ok in Hbody; destruct Hbody as (? & _ & Hbody);
          apply res_bind_Ok in Hbody; destruct Hbody as (? & _ & Hbody);
          apply res_bind_Ok in Hbody; destruct Hbody as (? & _ & Hbody);
          discriminate].
      rewrite remove_loop_done in H. inversion H; subst r; clear H.
      exists i0. split; [lia|]. split; [intros j Hj; lia|].
      apply remove_found; [exact HB | lia | exact Hb | exact Hbody].
    + inversion Hbody; subst acc; clear Hbody.
      apply IH in H; [|lia|lia].
      destruct r as [node'|].
      * destruct H as (i & Hi & Hbefore & Hrem). exists i. split; [lia|].
        split; [|exact Hrem]. intros j Hj.
        destruct (Z.eq_dec j i0) as [->|Hji]; [rewrite Hb; congruence | apply Hbefore; lia].
      * intros i Hi. destruct (Z.eq_dec i i0) as [->|Hii]; [eauto | apply H; lia].
Qed.

Lemma remove_from_list_Ok (level m c : Z) (u : BlockNumber) (node : HnswNodeData)
    (r : option HnswNodeData) :
  0 <= level * m * 2 ->
  remove_from_list level m c u node = Ok r ->
  match r with
  | None => forall i, 0 <= i < c ->
              exists x, tbl (node_neighbors node) (level * m * 2 + i) = Some x /\ x <> u
  | Some node' =>
      exists i, (forall j, 0 <= j < i ->
                   tbl (node_neighbors node) (level * m * 2 + j) <> Some u)
                /\ removed_at level m c u node node' i
  end.
Proof.
  intros HB H. unfold remove_from_list in H.
  destruct (Z.le_gt_cases 0 c) as [Hc|Hc].
  - apply (remove_loop_Ok level m c u node HB _ 0 r) in H; [|lia|lia].
    destruct r as [node'|]; [|exact H].
    destruct H as (i & _ & Hb & Hr). exists i. split; assumption.
  - replace (Z.to_nat c) with 0%nat in H by lia. cbn in H. inversion H; subst.
    intros i Hi. lia.
Qed.

(** ** Well-formed nodes and their lists *)

Lemma in_tbl {A} (T : list A) (x : A) : In x T <-> exists q, tbl T q = Some x.
Proof.
  rewrite <- list_elem_of_In, list_elem_of_lookup. split.
  - intros [k Hk]. exists (Z.of_nat k). unfold tbl.
    destruct (Z.ltb_spec (Z.of_nat k) 0); [lia|]. rewrite Nat2Z.id. exact Hk.
  - intros [q Hq]. unfold tbl in Hq. destruct (q <? 0); [discriminate|]. eauto.
Qed.

Lemma node_ok_spec (m : Z) (node : HnswNodeData) :
  node_ok m node = true <->
  0 <= node_level node < HNSW_MAX_LEVEL
  /\ Z.of_nat (length (node_neighborCount node)) = HNSW_MAX_LEVEL
  /\ (forall q c, tbl (node_neighborCount node) q = Some c -> 0 <= c <= m * 2)
  /\ Z.of_nat (length (node_neighbors node)) = (node_level node + 1) * (m * 2).
Proof.
  unfold node_ok. rewrite !andb_true_iff, forallb_forall.
  rewrite Z.leb_le, Z.ltb_lt, !Z.eqb_eq. split.
  - intros ((((H1 & H2) & H3) & H4) & H5). repeat split; try assumption.
    + specialize (H4 c). rewrite in_tbl in H4.
      assert (Hc : (0 <=? c) && (c <=? m * 2) = true) by (apply H4; eauto). lia.
    + specialize (H4 c). rewrite in_tbl in H4.
      assert (Hc : (0 <=? c) && (c <=? m * 2) = true) by (apply H4; eauto). lia.
  - intros ((H1 & H2) & H3 & H4 & H5). repeat split; try assumption.
    intros c Hc. apply in_tbl in Hc. destruct Hc as [q Hq].
    specialize (H4 q c Hq). lia.
Qed.

Lemma int16_small (z : Z) : -32768 <= z < 32768 -> int16 z = z.
Proof.
  intros H. unfold int16. rewrite Z.mod_small by lia. lia.
Qed.

Lemma clamp_in_range (c m level : Z) :
  0 <= m <= 128 -> 0 <= c <= m * 2 -> hnswValidateNeighborCount c m level = c.
Proof.
  intros Hm Hc. unfold hnswValidateNeighborCount. rewrite int16_small by lia.
  zbool; reflexivity.
Qed.

Lemma layer_count_ok (m : Z) (node : HnswNodeData) (level : Z) :
  0 <= m <= 128 -> node_ok m node = true -> 0 <= level < HNSW_MAX_LEVEL ->
  exists raw, tbl (node_neighborCount node) level = Some raw
              /\ layer_count m node level = raw /\ 0 <= raw <= m * 2.
Proof.
  intros Hm Hok Hl. apply node_ok_spec in Hok. destruct Hok as (_ & Hlen & Hc & _).
  destruct (tbl_in_bound (node_neighborCount node) level) as [raw Hraw]; [lia|].
  exists raw. split; [exact Hraw|]. specialize (Hc _ _ Hraw).
  unfold layer_count. rewrite Hraw. cbn [default].
  split; [apply clamp_in_range; assumption | exact Hc].
Qed.

Lemma in_layer_list (m : Z) (node : HnswNodeData) (level : Z) (x : BlockNumber) :
  0 <= level * m * 2 ->
  In x (layer_list m node level) <-> exists i, holds_at m node level x i.
Proof. intros HB. unfold layer_list, holds_at. apply in_take_drop. exact HB. Qed.

(** The effect of a removal on the lists of the node. *)
Section Removed.

Variables (m level : Z) (u : BlockNumber) (node node' : HnswNodeData) (i0 : Z).
Hypothesis Hm : 2 <= m <= 128.
Hypothesis Hlevel : 0 <= level < HNSW_MAX_LEVEL.
Hypothesis Hok : node_ok m node = true.
Hypothesis Hrem : removed_at level m (layer_count m node level) u node node' i0.

Lemma removed_count (l : Z) :
  0 <= l < HNSW_MAX_LEVEL ->
  layer_count m node' l
  = if l =? level then layer_count m node level - 1 else layer_count m node l.
Proof.
  intros Hl. destruct Hrem as (Hi & _ & _ & _ & _ & raw & Hraw & Hq).
  destruct (layer_count_ok m node level ltac:(lia) Hok Hlevel) as (raw' & Hraw' & Hlc & Hr).
  assert (Eraw : raw' = raw) by congruence. rewrite Eraw in *. clear Eraw Hraw'.
  unfold layer_count at 1. rewrite Hq.
  destruct (Z.eqb_spec l level) as [->|Hne].
  - cbn [default]. rewrite int16_small by lia. rewrite Hlc.
    apply clamp_in_range; lia.
  - reflexivity.
Qed.

Lemma removed_node_ok : node_ok m node' = true.
Proof.
  apply node_ok_spec. apply node_ok_spec in Hok as Hspec.
  destruct Hspec as (H1 & H2 & H3 & H4).
  destruct Hrem as (Hi & _ & (_ & Sl & _ & _ & Sc & Sn) & _ & _ & raw & Hraw & Hq).
  destruct (layer_count_ok m node level ltac:(lia) Hok Hlevel) as (raw' & Hraw' & Hlc & Hr).
  assert (Eraw : raw' = raw) by congruence. rewrite Eraw in *. clear Eraw Hraw'.
  rewrite Sl, Sc, Sn. repeat split; try lia.
  - rewrite Hq in H. destruct (q =? level).
    + inversion H; subst. rewrite int16_small by lia. lia.
    + apply (H3 _ _ H).
  - rewrite Hq in H. destruct (q =? level).
    + inversion H; subst. rewrite int16_small by lia. lia.
    + apply (H3 _ _ H).
Qed.

Lemma removed_other_level (l : Z) (x : BlockNumber) (i : Z) :
  0 <= l < HNSW_MAX_LEVEL -> l <> level ->
  holds_at m node' l x i <-> holds_at m node l x i.
Proof.
  intros Hl Hne. unfold holds_at. rewrite (removed_count l Hl).
  destruct (Z.eqb_spec l level); [contradiction|].
  destruct (layer_count_ok m node l ltac:(lia) Hok Hl) as (rl & _ & Hlc & Hrl).
  destruct (layer_count_ok m node level ltac:(lia) Hok Hlevel) as (raw & _ & Hlc' & Hr).
  destruct Hrem as (Hi & _ & _ & _ & Hp & _).
  split; intros [Hb Ht]; (split; [exact Hb|]).
  - rewrite Hp in Ht.
    assert (l * m * 2 + i < level * m * 2 \/ level * m * 2 + m * 2 <= l * m * 2 + i) by nia.
    revert Ht. zbool; auto.
  - rewrite Hp.
    assert (l * m * 2 + i < level * m * 2 \/ level * m * 2 + m * 2 <= l * m * 2 + i) by nia.
    zbool; auto.
Qed.

Lemma removed_same_level (x : BlockNumber) (j : Z) :
  holds_at m node' level x j ->
  (j < i0 /\ holds_at m node level x j) \/ (i0 <= j /\ holds_at m node level x (j + 1)).
Proof.
  unfold holds_at. rewrite (removed_count level Hlevel), Z.eqb_refl.
  destruct Hrem as (Hi & _ & _ & _ & Hp & _).
  intros [Hb Ht]. rewrite Hp in Ht.
  destruct (Z.lt_ge_cases j i0) as [Hlt|Hge].
  - left. split; [exact Hlt|]. split; [lia|]. revert Ht. zbool; auto.
  - right. split; [exact Hge|]. split; [lia|]. revert Ht. zbool.
    intros Ht. rewrite <- Ht. f_equal. lia.
Qed.

Lemma removed_subset (l : Z) (x : BlockNumber) :
  0 <= l < HNSW_MAX_LEVEL ->
  In x (layer_list m node' l) -> In x (layer_list m node l).
Proof.
  intros Hl. rewrite !in_layer_list by nia. intros [j Hj].
  destruct (Z.eq_dec l level) as [->|Hne].
  - apply removed_same_level in Hj. destruct Hj as [[_ H]|[_ H]]; eauto.
  - apply (removed_other_level l x j Hl Hne) in Hj. eauto.
Qed.

Lemma removed_unique (l : Z) (x : BlockNumber) :
  0 <= l < HNSW_MAX_LEVEL -> unique_at m node l x -> unique_at m node' l x.
Proof.
  intros Hl Hu a b Ha Hb.
  destruct (Z.eq_dec l level) as [->|Hne].
  - apply removed_same_level in Ha, Hb.
    destruct Ha as [[La Ha]|[La Ha]]; destruct Hb as [[Lb Hb]|[Lb Hb]];
      specialize (Hu _ _ Ha Hb); lia.
  - apply (removed_other_level l x _ Hl Hne) in Ha, Hb. exact (Hu _ _ Ha Hb).
Qed.

Lemma removed_gone :
  (forall j, 0 <= j < i0 -> tbl (node_neighbors node) (level * m * 2 + j) <> Some u) ->
  unique_at m node level u ->
  ~ In u (layer_list m node' level).
Proof.
  intros Hfirst Hu. rewrite in_layer_list by nia. intros [j Hj].
  assert (H0 : holds_at m node level u i0).
  { destruct Hrem as (Hi & Ht & _). split; assumption. }
  apply removed_same_level in Hj. destruct Hj as [[Lj Hj]|[Lj Hj]].
  - destruct Hj as [Hb Ht]. apply (Hfirst j); [lia | exact Ht].
  - specialize (Hu _ _ Hj H0). lia.
Qed.

End Removed.
(** ** The index under the removal of back links *)

Lemma page_at_pages (w w' : World) (b : BlockNumber) :
  w_pages w' = w_pages w -> page_at w' b = page_at w b.
Proof. intros H. unfold page_at. rewrite H. reflexivity. Qed.

Lemma first_node_at_pages (w w' : World) (b : BlockNumber) :
  w_pages w' = w_pages w -> first_node_at w' b = first_node_at w b.
Proof. intros H. unfold first_node_at. rewrite (page_at_pages w w' b H). reflexivity. Qed.

Lemma valid_block_size (w w' : World) (b : BlockNumber) :
  length (w_pages w') = length (w_pages w) -> valid_block w' b = valid_block w b.
Proof. intros H. unfold valid_block, RelationGetNumberOfBlocks. rewrite H. reflexivity. Qed.

Lemma index_ok_store (w w' : World) :
  w_meta w' = w_meta w -> w_pages w' = w_pages w -> index_ok w' = index_ok w.
Proof.
  intros Hm Hp. unfold index_ok, RelationGetNumberOfBlocks. rewrite Hm, Hp. reflexivity.
Qed.

Lemma ReadBuffer_Ok (b : BlockNumber) (w w' : World) (p : Page) :
  ReadBuffer b w = (Ok p, w') ->
  page_at w b = Some p /\ w_meta w' = w_meta w /\ w_pages w' = w_pages w.
Proof.
  unfold ReadBuffer. destruct (page_at w b) as [p0|]; [|discriminate].
  unfold bind, log, ret. intros H. inversion H; subst. cbn. auto.
Qed.

Lemma get_Ok (w w' a : World) : get w = (Ok a, w') -> a = w /\ w' = w.
Proof. unfold get. intros H. inversion H. auto. Qed.

Lemma get_meta_Ok (w w' : World) (meta : HnswMetaPageData) :
  get_meta w = (Ok meta, w') -> meta = w_meta w /\ w' = w.
Proof. unfold get_meta. intros H. inversion H. auto. Qed.

Lemma ret_Ok {A} (a b : A) (w w' : World) : ret a w = (Ok b, w') -> b = a /\ w' = w.
Proof. unfold ret. intros H. inversion H. auto. Qed.

Lemma validate_Ok (b : BlockNumber) (w w' : World) (v : bool) :
  hnswValidateBlockNumber b w = (Ok v, w') -> v = valid_block w b /\ w' = w.
Proof.
  unfold hnswValidateBlockNumber, bind, get, ret. intros H. inversion H. auto.
Qed.

Lemma page_at_node_block (w : World) (b : BlockNumber) (it : Item) (rest : list Item) :
  page_at w b = Some (PageInit (it :: rest)) ->
  1 <= b < RelationGetNumberOfBlocks w
  /\ w_pages w !! Z.to_nat (b - 1) = Some (PageInit (it :: rest)).
Proof.
  unfold page_at, RelationGetNumberOfBlocks.
  destruct (Z.eqb_spec b 0) as [H0|H0]; [discriminate|].
  destruct (Z.ltb_spec b 0) as [H1|H1]; [discriminate|].
  intros H. split; [|exact H]. apply lookup_lt_Some in H. lia.
Qed.

Lemma page_at_insert (w w' : World) (b b' : BlockNumber) (p : Page) :
  1 <= b < RelationGetNumberOfBlocks w ->
  w_pages w' = <[Z.to_nat (b - 1) := p]> (w_pages w) ->
  page_at w' b' = if b' =? b then Some p else page_at w b'.
Proof.
  unfold RelationGetNumberOfBlocks. intros Hb Hp. unfold page_at. rewrite Hp.
  destruct (Z.eqb_spec b' b) as [->|Hne].
  - destruct (Z.eqb_spec b 0); [lia|]. destruct (Z.ltb_spec b 0); [lia|].
    apply list_lookup_insert_eq. lia.
  - destruct (Z.eqb_spec b' 0); [reflexivity|].
    destruct (Z.ltb_spec b' 0); [reflexivity|].
    apply list_lookup_insert_ne. lia.
Qed.

Lemma write_page_Ok (b : BlockNumber) (p : Page) (w w' : World) :
  write_page b p w = (Ok tt, w') ->
  1 <= b < RelationGetNumberOfBlocks w
  /\ w_meta w' = w_meta w
  /\ w_pages w' = <[Z.to_nat (b - 1) := p]> (w_pages w).
Proof.
  unfold write_page, bind, get, set_pages, lift.
  destruct (Z.leb_spec 1 b) as [H1|H1]; cbn [andb]; [|discriminate].
  destruct (Z.ltb_spec b (RelationGetNumberOfBlocks w)) as [H2|H2]; [|discriminate].
  intros H. inversion H; subst. cbn. auto with zarith.
Qed.

Lemma store_node_Ok (b : BlockNumber) (node' : HnswNodeData) (w w' : World) :
  store_node b FirstOffsetNumber node' w = (Ok tt, w') ->
  exists it rest,
    page_at w b = Some (PageInit (it :: rest))
    /\ 1 <= b < RelationGetNumberOfBlocks w
    /\ w_meta w' = w_meta w
    /\ w_pages w'
       = <[Z.to_nat (b - 1) :=
             PageInit ({| lp_dead := lp_dead it; it_node := node' |} :: rest)]> (w_pages w).
Proof.
  unfold store_node. intros H.
  bind_inv H. apply get_Ok in E. destruct E as [-> ->].
  destruct (page_at w b) as [p|] eqn:Hp; [|discriminate].
  bind_inv H. apply lift_Ok in E. destruct E as [Hit ->].
  bind_inv H. apply lift_Ok in E. destruct E as [Hset ->].
  apply write_page_Ok in H. destruct H as (Hb & Hm & Hw).
  unfold PageGetItem, FirstOffsetNumber in Hit. cbn in Hit.
  destruct p as [|items]; [discriminate|].
  destruct items as [|it rest]; [discriminate|].
  cbn in Hit. inversion Hit; subst a. cbn in Hset. inversion Hset; subst a0.
  exists it, rest. auto.
Qed.

Lemma index_ok_spec (w : World) :
  index_ok w = true <->
  2 <= meta_m (w_meta w) <= 128
  /\ RelationGetNumberOfBlocks w <= InvalidBlockNumber
  /\ forall k p, w_pages w !! k = Some p -> page_ok (meta_m (w_meta w)) p = true.
Proof.
  unfold index_ok, HNSW_MIN_M, HNSW_MAX_M.
  rewrite !andb_true_iff, !Z.leb_le, forallb_forall. split.
  - intros (((H1 & H2) & H3) & H4). repeat split; try assumption.
    intros k p Hk. apply H4. apply list_elem_of_In, list_elem_of_lookup. eauto.
  - intros ((H1 & H2) & H3 & H4). repeat split; try assumption.
    intros p Hp. apply list_elem_of_In, list_elem_of_lookup in Hp.
    destruct Hp as [k Hk]. eauto.
Qed.

Lemma index_ok_page (w : World) (b : BlockNumber) (it : Item) (rest : list Item) :
  index_ok w = true ->
  page_at w b = Some (PageInit (it :: rest)) ->
  rest = [] /\ node_ok (meta_m (w_meta w)) (it_node it) = true.
Proof.
  intros Hok Hp. apply index_ok_spec in Hok. destruct Hok as (_ & _ & Hpages).
  apply page_at_node_block in Hp. destruct Hp as [_ Hp].
  specialize (Hpages _ _ Hp). cbn in Hpages.
  destruct rest; [auto | discriminate].
Qed.

Lemma first_node_at_invalid (w : World) (b : BlockNumber) :
  index_ok w = true -> valid_block w b = false -> first_node_at w b = None.
Proof.
  intros Hok Hv. apply index_ok_spec in Hok. destruct Hok as (_ & Hn & _).
  unfold first_node_at.
  destruct (page_at w b) as [[|[|it rest]]|] eqn:Hp; try reflexivity.
  apply page_at_node_block in Hp. destruct Hp as [Hb _].
  unfold valid_block in Hv. revert Hv. zbool; discriminate.
Qed.

Lemma first_node_at_insert (w w' : World) (b b' : BlockNumber) (it : Item) (rest : list Item) :
  1 <= b < RelationGetNumberOfBlocks w ->
  w_pages w' = <[Z.to_nat (b - 1) := PageInit (it :: rest)]> (w_pages w) ->
  first_node_at w' b' = if b' =? b then Some (it_node it) else first_node_at w b'.
Proof.
  intros Hb Hp. unfold first_node_at.
  rewrite (page_at_insert w w' b b' _ Hb Hp).
  destruct (b' =? b); reflexivity.
Qed.

Lemma same_skeleton_refl (p : option Page) : same_skeleton p p.
Proof.
  destruct p as [[|items]|]; cbn; try reflexivity.
  induction items as [|it items IH]; constructor; [|exact IH].
  split; [reflexivity | apply same_but_lists_refl].
Qed.

Lemma removal_step_same (u : BlockNumber) (w w' : World) :
  w_meta w' = w_meta w -> w_pages w' = w_pages w -> removal_step u w w'.
Proof.
  intros Hm Hp. unfold removal_step.
  split; [exact Hm|]. split; [rewrite Hp; reflexivity|].
  split; [apply page_at_pages; exact Hp|].
  split; [intros b; rewrite (page_at_pages w w' b Hp); apply same_skeleton_refl|].
  intros b node' level Hl Hf Hin. rewrite (first_node_at_pages w w' b Hp) in Hf.
  rewrite Hm in Hin. eauto.
Qed.

Lemma all_unique_same (u : BlockNumber) (w w' : World) :
  w_meta w' = w_meta w -> w_pages w' = w_pages w -> all_unique u w -> all_unique u w'.
Proof.
  intros Hm Hp Hu b node level Hl Hf. rewrite (first_node_at_pages w w' b Hp) in Hf.
  rewrite Hm. exact (Hu b node level Hl Hf).
Qed.

Lemma not_listed_by_same (u : BlockNumber) (w w' : World) (b : BlockNumber) (level : Z) :
  w_meta w' = w_meta w -> w_pages w' = w_pages w ->
  not_listed_by u w b level -> not_listed_by u w' b level.
Proof.
  intros Hm Hp Hn node Hf. rewrite (first_node_at_pages w w' b Hp) in Hf.
  rewrite Hm. exact (Hn node Hf).
Qed.

Lemma remove_neighbor_step (nb u : BlockNumber) (level : Z) (w w' : World) :
  index_ok w = true -> 0 <= level < HNSW_MAX_LEVEL -> nb <> u ->
  hnswRemoveNodeFromNeighbor nb u level w = (Ok tt, w') ->
  index_ok w' = true
  /\ removal_step u w w'
  /\ (all_unique u w -> all_unique u w' /\ not_listed_by u w' nb level).
Proof.
  intros Hok Hlevel Hne H. unfold hnswRemoveNodeFromNeighbor in H.
  assert (Hsame : forall w2, w_meta w2 = w_meta w -> w_pages w2 = w_pages w ->
                    not_listed_by u w nb level ->
                    index_ok w2 = true /\ removal_step u w w2
                    /\ (all_unique u w -> all_unique u w2 /\ not_listed_by u w2 nb level)).
  { intros w2 Hm Hp Hn. split; [rewrite (index_ok_store w w2 Hm Hp); exact Hok|].
    split; [apply removal_step_same; assumption|].
    intros Hu. split; [eapply all_unique_same; eassumption|].
    eapply not_listed_by_same; eassumption. }
  step H as valid wv E. apply validate_Ok in E. destruct E as [-> ->].
  destruct (valid_block w nb) eqn:Hv; cbn [negb] in H.
  2:{ apply ret_Ok in H. destruct H as [_ ->]. apply Hsame; try reflexivity.
      intros node Hf. rewrite (first_node_at_invalid w nb Hok Hv) in Hf. discriminate. }
  assert (Hlv : hnswValidateLevelSafe level = true).
  { unfold hnswValidateLevelSafe. zbool; reflexivity. }
  rewrite Hlv in H. cbn [negb] in H.
  step H as page w0 E. apply ReadBuffer_Ok in E. destruct E as (Hpage & Hm1 & Hp1).
  destruct (PageIsEmpty page) eqn:Hempty.
  { apply ret_Ok in H. destruct H as [_ ->]. apply Hsame; try assumption.
    intros node Hf. unfold first_node_at in Hf. rewrite Hpage in Hf.
    destruct page as [|[|it rest]]; discriminate. }
  destruct page as [|[|it rest]]; try discriminate. clear Hempty.
  destruct (index_ok_page w nb it rest Hok Hpage) as [-> Hnode].
  step H as neighbor wn E. apply lift_Ok in E. destruct E as [E ->].
  cbn in E. inversion E; subst neighbor; clear E.
  assert (Hlevel_nb : hnswValidateLevelSafe (node_level (it_node it)) = true).
  { apply node_ok_spec in Hnode. destruct Hnode as (Hl & _).
    unfold hnswValidateLevelSafe. zbool; reflexivity. }
  rewrite Hlevel_nb in H. cbn [negb] in H.
  step H as mp w1 E. apply ReadBuffer_Ok in E. destruct E as (_ & Hm2 & Hp2).
  step H as meta wm E. apply get_meta_Ok in E. destruct E as [-> ->].
  step H as cnt wc E. apply lift_Ok in E. destruct E as [Hcnt ->].
  unfold get_count in Hcnt. apply aref_tbl in Hcnt.
  step H as r wr E. apply lift_Ok in E. destruct E as [Hrem ->].
  assert (Hm : w_meta w1 = w_meta w) by congruence.
  assert (Hp : w_pages w1 = w_pages w) by congruence.
  rewrite Hm in *.
  assert (Hidx : index_ok w = true) by exact Hok.
  apply index_ok_spec in Hidx. destruct Hidx as (Hmr & Hn & Hpages).
  set (m := meta_m (w_meta w)) in *.
  assert (Hc : hnswValidateNeighborCount cnt m level = layer_count m (it_node it) level).
  { unfold layer_count. rewrite Hcnt. reflexivity. }
  rewrite Hc in Hrem.
  assert (HB : 0 <= level * m * 2) by nia.
  apply (remove_from_list_Ok level m _ u (it_node it) r HB) in Hrem.
  destruct r as [node'|].
  2:{ apply ret_Ok in H. destruct H as [_ ->]. apply Hsame; try assumption.
      intros node Hf. unfold first_node_at in Hf. rewrite Hpage in Hf.
      inversion Hf; subst node; clear Hf. fold m.
      rewrite in_layer_list by exact HB. intros [i [Hi Ht]].
      destruct (Hrem i Hi) as (x & Hx & Hxu). congruence. }
  destruct Hrem as (i0 & Hfirst & Hrem).
  apply store_node_Ok in H. destruct H as (it1 & rest1 & Hpage1 & Hb & Hm3 & Hp3).
  rewrite (page_at_pages w w1 nb Hp) in Hpage1. rewrite Hpage in Hpage1.
  inversion Hpage1; subst it1 rest1; clear Hpage1.
  rewrite Hp in Hp3.
  assert (Hb' : 1 <= nb < RelationGetNumberOfBlocks w).
  { unfold RelationGetNumberOfBlocks in *. rewrite Hp in Hb. exact Hb. }
  assert (Hmeta' : w_meta w' = w_meta w) by congruence.
  pose proof (removed_node_ok m level u (it_node it) node' i0 Hmr Hlevel Hnode Hrem) as Hok'.
  assert (Hfn : forall b, first_node_at w' b
                          = if b =? nb then Some node' else first_node_at w b).
  { intros b. apply (first_node_at_insert w w' nb b _ [] Hb' Hp3). }
  split; [|split].
  - apply index_ok_spec. rewrite Hmeta'. fold m.
    split; [exact Hmr|]. split.
    + unfold RelationGetNumberOfBlocks in *. rewrite Hp3, length_insert. exact Hn.
    + intros k p Hk. rewrite Hp3 in Hk.
      destruct (Nat.eq_dec k (Z.to_nat (nb - 1))) as [->|Hk'].
      * rewrite list_lookup_insert_eq in Hk
          by (unfold RelationGetNumberOfBlocks in Hb'; lia).
        inversion Hk; subst p. exact Hok'.
      * rewrite list_lookup_insert_ne in Hk by auto. exact (Hpages k p Hk).
  - unfold removal_step. split; [exact Hmeta'|].
    split; [rewrite Hp3; apply length_insert|].
    split; [rewrite (page_at_insert w w' nb u _ Hb' Hp3);
            destruct (Z.eqb_spec u nb); [congruence | reflexivity]|].
    split.
    + intros b. rewrite (page_at_insert w w' nb b _ Hb' Hp3).
      destruct (Z.eqb_spec b nb) as [->|Hbn]; [|apply same_skeleton_refl].
      rewrite Hpage. cbn. constructor; [|constructor].
      cbn. split; [reflexivity|]. destruct Hrem as (_ & _ & S & _). exact S.
    + intros b nd lv Hlv' Hf Hin. rewrite Hfn in Hf. rewrite Hmeta' in Hin. fold m in Hin.
      destruct (Z.eqb_spec b nb) as [->|Hbn].
      * inversion Hf; subst nd. exists (it_node it).
        split; [unfold first_node_at; rewrite Hpage; reflexivity|].
        fold m. exact (removed_subset m level u (it_node it) node' i0 Hmr Hlevel Hnode Hrem
                         lv u Hlv' Hin).
      * exists nd. split; [exact Hf | exact Hin].
  - intros Hu. split.
    + intros b nd lv Hlv' Hf. rewrite Hfn in Hf. rewrite Hmeta'. fold m.
      destruct (Z.eqb_spec b nb) as [->|Hbn].
      * inversion Hf; subst nd.
        apply (removed_unique m level u (it_node it) node' i0 Hmr Hlevel Hnode Hrem lv u Hlv').
        apply (Hu nb (it_node it) lv Hlv').
        unfold first_node_at. rewrite Hpage. reflexivity.
      * exact (Hu b nd lv Hlv' Hf).
    + intros nd Hf. rewrite Hfn, Z.eqb_refl in Hf. inversion Hf; subst nd.
      rewrite Hmeta'. fold m.
      apply (removed_gone m level u (it_node it) node' i0 Hmr Hlevel Hnode Hrem Hfirst).
      apply (Hu nb (it_node it) level Hlevel).
      unfold first_node_at. rewrite Hpage. reflexivity.
Qed.

Lemma same_skeleton_trans (p1 p2 p3 : option Page) :
  same_skeleton p1 p2 -> same_skeleton p2 p3 -> same_skeleton p1 p3.
Proof.
  destruct p1 as [[|i1]|], p2 as [[|i2]|], p3 as [[|i3]|]; cbn;
    intros H12 H23; try congruence; try discriminate.
  revert i3 H23. induction H12 as [|a b l1 l2 [Hd Hs] _ IH]; intros i3 H23.
  - inversion H23. constructor.
  - inversion H23 as [|b' c l2' l3 [Hd' Hs'] Hrest]; subst. constructor.
    + split; [congruence | eapply same_but_lists_trans; eassumption].
    + apply IH. exact Hrest.
Qed.

Lemma removal_step_trans (u : BlockNumber) (w1 w2 w3 : World) :
  removal_step u w1 w2 -> removal_step u w2 w3 -> removal_step u w1 w3.
Proof.
  intros (M1 & L1 & P1 & K1 & S1) (M2 & L2 & P2 & K2 & S2). unfold removal_step.
  split; [congruence|]. split; [congruence|]. split; [congruence|]. split.
  - intros b. eapply same_skeleton_trans; [apply K1 | apply K2].
  - intros b node3 level Hl Hf Hin.
    destruct (S2 b node3 level Hl Hf Hin) as (node2 & Hf2 & Hin2).
    exact (S1 b node2 level Hl Hf2 Hin2).
Qed.

Lemma removal_step_refl (u : BlockNumber) (w : World) : removal_step u w w.
Proof. apply removal_step_same; reflexivity. Qed.

Lemma not_listed_by_step (u : BlockNumber) (w w' : World) (b : BlockNumber) (level : Z) :
  0 <= level < HNSW_MAX_LEVEL ->
  removal_step u w w' -> not_listed_by u w b level -> not_listed_by u w' b level.
Proof.
  intros Hl (_ & _ & _ & _ & Sub) Hn node' Hf Hin.
  destruct (Sub b node' level Hl Hf Hin) as (node & Hf0 & Hin0).
  exact (Hn node Hf0 Hin0).
Qed.

Lemma node_at_Ok (b : BlockNumber) (o : Z) (w w' : World) (node : HnswNodeData) :
  node_at b o w = (Ok node, w') ->
  w' = w /\ exists p it, page_at w b = Some p /\ PageGetItem p o = Ok it
                         /\ node = it_node it.
Proof.
  unfold node_at. intros H.
  step H as w0 w1 E. apply get_Ok in E. destruct E as [-> ->].
  destruct (page_at w b) as [p|]; [|discriminate].
  step H as it w1 E. apply lift_Ok in E. destruct E as [Hit ->].
  apply ret_Ok in H. destruct H as [-> ->].
  split; [reflexivity|]. exists p, it. auto.
Qed.

Lemma node_at_stable (b : BlockNumber) (o : Z) (w0 w w' : World) (U node : HnswNodeData) :
  page_at w b = page_at w0 b ->
  node_at b o w0 = (Ok U, w0) ->
  node_at b o w = (Ok node, w') ->
  node = U /\ w' = w.
Proof.
  intros Hp H0 H. apply node_at_Ok in H0, H.
  destruct H0 as (_ & p0 & it0 & Hp0 & Hi0 & ->).
  destruct H as (-> & p & it & Hp1 & Hi & ->).
  rewrite Hp, Hp0 in Hp1. inversion Hp1; subst p. rewrite Hi0 in Hi.
  inversion Hi; subst. auto.
Qed.

(** A loop on the unit state whose body never breaks keeps an invariant
    indexed by the loop counter. *)
Lemma for_up_invariant (Inv : Z -> World -> Prop) (body : Z -> unit -> M (ctl unit))
    (lo hi : Z) :
  (forall i w r w', lo <= i < hi -> Inv i w -> body i tt w = (Ok r, w') ->
                    r = Next tt /\ Inv (i + 1) w') ->
  forall (n : nat) (i : Z) (w w' : World),
    lo <= i -> i + Z.of_nat n <= hi ->
    Inv i w -> for_up n i body tt w = (Ok tt, w') -> Inv (i + Z.of_nat n) w'.
Proof.
  intros Hbody. induction n as [|n IH]; intros i w w' Hlo Hhi Hinv H.
  - cbn in H. apply ret_Ok in H. destruct H as [_ ->].
    replace (i + Z.of_nat 0) with i by lia. exact Hinv.
  - cbn [for_up] in H. step H as r w1 E.
    destruct (Hbody i w r w1 ltac:(lia) Hinv E) as [-> Hinv1].
    apply IH in H; [|lia|lia|exact Hinv1].
    replace (i + Z.of_nat (S n)) with (i + 1 + Z.of_nat n) by lia. exact H.
Qed.

Section BackLinks.

Variables (w0 : World) (u : BlockNumber) (o : Z) (U : HnswNodeData).
Hypothesis Hok0 : index_ok w0 = true.
Hypothesis HU : node_at u o w0 = (Ok U, w0).
Hypothesis Hself :
  forall level, 0 <= level <= node_level U ->
                ~ In u (layer_list (meta_m (w_meta w0)) U level).

Let m := meta_m (w_meta w0).

(** What holds of every state reached while the back links are removed. *)
Let reached (w : World) : Prop :=
  index_ok w = true /\ removal_step u w0 w /\ (all_unique u w0 -> all_unique u w).

Lemma U_is_ok : node_ok m U = true /\ 0 <= node_level U < HNSW_MAX_LEVEL /\ 2 <= m <= 128.
Proof.
  apply node_at_Ok in HU. destruct HU as (_ & p & it & Hp & Hit & ->).
  unfold PageGetItem in Hit. apply aref_tbl in Hit.
  destruct p as [|items]; [cbn in Hit; unfold tbl in Hit;
                           destruct (o - 1 <? 0); discriminate|].
  destruct items as [|it0 rest];
    [cbn in Hit; unfold tbl in Hit; destruct (o - 1 <? 0); discriminate|].
  destruct (index_ok_page w0 u it0 rest Hok0 Hp) as [-> Hnode].
  cbn in Hit. unfold tbl in Hit. destruct (o - 1 <? 0); [discriminate|].
  destruct (Z.to_nat (o - 1)) as [|k]; [|discriminate].
  cbn in Hit. inversion Hit; subst it0.
  split; [exact Hnode|]. apply node_ok_spec in Hnode as (Hl & _).
  split; [exact Hl|]. apply index_ok_spec in Hok0. tauto.
Qed.

Lemma reached_node (w w' : World) (node : HnswNodeData) :
  reached w -> node_at u o w = (Ok node, w') -> node = U /\ w' = w.
Proof.
  intros (_ & (_ & _ & Hp & _) & _) H. exact (node_at_stable u o w0 w w' U node Hp HU H).
Qed.

Lemma reached_meta (w : World) : reached w -> meta_m (w_meta w) = m.
Proof. intros (_ & (Hm & _) & _). unfold m. rewrite Hm. reflexivity. Qed.

Lemma remove_one_neighbor (level i : Z) (w w' : World) (r : ctl unit) :
  0 <= level <= node_level U ->
  0 <= i < layer_count m U level ->
  reached w ->
  (node <- node_at u o ;;
   nb <- lift (get_neighbor node level m i) ;;
   if nb =? InvalidBlockNumber then ret (Next tt)
   else
     valid <- hnswValidateBlockNumber nb ;;
     if valid
     then hnswRemoveNodeFromNeighbor nb u level ;;; ret (Next tt)
     else ret (Next tt)) w = (Ok r, w') ->
  r = Next tt /\ reached w' /\ removal_step u w w'
  /\ (all_unique u w0 ->
      forall x, holds_at m U level x i -> not_listed_by u w' x level).
Proof.
  intros Hlevel Hi Hre H.
  destruct U_is_ok as (HUok & HUl & Hm).
  assert (Hl16 : 0 <= level < HNSW_MAX_LEVEL) by lia.
  step H as node w1 E1. destruct (reached_node w w1 node Hre E1) as [-> ->]. clear E1.
  step H as nb w1 E2. apply lift_Ok in E2. destruct E2 as [Hnb ->].
  apply get_neighbor_tbl in Hnb.
  assert (Hkeep : forall w2, w_meta w2 = w_meta w -> w_pages w2 = w_pages w ->
                    first_node_at w nb = None ->
                    reached w2 /\ removal_step u w w2
                    /\ (all_unique u w0 ->
                        forall x, holds_at m U level x i -> not_listed_by u w2 x level)).
  { intros w2 Hm2 Hp2 Hnone. destruct Hre as (Hok & Hstep & Huniq). split; [|split].
    - split; [rewrite (index_ok_store w w2 Hm2 Hp2); exact Hok|].
      split; [eapply removal_step_trans; [exact Hstep | apply removal_step_same; assumption]|].
      intros H0. eapply all_unique_same; eauto.
    - apply removal_step_same; assumption.
    - intros _ x [_ Hx] node Hf. rewrite Hnb in Hx. inversion Hx; subst x.
      rewrite (first_node_at_pages w w2 nb Hp2), Hnone in Hf. discriminate. }
  destruct (Z.eqb_spec nb InvalidBlockNumber) as [Hinv|Hinv].
  { apply ret_Ok in H. destruct H as [-> ->]. split; [reflexivity|].
    apply Hkeep; try reflexivity.
    apply first_node_at_invalid; [apply Hre|].
    unfold valid_block. subst nb. rewrite Z.eqb_refl. reflexivity. }
  step H as valid w1 E3. apply validate_Ok in E3. destruct E3 as [-> ->].
  destruct (valid_block w nb) eqn:Hv.
  2:{ apply ret_Ok in H. destruct H as [-> ->]. split; [reflexivity|].
      apply Hkeep; try reflexivity. apply first_node_at_invalid; [apply Hre | exact Hv]. }
  step H as t w1 E4. destruct t. apply ret_Ok in H. destruct H as [-> <-].
  split; [reflexivity|].
  destruct Hre as (Hok & Hstep & Huniq).
  assert (Hne : nb <> u).
  { intros ->. apply (Hself level Hlevel). fold m.
    apply in_layer_list; [nia|]. exists i. split; assumption. }
  destruct (remove_neighbor_step nb u level w w' Hok Hl16 Hne E4) as (Hok' & Hstep' & Hu').
  split; [|split].
  - split; [exact Hok'|]. split; [eapply removal_step_trans; eassumption|].
    intros H0. apply Hu'. apply Huniq. exact H0.
  - exact Hstep'.
  - intros H0 x [_ Hx]. rewrite Hnb in Hx. inversion Hx; subst x.
    apply Hu'. apply Huniq. exact H0.
Qed.

Lemma remove_level (level : Z) (w w' : World) (r : ctl unit) :
  0 <= level <= node_level U ->
  reached w ->
  (node <- node_at u o ;;
   cnt <- lift (get_count node level) ;;
   let neighborCount := hnswValidateNeighborCount cnt m level in
   forZ 0 neighborCount (fun i _ =>
     node <- node_at u o ;;
     nb <- lift (get_neighbor node level m i) ;;
     if nb =? InvalidBlockNumber then ret (Next tt)
     else
       valid <- hnswValidateBlockNumber nb ;;
       if valid
       then hnswRemoveNodeFromNeighbor nb u level ;;; ret (Next tt)
       else ret (Next tt)) tt ;;;
   ret (Next tt)) w = (Ok r, w') ->
  r = Next tt /\ reached w' /\ removal_step u w w'
  /\ (all_unique u w0 ->
      forall x i, holds_at m U level x i -> not_listed_by u w' x level).
Proof.
  intros Hlevel Hre H.
  destruct U_is_ok as (HUok & HUl & Hm).
  assert (Hl16 : 0 <= level < HNSW_MAX_LEVEL) by lia.
  step H as node w1 E1. destruct (reached_node w w1 node Hre E1) as [-> ->]. clear E1.
  step H as cnt w1 E2. apply lift_Ok in E2. destruct E2 as [Hcnt ->].
  unfold get_count in Hcnt. apply aref_tbl in Hcnt.
  assert (Hc : hnswValidateNeighborCount cnt m level = layer_count m U level).
  { unfold layer_count. rewrite Hcnt. reflexivity. }
  cbv zeta in H. rewrite Hc in H.
  assert (Hc0 : 0 <= layer_count m U level).
  { destruct (layer_count_ok m U level ltac:(lia) HUok Hl16) as (raw & _ & Hlc & Hraw). lia. }
  step H as t w1 E3. destruct t. apply ret_Ok in H. destruct H as [-> <-].
  split; [reflexivity|].
  unfold forZ in E3.
  pose (Inv := fun (i : Z) (wa : World) =>
    reached wa /\ removal_step u w wa
    /\ (all_unique u w0 ->
        forall x j, 0 <= j < i -> holds_at m U level x j -> not_listed_by u wa x level)).
  assert (Hend : Inv (0 + Z.of_nat (Z.to_nat (layer_count m U level - 0))) w').
  { refine (for_up_invariant Inv _ 0 (layer_count m U level) _ _ 0 w w' _ _ _ E3).
    - intros i wa ra wb Hi (Hra & Hsa & Hpa) Hrun.
      destruct (remove_one_neighbor level i wa wb ra Hlevel Hi Hra Hrun)
        as (-> & Hrb & Hsb & Hnew).
      split; [reflexivity|]. split; [exact Hrb|].
      split; [eapply removal_step_trans; eassumption|].
      intros H0 x j Hj Hx. destruct (Z.eq_dec j i) as [->|Hji].
      + exact (Hnew H0 x Hx).
      + apply (not_listed_by_step u wa wb x level Hl16 Hsb).
        apply (Hpa H0 x j); [lia | exact Hx].
    - lia.
    - lia.
    - split; [exact Hre|]. split; [apply removal_step_refl|]. intros _ x j Hj. lia. }
  destruct Hend as (Hre' & Hs' & Hall). split; [exact Hre'|]. split; [exact Hs'|].
  intros H0 x i Hx. apply (Hall H0 x i); [|exact Hx].
  destruct Hx as [Hi _]. lia.
Qed.

Lemma remove_back_links_reached (w1 : World) :
  remove_back_links u o w0 = (Ok tt, w1) ->
  reached w1
  /\ (all_unique u w0 ->
      forall level x i, 0 <= level <= node_level U -> holds_at m U level x i ->
                        not_listed_by u w1 x level).
Proof.
  intros H. unfold remove_back_links in H.
  destruct U_is_ok as (HUok & HUl & Hm).
  assert (Hre0 : reached w0).
  { split; [exact Hok0|]. split; [apply removal_step_refl | auto]. }
  step H as node wa E1. destruct (reached_node w0 wa node Hre0 E1) as [-> ->]. clear E1.
  step H as meta wa E2. apply get_meta_Ok in E2. destruct E2 as [-> ->]. fold m in H.
  unfold forZ in H.
  pose (Inv := fun (l : Z) (wa : World) =>
    reached wa
    /\ (all_unique u w0 ->
        forall level x i, 0 <= level < l -> holds_at m U level x i ->
                          not_listed_by u wa x level)).
  assert (Hend : Inv (0 + Z.of_nat (Z.to_nat (node_level U + 1 - 0))) w1).
  { refine (for_up_invariant Inv _ 0 (node_level U + 1) _ _ 0 w0 w1 _ _ _ H).
    - intros l wa ra wb Hl (Hra & Hpa) Hrun.
      destruct (remove_level l wa wb ra ltac:(lia) Hra Hrun) as (-> & Hrb & Hsb & Hnew).
      split; [reflexivity|]. split; [exact Hrb|].
      intros H0 level x i Hlv Hx. destruct (Z.eq_dec level l) as [->|Hne].
      + exact (Hnew H0 x i Hx).
      + apply (not_listed_by_step u wa wb x level ltac:(lia) Hsb).
        apply (Hpa H0 level x i); [lia | exact Hx].
    - lia.
    - lia.
    - split; [exact Hre0|]. intros _ level x i Hlv. lia. }
  destruct Hend as (Hre1 & Hall). split; [exact Hre1|].
  intros H0 level x i Hlv Hx. apply (Hall H0 level x i); [lia | exact Hx].
Qed.

End BackLinks.

(** ** The replacement of the entry point in hnswbulkdelete *)

Lemma first_valid_app (w : World) (l1 l2 : list BlockNumber) :
  first_valid w (l1 ++ l2)
  = match first_valid w l1 with
    | Some r => Some r
    | None => first_valid w l2
    end.
Proof.
  induction l1 as [|b l1 IH]; cbn; [reflexivity|].
  destruct (entry_candidate w b); [reflexivity | exact IH].
Qed.

Lemma entry_candidate_store (w w' : World) (b : BlockNumber) :
  w_pages w' = w_pages w -> entry_candidate w' b = entry_candidate w b.
Proof.
  intros Hp. unfold entry_candidate.
  rewrite (valid_block_size w w' b) by (rewrite Hp; reflexivity).
  rewrite (first_node_at_pages w w' b Hp). reflexivity.
Qed.

Lemma set_meta_Ok (meta : HnswMetaPageData) (w w' : World) :
  set_meta meta w = (Ok tt, w') -> w_meta w' = meta /\ w_pages w' = w_pages w.
Proof. unfold set_meta. intros H. inversion H; subst. cbn. auto. Qed.


Section ReplaceEntry.

Variables (w0 : World) (u : BlockNumber) (o : Z) (U : HnswNodeData).
Hypothesis HU : node_at u o w0 = (Ok U, w0).

Let m := meta_m (w_meta w0).

(** The states the scan goes through: the pages of [w0], and a meta page
    that differs from that of [w0] in its entry at most. *)
Let scanning (w : World) : Prop :=
  w_pages w = w_pages w0 /\ meta_m (w_meta w) = m.

Lemma scanning_node (w w' : World) (node : HnswNodeData) :
  scanning w -> node_at u o w = (Ok node, w') -> node = U /\ w' = w.
Proof.
  intros [Hp _] H.
  exact (node_at_stable u o w0 w w' U node (page_at_pages w0 w u Hp) HU H).
Qed.

Lemma replace_entry_slot_found (level i : Z) (w w' : World) (r : ctl bool) :
  replace_entry_slot u o level i true w = (Ok r, w') -> r = Break true /\ w' = w.
Proof. unfold replace_entry_slot. intros H. apply ret_Ok in H. exact H. Qed.

Lemma replace_entry_slot_Ok (level i : Z) (w w' : World) (r : ctl bool) :
  scanning w ->
  replace_entry_slot u o level i false w = (Ok r, w') ->
  exists nb, tbl (node_neighbors U) (level * m * 2 + i) = Some nb
             /\ w_pages w' = w_pages w
             /\ match entry_candidate w0 nb with
                | Some l => r = Next true /\ w_meta w' = with_entry (w_meta w) nb l
                | None => r = Next false /\ w_meta w' = w_meta w
                end.
Proof.
  intros Hsc H. unfold replace_entry_slot in H.
  step H as node w1 E1. destruct (scanning_node w w1 node Hsc E1) as [-> ->]. clear E1.
  step H as meta w1 E2. apply get_meta_Ok in E2. destruct E2 as [-> ->].
  destruct Hsc as [Hp Hm]. rewrite Hm in H.
  step H as nb w1 E3. apply lift_Ok in E3. destruct E3 as [Hnb ->].
  apply get_neighbor_tbl in Hnb. exists nb. split; [exact Hnb|].
  rewrite <- (entry_candidate_store w0 w nb Hp). unfold entry_candidate.
  destruct (Z.eqb_spec nb InvalidBlockNumber) as [Hinv|Hinv].
  { apply ret_Ok in H. destruct H as [-> ->]. auto. }
  step H as valid w1 E4. apply validate_Ok in E4. destruct E4 as [-> ->].
  destruct (valid_block w nb); cbn [negb] in H |- *.
  2:{ apply ret_Ok in H. destruct H as [-> ->]. auto. }
  step H as tmpPage w1 E5. apply ReadBuffer_Ok in E5. destruct E5 as (Hpage & Hm1 & Hp1).
  unfold first_node_at. rewrite Hpage.
  destruct tmpPage as [|[|it rest]]; cbn [PageIsEmpty] in H.
  1,2: apply ret_Ok in H; destruct H as [-> ->]; auto.
  step H as tmpNode w2 E6. apply lift_Ok in E6. destruct E6 as [E6 ->].
  cbn in E6. inversion E6; subst tmpNode; clear E6.
  destruct (hnswValidateLevelSafe (node_level (it_node it))).
  - step H as t w2 E7. destruct t. apply set_meta_Ok in E7. destruct E7 as [Hm7 Hp7].
    apply ret_Ok in H. destruct H as [-> ->].
    split; [congruence|]. split; [reflexivity | exact Hm7].
  - apply ret_Ok in H. destruct H as [-> ->]. auto.
Qed.

Lemma scan_slots (level : Z) :
  0 <= level * m * 2 ->
  forall (n : nat) (i : Z) (w w' : World) (f : bool),
    0 <= i ->
    scanning w ->
    for_up n i (replace_entry_slot u o level) false w = (Ok f, w') ->
    entry_scan_result w0 (take n (drop (Z.to_nat (level * m * 2 + i)) (node_neighbors U)))
                      (w_meta w) f w'
    /\ w_pages w' = w_pages w.
Proof.
  intros HB. induction n as [|n IH]; intros i w w' f Hi Hsc H.
  - cbn in H. apply ret_Ok in H. destruct H as [-> ->].
    unfold entry_scan_result. rewrite take_0. cbn. destruct Hsc as [Hp _]. auto.
  - cbn [for_up] in H. step H as r w1 E.
    destruct (replace_entry_slot_Ok level i w w1 r Hsc E) as (nb & Hnb & Hp1 & Hres).
    assert (Hdrop : drop (Z.to_nat (level * m * 2 + i)) (node_neighbors U)
                    = nb :: drop (Z.to_nat (level * m * 2 + (i + 1))) (node_neighbors U)).
    { unfold tbl in Hnb. destruct (Z.ltb_spec (level * m * 2 + i) 0); [lia|].
      rewrite (drop_S _ nb _ Hnb). f_equal. f_equal. lia. }
    rewrite Hdrop. cbn [take]. unfold entry_scan_result. cbn [first_valid].
    destruct (entry_candidate w0 nb) as [l|].
    + destruct Hres as [-> Hm1].
      destruct n as [|n]; cbn [for_up] in H.
      * apply ret_Ok in H. destruct H as [-> ->].
        destruct Hsc as [Hp _]. repeat split; congruence.
      * step H as r2 w2 E2. apply replace_entry_slot_found in E2. destruct E2 as [-> ->].
        apply ret_Ok in H. destruct H as [-> ->].
        destruct Hsc as [Hp _]. repeat split; congruence.
    + destruct Hres as [-> Hm1].
      assert (Hsc1 : scanning w1).
      { destruct Hsc as [Hp Hmm]. split; congruence. }
      destruct (IH (i + 1) w1 w' f ltac:(lia) Hsc1 H) as [Hr Hp2].
      unfold entry_scan_result in Hr. rewrite Hm1 in Hr.
      split; [exact Hr | congruence].
Qed.

Hypothesis Hm0 : 0 <= m.

Lemma replace_entry_level_found (level : Z) (w w' : World) (r : ctl bool) :
  replace_entry_level u o level true w = (Ok r, w') -> r = Break true /\ w' = w.
Proof. unfold replace_entry_level. intros H. apply ret_Ok in H. exact H. Qed.

Lemma replace_entry_level_Ok (level : Z) (w w' : World) (r : ctl bool) :
  0 <= level ->
  scanning w ->
  replace_entry_level u o level false w = (Ok r, w') ->
  exists f, r = Next f
            /\ entry_scan_result w0 (layer_list m U level) (w_meta w) f w'
            /\ w_pages w' = w_pages w.
Proof.
  intros Hl Hsc H. unfold replace_entry_level in H.
  step H as node w1 E1. destruct (scanning_node w w1 node Hsc E1) as [-> ->]. clear E1.
  step H as meta w1 E2. apply get_meta_Ok in E2. destruct E2 as [-> ->].
  destruct Hsc as [Hp Hm]. rewrite Hm in H.
  step H as cnt w1 E3. apply lift_Ok in E3. destruct E3 as [Hcnt ->].
  unfold get_count in Hcnt. apply aref_tbl in Hcnt.
  assert (Hc : hnswValidateNeighborCount cnt m level = layer_count m U level).
  { unfold layer_count. rewrite Hcnt. reflexivity. }
  cbv zeta in H. rewrite Hc in H.
  step H as f w1 E4. apply ret_Ok in H. destruct H as [-> <-].
  exists f. split; [reflexivity|].
  unfold forZ in E4. rewrite Z.sub_0_r in E4.
  assert (HB : 0 <= level * m * 2) by nia.
  destruct (scan_slots level HB _ 0 w w' f ltac:(lia) (conj Hp Hm) E4) as [Hr Hp'].
  rewrite Z.add_0_r in Hr. split; [exact Hr | exact Hp'].
Qed.

Lemma scan_levels :
  forall (n : nat) (level : Z) (w w' : World) (f : bool),
    Z.of_nat n <= level + 1 ->
    scanning w ->
    for_down n level (replace_entry_level u o) false w = (Ok f, w') ->
    entry_scan_result w0
      (flat_map (layer_list m U) (map (fun k => level - Z.of_nat k) (seq 0 n)))
      (w_meta w) f w'.
Proof.
  induction n as [|n IH]; intros level w w' f Hn Hsc H.
  - cbn in H. apply ret_Ok in H. destruct H as [-> ->].
    unfold entry_scan_result. cbn. destruct Hsc as [Hp _]. auto.
  - cbn [for_down] in H. step H as r w1 E.
    destruct (replace_entry_level_Ok level w w1 r ltac:(lia) Hsc E)
      as (f1 & -> & [Hp1 Hr1] & _).
    cbn [seq map flat_map]. rewrite Z.sub_0_r.
    rewrite <- seq_shift, map_map.
    assert (Hmap : map (fun k => level - Z.of_nat (S k)) (seq 0 n)
                   = map (fun k => level - 1 - Z.of_nat k) (seq 0 n)).
    { apply map_ext. intros k. lia. }
    rewrite Hmap. unfold entry_scan_result. rewrite first_valid_app.
    destruct (first_valid w0 (layer_list m U level)) as [[b l]|].
    + destruct Hr1 as [-> Hm1].
      destruct n as [|n]; cbn [for_down] in H.
      * apply ret_Ok in H. destruct H as [-> ->]. auto.
      * step H as r2 w2 E2. apply replace_entry_level_found in E2. destruct E2 as [-> ->].
        apply ret_Ok in H. destruct H as [-> ->]. auto.
    + destruct Hr1 as [-> Hm1].
      assert (Hsc1 : scanning w1).
      { destruct Hsc as [Hp Hmm]. split; congruence. }
      specialize (IH (level - 1) w1 w' f ltac:(lia) Hsc1 H).
      unfold entry_scan_result in IH. rewrite Hm1 in IH. exact IH.
Qed.

Lemma bulkdelete_replace_entry_Ok (w' : World) :
  0 <= node_level U ->
  bulkdelete_replace_entry u o w0 = (Ok tt, w') ->
  w_pages w' = w_pages w0
  /\ w_meta w'
     = match first_valid w0 (scan_order m U) with
       | Some (b, l) => with_entry (w_meta w0) b l
       | None => with_entry (w_meta w0) InvalidBlockNumber (-1)
       end.
Proof.
  intros Hl H. unfold bulkdelete_replace_entry in H.
  assert (Hsc0 : scanning w0) by (split; reflexivity).
  step H as node w1 E1. destruct (scanning_node w0 w1 node Hsc0 E1) as [-> ->]. clear E1.
  step H as found w1 E2. unfold forZ_down in E2.
  apply scan_levels in E2; [|lia|exact Hsc0].
  replace (Z.to_nat (node_level U - 0 + 1)) with (Z.to_nat (node_level U + 1)) in E2 by lia.
  fold (levels_down (node_level U)) in E2. fold (scan_order m U) in E2.
  destruct E2 as [Hp Hr].
  destruct (first_valid w0 (scan_order m U)) as [[b l]|].
  - destruct Hr as [-> Hm1]. cbn [negb] in H. apply ret_Ok in H. destruct H as [_ ->]. auto.
  - destruct Hr as [-> Hm1]. cbn [negb] in H.
    step H as meta w2 E3. apply get_meta_Ok in E3. destruct E3 as [-> ->].
    apply set_meta_Ok in H. destruct H as [Hm2 Hp2].
    split; congruence.
Qed.

End ReplaceEntry.

(** ** The replacement of the entry point by [hnswbulkdelete] *)

Lemma in_levels_down (L level : Z) : 0 <= level <= L -> In level (levels_down L).
Proof.
  intros H. unfold levels_down. apply in_map_iff.
  exists (Z.to_nat (L - level)). split; [lia|].
  apply in_seq. lia.
Qed.

Lemma not_in_scan_order (m : Z) (node : HnswNodeData) (b : BlockNumber) (level : Z) :
  ~ In b (scan_order m node) ->
  0 <= level <= node_level node ->
  ~ In b (layer_list m node level).
Proof.
  intros Hn Hl Hin. apply Hn. unfold scan_order. apply in_flat_map.
  exists level. split; [apply in_levels_down; exact Hl | exact Hin].
Qed.

Lemma node_at_pages (b : BlockNumber) (o : Z) (w w1 : World) (node : HnswNodeData) :
  page_at w1 b = page_at w b ->
  node_at b o w = (Ok node, w) ->
  node_at b o w1 = (Ok node, w1).
Proof.
  intros Hp H. apply node_at_Ok in H. destruct H as (_ & p & it & Hpage & Hit & ->).
  unfold node_at, bind, get. rewrite Hp, Hpage.
  unfold lift. rewrite Hit. reflexivity.
Qed.

Lemma same_skeleton_first_level (w w' : World) (b : BlockNumber) :
  same_skeleton (page_at w b) (page_at w' b) ->
  option_map node_level (first_node_at w' b) = option_map node_level (first_node_at w b).
Proof.
  unfold first_node_at, same_skeleton. intros H.
  destruct (page_at w b) as [[|items]|]; try (rewrite H; reflexivity).
  destruct (page_at w' b) as [[|items']|]; try (inversion H; fail).
  inversion H as [|it it' r r' [_ Hs] _]; subst; [reflexivity|].
  cbn. destruct Hs as (_ & Hl & _). rewrite Hl. reflexivity.
Qed.

Lemma entry_candidate_removal (u : BlockNumber) (w w' : World) (b : BlockNumber) :
  removal_step u w w' -> entry_candidate w' b = entry_candidate w b.
Proof.
  intros (_ & Hlen & _ & Hsk & _). unfold entry_candidate.
  rewrite (valid_block_size w w' b Hlen).
  pose proof (same_skeleton_first_level w w' b (Hsk b)) as Hf.
  destruct (first_node_at w' b) as [n'|], (first_node_at w b) as [n|];
    cbn in Hf; try discriminate; [|reflexivity].
  assert (Hl : node_level n' = node_level n) by congruence.
  rewrite Hl. reflexivity.
Qed.

Lemma first_valid_removal (u : BlockNumber) (w w' : World) (bs : list BlockNumber) :
  removal_step u w w' -> first_valid w' bs = first_valid w bs.
Proof.
  intros H. induction bs as [|b bs IH]; cbn; [reflexivity|].
  rewrite (entry_candidate_removal u w w' b H), IH. reflexivity.
Qed.

Lemma set_dead_Ok (b : BlockNumber) (o : Z) (w w' : World) :
  set_dead b o w = (Ok tt, w') ->
  w_meta w' = w_meta w
  /\ 1 <= b < RelationGetNumberOfBlocks w
  /\ exists p it items,
       page_at w b = Some p /\ PageGetItem p o = Ok it
       /\ aset (page_items p) (o - 1) {| lp_dead := true; it_node := it_node it |} = Ok items
       /\ w_pages w' = <[Z.to_nat (b - 1) := PageInit items]> (w_pages w).
Proof.
  intros H. unfold set_dead in H.
  step H as w1 w2 E1. apply get_Ok in E1. destruct E1 as [-> ->].
  destruct (page_at w b) as [p|] eqn:Hp; [|discriminate].
  step H as it w1 E2. apply lift_Ok in E2. destruct E2 as [Hit ->].
  step H as items w1 E3. apply lift_Ok in E3. destruct E3 as [Hitems ->].
  apply write_page_Ok in H. destruct H as (Hb & Hm & Hpages).
  split; [exact Hm|]. split; [exact Hb|]. exists p, it, items. auto.
Qed.

Lemma decrement_inserted_Ok (w w' : World) :
  decrement_inserted w = (Ok tt, w') ->
  w_pages w' = w_pages w
  /\ exists n, w_meta w' = with_inserted (w_meta w) n.
Proof.
  intros H. unfold decrement_inserted in H.
  step H as meta w1 E1. apply get_meta_Ok in E1. destruct E1 as [-> ->].
  destruct (meta_insertedVectors (w_meta w) <=? - INT64_MAX - 1); [discriminate|].
  apply set_meta_Ok in H. destruct H as [Hm Hp]. split; [exact Hp|].
  eexists. exact Hm.
Qed.

(** C1 (as amended).  When [hnswbulkdelete] deletes the node that is the
    entry point, on a well-formed index, a live node that does not list
    itself and whose neighbors are live items, the new entry point is the
    first valid neighbor met when the lists of the deleted node are scanned
    from its own level down to level 0, each list in slot order, together
    with that neighbor's level; when no neighbor is valid the entry point
    becomes [InvalidBlockNumber] with level [-1].  The level of the neighbor
    plays no part in the choice. *)
Theorem bulkdelete_entry_first_valid
    (w w' : World) (blkno : BlockNumber) (offnum : Z) (U : HnswNodeData) :
  index_ok w = true ->
  live_item w blkno offnum = true ->
  forallb (live_at w) (scan_order (meta_m (w_meta w)) U) = true ->
  node_at blkno offnum w = (Ok U, w) ->
  meta_entryPoint (w_meta w) = blkno ->
  ~ In blkno (scan_order (meta_m (w_meta w)) U) ->
  bulkdelete_tuple blkno offnum w = (Ok tt, w') ->
  (meta_entryPoint (w_meta w'), meta_entryLevel (w_meta w'))
  = match first_valid w (scan_order (meta_m (w_meta w)) U) with
    | Some (b, l) => (b, l)
    | None => (InvalidBlockNumber, -1)
    end.
Proof.
  intros Hok _ _ HU Hentry Hself H. unfold bulkdelete_tuple in H.
  step H as t w1 E1. destruct t.
  pose proof (fun level Hl => not_in_scan_order _ U blkno level Hself Hl) as Hself'.
  destruct (remove_back_links_reached w blkno offnum U Hok HU Hself' w1 E1)
    as [(Hok1 & Hstep & _) _].
  destruct (U_is_ok w blkno offnum U Hok HU Hself') as (_ & HL & Hm).
  step H as meta w2 E2. apply get_meta_Ok in E2. destruct E2 as [-> ->].
  pose proof Hstep as (Hmeta & _ & Hpage & _).
  rewrite Hmeta, Hentry, Z.eqb_refl in H.
  step H as t w2 E3. destruct t.
  pose proof (node_at_pages blkno offnum w w1 U Hpage HU) as HU1.
  assert (Hm1 : 0 <= meta_m (w_meta w1)) by (rewrite Hmeta; lia).
  assert (HL0 : 0 <= node_level U) by lia.
  destruct (bulkdelete_replace_entry_Ok w1 blkno offnum U HU1 Hm1 w2 HL0 E3) as [Hp2 Hm2].
  rewrite Hmeta in Hm2. rewrite (first_valid_removal blkno w w1 _ Hstep) in Hm2.
  step H as t w3 E4. destruct t.
  apply set_dead_Ok in E4. destruct E4 as (Hm3 & _).
  apply decrement_inserted_Ok in H. destruct H as [_ [n Hm4]].
  rewrite Hm4, Hm3, Hm2. cbn.
  destruct (first_valid w (scan_order (meta_m (w_meta w)) U)) as [[b l]|]; reflexivity.
Qed.


(** ** The back links left by [hnswbulkdelete] *)

Lemma node_at_single (b : BlockNumber) (o : Z) (w w' : World) (node : HnswNodeData) :
  index_ok w = true ->
  node_at b o w = (Ok node, w') ->
  o = FirstOffsetNumber
  /\ exists it, page_at w b = Some (PageInit [it]) /\ node = it_node it.
Proof.
  intros Hok H. apply node_at_Ok in H. destruct H as (_ & p & it & Hp & Hit & ->).
  unfold PageGetItem in Hit. apply aref_tbl in Hit.
  destruct p as [|[|it0 rest]];
    try (cbn in Hit; unfold tbl in Hit; destruct (o - 1 <? 0); discriminate).
  destruct (index_ok_page w b it0 rest Hok Hp) as [-> _].
  cbn in Hit. unfold tbl in Hit.
  destruct (Z.ltb_spec (o - 1) 0) as [Hneg|Hpos]; [discriminate|].
  destruct (Z.to_nat (o - 1)) as [|k] eqn:Hk; [|discriminate].
  cbn in Hit. inversion Hit; subst it0.
  split; [unfold FirstOffsetNumber; lia|]. exists it. auto.
Qed.

Lemma count_occ_once (l : list Z) (x : Z) (i j : nat) :
  (count_occ Z.eq_dec l x <= 1)%nat ->
  l !! i = Some x -> l !! j = Some x -> i = j.
Proof.
  revert i j. induction l as [|a l IH]; intros i j Hc Hi Hj; [discriminate|].
  cbn in Hc. destruct (Z.eq_dec a x) as [->|Hne].
  - assert (Hnot : ~ In x l).
    { intros Hin. apply (count_occ_In Z.eq_dec) in Hin. lia. }
    destruct i as [|i], j as [|j]; cbn in Hi, Hj; try reflexivity.
    + exfalso. apply Hnot. apply list_elem_of_In. eapply list_elem_of_lookup_2. exact Hj.
    + exfalso. apply Hnot. apply list_elem_of_In. eapply list_elem_of_lookup_2. exact Hi.
    + exfalso. apply Hnot. apply list_elem_of_In. eapply list_elem_of_lookup_2. exact Hi.
  - destruct i as [|i], j as [|j]; cbn in Hi, Hj; try congruence.
    f_equal. apply IH; assumption.
Qed.

Lemma holds_at_lookup (m : Z) (node : HnswNodeData) (level : Z) (x : BlockNumber) (i : Z) :
  0 <= level * m * 2 ->
  holds_at m node level x i ->
  layer_list m node level !! Z.to_nat i = Some x.
Proof.
  intros HB [Hi Hx]. unfold layer_list.
  rewrite lookup_take_lt by lia. rewrite lookup_drop.
  unfold tbl in Hx. destruct (Z.ltb_spec (level * m * 2 + i) 0) as [Hn|Hn]; [lia|].
  rewrite <- Hx. f_equal. lia.
Qed.

Lemma count_occ_unique_at (m : Z) (node : HnswNodeData) (level : Z) (x : BlockNumber) :
  0 <= level * m * 2 ->
  (count_occ Z.eq_dec (layer_list m node level) x <= 1)%nat ->
  unique_at m node level x.
Proof.
  intros HB Hc i j Hi Hj.
  pose proof (holds_at_lookup m node level x i HB Hi) as Li.
  pose proof (holds_at_lookup m node level x j HB Hj) as Lj.
  pose proof (count_occ_once _ x _ _ Hc Li Lj) as E.
  destruct Hi as [Hi _], Hj as [Hj _]. lia.
Qed.

Lemma links_symmetric_spec (w : World) (blkno : BlockNumber) (U : HnswNodeData) :
  links_symmetric w blkno U = true ->
  forall b node level,
    0 <= level < HNSW_MAX_LEVEL ->
    first_node_at w b = Some node ->
    (count_occ Z.eq_dec (layer_list (meta_m (w_meta w)) node level) blkno <= 1)%nat
    /\ (In blkno (layer_list (meta_m (w_meta w)) node level) ->
        b <> blkno /\ level <= node_level U
        /\ In b (layer_list (meta_m (w_meta w)) U level)).
Proof.
  intros Hs b node level Hl Hnode.
  unfold links_symmetric in Hs. rewrite List.forallb_forall in Hs.
  unfold first_node_at in Hnode.
  destruct (page_at w b) as [[|[|it rest]]|] eqn:Hp; try discriminate.
  inversion Hnode; subst node. clear Hnode.
  apply page_at_node_block in Hp. destruct Hp as [Hb Hlook].
  assert (Hk : In (Z.to_nat (b - 1)) (seq 0 (length (w_pages w)))).
  { apply in_seq. apply lookup_lt_Some in Hlook. lia. }
  specialize (Hs _ Hk). rewrite Hlook in Hs.
  unfold back_linked in Hs. rewrite List.forallb_forall in Hs.
  assert (Hin : In level (seqZ (Z.to_nat HNSW_MAX_LEVEL))).
  { unfold seqZ. apply in_map_iff. exists (Z.to_nat level). split; [lia|].
    apply in_seq. lia. }
  specialize (Hs _ Hin).
  destruct (count_occ Z.eq_dec (layer_list (meta_m (w_meta w)) (it_node it) level) blkno)
    as [|[|n]] eqn:Hc.
  - split; [lia|]. intros Hi. apply (count_occ_In Z.eq_dec) in Hi. lia.
  - split; [lia|]. intros _.
    apply andb_prop in Hs. destruct Hs as [Hs Hex].
    apply andb_prop in Hs. destruct Hs as [Hne Hle].
    replace (Z.of_nat (Z.to_nat (b - 1)) + 1) with b in * by lia.
    split; [|split].
    + intros ->. rewrite Z.eqb_refl in Hne. discriminate.
    + lia.
    + apply existsb_exists in Hex. destruct Hex as (y & Hy & Hby).
      apply Z.eqb_eq in Hby. subst y. exact Hy.
  - discriminate.
Qed.

Lemma replace_entry_frame (blkno : BlockNumber) (offnum : Z) (U : HnswNodeData)
    (w w' : World) :
  node_at blkno offnum w = (Ok U, w) ->
  0 <= meta_m (w_meta w) ->
  0 <= node_level U ->
  (if meta_entryPoint (w_meta w) =? blkno
   then bulkdelete_replace_entry blkno offnum
   else ret tt) w = (Ok tt, w') ->
  w_pages w' = w_pages w /\ meta_m (w_meta w') = meta_m (w_meta w).
Proof.
  intros HU Hm HL H. destruct (meta_entryPoint (w_meta w) =? blkno).
  - destruct (bulkdelete_replace_entry_Ok w blkno offnum U HU Hm w' HL H) as [Hp Hmeta].
    split; [exact Hp|]. rewrite Hmeta.
    destruct (first_valid w (scan_order (meta_m (w_meta w)) U)) as [[b l]|]; reflexivity.
  - apply ret_Ok in H. destruct H as [_ ->]. auto.
Qed.

(** C2 (as amended).  On a well-formed index in which every list holds the
    deleted block at most once and every node that lists the deleted node at
    some level is listed by it at that level in return, the deletion of one
    tuple by [hnswbulkdelete] leaves no node, on any page, that lists the
    deleted block at any level. *)
Theorem bulkdelete_clears_symmetric_links
    (w w' : World) (blkno : BlockNumber) (offnum : Z) (U : HnswNodeData) :
  index_ok w = true ->
  node_at blkno offnum w = (Ok U, w) ->
  links_symmetric w blkno U = true ->
  bulkdelete_tuple blkno offnum w = (Ok tt, w') ->
  forall b p it level,
    0 <= level < HNSW_MAX_LEVEL ->
    page_at w' b = Some p ->
    In it (page_items p) ->
    ~ In blkno (layer_list (meta_m (w_meta w')) (it_node it) level).
Proof.
  intros Hok HU Hsym H.
  pose proof (links_symmetric_spec w blkno U Hsym) as Hspec.
  destruct (node_at_single blkno offnum w w U Hok HU) as (-> & itU & HpU & HUeq).
  assert (HfU : first_node_at w blkno = Some U).
  { unfold first_node_at. rewrite HpU. congruence. }
  assert (Hm : 2 <= meta_m (w_meta w) <= 128).
  { apply index_ok_spec in Hok. tauto. }
  assert (HUok : node_ok (meta_m (w_meta w)) U = true).
  { destruct (index_ok_page w blkno itU [] Hok HpU) as [_ Hn]. congruence. }
  assert (HL : 0 <= node_level U < HNSW_MAX_LEVEL).
  { apply node_ok_spec in HUok. tauto. }
  assert (Hself : forall level, 0 <= level <= node_level U ->
                    ~ In blkno (layer_list (meta_m (w_meta w)) U level)).
  { intros level Hl Hin.
    destruct (Hspec blkno U level ltac:(lia) HfU) as [_ Hback].
    destruct (Hback Hin) as [Hne _]. apply Hne. reflexivity. }
  assert (Hall : all_unique blkno w).
  { intros b node level Hl Hnode.
    apply count_occ_unique_at; [nia|]. apply (Hspec b node level Hl Hnode). }
  unfold bulkdelete_tuple in H.
  step H as t w1 E1. destruct t.
  destruct (remove_back_links_reached w blkno FirstOffsetNumber U Hok HU Hself w1 E1)
    as [(Hok1 & Hstep & _) Hnl].
  specialize (Hnl Hall).
  pose proof Hstep as (Hmeta1 & _ & Hpage1 & _ & Hgain).
  assert (Hclean : forall b node level,
             0 <= level < HNSW_MAX_LEVEL ->
             first_node_at w1 b = Some node ->
             ~ In blkno (layer_list (meta_m (w_meta w1)) node level)).
  { intros b node level Hl Hnode Hin.
    destruct (Hgain b node level Hl Hnode Hin) as (node0 & Hnode0 & Hin0).
    destruct (Hspec b node0 level Hl Hnode0) as [_ Hback].
    destruct (Hback Hin0) as (Hne & Hle & HinU).
    apply in_layer_list in HinU; [|nia]. destruct HinU as [i Hi].
    apply (Hnl level b i ltac:(lia) Hi node Hnode). exact Hin. }
  step H as meta w2 E2. apply get_meta_Ok in E2. destruct E2 as [-> ->].
  step H as t w2 E3. destruct t.
  pose proof (node_at_pages blkno FirstOffsetNumber w w1 U Hpage1 HU) as HU1.
  destruct (replace_entry_frame blkno FirstOffsetNumber U w1 w2 HU1
              ltac:(rewrite Hmeta1; lia) ltac:(lia) E3) as [Hp2 Hm2].
  step H as t w3 E4. destruct t.
  apply set_dead_Ok in E4.
  destruct E4 as (Hm3 & Hb3 & p3 & it3 & items3 & Hp3 & Hit3 & Hitems3 & Hpages3).
  apply decrement_inserted_Ok in H. destruct H as [Hp4 [n Hm4]].
  rewrite (page_at_pages w1 w2 blkno Hp2), Hpage1, HpU in Hp3.
  inversion Hp3; subst p3. clear Hp3.
  cbn in Hit3. inversion Hit3; subst it3. clear Hit3.
  cbn in Hitems3. inversion Hitems3; subst items3. clear Hitems3.
  assert (Hmm : meta_m (w_meta w') = meta_m (w_meta w1)).
  { rewrite Hm4. cbn. rewrite Hm3. exact Hm2. }
  intros b p it level Hl Hp Hin. rewrite Hmm.
  rewrite (page_at_pages w3 w' b Hp4) in Hp.
  rewrite (page_at_insert w2 w3 blkno b _ Hb3 Hpages3) in Hp.
  destruct (Z.eqb_spec b blkno) as [->|Hne].
  - inversion Hp; subst p. cbn in Hin. destruct Hin as [<-|[]]. cbn.
    apply (Hclean blkno (it_node itU) level Hl).
    unfold first_node_at. rewrite Hpage1, HpU. reflexivity.
  - rewrite (page_at_pages w1 w2 b Hp2) in Hp.
    destruct p as [|[|it0 rest]]; cbn in Hin; try contradiction.
    destruct (index_ok_page w1 b it0 rest Hok1 Hp) as [-> _].
    destruct Hin as [<-|[]].
    apply (Hclean b (it_node it0) level Hl).
    unfold first_node_at. rewrite Hp. reflexivity.
Qed.

Lemma bulkdelete_entry_first_valid_witness :
  (index_ok world_layers = true
   /\ live_item world_layers 1 1 = true
   /\ forallb (live_at world_layers)
              (scan_order (meta_m (w_meta world_layers)) layers_entry_node) = true
   /\ node_at 1 1 world_layers = (Ok layers_entry_node, world_layers)
   /\ meta_entryPoint (w_meta world_layers) = 1
   /\ ~ In 1 (scan_order (meta_m (w_meta world_layers)) layers_entry_node)
   /\ fst (bulkdelete_tuple 1 1 world_layers) = Ok tt)
  /\ (meta_entryPoint (w_meta (snd (bulkdelete_tuple 1 1 world_layers))),
      meta_entryLevel (w_meta (snd (bulkdelete_tuple 1 1 world_layers))))
     = match first_valid world_layers
               (scan_order (meta_m (w_meta world_layers)) layers_entry_node) with
       | Some (b, l) => (b, l)
       | None => (InvalidBlockNumber, -1)
       end.
Proof.
  assert (Hok : index_ok world_layers = true) by (vm_compute; reflexivity).
  assert (HU : node_at 1 1 world_layers = (Ok layers_entry_node, world_layers))
    by (vm_compute; reflexivity).
  assert (He : meta_entryPoint (w_meta world_layers) = 1) by reflexivity.
  assert (Hs : ~ In 1 (scan_order (meta_m (w_meta world_layers)) layers_entry_node)).
  { vm_compute. intros [H|[H|[]]]; discriminate H. }
  assert (Hrun : bulkdelete_tuple 1 1 world_layers
                 = (Ok tt, snd (bulkdelete_tuple 1 1 world_layers)))
    by (vm_compute; reflexivity).
  split.
  - split; [exact Hok|]. split; [reflexivity|]. split; [reflexivity|].
    split; [exact HU|]. split; [exact He|]. split; [exact Hs|].
    rewrite Hrun. reflexivity.
  - exact (bulkdelete_entry_first_valid world_layers _ 1 1 layers_entry_node
             Hok eq_refl eq_refl HU He Hs Hrun).
Defined.

Lemma bulkdelete_clears_symmetric_links_witness :
  (index_ok world_two = true
   /\ node_at 1 1 world_two = (Ok origin_node, world_two)
   /\ links_symmetric world_two 1 origin_node = true
   /\ fst (bulkdelete_tuple 1 1 world_two) = Ok tt)
  /\ forall b p it level,
       0 <= level < HNSW_MAX_LEVEL ->
       page_at (snd (bulkdelete_tuple 1 1 world_two)) b = Some p ->
       In it (page_items p) ->
       ~ In 1 (layer_list (meta_m (w_meta (snd (bulkdelete_tuple 1 1 world_two))))
                          (it_node it) level).
Proof.
  assert (Hok : index_ok world_two = true) by (vm_compute; reflexivity).
  assert (HU : node_at 1 1 world_two = (Ok origin_node, world_two))
    by (vm_compute; reflexivity).
  assert (Hs : links_symmetric world_two 1 origin_node = true) by (vm_compute; reflexivity).
  assert (Hrun : bulkdelete_tuple 1 1 world_two
                 = (Ok tt, snd (bulkdelete_tuple 1 1 world_two)))
    by (vm_compute; reflexivity).
  split.
  - split; [exact Hok|]. split; [exact HU|]. split; [exact Hs|].
    rewrite Hrun. reflexivity.
  - exact (bulkdelete_clears_symmetric_links world_two _ 1 1 origin_node Hok HU Hs Hrun).
Defined.

(** C2 (counterexample).  After the six insertions of [star_inserts], the
    bulk deletion of the first tuple, stored on block 1, succeeds and leaves
    the node of block 6 alive with block 1 in its list at level 0. *)
Lemma bulkdelete_leaves_back_link :
  star_inserts (world_init (replicate 6 draw0)) = (Ok tt, world_star)
  /\ exists w' gone it,
       hnswbulkdelete (dead_tuple 1) None world_star = (Ok 1, w')
       /\ page_at w' 1 = Some (PageInit [gone])
       /\ lp_dead gone = true
       /\ page_at w' 6 = Some (PageInit [it])
       /\ lp_dead it = false
       /\ In 1 (layer_list (meta_m (w_meta w')) (it_node it) 0).
Proof.
  split; [vm_compute; reflexivity|].
  exists (snd (hnswbulkdelete (dead_tuple 1) None world_star)).
  eexists. eexists. split; [vm_compute; reflexivity|].
  split; [vm_compute; reflexivity|].
  split; [reflexivity|].
  split; [vm_compute; reflexivity|].
  split; [reflexivity|]. vm_compute. left. reflexivity.
Qed.

(** C1 (counterexample).  The index [world_layers] is built by eight
    insertions and one bulk deletion.  Its entry point, block 1, lists the
    blocks 7 and 8 in this order; both are live and valid, block 7 at level
    0 and block 8 at level 1.  The bulk deletion of the entry point makes
    block 7 the entry point, at level 0: not the neighbor of the highest
    level. *)
Lemma bulkdelete_entry_not_highest :
  (layered_inserts ;;; hnswbulkdelete (dead_tuples 2 6) None) (world_init layered_draws)
  = (Ok 5, world_layers)
  /\ meta_entryPoint (w_meta world_layers) = 1
  /\ exists U it7 it8 w',
       first_node_at world_layers 1 = Some U
       /\ scan_order (meta_m (w_meta world_layers)) U = [7; 8]
       /\ page_at world_layers 7 = Some (PageInit [it7])
       /\ page_at world_layers 8 = Some (PageInit [it8])
       /\ lp_dead it7 = false /\ lp_dead it8 = false
       /\ entry_candidate world_layers 7 = Some 0
       /\ entry_candidate world_layers 8 = Some 1
       /\ hnswbulkdelete (dead_tuple 1) None world_layers = (Ok 1, w')
       /\ meta_entryPoint (w_meta w') = 7
       /\ meta_entryLevel (w_meta w') = 0.
Proof.
  split; [vm_compute; reflexivity|].
  split; [reflexivity|].
  eexists. eexists. eexists.
  exists (snd (hnswbulkdelete (dead_tuple 1) None world_layers)).
  split; [vm_compute; reflexivity|].
  split; [vm_compute; reflexivity|].
  split; [vm_compute; reflexivity|].
  split; [vm_compute; reflexivity|].
  split; [reflexivity|].
  split; [reflexivity|].
  split; [vm_compute; reflexivity|].
  split; [vm_compute; reflexivity|].
  split; [vm_compute; reflexivity|].
  split; vm_compute; reflexivity.
Qed.

(** * Part III: further properties of the access method *)

(** ** Reads leave the index alone *)

Lemma read_only_refl (w : World) : read_only w w.
Proof. repeat split. Qed.

Lemma read_only_trans (w1 w2 w3 : World) :
  read_only w1 w2 -> read_only w2 w3 -> read_only w1 w3.
Proof. intros (A1 & B1 & C1) (A2 & B2 & C2). repeat split; congruence. Qed.

Lemma read_only_log (ev : Event) (w : World) : True -> read_only w (logged ev w).
Proof. intros _. repeat split. Qed.

Lemma preserves_read_only_search (fuel : nat) (query : list float4)
    (dim strategy efSearch k : Z) :
  preserves read_only (hnswSearch fuel query dim strategy efSearch k).
Proof.
  apply (preserves_hnswSearch read_only (fun _ => True)
           read_only_refl read_only_trans read_only_log); intros; exact I.
Qed.

Ltac ro_step :=
  match goal with
  | |- preserves _ (ret _) => apply (preserves_ret _ read_only_refl)
  | |- preserves _ (lift _) => apply (preserves_lift _ read_only_refl)
  | |- preserves _ (ereport _) => apply (preserves_ereport _ read_only_refl)
  | |- preserves _ get => apply (preserves_get _ read_only_refl)
  | |- preserves _ get_meta => apply (preserves_get_meta _ read_only_refl)
  | |- preserves _ (NDB_ALLOC _) => apply (preserves_NDB_ALLOC _ read_only_refl)
  | |- preserves _ (hnswValidateBlockNumber _) =>
      apply (preserves_hnswValidateBlockNumber _ read_only_refl)
  | |- preserves _ (node_at _ _) =>
      apply (preserves_node_at _ read_only_refl read_only_trans)
  | |- preserves _ (ReadBuffer _) =>
      apply (preserves_ReadBuffer _ (fun _ => True)
               read_only_refl read_only_trans read_only_log); exact I
  | |- preserves _ (hnswSearch _ _ _ _ _ _) => apply preserves_read_only_search
  | |- preserves _ (bind _ _) => apply (preserves_bind _ read_only_trans); [| intros ?]
  | |- preserves _ (forZ _ _ _ _) =>
      apply (preserves_forZ _ read_only_refl read_only_trans); intros ? ?
  | |- preserves _ (forZ_down _ _ _ _) =>
      apply (preserves_forZ_down _ read_only_refl read_only_trans); intros ? ?
  | |- preserves _ (if ?b then _ else _) => destruct b
  | |- preserves _ (match ?x with _ => _ end) => destruct x
  | |- preserves _ (let '(_, _) := ?x in _) => destruct x
  end.

Ltac ro := repeat ro_step.

(** X1.  A search never changes the index: whatever its outcome, the meta
    page, the node pages and the state of the generator are those it
    started from. *)
Theorem search_is_read_only (fuel : nat) (query : list float4)
    (dim strategy efSearch k : Z) (w : World) :
  read_only w (snd (hnswSearch fuel query dim strategy efSearch k w)).
Proof. apply preserves_read_only_search. Qed.

Lemma preserves_read_only_next (so : HnswScanOpaqueData) :
  preserves read_only (gettuple_next so).
Proof. unfold gettuple_next. ro. Qed.

(** X2.  A scan never changes the index: [hnswrescan] and [hnswgettuple]
    leave the meta page and the node pages as they found them, whatever
    the scan state, the keys and the outcome. *)
Theorem scan_is_read_only (fuel : nat) (ef_guc k_guc : Z) (so : HnswScanOpaqueData)
    (orderbys : list ScanKeyData) (w : World) :
  read_only w (snd (hnswrescan ef_guc k_guc so orderbys w))
  /\ read_only w (snd (hnswgettuple fuel so w)).
Proof.
  split.
  - revert w. change (preserves read_only (hnswrescan ef_guc k_guc so orderbys)).
    unfold hnswrescan. ro.
  - revert w. change (preserves read_only (hnswgettuple fuel so)).
    unfold hnswgettuple. ro; apply preserves_read_only_next.
Qed.

(** ** hnswFindNodeByTid *)

Lemma page_at_logged (ev : Event) (w : World) (b : BlockNumber) :
  page_at (logged ev w) b = page_at w b.
Proof. reflexivity. Qed.

Lemma page_at_in_range (w : World) (b : BlockNumber) :
  1 <= b < RelationGetNumberOfBlocks w -> exists p, page_at w b = Some p.
Proof.
  unfold RelationGetNumberOfBlocks, page_at. intros H.
  destruct (Z.eqb_spec b 0) as [E|E]; [lia|].
  destruct (Z.ltb_spec b 0) as [L|L]; [lia|].
  destruct (w_pages w !! Z.to_nat (b - 1)) as [p|] eqn:E1; [eauto|].
  apply lookup_ge_None in E1. lia.
Qed.

Lemma ReadBuffer_in_range (w : World) (b : BlockNumber) (p : Page) :
  page_at w b = Some p ->
  ReadBuffer b w = (Ok p, logged (EvReadBuffer b) w).
Proof. intros H. unfold ReadBuffer. rewrite H. reflexivity. Qed.

Lemma holds_tid_pages (w w' : World) (tid : ItemPointerData) (b : BlockNumber) :
  w_pages w' = w_pages w -> holds_tid w' tid b = holds_tid w tid b.
Proof. intros H. unfold holds_tid. rewrite (page_at_pages w w' b H). reflexivity. Qed.

Lemma find_loop (tid : ItemPointerData) (body : Z -> option (BlockNumber * Z)
                                                -> M (ctl (option (BlockNumber * Z)))) :
  body = (fun blkno acc =>
            page <- ReadBuffer blkno ;;
            if PageIsNew page || PageIsEmpty page then ret (Next acc)
            else if negb (PageGetMaxOffsetNumber page =? FirstOffsetNumber)
                 then ret (Next acc)
            else
              it <- lift (PageGetItem page FirstOffsetNumber) ;;
              if ItemPointerEquals (node_heapPtr (it_node it)) tid
              then ret (Break (Some (blkno, FirstOffsetNumber)))
              else ret (Next acc)) ->
  forall (n : nat) (i : Z) (w : World),
    1 <= i -> i + Z.of_nat n <= RelationGetNumberOfBlocks w ->
    exists r w',
      for_up n i body None w = (Ok r, w')
      /\ read_only w w'
      /\ match r with
         | Some (b, o) =>
             o = FirstOffsetNumber /\ i <= b < i + Z.of_nat n
             /\ holds_tid w tid b = true
             /\ forall b', i <= b' < b -> holds_tid w tid b' = false
         | None => forall b', i <= b' < i + Z.of_nat n -> holds_tid w tid b' = false
         end.
Proof.
  intros Hbody. induction n as [|n IH]; intros i w Hi Hn.
  - exists None, w. split; [reflexivity|]. split; [apply read_only_refl|].
    intros b' Hb'. lia.
  - destruct (page_at_in_range w i ltac:(lia)) as [p Hp].
    cbn [for_up]. unfold bind at 1.
    assert (Hstep : body i None w
                    = (Ok (if holds_tid w tid i
                           then Break (Some (i, FirstOffsetNumber)) else Next None),
                       logged (EvReadBuffer i) w)).
    { rewrite Hbody. unfold bind at 1. rewrite (ReadBuffer_in_range w i p Hp).
      unfold holds_tid. rewrite Hp.
      destruct p as [|[|it [|it2 rest]]]; cbn [PageIsNew PageIsEmpty orb];
        try reflexivity.
      - change (PageGetMaxOffsetNumber (PageInit [it]) =? FirstOffsetNumber) with true.
        cbn [negb]. unfold bind, lift, PageGetItem.
        change (aref (page_items (PageInit [it])) (FirstOffsetNumber - 1)) with (Ok it).
        cbn beta iota.
        destruct (ItemPointerEquals (node_heapPtr (it_node it)) tid); reflexivity.
      - destruct (Z.eqb_spec (PageGetMaxOffsetNumber (PageInit (it :: it2 :: rest)))
                             FirstOffsetNumber) as [E|E]; [|reflexivity].
        unfold PageGetMaxOffsetNumber, FirstOffsetNumber in E. cbn in E. lia. }
    rewrite Hstep. destruct (holds_tid w tid i) eqn:Hh.
    + exists (Some (i, FirstOffsetNumber)), (logged (EvReadBuffer i) w).
      split; [reflexivity|]. split; [apply read_only_log; exact I|].
      split; [reflexivity|]. split; [lia|]. split; [exact Hh|].
      intros b' Hb'. lia.
    + destruct (IH (i + 1) (logged (EvReadBuffer i) w) ltac:(lia))
        as (r & w' & Hrun & Hro & Hr).
      { unfold RelationGetNumberOfBlocks in *. cbn. lia. }
      exists r, w'. split; [exact Hrun|].
      split; [exact (read_only_trans _ _ _ (read_only_log _ w I) Hro)|].
      assert (Hsame : forall b, holds_tid (logged (EvReadBuffer i) w) tid b
                                = holds_tid w tid b).
      { intros b. apply holds_tid_pages. reflexivity. }
      destruct r as [[b o]|].
      * destruct Hr as (Ho & Hb & Hhb & Hfirst). rewrite Hsame in Hhb.
        split; [exact Ho|]. split; [lia|]. split; [exact Hhb|].
        intros b' Hb'. destruct (Z.eq_dec b' i) as [->|Hne]; [exact Hh|].
        rewrite <- Hsame. apply Hfirst. lia.
      * intros b' Hb'. destruct (Z.eq_dec b' i) as [->|Hne]; [exact Hh|].
        rewrite <- Hsame. apply Hr. lia.
Qed.

(** X3.  On an index without dead items [hnswFindNodeByTid] always returns,
    without changing the index.  It reports the lowest block from 1 on that
    holds exactly one item whose node carries the heap pointer, at offset 1;
    it reports nothing exactly when no block does. *)
Theorem find_node_by_tid_spec (tid : ItemPointerData) (w : World) :
  live_index w = true ->
  exists r w',
    hnswFindNodeByTid tid w = (Ok r, w')
    /\ read_only w w'
    /\ match r with
       | Some (b, o) =>
           o = FirstOffsetNumber /\ 1 <= b < RelationGetNumberOfBlocks w
           /\ holds_tid w tid b = true
           /\ forall b', 1 <= b' < b -> holds_tid w tid b' = false
       | None =>
           forall b', 1 <= b' < RelationGetNumberOfBlocks w -> holds_tid w tid b' = false
       end.
Proof.
  intros _. unfold hnswFindNodeByTid, bind at 1, get, forZ.
  destruct (find_loop tid _ eq_refl
              (Z.to_nat (RelationGetNumberOfBlocks w - 1)) 1 w ltac:(lia))
    as (r & w' & Hrun & Hro & Hr).
  { unfold RelationGetNumberOfBlocks. lia. }
  exists r, w'. split; [exact Hrun|]. split; [exact Hro|].
  assert (Hn : 1 + Z.of_nat (Z.to_nat (RelationGetNumberOfBlocks w - 1))
               = RelationGetNumberOfBlocks w).
  { unfold RelationGetNumberOfBlocks. lia. }
  rewrite Hn in Hr. exact Hr.
Qed.

Lemma find_node_by_tid_spec_witness :
  live_index world_two = true
  /\ exists r w',
       hnswFindNodeByTid {| ip_blkid := 0; ip_posid := 2 |} world_two = (Ok r, w')
       /\ read_only world_two w'
       /\ match r with
          | Some (b, o) =>
              o = FirstOffsetNumber /\ 1 <= b < RelationGetNumberOfBlocks world_two
              /\ holds_tid world_two {| ip_blkid := 0; ip_posid := 2 |} b = true
              /\ forall b', 1 <= b' < b ->
                    holds_tid world_two {| ip_blkid := 0; ip_posid := 2 |} b' = false
          | None =>
              forall b', 1 <= b' < RelationGetNumberOfBlocks world_two ->
                holds_tid world_two {| ip_blkid := 0; ip_posid := 2 |} b' = false
          end.
Proof.
  split; [reflexivity|].
  exact (find_node_by_tid_spec {| ip_blkid := 0; ip_posid := 2 |} world_two eq_refl).
Defined.

(** X4.  On an index without dead items, deleting a heap pointer that no
    block holds succeeds and changes nothing: [hnswdelete] returns true and
    leaves the meta page, with its counter, and the node pages as they
    were. *)
Theorem delete_of_absent_tid (tid : ItemPointerData) (w : World) :
  live_index w = true ->
  (forall b, 1 <= b < RelationGetNumberOfBlocks w -> holds_tid w tid b = false) ->
  exists w', hnswdelete tid w = (Ok true, w') /\ read_only w w'.
Proof.
  intros _ Habsent.
  destruct (find_loop tid _ eq_refl
              (Z.to_nat (RelationGetNumberOfBlocks w - 1)) 1 w ltac:(lia))
    as (r & w' & Hrun & Hro & Hr).
  { unfold RelationGetNumberOfBlocks. lia. }
  assert (Hfind : hnswFindNodeByTid tid w = (Ok r, w')) by exact Hrun.
  unfold hnswdelete, bind at 1. rewrite Hfind. destruct r as [[b o]|].
  - destruct Hr as (_ & Hb & Hh & _).
    rewrite Habsent in Hh; [discriminate|].
    unfold RelationGetNumberOfBlocks in *. lia.
  - exists w'. split; [reflexivity | exact Hro].
Qed.

Lemma delete_of_absent_tid_witness :
  exists w', hnswdelete {| ip_blkid := 0; ip_posid := 9 |} world_two = (Ok true, w')
             /\ read_only world_two w'.
Proof.
  apply (delete_of_absent_tid {| ip_blkid := 0; ip_posid := 9 |} world_two eq_refl).
  intros b Hb.
  assert (Hcases : b = 1 \/ b = 2).
  { unfold RelationGetNumberOfBlocks in Hb. cbn in Hb. lia. }
  destruct Hcases as [-> | ->]; reflexivity.
Defined.

(** ** hnswExtractVectorData *)

Lemma combine_lookup {A B} (l1 : list A) (l2 : list B) (i : nat) (a : A) (b : B) :
  l1 !! i = Some a -> l2 !! i = Some b -> combine l1 l2 !! i = Some (a, b).
Proof.
  revert l2 i. induction l1 as [|x l1 IH]; intros [|y l2] [|i] H1 H2;
    try discriminate; cbn in *.
  - congruence.
  - apply IH; assumption.
Qed.

Lemma find_app {A} (p : A -> bool) (l1 l2 : list A) :
  find p (l1 ++ l2) = match find p l1 with Some x => Some x | None => find p l2 end.
Proof.
  induction l1 as [|x l1 IH]; cbn; [reflexivity|].
  destruct (p x); [reflexivity | exact IH].
Qed.

Lemma sparse_loop (total_dim : Z) (indices : list Z) (values : list float4) :
  forall (n : nat) (i : Z) (acc : list float4),
    0 <= i ->
    i + Z.of_nat n <= Z.of_nat (length indices) ->
    i + Z.of_nat n <= Z.of_nat (length values) ->
    Z.of_nat (length acc) = total_dim ->
    exists result,
      for_res n i
        (fun i result =>
           res_bind (aref indices i) (fun ix =>
           if (0 <=? ix) && (ix <? total_dim) then
             res_bind (aref values i) (fun v => aset result ix v)
           else Ok result)) acc = Ok result
      /\ Z.of_nat (length result) = total_dim
      /\ forall j, 0 <= j < total_dim ->
           tbl result j
           = match find (fun p => fst p =? j)
                        (rev (take n (drop (Z.to_nat i) (combine indices values)))) with
             | Some p => Some (snd p)
             | None => tbl acc j
             end.
Proof.
  induction n as [|n IH]; intros i acc Hi Hix Hvs Hacc.
  - exists acc. split; [reflexivity|]. split; [exact Hacc|]. intros j _. reflexivity.
  - destruct (tbl_in_bound indices i ltac:(lia)) as [ix Hixi].
    destruct (tbl_in_bound values i ltac:(lia)) as [v Hvi].
    pose proof Hixi as Ha. apply aref_tbl in Ha.
    pose proof Hvi as Hb. apply aref_tbl in Hb.
    assert (Hc : combine indices values !! Z.to_nat i = Some (ix, v)).
    { unfold tbl in Hixi, Hvi. destruct (Z.ltb_spec i 0); [lia|].
      apply combine_lookup; assumption. }
    rewrite (drop_S _ _ _ Hc). cbn [take rev].
    cbn [for_res]. rewrite Ha. cbn [res_bind].
    assert (Hnext : exists acc1,
               (if (0 <=? ix) && (ix <? total_dim)
                then res_bind (aref values i) (fun v0 => aset acc ix v0)
                else Ok acc) = Ok acc1
               /\ Z.of_nat (length acc1) = total_dim
               /\ forall j, tbl acc1 j
                            = if (0 <=? ix) && (ix <? total_dim) && (j =? ix)
                              then Some v else tbl acc j).
    { destruct (Z.leb_spec 0 ix) as [H0|H0]; cbn [andb].
      - destruct (Z.ltb_spec ix total_dim) as [H1|H1]; cbn [andb].
        + rewrite Hb. cbn [res_bind].
          destruct (aset acc ix v) as [acc1| | |] eqn:Hset;
            try (unfold aset in Hset;
                 destruct (Z.leb_spec 0 ix); [|lia];
                 destruct (Z.ltb_spec ix (Z.of_nat (length acc))); [|lia];
                 discriminate).
          apply aset_Ok in Hset. destruct Hset as (_ & Hlen & Htbl).
          exists acc1. split; [reflexivity|]. split; [lia|]. exact Htbl.
        + exists acc. split; [reflexivity|]. split; [exact Hacc|]. intros j. reflexivity.
      - exists acc. split; [reflexivity|]. split; [exact Hacc|]. intros j. reflexivity. }
    destruct Hnext as (acc1 & -> & Hlen1 & Htbl1). cbn [res_bind].
    destruct (IH (i + 1) acc1 ltac:(lia) ltac:(lia) ltac:(lia) Hlen1)
      as (result & Hrun & Hlen & Hres).
    exists result. split; [exact Hrun|]. split; [exact Hlen|].
    intros j Hj. rewrite (Hres j Hj).
    replace (Z.to_nat (i + 1)) with (S (Z.to_nat i)) by lia.
    rewrite find_app.
    destruct (find (fun p => fst p =? j)
                   (rev (take n (drop (S (Z.to_nat i)) (combine indices values)))));
      [reflexivity|].
    cbn [find fst snd]. rewrite (Htbl1 j).
    destruct (Z.eqb_spec ix j) as [->|Hne].
    + destruct (Z.leb_spec 0 j); [|lia]. destruct (Z.ltb_spec j total_dim); [|lia].
      rewrite Z.eqb_refl. reflexivity.
    + destruct (Z.eqb_spec j ix) as [E|E]; [congruence|].
      rewrite andb_false_r. reflexivity.
Qed.

(** X5.  A sparse vector of a dimension in [1, 32767] is expanded to a
    dense array of that dimension: every position holds the value of the
    last entry that names it and zero when none does; an entry whose index
    is outside the dimension is skipped, not reported. *)
Theorem extract_sparsevec (total_dim nnz : Z) (indices : list Z) (values : list float4) :
  0 < total_dim <= 32767 ->
  nnz <= Z.of_nat (length indices) ->
  nnz <= Z.of_nat (length values) ->
  exists result,
    hnswExtractVectorData (DatumSparsevec total_dim nnz indices values)
    = Ok (result, total_dim)
    /\ Z.of_nat (length result) = total_dim
    /\ forall j, 0 <= j < total_dim ->
         tbl result j = Some (sparse_entry indices values nnz j).
Proof.
  intros Hd Hix Hvs. unfold hnswExtractVectorData.
  destruct (Z.leb_spec total_dim 0) as [H0|H0]; [lia|].
  destruct (Z.gtb_spec total_dim 32767) as [H1|H1]; [lia|]. cbn [orb].
  destruct (sparse_loop total_dim indices values (Z.to_nat nnz) 0
              (replicate (Z.to_nat total_dim) zero)
              ltac:(lia) ltac:(lia) ltac:(lia))
    as (result & Hrun & Hlen & Hres).
  { rewrite length_replicate. lia. }
  exists result. rewrite Hrun. cbn [res_bind].
  split; [reflexivity|]. split; [exact Hlen|].
  intros j Hj. rewrite (Hres j Hj). unfold sparse_entry.
  change (Z.to_nat 0) with 0%nat. rewrite drop_0.
  destruct (find (fun p => fst p =? j)
                 (rev (take (Z.to_nat nnz) (combine indices values))));
    [reflexivity|].
  unfold tbl. destruct (Z.ltb_spec j 0); [lia|].
  rewrite lookup_replicate_2 by lia. reflexivity.
Qed.

Lemma extract_sparsevec_witness :
  exists result,
    hnswExtractVectorData
      (DatumSparsevec 4 3 [1; 7; 1] [of_Z32 5; of_Z32 6; of_Z32 7])
    = Ok (result, 4)
    /\ Z.of_nat (length result) = 4
    /\ forall j, 0 <= j < 4 ->
         tbl result j
         = Some (sparse_entry [1; 7; 1] [of_Z32 5; of_Z32 6; of_Z32 7] 3 j).
Proof.
  apply (extract_sparsevec 4 3 [1; 7; 1] [of_Z32 5; of_Z32 6; of_Z32 7]);
    cbn; lia.
Defined.

Lemma land_shiftr_bit (byte k : Z) :
  0 <= k -> (Z.land (Z.shiftr byte k) 1 =? 0) = negb (Z.testbit byte k).
Proof.
  intros Hk. change 1 with (Z.ones 1) at 1. rewrite Z.land_ones by lia.
  change (2 ^ 1) with 2. rewrite <- Z.bit0_mod.
  rewrite Z.shiftr_spec by lia. rewrite Z.add_0_l.
  destruct (Z.testbit byte k); reflexivity.
Qed.

Lemma bit_loop (bit_data : list Z) :
  forall (n : nat) (i : Z) (acc : list float4),
    0 <= i ->
    i + Z.of_nat n <= 8 * Z.of_nat (length bit_data) ->
    for_res n i
      (fun i acc =>
         let byte_idx := i / 8 in
         let bit_idx := i mod 8 in
         res_bind (aref bit_data byte_idx) (fun byte =>
         let bit_val := Z.land (Z.shiftr byte (8 - 1 - bit_idx)) 1 in
         Ok (acc ++ [if bit_val =? 0 then SFopp one32 else one32]))) acc
    = Ok (acc ++ map (fun k => if bit_at bit_data (i + Z.of_nat k)
                               then one32 else SFopp one32) (seq 0 n)).
Proof.
  induction n as [|n IH]; intros i acc Hi Hn.
  - cbn. rewrite app_nil_r. reflexivity.
  - cbn [for_res]. cbv zeta.
    assert (Hmod : 0 <= i mod 8 < 8) by (apply Z.mod_pos_bound; lia).
    assert (Hdiv : 0 <= i / 8 < Z.of_nat (length bit_data)).
    { split; [apply Z.div_pos; lia|]. apply Z.div_lt_upper_bound; lia. }
    destruct (tbl_in_bound bit_data (i / 8) Hdiv) as [byte Hbyte].
    pose proof Hbyte as Ha. apply aref_tbl in Ha. rewrite Ha. cbn [res_bind].
    rewrite IH by lia. f_equal. rewrite <- app_assoc. f_equal.
    cbn [seq map app]. f_equal.
    + change (Z.of_nat 0) with 0. rewrite Z.add_0_r.
      unfold bit_at. rewrite Hbyte. change (default 0 (Some byte)) with byte.
      replace (8 - 1 - i mod 8) with (7 - i mod 8) by lia.
      rewrite land_shiftr_bit by lia.
      destruct (Z.testbit byte (7 - i mod 8)); reflexivity.
    + rewrite <- seq_shift, map_map. apply map_ext. intros k.
      replace (i + 1 + Z.of_nat k) with (i + Z.of_nat (S k)) by lia. reflexivity.
Qed.

(** X6.  A bit string of a length in [1, 32767] is expanded to one
    [float4] per bit, most significant bit of each byte first: [1.0] for a
    set bit and [-1.0] for a clear one. *)
Theorem extract_bit_string (nbits : Z) (bit_data : list Z) :
  0 < nbits <= 32767 ->
  nbits <= 8 * Z.of_nat (length bit_data) ->
  hnswExtractVectorData (DatumBit nbits bit_data)
  = Ok (map (fun i => if bit_at bit_data i then one32 else SFopp one32)
            (seqZ (Z.to_nat nbits)),
        nbits).
Proof.
  intros Hn Hlen. unfold hnswExtractVectorData.
  destruct (Z.leb_spec nbits 0) as [H0|H0]; [lia|].
  destruct (Z.gtb_spec nbits 32767) as [H1|H1]; [lia|]. cbn [orb].
  pose proof (bit_loop bit_data (Z.to_nat nbits) 0 [] ltac:(lia) ltac:(lia)) as Hrun.
  match goal with
  | |- res_bind ?c _ = _ =>
      assert (Hc : c = Ok ([] ++ map (fun k => if bit_at bit_data (0 + Z.of_nat k)
                                               then one32 else SFopp one32)
                                     (seq 0 (Z.to_nat nbits)))) by exact Hrun;
      rewrite Hc
  end.
  cbn [res_bind app]. unfold seqZ. rewrite map_map. reflexivity.
Qed.

Lemma extract_bit_string_witness :
  hnswExtractVectorData (DatumBit 10 [160; 64])
  = Ok (map (fun i => if bit_at [160; 64] i then one32 else SFopp one32)
            (seqZ (Z.to_nat 10)),
        10).
Proof. apply (extract_bit_string 10 [160; 64]); cbn; lia. Defined.

(** ** hnswComputeDistance *)

Lemma binary_round_aux_opp (prec emax : Z) (s : bool) (m e : Z) (l : location) :
  binary_round_aux prec emax (negb s) m e l
  = SFopp (binary_round_aux prec emax s m e l).
Proof.
  unfold binary_round_aux.
  destruct (shr_fexp prec emax m e l) as [mrs' e'].
  destruct (shr_fexp prec emax
              (round_nearest_even (shr_m mrs') (loc_of_shr_record mrs')) e' loc_Exact)
    as [mrs'' e''].
  destruct (shr_m mrs'') as [|p|p]; try reflexivity.
  destruct (e'' <=? emax - prec); reflexivity.
Qed.

Lemma binary_round_opp (prec emax : Z) (s : bool) (m : positive) (e : Z) :
  binary_round prec emax (negb s) m e = SFopp (binary_round prec emax s m e).
Proof.
  unfold binary_round.
  destruct (shl_align m e (fexp prec emax (Z.pos (digits2_pos m) + e))) as [mz ez].
  apply binary_round_aux_opp.
Qed.

Lemma SFopp_involutive (x : spec_float) : SFopp (SFopp x) = x.
Proof. destruct x as [s|s| |s m e]; cbn; rewrite ?Bool.negb_involutive; reflexivity. Qed.

Lemma binary_normalize_opp (prec emax : Z) (z e : Z) :
  binary_normalize prec emax (- z) e false = binary_normalize prec emax z e false
  \/ binary_normalize prec emax (- z) e false
     = SFopp (binary_normalize prec emax z e false).
Proof.
  destruct z as [|p|p]; cbn [Z.opp binary_normalize].
  - left. reflexivity.
  - right. apply (binary_round_opp prec emax false).
  - right. change true with (negb false). rewrite (binary_round_opp prec emax false).
    symmetry. apply SFopp_involutive.
Qed.

Lemma sub32_swap (x y : float4) :
  sub32 y x = sub32 x y \/ sub32 y x = SFopp (sub32 x y).
Proof.
  unfold sub32.
  destruct x as [sx|sx| |sx mx ex], y as [sy|sy| |sy my ey];
    try (left; reflexivity); try (right; reflexivity);
    try (destruct sx, sy; (left; reflexivity) || (right; reflexivity)).
  cbn [SFsub]. cbv zeta. rewrite (Z.min_comm ey ex).
  set (a := cond_Zopp sx (Z.pos (fst (shl_align mx ex (Z.min ex ey))))).
  set (b := cond_Zopp sy (Z.pos (fst (shl_align my ey (Z.min ex ey))))).
  replace (b - a) with (- (a - b)) by lia.
  apply binary_normalize_opp.
Qed.

Lemma to_double_opp (x : float4) : to_double (SFopp x) = SFopp (to_double x).
Proof.
  destruct x as [s|s| |s m e]; try reflexivity.
  unfold to_double, round_to. cbn [SFopp].
  destruct s; cbn [negb cond_Zopp Z.opp binary_normalize].
  - change (- Z.pos m) with (Z.neg m). cbn [binary_normalize].
    change true with (negb false).
    rewrite (binary_round_opp _ _ false). symmetry. apply SFopp_involutive.
  - change (- Z.pos m) with (Z.neg m). cbn [binary_normalize].
    apply (binary_round_opp _ _ false).
Qed.

Lemma mul64_opp_opp (d : double) : mul64 (SFopp d) (SFopp d) = mul64 d d.
Proof. destruct d as [[|]|[|]| |[|] m e]; reflexivity. Qed.

Lemma square_diff_swap (x y : float4) :
  mul64 (to_double (sub32 y x)) (to_double (sub32 y x))
  = mul64 (to_double (sub32 x y)) (to_double (sub32 x y)).
Proof.
  destruct (sub32_swap x y) as [-> | ->]; [reflexivity|].
  rewrite to_double_opp. apply mul64_opp_opp.
Qed.

Lemma mul32_comm (x y : float4) : mul32 x y = mul32 y x.
Proof.
  unfold mul32.
  destruct x as [sx|sx| |sx mx ex], y as [sy|sy| |sy my ey]; cbn [SFmul];
    try reflexivity; try (rewrite (Bool.xorb_comm sx sy); reflexivity).
  rewrite (Bool.xorb_comm sx sy), (Pos.mul_comm mx my), (Z.add_comm ex ey). reflexivity.
Qed.

Lemma mul64_comm (x y : double) : mul64 x y = mul64 y x.
Proof.
  unfold mul64.
  destruct x as [sx|sx| |sx mx ex], y as [sy|sy| |sy my ey]; cbn [SFmul];
    try reflexivity; try (rewrite (Bool.xorb_comm sx sy); reflexivity).
  rewrite (Bool.xorb_comm sx sy), (Pos.mul_comm mx my), (Z.add_comm ex ey). reflexivity.
Qed.

Lemma for_res_ext {S} (f g : Z -> S -> res S) :
  (forall i s, f i s = g i s) ->
  forall n i s, for_res n i f s = for_res n i g s.
Proof.
  intros H. induction n as [|n IH]; intros i s; cbn [for_res]; [reflexivity|].
  rewrite H. destruct (g i s); cbn [res_bind]; auto.
Qed.

Lemma aref_swap {A B} (v1 v2 : list A) (i : Z) (f g : A -> A -> res B) :
  (forall x y, f x y = g y x) ->
  res_bind (aref v1 i) (fun x => res_bind (aref v2 i) (fun y => f x y))
  = res_bind (aref v2 i) (fun y => res_bind (aref v1 i) (fun x => g y x)).
Proof.
  intros H. unfold aref. destruct (i <? 0); [reflexivity|].
  destruct (v1 !! Z.to_nat i), (v2 !! Z.to_nat i); cbn [res_bind]; auto.
Qed.

Lemma cos_loop_swap (v1 v2 : list float4) :
  forall n i dp n1 n2,
    for_res n i (cos_step v2 v1) (dp, n2, n1)
    = res_bind (for_res n i (cos_step v1 v2) (dp, n1, n2))
               (fun '(d, a, b) => Ok (d, b, a)).
Proof.
  induction n as [|n IH]; intros i dp n1 n2; cbn [for_res res_bind]; [reflexivity|].
  unfold cos_step at 1 3. unfold aref. destruct (i <? 0); [reflexivity|].
  destruct (v1 !! Z.to_nat i) as [x|], (v2 !! Z.to_nat i) as [y|];
    cbn [res_bind]; try reflexivity.
  rewrite (mul32_comm y x). apply IH.
Qed.

(** X7.  The distance is symmetric in its two vectors, bit for bit, under
    every strategy and for every outcome: swapping the arguments gives the
    same [float4], the same error or the same undefined access. *)
Theorem distance_symmetric (vec1 vec2 : list float4) (dim strategy : Z) :
  hnswComputeDistance vec2 vec1 dim strategy
  = hnswComputeDistance vec1 vec2 dim strategy.
Proof.
  unfold hnswComputeDistance.
  destruct (strategy =? 1).
  - rewrite (for_res_ext (l2_step vec2 vec1) (l2_step vec1 vec2)); [reflexivity|].
    intros i s. unfold l2_step.
    rewrite (aref_swap vec2 vec1 i _
               (fun x y => Ok (add64 s (mul64 (to_double (sub32 x y))
                                              (to_double (sub32 x y))))));
      [reflexivity|].
    intros x y. cbv zeta. rewrite square_diff_swap. reflexivity.
  - destruct (strategy =? 2).
    + rewrite cos_loop_swap.
      match goal with
      | |- res_bind (res_bind ?c _) _ = res_bind ?c' _ =>
          change c' with c; destruct c as [[[d a] b]| | |]
      end; cbn [res_bind]; try reflexivity.
      cbv zeta.
      rewrite (Bool.orb_comm (eqb (sqrt64 b) zero)).
      rewrite (mul64_comm (sqrt64 b)). reflexivity.
    + destruct (strategy =? 3); [|reflexivity].
      rewrite (for_res_ext (ip_step vec2 vec1) (ip_step vec1 vec2)); [reflexivity|].
      intros i s. unfold ip_step.
      rewrite (aref_swap vec2 vec1 i _
                 (fun x y => Ok (add64 s (to_double (mul32 x y)))));
        [reflexivity|].
      intros x y. rewrite (mul32_comm x y). reflexivity.
Qed.

Lemma sub32_self (x : float4) : is_number x = true -> sub32 x x = zero.
Proof.
  destruct x as [s|s| |s m e]; try discriminate; intros _.
  - destruct s; reflexivity.
  - unfold sub32. cbn [SFsub]. cbv zeta. rewrite Z.sub_diag. reflexivity.
Qed.

Lemma l2_self_loop (v : list float4) :
  forall (n : nat) (i : Z),
    0 <= i ->
    (forall j x, i <= j < i + Z.of_nat n -> tbl v j = Some x -> is_number x = true) ->
    i + Z.of_nat n <= Z.of_nat (length v) ->
    for_res n i (l2_step v v) zero = Ok zero.
Proof.
  induction n as [|n IH]; intros i Hi Hfin Hlen; [reflexivity|].
  cbn [for_res]. destruct (tbl_in_bound v i ltac:(lia)) as [x Hx].
  pose proof Hx as Ha. apply aref_tbl in Ha.
  unfold l2_step. rewrite Ha. cbn [res_bind].
  rewrite (sub32_self x (Hfin i x ltac:(lia) Hx)).
  change (add64 zero (mul64 (to_double zero) (to_double zero))) with zero.
  apply IH; [lia | | lia].
  intros j y Hj. apply Hfin. lia.
Qed.

(** X8.  Under strategy 1 the distance of a vector to itself is exactly
    [+0.0], when the first [dim] components are finite numbers. *)
Theorem l2_distance_to_self (v : list float4) (dim : Z) :
  dim <= Z.of_nat (length v) ->
  (forall j x, 0 <= j < dim -> tbl v j = Some x -> is_number x = true) ->
  hnswComputeDistance v v dim 1 = Ok zero.
Proof.
  intros Hlen Hfin. unfold hnswComputeDistance. cbn [Z.eqb Pos.eqb].
  rewrite (l2_self_loop v (Z.to_nat dim) 0); [reflexivity | lia | | lia].
  intros j x Hj. apply Hfin. lia.
Qed.

Lemma l2_distance_to_self_witness :
  hnswComputeDistance [of_Z32 3; of_Z32 (-4); zero] [of_Z32 3; of_Z32 (-4); zero] 3 1
  = Ok zero.
Proof.
  apply (l2_distance_to_self [of_Z32 3; of_Z32 (-4); zero] 3).
  - cbn. lia.
  - intros j x Hj Hx.
    assert (Hc : j = 0 \/ j = 1 \/ j = 2) by lia.
    destruct Hc as [-> | [-> | ->]]; vm_compute in Hx; inversion Hx; reflexivity.
Defined.

(** The values a rounding to a non-negative sign can give. *)
Lemma binary_round_aux_sign (prec emax : Z) (m e : Z) (l : location) :
  SFltb (binary_round_aux prec emax false m e l) zero = false.
Proof.
  unfold binary_round_aux.
  destruct (shr_fexp prec emax m e l) as [mrs' e'].
  destruct (shr_fexp prec emax
              (round_nearest_even (shr_m mrs') (loc_of_shr_record mrs')) e' loc_Exact)
    as [mrs'' e''].
  destruct (shr_m mrs'') as [|p|p]; try reflexivity.
  destruct (e'' <=? emax - prec); reflexivity.
Qed.

Lemma sqrt64_sign (x : double) :
  match sqrt64 x with
  | S754_finite true _ _ | S754_infinity true => False
  | _ => True
  end.
Proof.
  destruct x as [s|[|]| |[|] m e]; try exact I.
  unfold sqrt64. cbn [SFsqrt].
  destruct (SFsqrt_core_binary prec64 emax64 (Z.pos m) e) as [[mz ez] lz].
  pose proof (binary_round_aux_sign prec64 emax64 mz ez lz) as H.
  destruct (binary_round_aux prec64 emax64 false mz ez lz) as [s1|[|]| |[|] m1 e1];
    try exact I; discriminate H.
Qed.

(** X9.  Under strategy 1 the distance is never below zero: whenever a
    value is returned, the comparison [d < 0.0] is false. *)
Theorem l2_distance_not_negative (vec1 vec2 : list float4) (dim : Z) :
  match hnswComputeDistance vec1 vec2 dim 1 with
  | Ok d => ltb d zero = false
  | _ => True
  end.
Proof.
  unfold hnswComputeDistance. cbn [Z.eqb Pos.eqb].
  destruct (for_res (Z.to_nat dim) 0 (l2_step vec1 vec2) zero) as [sum| | |];
    cbn [res_bind]; try exact I.
  pose proof (sqrt64_sign sum) as Hs.
  destruct (sqrt64 sum) as [s|[|]| |[|] m e]; try contradiction; try reflexivity.
  unfold to_float4, round_to. cbn [cond_Zopp binary_normalize].
    unfold binary_round.
    destruct (shl_align m e (fexp prec32 emax32 (Z.pos (digits2_pos m) + e)))
      as [mz ez].
    apply binary_round_aux_sign.
Qed.

(** ** hnswComputeNodeSizeSafe on every pair of [int] arguments *)

Lemma size_t_repr (z r k : Z) : 0 <= r < 2 ^ 64 -> z = r + k * 2 ^ 64 -> size_t z = r.
Proof.
  intros Hr ->. unfold size_t. rewrite Z_mod_plus_full. apply Z.mod_small. exact Hr.
Qed.

Lemma node_size_int (dim level m : Z) :
  INT_MIN <= dim <= INT_MAX ->
  INT_MIN <= level < INT_MAX ->
  2 <= m <= 128 ->
  hnswComputeNodeSizeSafe dim level m
  = if (dim <? 0) || (level <? -1) then (0, true)
    else (node_size_exact dim level m, false).
Proof.
  unfold INT_MIN, INT_MAX. intros Hd Hl Hm.
  unfold hnswComputeNodeSizeSafe, HNSW_MIN_M, HNSW_MAX_M,
    sizeof_float4, sizeof_BlockNumber, sizeof_HnswNodeData.
  destruct (Z.ltb_spec m 2); [lia|].
  destruct (Z.gtb_spec m 128); [lia|]. cbn [orb].
  rewrite (size_t_small m) by lia.
  destruct (Z.ltb_spec dim 0) as [Hneg|Hpos]; cbn [orb].
  - rewrite (size_t_repr dim (dim + 2 ^ 64) (-1)) by lia.
    rewrite (size_t_repr ((dim + 2 ^ 64) * 4) (dim * 4 + 2 ^ 64) 3) by lia.
    destruct (Z.eqb_spec ((dim * 4 + 2 ^ 64) / 4) (dim + 2 ^ 64)) as [E|E];
      [|reflexivity].
    exfalso. replace (dim * 4 + 2 ^ 64) with ((dim + 2 ^ 62) * 4) in E by lia.
    rewrite Z.div_mul in E by lia. lia.
  - rewrite (size_t_small dim) by lia.
    rewrite (size_t_small (dim * 4)) by lia.
    rewrite Z.div_mul by lia. rewrite Z.eqb_refl. cbn [negb].
    destruct (Z.ltb_spec level (-1)) as [Hlow|Hok].
    + assert (Hlm : - 2 ^ 40 <= (level + 1) * m < 0) by nia.
      rewrite (size_t_repr (level + 1) (level + 1 + 2 ^ 64) (-1)) by lia.
      rewrite (size_t_repr ((level + 1 + 2 ^ 64) * m)
                 ((level + 1) * m + 2 ^ 64) (m - 1)) by lia.
      rewrite (size_t_repr (((level + 1) * m + 2 ^ 64) * 2)
                 ((level + 1) * m * 2 + 2 ^ 64) 1) by lia.
      rewrite (size_t_repr (((level + 1) * m * 2 + 2 ^ 64) * 4)
                 ((level + 1) * m * 8 + 2 ^ 64) 3) by lia.
      destruct (Z.eqb_spec (((level + 1) * m * 8 + 2 ^ 64) / 4)
                           ((level + 1) * m * 2 + 2 ^ 64)) as [E|E];
        [|reflexivity].
      exfalso.
      replace ((level + 1) * m * 8 + 2 ^ 64)
        with (((level + 1) * m * 2 + 2 ^ 62) * 4) in E by lia.
      rewrite Z.div_mul in E by lia. lia.
    + assert (Hlm : 0 <= (level + 1) * m <= 2 ^ 40) by nia.
      rewrite (size_t_small (level + 1)) by lia.
      rewrite (size_t_small ((level + 1) * m)) by lia.
      rewrite (size_t_small ((level + 1) * m * 2)) by lia.
      rewrite (size_t_small ((level + 1) * m * 2 * 4)) by lia.
      rewrite Z.div_mul by lia. rewrite Z.eqb_refl. cbn [negb].
      rewrite (size_t_small (48 + dim * 4)) by lia.
      rewrite (size_t_small (48 + dim * 4 + (level + 1) * m * 2 * 4)) by lia.
      destruct (Z.ltb_spec (48 + dim * 4 + (level + 1) * m * 2 * 4) 48); [lia|].
      destruct (Z.ltb_spec (48 + dim * 4 + (level + 1) * m * 2 * 4) (dim * 4)); [lia|].
      destruct (Z.ltb_spec (48 + dim * 4 + (level + 1) * m * 2 * 4)
                           ((level + 1) * m * 2 * 4)); [lia|].
      cbn [orb].
      rewrite MAXALIGN_align8 by lia.
      pose proof (align8_bounds (48 + dim * 4 + (level + 1) * m * 2 * 4)) as [Hal _].
      destruct (Z.ltb_spec (align8 (48 + dim * 4 + (level + 1) * m * 2 * 4))
                           (48 + dim * 4 + (level + 1) * m * 2 * 4)); [lia|].
      unfold node_size_exact, sizeof_HnswNodeData. do 2 f_equal. lia.
Qed.

(** X10.  For a valid [m], any [int] dimension and any [int] level below
    [INT_MAX] the size computation reports an overflow exactly for a
    negative dimension and for a level below [-1]; in every other case it
    returns the exact node size. *)
Theorem node_size_on_int_arguments (dim level m : Z) :
  INT_MIN <= dim <= INT_MAX ->
  INT_MIN <= level < INT_MAX ->
  2 <= m <= 128 ->
  hnswComputeNodeSizeSafe dim level m
  = if (dim <? 0) || (level <? -1) then (0, true)
    else (node_size_exact dim level m, false).
Proof. exact (node_size_int dim level m). Qed.

Lemma node_size_on_int_arguments_witness :
  hnswComputeNodeSizeSafe (-1) 0 16 = (0, true)
  /\ hnswComputeNodeSizeSafe 3 (-2) 16 = (0, true)
  /\ hnswComputeNodeSizeSafe 3 (-1) 16 = (node_size_exact 3 (-1) 16, false).
Proof.
  split; [|split].
  - apply (node_size_on_int_arguments (-1) 0 16); unfold INT_MIN, INT_MAX; lia.
  - apply (node_size_on_int_arguments 3 (-2) 16); unfold INT_MIN, INT_MAX; lia.
  - apply (node_size_on_int_arguments 3 (-1) 16); unfold INT_MIN, INT_MAX; lia.
Defined.

(** ** Insertion into an index without entry point *)

Lemma same_index_refl (w : World) : same_index w w.
Proof. split; reflexivity. Qed.

Lemma same_index_trans (w1 w2 w3 : World) :
  same_index w1 w2 -> same_index w2 w3 -> same_index w1 w3.
Proof. intros [A1 B1] [A2 B2]. split; congruence. Qed.

Lemma random_level_same_index (log : double -> double) (ml : float4) :
  preserves same_index (hnswGetRandomLevel log ml).
Proof.
  apply (preserves_hnswGetRandomLevel same_index);
    [ apply same_index_refl | apply same_index_trans | intros; split; reflexivity ].
Qed.

Lemma ReadBuffer_P_NEW_pages (w w' : World) (blkno : BlockNumber) :
  ReadBuffer_P_NEW w = (Ok blkno, w') ->
  blkno = RelationGetNumberOfBlocks w
  /\ blkno < InvalidBlockNumber
  /\ w_meta w' = w_meta w
  /\ w_pages w' = w_pages w ++ [PageNew].
Proof.
  unfold ReadBuffer_P_NEW, bind at 1, get.
  destruct (Z.geb_spec (RelationGetNumberOfBlocks w) InvalidBlockNumber) as [Hge|Hlt];
    [discriminate|].
  intros H. inversion H; subst. cbn. auto.
Qed.

Lemma node_size_flag (dim level m size : Z) :
  hnswComputeNodeSizeSafe dim level m = (size, false) ->
  HNSW_MIN_M <= m <= HNSW_MAX_M.
Proof.
  unfold hnswComputeNodeSizeSafe.
  destruct (Z.ltb_spec m HNSW_MIN_M); [discriminate|].
  destruct (Z.gtb_spec m HNSW_MAX_M); [discriminate|]. intros _. lia.
Qed.

Lemma update_meta_options (blkno : BlockNumber) (level : Z) (w w' : World) :
  update_meta blkno level w = (Ok tt, w') ->
  meta_m (w_meta w') = meta_m (w_meta w)
  /\ meta_efConstruction (w_meta w') = meta_efConstruction (w_meta w)
  /\ meta_efSearch (w_meta w') = meta_efSearch (w_meta w)
  /\ meta_ml (w_meta w') = meta_ml (w_meta w).
Proof.
  unfold update_meta. intros H.
  step H as meta w0 E. apply get_meta_Ok in E. destruct E as [-> ->].
  step H as entry w0 E.
  assert (Hw : w0 = w).
  { destruct ((meta_entryPoint (w_meta w) =? InvalidBlockNumber)
              || (level >? meta_entryLevel (w_meta w))).
    - step E as valid w1 E1. apply validate_Ok in E1. destruct E1 as [-> ->].
      destruct (valid_block w blkno); [|discriminate].
      apply ret_Ok in E. destruct E as [_ ->]. reflexivity.
    - apply ret_Ok in E. destruct E as [_ ->]. reflexivity. }
  subst w0.
  destruct (meta_insertedVectors (w_meta w) >=? INT64_MAX); [discriminate|].
  apply set_meta_Ok in H. destruct H as [-> _]. cbn. auto.
Qed.


Lemma insert_entryless (log : double -> double) (fuel : nat)
    (vector : list float4) (dim : Z) (heapPtr : ItemPointerData) (w w' : World) :
  meta_entryPoint (w_meta w) = InvalidBlockNumber ->
  hnswInsertNode log fuel vector dim heapPtr w = (Ok tt, w') ->
  exists level node,
    0 <= level <= 15
    /\ new_node heapPtr vector dim level (meta_m (w_meta w)) = Ok node
    /\ w_pages w' = w_pages w ++ [PageInit [{| lp_dead := false; it_node := node |}]]
    /\ meta_entryPoint (w_meta w') = RelationGetNumberOfBlocks w
    /\ meta_entryLevel (w_meta w') = level
    /\ RelationGetNumberOfBlocks w < InvalidBlockNumber
    /\ HNSW_MIN_M <= meta_m (w_meta w) <= HNSW_MAX_M
    /\ meta_m (w_meta w') = meta_m (w_meta w)
    /\ meta_efSearch (w_meta w') = meta_efSearch (w_meta w).
Proof.
  intros Hentry H. unfold hnswInsertNode in H.
  step H as meta w0 E. apply get_meta_Ok in E. destruct E as [-> ->].
  step H as L w1 Hlevel.
  pose proof (preserves_Ok _ _ _ _ _ (random_level_same_index log _) Hlevel) as [Hm1 Hp1].
  apply hnswGetRandomLevel_Ok in Hlevel. destruct Hlevel as [HL _].
  destruct (Z.geb_spec L HNSW_MAX_LEVEL) as [Hge|_]; [unfold HNSW_MAX_LEVEL in Hge; lia|].
  destruct (hnswValidateLevelSafe L); cbn [negb] in H; [|discriminate].
  destruct (hnswComputeNodeSizeSafe dim L (meta_m (w_meta w))) as [nodeSize overflow]
    eqn:Hsize.
  destruct overflow; [discriminate|]. cbn [orb] in H.
  apply node_size_flag in Hsize.
  destruct (nodeSize =? 0); [discriminate|].
  step H as t w2 E.
  pose proof (preserves_Ok _ _ _ _ _
                (preserves_NDB_ALLOC same_index same_index_refl nodeSize) E) as [Hm2 Hp2].
  clear E t.
  step H as node w3 E. apply lift_Ok in E. destruct E as [Hnode ->].
  rewrite Hentry, Z.eqb_refl in H. cbn [negb andb] in H.
  step H as t w3 E. apply ret_Ok in E. destruct E as [_ ->]. clear t.
  step H as blkno w3 E. apply ReadBuffer_P_NEW_pages in E.
  destruct E as (Hblk & Hlim & Hm3 & Hp3).
  step H as t w4 E. destruct t.
  apply write_page_Ok in E. destruct E as (Hb4 & Hm4 & Hp4).
  step H as t w5 E. destruct t.
  destruct (fresh_page_free_space <? nodeSize); [discriminate|].
  apply write_page_Ok in E. destruct E as (Hb5 & Hm5 & Hp5).
  step H as t w6 E. apply ret_Ok in E. destruct E as [_ ->]. clear t.
  pose proof (update_meta_options _ _ _ _ H) as (Hopt & _ & Hopt' & _).
  apply update_meta_Ok in H. destruct H as (Hp6 & _ & _ & Hyes & _).
  assert (Hmeta : w_meta w5 = w_meta w) by congruence.
  rewrite Hmeta in Hyes, Hopt, Hopt'. destruct (Hyes (or_introl Hentry)) as [He Hl].
  exists L, node. split; [exact HL|]. split; [exact Hnode|].
  assert (Hpages2 : w_pages w2 = w_pages w) by congruence.
  assert (Hblk' : blkno = RelationGetNumberOfBlocks w).
  { rewrite Hblk. unfold RelationGetNumberOfBlocks. rewrite Hpages2. reflexivity. }
  split; [|split; [congruence | split; [exact Hl|]]].
  - rewrite Hp6, Hp5, Hp4, Hp3, Hpages2, Hblk'.
    unfold RelationGetNumberOfBlocks.
    replace (Z.to_nat (1 + Z.of_nat (length (w_pages w)) - 1))
      with (length (w_pages w) + 0)%nat by lia.
    rewrite !insert_app_r. reflexivity.
  - split; [lia|]. split; [exact Hsize|]. split; [exact Hopt | exact Hopt'].
Qed.



(** ** Search from an entry point without neighbors *)

Lemma returns_ret {A} (a : A) (w : World) : returns (ret a) w a.
Proof. exists w. split; [reflexivity | apply read_only_refl]. Qed.

Lemma returns_lift {A} (r : res A) (a : A) (w : World) : r = Ok a -> returns (lift r) w a.
Proof. intros ->. exists w. split; [reflexivity | apply read_only_refl]. Qed.

Lemma returns_bind {A B} (c : M A) (k : A -> M B) (w : World) (a : A) (b : B) :
  returns c w a ->
  (forall w1, read_only w w1 -> returns (k a) w1 b) ->
  returns (bind c k) w b.
Proof.
  intros (w1 & Hc & Hr1) Hk. destruct (Hk w1 Hr1) as (w2 & Hk2 & Hr2).
  exists w2. split; [rewrite (bind_Ok_intro c k w w1 a Hc); exact Hk2|].
  exact (read_only_trans _ _ _ Hr1 Hr2).
Qed.

Lemma returns_get (w : World) : returns get w w.
Proof. exists w. split; [reflexivity | apply read_only_refl]. Qed.

Lemma returns_get_meta (w : World) : returns get_meta w (w_meta w).
Proof. exists w. split; [reflexivity | apply read_only_refl]. Qed.

Lemma returns_log (ev : Event) (w : World) : returns (log ev) w tt.
Proof. exists (logged ev w). split; [reflexivity | apply read_only_log; exact I]. Qed.

Lemma returns_NDB_ALLOC (n : Z) (w : World) : 0 <= n -> returns (NDB_ALLOC n) w tt.
Proof.
  intros Hn. unfold NDB_ALLOC. destruct (Z.ltb_spec n 0); [lia|]. apply returns_ret.
Qed.

Lemma returns_validate (b : BlockNumber) (w : World) :
  returns (hnswValidateBlockNumber b) w (valid_block w b).
Proof. exists w. split; [reflexivity | apply read_only_refl]. Qed.

Lemma returns_ReadBuffer (b : BlockNumber) (w : World) (p : Page) :
  page_at w b = Some p -> returns (ReadBuffer b) w p.
Proof.
  intros Hp. exists (logged (EvReadBuffer b) w).
  split; [apply ReadBuffer_in_range; exact Hp | apply read_only_log; exact I].
Qed.

Lemma returns_ComputeDistance (v1 v2 : list float4) (dim s : Z) (d : float4) (w : World) :
  hnswComputeDistance v1 v2 dim s = Ok d -> returns (ComputeDistance v1 v2 dim s) w d.
Proof.
  intros Hd. unfold ComputeDistance.
  apply (returns_bind _ _ w tt); [apply returns_log|].
  intros w1 _. apply returns_lift. exact Hd.
Qed.

Lemma read_only_page_at (w w1 : World) (b : BlockNumber) :
  read_only w w1 -> page_at w1 b = page_at w b.
Proof. intros (_ & Hp & _). apply page_at_pages. exact Hp. Qed.

Lemma read_only_valid (w w1 : World) (b : BlockNumber) :
  read_only w w1 -> valid_block w1 b = valid_block w b.
Proof. intros (_ & Hp & _). apply valid_block_size. rewrite Hp. reflexivity. Qed.

Lemma isolated_read_only (w w1 : World) (b : BlockNumber) (node : HnswNodeData) :
  read_only w w1 -> isolated w b node -> isolated w1 b node.
Proof.
  intros Hr (Hn & Hv & Hl & Hc). pose proof Hr as (Hm & Hp & _).
  split; [rewrite (first_node_at_pages w w1 b Hp); exact Hn|].
  split; [rewrite (read_only_valid w w1 b Hr); exact Hv|].
  split; [exact Hl|]. rewrite Hm. exact Hc.
Qed.

Lemma isolated_page (w : World) (b : BlockNumber) (node : HnswNodeData) :
  isolated w b node ->
  exists p, page_at w b = Some p
            /\ PageIsNew p = false /\ PageIsEmpty p = false
            /\ first_node p = Ok node.
Proof.
  intros (Hn & _). unfold first_node_at in Hn.
  destruct (page_at w b) as [[|[|it rest]]|]; try discriminate.
  inversion Hn; subst. eexists. split; [reflexivity|]. repeat split.
Qed.

Lemma greedy_scan_isolated (query : list float4) (dim strategy level : Z)
    (w : World) (b : BlockNumber) (node : HnswNodeData)
    (st : BlockNumber * float4 * bool) :
  isolated w b node ->
  0 <= level < HNSW_MAX_LEVEL ->
  returns (greedy_scan query dim strategy (meta_m (w_meta w)) level node st) w st.
Proof.
  intros (_ & _ & _ & Hc) Hl. destruct (Hc level Hl) as (c & Hcount & Hzero).
  unfold greedy_scan.
  apply (returns_bind _ _ w c); [apply returns_lift, aref_tbl; exact Hcount|].
  intros w1 _. rewrite Hzero. apply returns_ret.
Qed.

Lemma greedy_level_isolated (fuel : nat) (query : list float4) (dim strategy level : Z)
    (w : World) (b : BlockNumber) (node : HnswNodeData) (d : float4) (m : Z) :
  isolated w b node ->
  m = meta_m (w_meta w) ->
  0 <= level < HNSW_MAX_LEVEL ->
  hnswComputeDistance query (node_vector node) dim strategy = Ok d ->
  returns (greedy_level (S fuel) query dim strategy m level b) w b.
Proof.
  intros Hiso -> Hl Hd. cbn [greedy_level].
  apply (returns_bind _ _ w true).
  { destruct Hiso as (_ & Hv & _). rewrite <- Hv. apply returns_validate. }
  intros w1 Hr1. cbn [negb].
  pose proof (isolated_read_only w w1 b node Hr1 Hiso) as Hiso1.
  destruct (isolated_page w1 b node Hiso1) as (p & Hp & Hnew & Hempty & Hfirst).
  apply (returns_bind _ _ w1 p); [apply returns_ReadBuffer; exact Hp|].
  intros w2 Hr2. rewrite Hnew, Hempty. cbn [orb].
  apply (returns_bind _ _ w2 node); [apply returns_lift; exact Hfirst|].
  intros w3 Hr3.
  destruct Hiso as (Hn & Hv & Hlv & Hc). rewrite Hlv. cbn [negb].
  apply (returns_bind _ _ w3 d); [apply returns_ComputeDistance; exact Hd|].
  intros w4 Hr4.
  apply (returns_bind _ _ w4 (b, d, false)).
  { destruct (node_level node >=? level); [|apply returns_ret].
    assert (Hr : read_only w w4).
    { eapply read_only_trans; [exact Hr1|]. eapply read_only_trans; [exact Hr2|].
      eapply read_only_trans; [exact Hr3 | exact Hr4]. }
    pose proof (isolated_read_only w w4 b node Hr (conj Hn (conj Hv (conj Hlv Hc))))
      as Hiso4.
    destruct Hr as (Hm & _). rewrite <- Hm.
    apply (greedy_scan_isolated query dim strategy level w4 b node); assumption. }
  intros w5 _. apply returns_ret.
Qed.

Lemma greedy_descent_isolated (fuel : nat) (query : list float4) (dim strategy : Z)
    (b : BlockNumber) (node : HnswNodeData) (d : float4) (m : Z) :
  hnswComputeDistance query (node_vector node) dim strategy = Ok d ->
  forall (n : nat) (level : Z) (w : World),
    isolated w b node ->
    m = meta_m (w_meta w) ->
    Z.of_nat n <= level < HNSW_MAX_LEVEL ->
    returns (for_down n level
               (fun level current =>
                  c <- greedy_level (S fuel) query dim strategy m level current ;;
                  ret (Next c)) b) w b.
Proof.
  intros Hd. induction n as [|n IH]; intros level w Hiso Hm Hl.
  - apply returns_ret.
  - cbn [for_down].
    apply (returns_bind _ _ w (Next b)).
    { apply (returns_bind _ _ w b).
      - apply (greedy_level_isolated fuel query dim strategy level w b node d m);
          [assumption | assumption | lia | assumption].
      - intros w1 _. apply returns_ret. }
    intros w1 Hr1. apply IH.
    + exact (isolated_read_only w w1 b node Hr1 Hiso).
    + destruct Hr1 as (Hm1 & _). congruence.
    + lia.
Qed.

Lemma explore_candidate_isolated (query : list float4) (dim strategy efSearch numBlocks : Z)
    (w : World) (b : BlockNumber) (node : HnswNodeData) (st : SearchState) :
  isolated w b node ->
  st_candidates st = [b] ->
  returns (explore_candidate query dim strategy (meta_m (w_meta w)) efSearch numBlocks 0 st)
          w (if 1 <? efSearch then Next st else Break st).
Proof.
  intros Hiso Hcand. unfold explore_candidate, candidateCount. rewrite Hcand.
  change (Z.of_nat (length [b])) with 1.
  change (0 <? 1) with true. cbn [andb].
  destruct (1 <? efSearch); cbn [negb]; [|apply returns_ret].
  apply (returns_bind _ _ w b); [apply returns_lift; reflexivity|].
  intros w1 Hr1.
  apply (returns_bind _ _ w1 true).
  { destruct Hiso as (_ & Hv & _).
    rewrite <- Hv, <- (read_only_valid w w1 b Hr1). apply returns_validate. }
  intros w2 Hr2. cbn [negb].
  assert (Hr : read_only w w2) by (eapply read_only_trans; eassumption).
  pose proof (isolated_read_only w w2 b node Hr Hiso) as Hiso2.
  destruct (isolated_page w2 b node Hiso2) as (p & Hp & Hnew & Hempty & Hfirst).
  apply (returns_bind _ _ w2 p); [apply returns_ReadBuffer; exact Hp|].
  intros w3 Hr3. rewrite Hnew, Hempty. cbn [orb].
  apply (returns_bind _ _ w3 node); [apply returns_lift; exact Hfirst|].
  intros w4 Hr4.
  destruct Hiso as (Hn & Hv & Hlv & Hc). rewrite Hlv. cbn [negb].
  destruct (Hc 0 ltac:(unfold HNSW_MAX_LEVEL; lia)) as (c & Hcount & Hzero).
  apply (returns_bind _ _ w4 c); [apply returns_lift, aref_tbl; exact Hcount|].
  intros w5 Hr5. rewrite Hzero.
  apply (returns_bind _ _ w5 st); apply returns_ret || (intros; apply returns_ret).
Qed.

Lemma explore_isolated (query : list float4) (dim strategy efSearch numBlocks : Z)
    (w : World) (b : BlockNumber) (node : HnswNodeData) (st : SearchState) :
  isolated w b node ->
  st_candidates st = [b] ->
  returns (forZ 0 efSearch
             (explore_candidate query dim strategy (meta_m (w_meta w)) efSearch numBlocks)
             st) w st.
Proof.
  intros Hiso Hcand. unfold forZ. rewrite Z.sub_0_r.
  destruct (Z.to_nat efSearch) as [|n] eqn:Hn; [apply returns_ret|].
  cbn [for_up].
  apply (returns_bind _ _ w (if 1 <? efSearch then Next st else Break st)).
  { apply (explore_candidate_isolated _ _ _ _ _ w b node); assumption. }
  intros w1 Hr1. destruct (Z.ltb_spec 1 efSearch) as [Hbig|Hsmall]; [|apply returns_ret].
  destruct n as [|n]; [lia|]. cbn [for_up].
  apply (returns_bind _ _ w1 (Break st)); [|intros; apply returns_ret].
  unfold explore_candidate, candidateCount. rewrite Hcand.
  change (0 + 1 <? Z.of_nat (length [b])) with false. cbn [andb negb].
  apply returns_ret.
Qed.

Lemma top_k_single (k : Z) (b : BlockNumber) (d : float4) :
  1 <= k -> top_k k [b] [d] = Ok ([b], [d]).
Proof.
  intros Hk. unfold top_k, Min. change (Z.of_nat (length [b])) with 1. cbv zeta.
  destruct (Z.ltb_spec k 1); [lia|]. reflexivity.
Qed.

Lemma search_isolated (fuel : nat) (query : list float4)
    (dim strategy efSearch k : Z) (w : World) (node : HnswNodeData) (d : float4) :
  isolated w (meta_entryPoint (w_meta w)) node ->
  hnswComputeDistance query (node_vector node) dim strategy = Ok d ->
  1 <= efSearch -> 1 <= k ->
  returns (hnswSearch (S fuel) query dim strategy efSearch k) w
          {| sr_results := Some [meta_entryPoint (w_meta w)];
             sr_distances := Some [d];
             sr_resultCount := 1 |}.
Proof.
  intros Hiso Hd Hef Hk. set (b := meta_entryPoint (w_meta w)) in *.
  assert (Hb : 1 <= b < RelationGetNumberOfBlocks w).
  { destruct (isolated_page w b node Hiso) as (p & Hp & _ & Hempty & _).
    destruct p as [|[|it rest]]; try discriminate.
    apply page_at_node_block in Hp. tauto. }
  unfold hnswSearch.
  apply (returns_bind _ _ w tt); [apply returns_log|]. intros w1 Hr1.
  apply (returns_bind _ _ w1 (w_meta w1)); [apply returns_get_meta|]. intros w2 Hr2.
  assert (Hm1 : w_meta w1 = w_meta w) by (destruct Hr1; assumption).
  rewrite Hm1. fold b.
  destruct (Z.eqb_spec b InvalidBlockNumber) as [Hinv|_].
  { destruct Hiso as (_ & Hv & _). unfold valid_block in Hv.
    rewrite Hinv, Z.eqb_refl in Hv. discriminate. }
  apply (returns_bind _ _ w2 tt).
  { apply returns_NDB_ALLOC. destruct (efSearch >? 1); lia. }
  intros w3 Hr3.
  apply (returns_bind _ _ w3 w3); [apply returns_get|]. intros w4 Hr4.
  assert (Hr03 : read_only w w3).
  { eapply read_only_trans; [exact Hr1|]. eapply read_only_trans; eassumption. }
  assert (Hnb : RelationGetNumberOfBlocks w3 = RelationGetNumberOfBlocks w).
  { unfold RelationGetNumberOfBlocks. destruct Hr03 as (_ & Hp & _). rewrite Hp.
    reflexivity. }
  rewrite Hnb.
  apply (returns_bind _ _ w4 tt); [apply returns_NDB_ALLOC; lia|]. intros w5 Hr5.
  apply (returns_bind _ _ w5 tt); [apply returns_NDB_ALLOC; lia|]. intros w6 Hr6.
  apply (returns_bind _ _ w6 tt); [apply returns_NDB_ALLOC; lia|]. intros w7 Hr7.
  assert (Hr07 : read_only w w7).
  { eapply read_only_trans; [exact Hr03|]. eapply read_only_trans; [exact Hr4|].
    eapply read_only_trans; [exact Hr5|]. eapply read_only_trans; eassumption. }
  pose proof (isolated_read_only w w7 b node Hr07 Hiso) as Hiso7.
  assert (Hm7 : meta_m (w_meta w) = meta_m (w_meta w7)).
  { destruct Hr07 as (Hm & _). rewrite Hm. reflexivity. }
  apply (returns_bind _ _ w7 b).
  { set (L := if (meta_entryLevel (w_meta w) <? 0)
                 || (meta_entryLevel (w_meta w) >=? HNSW_MAX_LEVEL)
              then 0 else meta_entryLevel (w_meta w)).
    assert (HL : 0 <= L < HNSW_MAX_LEVEL).
    { unfold L, HNSW_MAX_LEVEL.
      destruct (Z.ltb_spec (meta_entryLevel (w_meta w)) 0); cbn [orb]; [lia|].
      destruct (Z.geb_spec (meta_entryLevel (w_meta w)) 16); lia. }
    unfold forZ_down.
    apply (greedy_descent_isolated fuel query dim strategy b node d _ Hd);
      [exact Hiso7 | exact Hm7 | lia]. }
  intros w8 Hr8.
  assert (Hr08 : read_only w w8) by (eapply read_only_trans; eassumption).
  apply (returns_bind _ _ w8 true).
  { destruct Hiso as (_ & Hv & _).
    rewrite <- Hv, <- (read_only_valid w w8 b Hr08). apply returns_validate. }
  intros w9 Hr9. cbn [negb].
  destruct (Z.ltb_spec efSearch 1); [lia|].
  assert (Hr09 : read_only w w9) by (eapply read_only_trans; eassumption).
  pose proof (isolated_read_only w w9 b node Hr09 Hiso) as Hiso9.
  destruct (isolated_page w9 b node Hiso9) as (p & Hp & Hnew & Hempty & Hfirst).
  apply (returns_bind _ _ w9 p); [apply returns_ReadBuffer; exact Hp|].
  intros w10 Hr10. rewrite Hnew, Hempty. cbn [orb].
  apply (returns_bind _ _ w10 node); [apply returns_lift; exact Hfirst|].
  intros w11 Hr11.
  destruct Hiso as (Hn & Hv & Hlv & Hc). rewrite Hlv. cbn [negb].
  apply (returns_bind _ _ w11 d); [apply returns_ComputeDistance; exact Hd|].
  intros w12 Hr12.
  set (cap := if efSearch >? 1 then efSearch * 2 else 32).
  assert (Hcap : 0 < cap) by (unfold cap; destruct (efSearch >? 1); lia).
  set (vs := replicate (Z.to_nat (RelationGetNumberOfBlocks w)) false).
  destruct (aset vs b true) as [vs'| | |] eqn:Hset;
    try (unfold aset in Hset; unfold vs in Hset; rewrite length_replicate in Hset;
         destruct (Z.leb_spec 0 b); [|lia];
         destruct (Z.ltb_spec b (Z.of_nat (Z.to_nat (RelationGetNumberOfBlocks w))));
           [|lia]; discriminate).
  set (st1 := {| st_candidates := [b]; st_candidateDists := [d];
                 st_visitedSet := vs'; st_visitedCount := 1;
                 st_visitedCapacity := cap |}).
  apply (returns_bind _ _ w12
           {| st_candidates := [b]; st_candidateDists := [d];
              st_visitedSet := vs; st_visitedCount := 0 + 1;
              st_visitedCapacity := cap |}).
  { apply returns_lift. unfold visited_append. cbn [st_visitedCount st_visitedCapacity].
    destruct (Z.ltb_spec 0 cap); [reflexivity | lia]. }
  intros w13 Hr13.
  apply (returns_bind _ _ w13 st1).
  { apply returns_lift. unfold visited_set. cbn [st_visitedSet].
    destruct (Z.ltb_spec b (RelationGetNumberOfBlocks w)); [|lia].
    rewrite Hset. reflexivity. }
  intros w14 Hr14.
  assert (Hr014 : read_only w w14).
  { eapply read_only_trans; [exact Hr09|]. eapply read_only_trans; [exact Hr10|].
    eapply read_only_trans; [exact Hr11|]. eapply read_only_trans; [exact Hr12|].
    eapply read_only_trans; eassumption. }
  pose proof (isolated_read_only w w14 b node Hr014
                (conj Hn (conj Hv (conj Hlv Hc)))) as Hiso14.
  assert (Hm14 : meta_m (w_meta w) = meta_m (w_meta w14)).
  { destruct Hr014 as (Hm & _). rewrite Hm. reflexivity. }
  apply (returns_bind _ _ w14 st1).
  { rewrite Hm14. apply (explore_isolated _ _ _ _ _ w14 b node); [exact Hiso14|reflexivity]. }
  intros w15 Hr15.
  change (candidateCount st1) with 1.
  assert (HMin : Min k 1 = 1) by (unfold Min; destruct (Z.ltb_spec k 1); lia).
  rewrite HMin.
  apply (returns_bind _ _ w15 tt); [apply returns_NDB_ALLOC; lia|]. intros w16 Hr16.
  apply (returns_bind _ _ w16 tt); [apply returns_NDB_ALLOC; lia|]. intros w17 Hr17.
  apply (returns_bind _ _ w17 tt); [apply returns_NDB_ALLOC; lia|]. intros w18 Hr18.
  apply (returns_bind _ _ w18 ([b], [d])).
  { apply returns_lift. apply top_k_single. exact Hk. }
  intros w19 Hr19. apply returns_ret.
Qed.

(** X12.  When the node of the entry point is a live item and has no
    neighbor at any level, a search with [efSearch >= 1] and [k >= 1]
    returns that block alone, with its distance to the query, and leaves
    the index as it was. *)
Theorem search_from_isolated_entry (fuel : nat) (query : list float4)
    (dim strategy efSearch k : Z) (w : World) (node : HnswNodeData) (d : float4) :
  live_at w (meta_entryPoint (w_meta w)) = true ->
  isolated w (meta_entryPoint (w_meta w)) node ->
  hnswComputeDistance query (node_vector node) dim strategy = Ok d ->
  1 <= efSearch -> 1 <= k ->
  exists w',
    hnswSearch (S fuel) query dim strategy efSearch k w
    = (Ok {| sr_results := Some [meta_entryPoint (w_meta w)];
             sr_distances := Some [d];
             sr_resultCount := 1 |}, w')
    /\ read_only w w'.
Proof.
  intros _ Hiso Hd Hef Hk.
  exact (search_isolated fuel query dim strategy efSearch k w node d Hiso Hd Hef Hk).
Qed.

Lemma isolated_world_one : isolated world_one 1 lone_node.
Proof.
  split; [reflexivity|]. split; [reflexivity|]. split; [reflexivity|].
  intros l Hl. exists 0. split; [|reflexivity].
  unfold tbl. destruct (Z.ltb_spec l 0); [lia|].
  change (node_neighborCount lone_node) with (replicate 16 0).
  apply lookup_replicate_2. unfold HNSW_MAX_LEVEL in Hl. lia.
Defined.

Lemma search_from_isolated_entry_witness :
  exists w',
    hnswSearch 1 (map of_Z32 [3; 4; 0]) 3 1 4 2 world_one
    = (Ok {| sr_results := Some [1];
             sr_distances := Some [of_Z32 5];
             sr_resultCount := 1 |}, w')
    /\ read_only world_one w'.
Proof.
  apply (search_from_isolated_entry 0 (map of_Z32 [3; 4; 0]) 3 1 4 2 world_one
           lone_node (of_Z32 5)).
  - reflexivity.
  - exact isolated_world_one.
  - vm_compute. reflexivity.
  - lia.
  - lia.
Defined.

(** ** Insertion followed by search *)

Lemma for_res_ext_range {S} (f g : Z -> S -> res S) :
  forall (n : nat) (i : Z) (s : S),
    (forall j a, i <= j < i + Z.of_nat n -> f j a = g j a) ->
    for_res n i f s = for_res n i g s.
Proof.
  induction n as [|n IH]; intros i s H; cbn [for_res]; [reflexivity|].
  rewrite (H i s) by lia. destruct (g i s); cbn [res_bind]; try reflexivity.
  apply IH. intros j b Hj. apply H. lia.
Qed.

Lemma aref_take {A} (v : list A) (n : nat) (j : Z) :
  j < Z.of_nat n -> aref (take n v) j = aref v j.
Proof.
  intros Hj. unfold aref. destruct (Z.ltb_spec j 0); [reflexivity|].
  rewrite lookup_take_lt by lia. reflexivity.
Qed.

(** The distance reads the first [dim] components only. *)
Lemma distance_take (v u : list float4) (dim strategy : Z) :
  hnswComputeDistance v (take (Z.to_nat dim) u) dim strategy
  = hnswComputeDistance v u dim strategy.
Proof.
  unfold hnswComputeDistance.
  rewrite (for_res_ext_range (l2_step v (take (Z.to_nat dim) u)) (l2_step v u)).
  2:{ intros j a Hj. unfold l2_step. rewrite aref_take by lia. reflexivity. }
  rewrite (for_res_ext_range (cos_step v (take (Z.to_nat dim) u)) (cos_step v u)).
  2:{ intros j [[a b] c] Hj. unfold cos_step. rewrite aref_take by lia. reflexivity. }
  rewrite (for_res_ext_range (ip_step v (take (Z.to_nat dim) u)) (ip_step v u)).
  2:{ intros j a Hj. unfold ip_step. rewrite aref_take by lia. reflexivity. }
  reflexivity.
Qed.

Lemma new_node_isolated (w : World) (b : BlockNumber) (node : HnswNodeData)
    (heapPtr : ItemPointerData) (vector : list float4) (dim level m : Z)
    (items : list Item) (lp : bool) :
  new_node heapPtr vector dim level m = Ok node ->
  0 <= level <= 15 ->
  HNSW_MIN_M <= meta_m (w_meta w) <= HNSW_MAX_M ->
  1 <= b < InvalidBlockNumber ->
  w_pages w !! Z.to_nat (b - 1) = Some (PageInit ({| lp_dead := lp; it_node := node |} :: items)) ->
  isolated w b node.
Proof.
  intros Hnode HL Hm Hb Hpage.
  assert (Hlen : b - 1 < Z.of_nat (length (w_pages w))).
  { apply lookup_lt_Some in Hpage. lia. }
  split; [|split; [|split]].
  - unfold first_node_at, page_at.
    destruct (Z.eqb_spec b 0); [lia|]. destruct (Z.ltb_spec b 0); [lia|].
    rewrite Hpage. reflexivity.
  - unfold valid_block, RelationGetNumberOfBlocks.
    destruct (Z.eqb_spec b InvalidBlockNumber); [lia|].
    destruct (Z.geb_spec b (1 + Z.of_nat (length (w_pages w)))); [lia|]. reflexivity.
  - unfold new_node in Hnode.
    destruct (Z.of_nat (length vector) <? dim); [discriminate|].
    inversion Hnode; subst node. cbn [node_level].
    unfold hnswValidateLevelSafe, HNSW_MAX_LEVEL.
    destruct (Z.ltb_spec level 0); [lia|].
    destruct (Z.geb_spec level 16); [lia|]. reflexivity.
  - intros l Hl. exists 0. unfold new_node in Hnode.
    destruct (Z.of_nat (length vector) <? dim); [discriminate|].
    inversion Hnode; subst node. cbn [node_neighborCount]. split.
    + unfold tbl. destruct (Z.ltb_spec l 0); [lia|].
      match goal with |- ?T !! _ = _ => change T with (replicate 16 0) end.
      apply lookup_replicate_2. unfold HNSW_MAX_LEVEL in Hl. lia.
    + unfold hnswValidateNeighborCount. cbn [Z.ltb Z.compare].
      unfold HNSW_MIN_M, HNSW_MAX_M in Hm.
      assert (H16 : int16 (meta_m (w_meta w) * 2) = meta_m (w_meta w) * 2).
      { unfold int16. rewrite Z.mod_small by lia. lia. }
      rewrite H16. destruct (Z.gtb_spec 0 (meta_m (w_meta w) * 2)); [lia|]. reflexivity.
Qed.

(** X13.  A vector inserted into an index without entry point is found by
    the next search: the search for the same vector returns the block of
    the new node alone, with the distance of the vector to itself. *)
Theorem insert_then_search (log : double -> double) (fuel fuel' : nat)
    (vector : list float4) (dim strategy efSearch k : Z) (heapPtr : ItemPointerData)
    (d : float4) (w w' : World) :
  meta_entryPoint (w_meta w) = InvalidBlockNumber ->
  hnswInsertNode log fuel vector dim heapPtr w = (Ok tt, w') ->
  hnswComputeDistance vector vector dim strategy = Ok d ->
  1 <= efSearch -> 1 <= k ->
  exists w'',
    hnswSearch (S fuel') vector dim strategy efSearch k w'
    = (Ok {| sr_results := Some [RelationGetNumberOfBlocks w];
             sr_distances := Some [d];
             sr_resultCount := 1 |}, w'')
    /\ read_only w' w''.
Proof.
  intros Hentry Hins Hd Hef Hk.
  destruct (insert_entryless log fuel vector dim heapPtr w w' Hentry Hins)
    as (level & node & HL & Hnode & Hpages & He & Hl & Hlim & Hm & Hm' & _).
  rewrite <- He.
  apply (search_isolated fuel' vector dim strategy efSearch k w' node d);
    [|  | exact Hef | exact Hk].
  - apply (new_node_isolated w' _ node heapPtr vector dim level (meta_m (w_meta w)) [] false);
      [exact Hnode | exact HL | rewrite Hm'; exact Hm | | ].
    + rewrite He. unfold RelationGetNumberOfBlocks in *. lia.
    + rewrite He, Hpages. unfold RelationGetNumberOfBlocks.
      replace (Z.to_nat (1 + Z.of_nat (length (w_pages w)) - 1))
        with (length (w_pages w) + 0)%nat by lia.
      rewrite lookup_app_r by lia.
      replace (length (w_pages w) + 0 - length (w_pages w))%nat with 0%nat by lia.
      reflexivity.
  - unfold new_node in Hnode.
    destruct (Z.of_nat (length vector) <? dim); [discriminate|].
    inversion Hnode; subst node. cbn [node_vector].
    rewrite distance_take. exact Hd.
Qed.

Lemma insert_then_search_witness :
  exists w'',
    hnswSearch 1 (map of_Z32 [3; 4; 0]) 3 1 4 2
               (snd (insert_example [3; 4; 0] 1 (world_init [draw0; draw0])))
    = (Ok {| sr_results := Some [1]; sr_distances := Some [zero]; sr_resultCount := 1 |},
       w'')
    /\ read_only (snd (insert_example [3; 4; 0] 1 (world_init [draw0; draw0]))) w''.
Proof.
  apply (insert_then_search log_example 8 0 (map of_Z32 [3; 4; 0]) 3 1 4 2
           {| ip_blkid := 0; ip_posid := 1 |} zero (world_init [draw0; draw0])).
  - reflexivity.
  - vm_compute. reflexivity.
  - vm_compute. reflexivity.
  - lia.
  - lia.
Defined.

(** ** The order of the search results *)

Lemma ltb_irrefl (x : spec_float) : ltb x x = false.
Proof.
  unfold ltb, SFltb. destruct x as [s|[|]| |[|] m e]; cbn; try reflexivity.
  - rewrite Z.compare_refl. change (Pos.compare_cont Eq m m) with (Pos.compare m m).
    rewrite Pos.compare_refl. reflexivity.
  - rewrite Z.compare_refl. change (Pos.compare_cont Eq m m) with (Pos.compare m m).
    rewrite Pos.compare_refl. reflexivity.
Qed.

Lemma ltb_trans (x y z : spec_float) :
  ltb x y = true -> ltb y z = true -> ltb x z = true.
Proof.
  unfold ltb, SFltb.
  destruct x as [sx|[|]| |[|] mx ex], y as [sy|[|]| |[|] my ey], z as [sz|[|]| |[|] mz ez];
    cbn; try discriminate; try reflexivity;
    change (Pos.compare_cont Eq) with Pos.compare;
    destruct (Z.compare_spec ex ey), (Z.compare_spec ey ez), (Z.compare_spec ex ez);
    cbn; try discriminate; try reflexivity; try lia;
    destruct (Pos.compare_spec mx my), (Pos.compare_spec my mz), (Pos.compare_spec mx mz);
    cbn; try discriminate; try reflexivity; lia.
Qed.

(** An element below the running minimum is below everything the running
    minimum is not above. *)
Lemma ltb_below (q x m : spec_float) :
  ltb x m = true -> ltb q m = false -> ltb q x = false.
Proof.
  intros Hx Hq. destruct (ltb q x) eqn:E; [|reflexivity].
  rewrite (ltb_trans q x m E Hx) in Hq. discriminate.
Qed.

Lemma dist_at_fun (dists : list float4) (indices : list Z) (q : Z) (d d' : float4) :
  dist_at dists indices q d -> dist_at dists indices q d' -> d = d'.
Proof. intros (a & Ha & Hd) (a' & Ha' & Hd'). congruence. Qed.

Lemma min_scan_loop (dists : list float4) (indices : list Z) (i : Z) :
  forall (n : nat) (j mi : Z) (md : float4) (mi' : Z) (md' : float4),
    for_res n j (min_scan dists indices) (mi, md) = Ok (mi', md') ->
    i <= mi < j -> dist_at dists indices mi md ->
    (forall q dq, i <= q < j -> dist_at dists indices q dq -> ltb dq md = false) ->
    i <= mi' < j + Z.of_nat n
    /\ dist_at dists indices mi' md'
    /\ (forall q dq, i <= q < j + Z.of_nat n -> dist_at dists indices q dq ->
                     ltb dq md' = false).
Proof.
  induction n as [|n IH]; intros j mi md mi' md' H Hmi Hmd Hmin.
  - cbn in H. inversion H; subst. rewrite Z.add_0_r. auto.
  - cbn [for_res] in H. unfold min_scan at 1 in H.
    destruct (aref indices j) as [ij| | |] eqn:Hij; try discriminate.
    cbn [res_bind] in H.
    destruct (aref dists ij) as [d| | |] eqn:Hd; try discriminate.
    cbn [res_bind] in H.
    apply aref_tbl in Hij. apply aref_tbl in Hd.
    assert (Hj : dist_at dists indices j d) by (exists ij; auto).
    destruct (ltb d md) eqn:Hlt; cbn [res_bind] in H.
    + apply IH in H; [| lia | exact Hj |].
      * destruct H as (H1 & H2 & H3). split; [lia|]. split; [exact H2|].
        intros q dq Hq. apply H3. lia.
      * intros q dq Hq Hdq. destruct (Z.eq_dec q j) as [->|Hne].
        -- rewrite (dist_at_fun _ _ _ _ _ Hdq Hj). apply ltb_irrefl.
        -- apply (ltb_below dq d md Hlt). apply (Hmin q); [lia | exact Hdq].
    + apply IH in H; [| lia | exact Hmd |].
      * destruct H as (H1 & H2 & H3). split; [lia|]. split; [exact H2|].
        intros q dq Hq. apply H3. lia.
      * intros q dq Hq Hdq. destruct (Z.eq_dec q j) as [->|Hne].
        -- rewrite (dist_at_fun _ _ _ _ _ Hdq Hj). exact Hlt.
        -- apply (Hmin q); [lia | exact Hdq].
Qed.

(** One pass of the selection sort exchanges cell [i] with the cell of a
    least distance among the cells from [i] on. *)
Lemma sort_step_spec (count : Z) (dists : list float4) (i : Z) (indices indices' : list Z) :
  sort_step count dists i indices = Ok indices' ->
  exists mi a b db,
    i <= mi < Z.max (i + 1) count
    /\ tbl indices i = Some a /\ tbl indices mi = Some b /\ tbl dists b = Some db
    /\ length indices' = length indices
    /\ (forall q, tbl indices' q
                  = if q =? mi then Some a else if q =? i then Some b else tbl indices q)
    /\ (forall q dq, i <= q < Z.max (i + 1) count -> dist_at dists indices q dq ->
                     ltb dq db = false).
Proof.
  unfold sort_step. intros H.
  destruct (aref indices i) as [ii| | |] eqn:Hii; try discriminate. cbn [res_bind] in H.
  destruct (aref dists ii) as [d0| | |] eqn:Hd0; try discriminate. cbn [res_bind] in H.
  apply aref_tbl in Hii. apply aref_tbl in Hd0.
  destruct (for_res (Z.to_nat (count - (i + 1))) (i + 1) (min_scan dists indices) (i, d0))
    as [[mi md]| | |] eqn:Hscan; try discriminate. cbn [res_bind] in H.
  apply (min_scan_loop dists indices i) in Hscan; [| lia | exists ii; auto |].
  2:{ intros q dq Hq Hdq. assert (q = i) by lia. subst q.
      rewrite (dist_at_fun _ _ _ _ _ Hdq (ex_intro _ ii (conj Hii Hd0))). apply ltb_irrefl. }
  destruct Hscan as (Hmi & (b & Hb & Hdb) & Hmin).
  assert (Hrange : i + 1 + Z.of_nat (Z.to_nat (count - (i + 1))) = Z.max (i + 1) count) by lia.
  rewrite Hrange in Hmi, Hmin.
  exists mi, ii, b, md. split; [exact Hmi|]. split; [exact Hii|]. split; [exact Hb|].
  split; [exact Hdb|].
  destruct (Z.eqb_spec mi i) as [->|Hne]; cbn [negb] in H.
  - inversion H; subst indices'. split; [reflexivity|]. split; [|exact Hmin].
    intros q. destruct (Z.eqb_spec q i) as [->|]; [exact Hii | reflexivity].
  - apply aref_tbl in Hb. rewrite Hb in H. cbn [res_bind] in H.
    destruct (aset indices i b) as [indices1| | |] eqn:H1; try discriminate.
    cbn [res_bind] in H.
    apply aset_Ok in H1. destruct H1 as (_ & Hlen1 & Hq1).
    apply aset_Ok in H. destruct H as (_ & Hlen2 & Hq2).
    split; [congruence|]. split; [|exact Hmin].
    intros q. rewrite Hq2. destruct (Z.eqb_spec q mi); [reflexivity|]. apply Hq1.
Qed.

Lemma sort_step_inv (count : Z) (dists : list float4) (i : Z) (indices indices' : list Z) :
  sort_step count dists i indices = Ok indices' ->
  0 <= i < count ->
  sorted_upto dists count indices i -> distinct_cells indices ->
  sorted_upto dists count indices' (i + 1) /\ distinct_cells indices'.
Proof.
  intros H Hi Hsorted Hdistinct.
  destruct (sort_step_spec _ _ _ _ _ H) as (mi & a & b & db & Hmi & Ha & Hb & Hdb & _ & Hq & Hmin).
  replace (Z.max (i + 1) count) with count in Hmi, Hmin by lia.
  set (perm := fun q => if q =? mi then i else if q =? i then mi else q).
  assert (Hperm : forall q, tbl indices' q = tbl indices (perm q)).
  { intros q. rewrite Hq. unfold perm.
    destruct (Z.eqb_spec q mi); [symmetry; exact Ha|].
    destruct (Z.eqb_spec q i); [symmetry; exact Hb | reflexivity]. }
  assert (Hdist : forall q d, dist_at dists indices' q d -> dist_at dists indices (perm q) d).
  { intros q d (x & Hx & Hd). exists x. rewrite <- Hperm. auto. }
  split.
  - intros p q dp dq Hp Hpq Hdp Hdq. apply Hdist in Hdp. apply Hdist in Hdq.
    destruct (Z.eq_dec p i) as [->|Hne].
    + assert (Hpi : perm i = mi).
      { unfold perm. destruct (Z.eqb_spec i mi); [congruence|].
        rewrite Z.eqb_refl. reflexivity. }
      rewrite Hpi in Hdp.
      rewrite (dist_at_fun _ _ _ _ _ Hdp (ex_intro _ b (conj Hb Hdb))).
      apply (Hmin (perm q)); [|exact Hdq].
      unfold perm. destruct (Z.eqb_spec q mi); [lia|]. destruct (Z.eqb_spec q i); lia.
    + assert (Hpp : perm p = p).
      { unfold perm. destruct (Z.eqb_spec p mi); [lia|]. destruct (Z.eqb_spec p i); lia. }
      rewrite Hpp in Hdp.
      apply (Hsorted p (perm q)); [lia | | exact Hdp | exact Hdq].
      unfold perm. destruct (Z.eqb_spec q mi); [lia|]. destruct (Z.eqb_spec q i); lia.
  - intros p q x Hp Hq'. rewrite Hperm in Hp, Hq'.
    pose proof (Hdistinct _ _ _ Hp Hq') as He. revert He. unfold perm.
    destruct (Z.eqb_spec p mi), (Z.eqb_spec q mi), (Z.eqb_spec p i), (Z.eqb_spec q i); lia.
Qed.

Lemma sort_loop (count : Z) (dists : list float4) :
  forall (n : nat) (i : Z) (indices indices' : list Z),
    for_res n i (sort_step count dists) indices = Ok indices' ->
    0 <= i -> i + Z.of_nat n <= count ->
    sorted_upto dists count indices i -> distinct_cells indices ->
    sorted_upto dists count indices' (i + Z.of_nat n) /\ distinct_cells indices'.
Proof.
  induction n as [|n IH]; intros i indices indices' H Hi Hn Hsorted Hdistinct.
  - cbn in H. inversion H; subst. rewrite Z.add_0_r. auto.
  - cbn [for_res] in H.
    destruct (sort_step count dists i indices) as [indices1| | |] eqn:Hstep; try discriminate.
    cbn [res_bind] in H.
    destruct (sort_step_inv _ _ _ _ _ Hstep ltac:(lia) Hsorted Hdistinct) as [Hs1 Hd1].
    apply IH in H; [| lia | lia | exact Hs1 | exact Hd1].
    replace (i + Z.of_nat (S n)) with (i + 1 + Z.of_nat n) by lia. exact H.
Qed.

Lemma seqZ_lookup (n : nat) :
  forall (s p : nat) (a : Z),
    map Z.of_nat (seq s n) !! p = Some a -> a = Z.of_nat (s + p).
Proof.
  induction n as [|n IH]; intros s p a H; [discriminate|].
  destruct p as [|p]; cbn in H.
  - inversion H. f_equal. lia.
  - apply IH in H. rewrite H. f_equal. lia.
Qed.

Lemma seqZ_distinct (n : nat) : distinct_cells (seqZ n).
Proof.
  intros p q a. unfold tbl, seqZ.
  destruct (Z.ltb_spec p 0); [discriminate|]. destruct (Z.ltb_spec q 0); [discriminate|].
  intros Hp Hq. apply seqZ_lookup in Hp. apply seqZ_lookup in Hq. lia.
Qed.

(** The copy loop at the end of [top_k]. *)
Lemma collect_loop (cands : list BlockNumber) (dists : list float4) (indices : list Z) :
  forall (n : nat) (i : Z) (rs0 : list BlockNumber) (ds0 : list float4)
         (rs : list BlockNumber) (ds : list float4),
    for_res n i
      (fun i acc =>
         let '(topK, topKDists) := acc in
         res_bind (aref indices i) (fun ii =>
         res_bind (aref cands ii) (fun c =>
         res_bind (aref dists ii) (fun d =>
         Ok (topK ++ [c], topKDists ++ [d])))))
      (rs0, ds0) = Ok (rs, ds) ->
    exists rs1 ds1,
      rs = rs0 ++ rs1 /\ ds = ds0 ++ ds1
      /\ length rs1 = n /\ length ds1 = n
      /\ forall p c d, rs1 !! p = Some c -> ds1 !! p = Some d ->
           exists x, tbl indices (i + Z.of_nat p) = Some x
                     /\ tbl cands x = Some c /\ tbl dists x = Some d.
Proof.
  induction n as [|n IH]; intros i rs0 ds0 rs ds H.
  - cbn in H. inversion H; subst. exists [], []. rewrite !app_nil_r.
    repeat (split; [reflexivity|]). intros p c d Hp. discriminate.
  - cbn [for_res] in H.
    destruct (aref indices i) as [ii| | |] eqn:Hii; try discriminate. cbn [res_bind] in H.
    destruct (aref cands ii) as [c0| | |] eqn:Hc; try discriminate. cbn [res_bind] in H.
    destruct (aref dists ii) as [d0| | |] eqn:Hd; try discriminate. cbn [res_bind] in H.
    apply aref_tbl in Hii. apply aref_tbl in Hc. apply aref_tbl in Hd.
    apply IH in H. destruct H as (rs1 & ds1 & -> & -> & Hl1 & Hl2 & Hall).
    exists (c0 :: rs1), (d0 :: ds1). rewrite <- !app_assoc.
    split; [reflexivity|]. split; [reflexivity|].
    split; [cbn; lia|]. split; [cbn; lia|].
    intros p c d Hp Hq. destruct p as [|p].
    + cbn in Hp, Hq. inversion Hp; inversion Hq; subst.
      exists ii. rewrite Z.add_0_r. auto.
    + cbn in Hp, Hq. destruct (Hall p c d Hp Hq) as (x & Hx & Hcx & Hdx).
      exists x. replace (i + Z.of_nat (S p)) with (i + 1 + Z.of_nat p) by lia. auto.
Qed.

(** [top_k]: the results are [Min k count] candidates with their
    distances, picked through an index array without repetition whose
    front is sorted. *)
Lemma top_k_spec (k : Z) (cands : list BlockNumber) (dists : list float4)
    (rs : list BlockNumber) (ds : list float4) :
  top_k k cands dists = Ok (rs, ds) ->
  length rs = Z.to_nat (Min k (Z.of_nat (length cands)))
  /\ length ds = Z.to_nat (Min k (Z.of_nat (length cands)))
  /\ exists indices,
       distinct_cells indices
       /\ sorted_upto dists (Z.of_nat (length cands)) indices
                      (Z.of_nat (Z.to_nat (Min k (Z.of_nat (length cands)))))
       /\ forall p c d, rs !! p = Some c -> ds !! p = Some d ->
            exists x, tbl indices (Z.of_nat p) = Some x
                      /\ tbl cands x = Some c /\ tbl dists x = Some d.
Proof.
  unfold top_k. intros H. cbv zeta in H.
  set (count := Z.of_nat (length cands)) in *.
  destruct (for_res (Z.to_nat (Min k count)) 0 (sort_step count dists) (seqZ (length cands)))
    as [indices| | |] eqn:Hsort; try discriminate.
  cbn [res_bind] in H.
  apply collect_loop in H. destruct H as (rs1 & ds1 & -> & -> & Hl1 & Hl2 & Hall).
  cbn [app]. split; [exact Hl1|]. split; [exact Hl2|].
  exists indices.
  apply sort_loop in Hsort; [| lia | | | apply seqZ_distinct].
  - destruct Hsort as [Hs Hd]. split; [exact Hd|]. split; [exact Hs|].
    intros p c d Hp Hq. destruct (Hall p c d Hp Hq) as (x & Hx). exists x. exact Hx.
  - unfold Min. destruct (Z.ltb_spec k count); lia.
  - intros p q dp dq Hp. lia.
Qed.

(** ** The candidates of a search *)

Lemma for_up_state_inv {S} (I : S -> World -> Prop) (body : Z -> S -> M (ctl S)) :
  (forall i s w r w', I s w -> body i s w = (Ok r, w') -> I (ctl_state r) w') ->
  forall (n : nat) (i : Z) (s : S) (w : World) (s' : S) (w' : World),
    I s w -> for_up n i body s w = (Ok s', w') -> I s' w'.
Proof.
  intros Hbody. induction n as [|n IH]; intros i s w s' w' Hinv H.
  - cbn in H. apply ret_Ok in H. destruct H as [-> ->]. exact Hinv.
  - cbn [for_up] in H. step H as r w1 E.
    pose proof (Hbody i s w r w1 Hinv E) as Hinv1.
    destruct r as [s1|s1]; cbn [ctl_state] in Hinv1.
    + exact (IH _ _ _ _ _ Hinv1 H).
    + apply ret_Ok in H. destruct H as [-> ->]. exact Hinv1.
Qed.

Lemma NoDup_insert_fresh {A} (l : list A) (i : nat) (x : A) :
  NoDup l -> x ∉ l -> NoDup (<[i:=x]> l).
Proof.
  intros Hnd Hx. apply NoDup_alt. intros a b y Ha Hb.
  apply list_lookup_insert_Some in Ha. apply list_lookup_insert_Some in Hb.
  destruct Ha as [(<- & <- & _)|(Hia & Ha)], Hb as [(<- & Hxy & _)|(Hib & Hb)].
  - reflexivity.
  - exfalso. apply Hx. eapply list_elem_of_lookup_2. exact Hb.
  - exfalso. apply Hx. rewrite Hxy. eapply list_elem_of_lookup_2. exact Ha.
  - eapply NoDup_lookup; eassumption.
Qed.

Lemma elem_of_insert_inv {A} (l : list A) (i : nat) (x y : A) :
  y ∈ <[i:=x]> l -> y = x \/ y ∈ l.
Proof.
  intros H. apply list_elem_of_lookup in H. destruct H as [j Hj].
  apply list_lookup_insert_Some in Hj. destruct Hj as [(_ & <- & _)|(_ & Hj)].
  - left. reflexivity.
  - right. eapply list_elem_of_lookup_2. exact Hj.
Qed.

(** The admission of a fresh neighbor keeps the properties of the
    candidate arrays, whichever of its three ways it takes. *)
Lemma admit_candidate_inv (P : BlockNumber -> float4 -> Prop) (efSearch : Z)
    (st st' : SearchState) (nb : BlockNumber) (d : float4) :
  admit_candidate efSearch st nb d = Ok st' ->
  P nb d -> nb ∉ st_candidates st ->
  Forall2 P (st_candidates st) (st_candidateDists st) ->
  NoDup (st_candidates st) ->
  1 <= candidateCount st <= efSearch ->
  Forall2 P (st_candidates st') (st_candidateDists st')
  /\ NoDup (st_candidates st')
  /\ (forall b, b ∈ st_candidates st' -> b = nb \/ b ∈ st_candidates st)
  /\ 1 <= candidateCount st' <= efSearch
  /\ st_visitedSet st' = st_visitedSet st.
Proof.
  unfold admit_candidate. intros H HP Hfresh Hall Hnd Hcount.
  destruct (Z.ltb_spec (candidateCount st) efSearch) as [Hlt|Hge].
  - inversion H; subst st'; clear H. cbn.
    split; [apply Forall2_app; [exact Hall | constructor; [exact HP | constructor]]|].
    split.
    { apply NoDup_app. split; [exact Hnd|]. split; [|apply NoDup_singleton].
      intros x Hx Hx'. apply list_elem_of_singleton in Hx'. subst x. exact (Hfresh Hx). }
    split.
    { intros b Hb. apply elem_of_app in Hb. destruct Hb as [Hb|Hb]; [right; exact Hb|].
      apply list_elem_of_singleton in Hb. left. exact Hb. }
    split; [|reflexivity].
    unfold candidateCount in *. cbn. rewrite length_app. cbn. lia.
  - destruct (aref (st_candidateDists st) 0) as [d0| | |]; try discriminate.
    cbn [res_bind] in H.
    destruct (for_res _ 1 (worst_scan (st_candidateDists st)) (0, d0))
      as [[worstIdx worstDist]| | |]; try discriminate.
    cbn [res_bind] in H.
    destruct (ltb d worstDist).
    + destruct (aset (st_candidates st) worstIdx nb) as [cs| | |] eqn:Hcs; try discriminate.
      cbn [res_bind] in H.
      destruct (aset (st_candidateDists st) worstIdx d) as [ds| | |] eqn:Hds;
        try discriminate.
      cbn [res_bind] in H. inversion H; subst st'; clear H. cbn.
      unfold aset in Hcs, Hds.
      destruct ((0 <=? worstIdx) && (worstIdx <? Z.of_nat (length (st_candidates st))));
        [|discriminate].
      destruct ((0 <=? worstIdx) && (worstIdx <? Z.of_nat (length (st_candidateDists st))));
        [|discriminate].
      inversion Hcs; subst cs. inversion Hds; subst ds.
      split; [apply Forall2_insert; assumption|].
      split; [apply NoDup_insert_fresh; assumption|].
      split; [intros b Hb; apply elem_of_insert_inv in Hb; exact Hb|].
      split; [|reflexivity].
      unfold candidateCount in *. cbn. rewrite length_insert. exact Hcount.
    + inversion H; subst st'; clear H.
      split; [exact Hall|]. split; [exact Hnd|]. split; [intros b Hb; right; exact Hb|].
      split; [exact Hcount | reflexivity].
Qed.

Lemma ComputeDistance_Ok (v1 v2 : list float4) (dim s : Z) (w w' : World) (d : float4) :
  ComputeDistance v1 v2 dim s w = (Ok d, w') ->
  hnswComputeDistance v1 v2 dim s = Ok d /\ read_only w w'.
Proof.
  intros H. split.
  - unfold ComputeDistance in H. step H as t w1 E. apply lift_Ok in H. tauto.
  - apply (preserves_Ok read_only _ _ _ _
             (preserves_ComputeDistance read_only (fun _ => True)
                read_only_refl read_only_trans read_only_log v1 v2 dim s I) H).
Qed.

Lemma ReadBuffer_read_only (b : BlockNumber) (w w' : World) (p : Page) :
  ReadBuffer b w = (Ok p, w') -> page_at w b = Some p /\ read_only w w'.
Proof.
  intros H. split; [apply ReadBuffer_Ok in H; tauto|].
  apply (preserves_Ok read_only _ _ _ _
           (preserves_ReadBuffer read_only (fun _ => True)
              read_only_refl read_only_trans read_only_log b I) H).
Qed.

Lemma first_node_at_page (w : World) (b : BlockNumber) (p : Page) (node : HnswNodeData) :
  page_at w b = Some p -> PageIsNew p || PageIsEmpty p = false ->
  first_node p = Ok node -> first_node_at w b = Some node.
Proof.
  intros Hp Hne Hn. unfold first_node_at. rewrite Hp.
  destruct p as [|[|it rest]]; try discriminate.
  cbn in Hn. inversion Hn. reflexivity.
Qed.

Lemma valid_block_bound (w : World) (b : BlockNumber) :
  valid_block w b = true -> b < RelationGetNumberOfBlocks w.
Proof.
  unfold valid_block. destruct (b =? InvalidBlockNumber); [discriminate|].
  destruct (Z.geb_spec b (RelationGetNumberOfBlocks w)); [discriminate|]. lia.
Qed.

Lemma visited_set_Ok (st st' : SearchState) (numBlocks nb : Z) :
  visited_set st numBlocks nb = Ok st' -> nb < numBlocks ->
  st_candidates st' = st_candidates st
  /\ st_candidateDists st' = st_candidateDists st
  /\ forall q, tbl (st_visitedSet st') q
               = if q =? nb then Some true else tbl (st_visitedSet st) q.
Proof.
  unfold visited_set. intros H Hnb.
  destruct (Z.ltb_spec nb numBlocks); [|lia].
  destruct (aset (st_visitedSet st) nb true) as [vs| | |] eqn:Hvs; try discriminate.
  cbn [res_bind] in H. inversion H; subst st'. cbn.
  apply aset_Ok in Hvs. destruct Hvs as (_ & _ & Hq). auto.
Qed.

Lemma visited_append_Ok (st st' : SearchState) :
  visited_append st = Ok st' ->
  st_candidates st' = st_candidates st
  /\ st_candidateDists st' = st_candidateDists st
  /\ st_visitedSet st' = st_visitedSet st.
Proof.
  unfold visited_append.
  destruct ((0 <=? st_visitedCount st) && (st_visitedCount st <? st_visitedCapacity st));
    [|discriminate].
  intros H. inversion H. cbn. auto.
Qed.

Lemma visited_grow_same (st : SearchState) :
  st_candidates (visited_grow st) = st_candidates st
  /\ st_candidateDists (visited_grow st) = st_candidateDists st
  /\ st_visitedSet (visited_grow st) = st_visitedSet st.
Proof.
  unfold visited_grow.
  destruct (st_visitedCount st >=? st_visitedCapacity st); [|auto].
  destruct (st_visitedCapacity st >=? HNSW_MAX_VISITED_CAPACITY); [auto|].
  destruct (_ >? st_visitedCapacity st); cbn; auto.
Qed.

Section SearchInv.

Variables (query : list float4) (dim strategy m efSearch : Z) (w0 : World).

Let Inv (st : SearchState) (w : World) : Prop :=
  read_only w0 w /\ search_inv query dim strategy efSearch w0 st.

Lemma explore_neighbor_inv (node : HnswNodeData) (j : Z) (st : SearchState) (w : World)
    (r : ctl SearchState) (w' : World) :
  Inv st w ->
  explore_neighbor query dim strategy m efSearch (RelationGetNumberOfBlocks w0) node j st w
  = (Ok r, w') ->
  Inv (ctl_state r) w'.
Proof.
  intros [Hro Hinv] H. unfold explore_neighbor in H.
  step H as nb w1 E. apply lift_Ok in E. destruct E as [Hnb ->].
  destruct (nb =? InvalidBlockNumber).
  { apply ret_Ok in H. destruct H as [-> ->]. split; assumption. }
  step H as valid w1 E. apply validate_Ok in E. destruct E as [-> ->].
  destruct (valid_block w nb) eqn:Hv; cbn [negb] in H.
  2:{ apply ret_Ok in H. destruct H as [-> ->]. split; assumption. }
  rewrite (read_only_valid w0 w nb Hro) in Hv.
  pose proof (valid_block_bound w0 nb Hv) as Hbound.
  step H as seen w1 E. apply lift_Ok in E. destruct E as [Hseen ->].
  destruct seen.
  { apply ret_Ok in H. destruct H as [-> ->]. split; assumption. }
  unfold is_visited in Hseen.
  destruct (Z.ltb_spec nb (RelationGetNumberOfBlocks w0)); [|lia].
  apply aref_tbl in Hseen.
  step H as neighborPage w1 E. apply ReadBuffer_read_only in E. destruct E as [Hp Hr1].
  rewrite (read_only_page_at w0 w nb Hro) in Hp.
  assert (Hro1 : read_only w0 w1) by (eapply read_only_trans; eassumption).
  destruct (PageIsNew neighborPage || PageIsEmpty neighborPage) eqn:Hpe.
  { apply ret_Ok in H. destruct H as [-> ->]. split; assumption. }
  step H as neighbor w2 E. apply lift_Ok in E. destruct E as [Hnode ->].
  step H as neighborDist w2 E. apply ComputeDistance_Ok in E. destruct E as [Hd Hr2].
  assert (Hro2 : read_only w0 w2) by (eapply read_only_trans; eassumption).
  step H as st1 w3 E. apply lift_Ok in E. destruct E as [Hst1 ->].
  step H as st2 w3 E. apply lift_Ok in E. destruct E as [Hst2 ->].
  step H as st3 w3 E. apply lift_Ok in E. destruct E as [Hst3 ->].
  apply ret_Ok in H. destruct H as [-> ->]. cbn [ctl_state].
  split; [exact Hro2|].
  apply visited_set_Ok in Hst1; [|exact Hbound]. destruct Hst1 as (Hc1 & Hd1 & Hv1).
  apply visited_append_Ok in Hst2. destruct Hst2 as (Hc2 & Hd2 & Hv2).
  destruct (visited_grow_same st2) as (Hc3 & Hd3 & Hv3).
  destruct Hinv as (Hall & Hnd & Hvis & Hcount).
  assert (Hfresh : nb ∉ st_candidates st).
  { intros Hin. apply Hvis in Hin. congruence. }
  apply (admit_candidate_inv (candidate_ok query dim strategy w0)) in Hst3.
  - destruct Hst3 as (Hall' & Hnd' & Hin' & Hcount' & Hvs').
    split; [exact Hall'|]. split; [exact Hnd'|]. split; [|exact Hcount'].
    intros b Hb. rewrite Hvs', Hv3, Hv2, Hv1.
    destruct (Z.eqb_spec b nb); [reflexivity|].
    apply Hvis. destruct (Hin' b Hb) as [|Hold]; [contradiction|].
    rewrite Hc3, Hc2, Hc1 in Hold. exact Hold.
  - split; [exact Hv|]. exists neighbor.
    split; [exact (first_node_at_page w0 nb neighborPage neighbor Hp Hpe Hnode) | exact Hd].
  - rewrite Hc3, Hc2, Hc1. exact Hfresh.
  - rewrite Hc3, Hd3, Hc2, Hd2, Hc1, Hd1. exact Hall.
  - rewrite Hc3, Hc2, Hc1. exact Hnd.
  - unfold candidateCount in *. rewrite Hc3, Hc2, Hc1. exact Hcount.
Qed.

Lemma explore_candidate_inv (i : Z) (st : SearchState) (w : World)
    (r : ctl SearchState) (w' : World) :
  Inv st w ->
  explore_candidate query dim strategy m efSearch (RelationGetNumberOfBlocks w0) i st w
  = (Ok r, w') ->
  Inv (ctl_state r) w'.
Proof.
  intros [Hro Hinv] H. unfold explore_candidate in H.
  destruct (negb ((i <? candidateCount st) && (candidateCount st <? efSearch))).
  { apply ret_Ok in H. destruct H as [-> ->]. split; assumption. }
  step H as candidate w1 E. apply lift_Ok in E. destruct E as [_ ->].
  step H as valid w1 E. apply validate_Ok in E. destruct E as [-> ->].
  destruct (valid_block w candidate); cbn [negb] in H.
  2:{ apply ret_Ok in H. destruct H as [-> ->]. split; assumption. }
  step H as nodePage w1 E. apply ReadBuffer_read_only in E. destruct E as [_ Hr1].
  assert (Hro1 : read_only w0 w1) by (eapply read_only_trans; eassumption).
  destruct (PageIsNew nodePage || PageIsEmpty nodePage).
  { apply ret_Ok in H. destruct H as [-> ->]. split; assumption. }
  step H as node w2 E. apply lift_Ok in E. destruct E as [_ ->].
  destruct (hnswValidateLevelSafe (node_level node)); cbn [negb] in H.
  2:{ apply ret_Ok in H. destruct H as [-> ->]. split; assumption. }
  step H as cnt w2 E. apply lift_Ok in E. destruct E as [_ ->].
  step H as st' w2 E. apply ret_Ok in H. destruct H as [-> ->]. cbn [ctl_state].
  unfold forZ in E.
  refine (for_up_state_inv Inv _ (explore_neighbor_inv node) _ _ st w1 st' w2 _ E).
  split; assumption.
Qed.

End SearchInv.

Lemma NDB_ALLOC_Ok (n : Z) (w w' : World) (t : unit) :
  NDB_ALLOC n w = (Ok t, w') -> 0 <= n /\ w' = w.
Proof.
  unfold NDB_ALLOC. destruct (Z.ltb_spec n 0) as [Hn|Hn]; [discriminate|].
  intros E. apply ret_Ok in E. destruct E as [_ ->]. split; [lia | reflexivity].
Qed.

Lemma read_only_blocks (w w1 : World) :
  read_only w w1 -> RelationGetNumberOfBlocks w1 = RelationGetNumberOfBlocks w.
Proof. intros (_ & Hp & _). unfold RelationGetNumberOfBlocks. rewrite Hp. reflexivity. Qed.

(** A search that returns arrays returns the front of [top_k] over
    candidate arrays with the properties of [search_inv]. *)
Lemma search_final (fuel : nat) (query : list float4) (dim strategy efSearch k : Z)
    (w w' : World) (r : SearchResult) :
  hnswSearch fuel query dim strategy efSearch k w = (Ok r, w') ->
  r = no_result
  \/ exists st rs ds,
       search_inv query dim strategy efSearch w st
       /\ top_k k (st_candidates st) (st_candidateDists st) = Ok (rs, ds)
       /\ 0 <= Min k (candidateCount st)
       /\ r = {| sr_results := Some rs; sr_distances := Some ds;
                 sr_resultCount := Min k (candidateCount st) |}.
Proof.
  intros H. unfold hnswSearch in H.
  step H as t w1 E.
  assert (Hr1 : read_only w w1).
  { unfold log in E. inversion E. apply read_only_log. exact I. }
  clear E t.
  step H as metaPage w2 E. apply get_meta_Ok in E. destruct E as [-> ->].
  destruct (meta_entryPoint (w_meta w1) =? InvalidBlockNumber).
  { apply ret_Ok in H. destruct H as [-> _]. left. reflexivity. }
  step H as t w2 E. apply NDB_ALLOC_Ok in E. destruct E as [_ ->]. clear t.
  step H as wg w2 E. apply get_Ok in E. destruct E as [-> ->].
  rewrite (read_only_blocks w w1 Hr1) in H.
  step H as t w2 E. apply NDB_ALLOC_Ok in E. destruct E as [_ ->]. clear t.
  step H as t w2 E. apply NDB_ALLOC_Ok in E. destruct E as [_ ->]. clear t.
  step H as t w2 E. apply NDB_ALLOC_Ok in E. destruct E as [_ ->]. clear t.
  step H as current w2 E.
  assert (Hr2 : read_only w1 w2).
  { apply (preserves_Ok read_only _ _ _ _) in E; [exact E|].
    apply (preserves_forZ_down _ read_only_refl read_only_trans). intros level c.
    apply (preserves_bind _ read_only_trans).
    - apply (preserves_greedy_level read_only (fun _ => True)
               read_only_refl read_only_trans read_only_log); intros; exact I.
    - intros c'. apply (preserves_ret _ read_only_refl). }
  clear E.
  assert (Hro2 : read_only w w2) by (eapply read_only_trans; eassumption).
  step H as valid w3 E. apply validate_Ok in E. destruct E as [-> ->].
  destruct (valid_block w2 current) eqn:Hv; cbn [negb] in H.
  2:{ apply ret_Ok in H. destruct H as [-> _]. left. reflexivity. }
  rewrite (read_only_valid w w2 current Hro2) in Hv.
  destruct (Z.ltb_spec efSearch 1) as [|Hef]; [discriminate|].
  step H as nodePage w3 E. apply ReadBuffer_read_only in E. destruct E as [Hp Hr3].
  rewrite (read_only_page_at w w2 current Hro2) in Hp.
  assert (Hro3 : read_only w w3) by (eapply read_only_trans; eassumption).
  destruct (PageIsNew nodePage || PageIsEmpty nodePage) eqn:Hpe.
  { apply ret_Ok in H. destruct H as [-> _]. left. reflexivity. }
  step H as node w4 E. apply lift_Ok in E. destruct E as [Hnode ->].
  destruct (hnswValidateLevelSafe (node_level node)); cbn [negb] in H.
  2:{ apply ret_Ok in H. destruct H as [-> _]. left. reflexivity. }
  step H as d0 w4 E. apply ComputeDistance_Ok in E. destruct E as [Hd0 Hr4].
  assert (Hro4 : read_only w w4) by (eapply read_only_trans; eassumption).
  step H as st0 w5 E. apply lift_Ok in E. destruct E as [Hst0 ->].
  step H as st1 w5 E. apply lift_Ok in E. destruct E as [Hst1 ->].
  apply visited_append_Ok in Hst0. cbn in Hst0. destruct Hst0 as (Hc0 & Hd0' & _).
  apply visited_set_Ok in Hst1; [|apply valid_block_bound; exact Hv].
  destruct Hst1 as (Hc1 & Hd1 & Hv1).
  step H as st w5 E. unfold forZ in E.
  assert (Hinv : read_only w w5 /\ search_inv query dim strategy efSearch w st).
  { refine (for_up_state_inv _ _
              (explore_candidate_inv query dim strategy (meta_m (w_meta w1)) efSearch w)
              _ _ st1 w4 st w5 _ E).
    split; [exact Hro4|].
    unfold search_inv, candidateCount. rewrite Hc1, Hd1, Hc0, Hd0'.
    split.
    { constructor; [|constructor]. split; [exact Hv|]. exists node.
      split; [exact (first_node_at_page w current nodePage node Hp Hpe Hnode) | exact Hd0]. }
    split; [apply NoDup_singleton|].
    split; [|cbn; lia].
    intros b Hb. apply list_elem_of_singleton in Hb. subst b.
    rewrite Hv1, Z.eqb_refl. reflexivity. }
  destruct Hinv as [_ Hinv]. clear E.
  step H as t w6 E. clear E t.
  step H as t w7 E. apply NDB_ALLOC_Ok in E. destruct E as [Hmin _]. clear t.
  step H as t w8 E. clear E t.
  step H as top w9 E. apply lift_Ok in E. destruct E as [Htop _].
  apply ret_Ok in H. destruct H as [-> _].
  right. destruct top as [rs ds]. exists st, rs, ds. cbn [fst snd]. auto.
Qed.

(** What [top_k] hands back, given candidate arrays that pair each block
    with a value related to it by [P]. *)
Lemma top_k_results (P : BlockNumber -> float4 -> Prop) (k : Z)
    (cands : list BlockNumber) (dists : list float4)
    (rs : list BlockNumber) (ds : list float4) :
  top_k k cands dists = Ok (rs, ds) ->
  Forall2 P cands dists -> NoDup cands ->
  length rs = Z.to_nat (Min k (Z.of_nat (length cands)))
  /\ length ds = Z.to_nat (Min k (Z.of_nat (length cands)))
  /\ Forall2 P rs ds /\ NoDup rs /\ ascending ds.
Proof.
  intros H Hall Hnd.
  destruct (top_k_spec _ _ _ _ _ H) as (Hlr & Hld & indices & Hdistinct & Hsorted & Hpick).
  split; [exact Hlr|]. split; [exact Hld|].
  assert (Hmin : Z.of_nat (Z.to_nat (Min k (Z.of_nat (length cands))))
                 <= Z.of_nat (length cands)).
  { unfold Min. destruct (Z.ltb_spec k (Z.of_nat (length cands))); lia. }
  split; [|split].
  - apply Forall2_same_length_lookup_2; [congruence|].
    intros i c d Hc Hd. destruct (Hpick i c d Hc Hd) as (x & _ & Hxc & Hxd).
    unfold tbl in Hxc, Hxd. destruct (x <? 0); [discriminate|].
    exact (Forall2_lookup_lr _ _ _ _ _ _ Hall Hxc Hxd).
  - apply NoDup_alt. intros i j c Hi Hj.
    destruct (lookup_lt_is_Some_2 ds i) as [di Hdi];
      [apply lookup_lt_Some in Hi; lia|].
    destruct (lookup_lt_is_Some_2 ds j) as [dj Hdj];
      [apply lookup_lt_Some in Hj; lia|].
    destruct (Hpick i c di Hi Hdi) as (x & Hx & Hxc & _).
    destruct (Hpick j c dj Hj Hdj) as (y & Hy & Hyc & _).
    assert (Hxy : x = y).
    { pose proof (tbl_Some_bound _ _ _ Hxc). pose proof (tbl_Some_bound _ _ _ Hyc).
      unfold tbl in Hxc, Hyc.
      destruct (Z.ltb_spec x 0); [lia|]. destruct (Z.ltb_spec y 0); [lia|].
      pose proof (NoDup_lookup _ _ _ _ Hnd Hxc Hyc). lia. }
    subst y. pose proof (Hdistinct _ _ _ Hx Hy). lia.
  - intros i j di dj Hij Hdi Hdj.
    pose proof (lookup_lt_Some _ _ _ Hdi) as Hbi.
    pose proof (lookup_lt_Some _ _ _ Hdj) as Hbj.
    assert (Hlen : length rs = length ds) by congruence.
    destruct (lookup_lt_is_Some_2 rs i) as [ci Hci]; [rewrite Hlen; exact Hbi|].
    destruct (lookup_lt_is_Some_2 rs j) as [cj Hcj]; [rewrite Hlen; exact Hbj|].
    unfold float4 in *.
    destruct (Hpick i ci di Hci Hdi) as (x & Hx & _ & Hxd).
    destruct (Hpick j cj dj Hcj Hdj) as (y & Hy & _ & Hyd).
    apply (Hsorted (Z.of_nat i) (Z.of_nat j) di dj); [lia | lia | |].
    + exists x. auto.
    + exists y. auto.
Qed.

(** X14.  A search that returns result arrays returns as many blocks as
    distances, at least one, never more than [k] and never more than
    [efSearch]; [resultCount] is that number. *)
Theorem search_result_count (fuel : nat) (query : list float4)
    (dim strategy efSearch k : Z) (w w' : World) (r : SearchResult) :
  hnswSearch fuel query dim strategy efSearch k w = (Ok r, w') ->
  r = no_result
  \/ exists rs ds,
       sr_results r = Some rs /\ sr_distances r = Some ds
       /\ Z.of_nat (length rs) = sr_resultCount r
       /\ Z.of_nat (length ds) = sr_resultCount r
       /\ 0 <= sr_resultCount r <= k /\ sr_resultCount r <= efSearch
       /\ (1 <= k -> 1 <= sr_resultCount r).
Proof.
  intros H. destruct (search_final _ _ _ _ _ _ _ _ _ H)
    as [->|(st & rs & ds & Hinv & Htop & Hmin & ->)]; [left; reflexivity|].
  right. exists rs, ds. cbn.
  destruct Hinv as (Hall & Hnd & _ & Hcount).
  destruct (top_k_results _ _ _ _ _ _ Htop Hall Hnd) as (Hlr & Hld & _).
  unfold candidateCount in *. rewrite Hlr, Hld.
  split; [reflexivity|]. split; [reflexivity|].
  split; [lia|]. split; [lia|].
  unfold Min in *. destruct (Z.ltb_spec k (Z.of_nat (length (st_candidates st)))); lia.
Qed.

Lemma search_result_count_witness :
  search_example_result = no_result
  \/ exists rs ds,
       sr_results search_example_result = Some rs
       /\ sr_distances search_example_result = Some ds
       /\ Z.of_nat (length rs) = sr_resultCount search_example_result
       /\ Z.of_nat (length ds) = sr_resultCount search_example_result
       /\ 0 <= sr_resultCount search_example_result <= 3
       /\ sr_resultCount search_example_result <= 4
       /\ (1 <= 3 -> 1 <= sr_resultCount search_example_result).
Proof.
  apply (search_result_count 8 (map of_Z32 [1; 0; 0]) 3 1 4 3 world_star
           (snd (search_example world_star)) search_example_result).
  vm_compute. reflexivity.
Defined.

(** X15.  The distances a search returns are in ascending order: none is
    below one that comes before it. *)
Theorem search_results_ascending (fuel : nat) (query : list float4)
    (dim strategy efSearch k : Z) (w w' : World) (r : SearchResult) (ds : list float4) :
  hnswSearch fuel query dim strategy efSearch k w = (Ok r, w') ->
  sr_distances r = Some ds ->
  ascending ds.
Proof.
  intros H Hds. destruct (search_final _ _ _ _ _ _ _ _ _ H)
    as [->|(st & rs & ds' & Hinv & Htop & _ & ->)]; [discriminate|].
  cbn in Hds. inversion Hds; subst ds'.
  destruct Hinv as (Hall & Hnd & _).
  destruct (top_k_results _ _ _ _ _ _ Htop Hall Hnd) as (_ & _ & _ & _ & Hasc).
  exact Hasc.
Qed.

Lemma search_results_ascending_witness :
  ascending [zero; one32; S754_finite false 11863283 (-23)].
Proof.
  apply (search_results_ascending 8 (map of_Z32 [1; 0; 0]) 3 1 4 3 world_star
           (snd (search_example world_star)) search_example_result).
  - vm_compute. reflexivity.
  - reflexivity.
Defined.

(** X16.  A search never returns the same block twice. *)
Theorem search_results_distinct (fuel : nat) (query : list float4)
    (dim strategy efSearch k : Z) (w w' : World) (r : SearchResult)
    (rs : list BlockNumber) :
  hnswSearch fuel query dim strategy efSearch k w = (Ok r, w') ->
  sr_results r = Some rs ->
  NoDup rs.
Proof.
  intros H Hrs. destruct (search_final _ _ _ _ _ _ _ _ _ H)
    as [->|(st & rs' & ds & Hinv & Htop & _ & ->)]; [discriminate|].
  cbn in Hrs. inversion Hrs; subst rs'.
  destruct Hinv as (Hall & Hnd & _).
  destruct (top_k_results _ _ _ _ _ _ Htop Hall Hnd) as (_ & _ & _ & Hdistinct & _).
  exact Hdistinct.
Qed.

Lemma search_results_distinct_witness : NoDup [2; 1; 3].
Proof.
  apply (search_results_distinct 8 (map of_Z32 [1; 0; 0]) 3 1 4 3 world_star
           (snd (search_example world_star)) search_example_result).
  - vm_compute. reflexivity.
  - reflexivity.
Defined.

(** X17.  On an index without dead items, every block a search returns is
    a valid block of the index, and the distance returned with it is the
    distance, under the strategy of the search, between the query and the
    vector of the first node on that block. *)
Theorem search_results_are_nodes (fuel : nat) (query : list float4)
    (dim strategy efSearch k : Z) (w w' : World) (r : SearchResult)
    (rs : list BlockNumber) (ds : list float4) :
  live_index w = true ->
  hnswSearch fuel query dim strategy efSearch k w = (Ok r, w') ->
  sr_results r = Some rs -> sr_distances r = Some ds ->
  Forall2 (candidate_ok query dim strategy w) rs ds.
Proof.
  intros _ H Hrs Hds. destruct (search_final _ _ _ _ _ _ _ _ _ H)
    as [->|(st & rs' & ds' & Hinv & Htop & _ & ->)]; [discriminate|].
  cbn in Hrs, Hds. inversion Hrs; subst rs'. inversion Hds; subst ds'.
  destruct Hinv as (Hall & Hnd & _).
  destruct (top_k_results _ _ _ _ _ _ Htop Hall Hnd) as (_ & _ & Hok & _).
  exact Hok.
Qed.

Lemma search_results_are_nodes_witness :
  Forall2 (candidate_ok (map of_Z32 [1; 0; 0]) 3 1 world_star)
          [2; 1; 3] [zero; one32; S754_finite false 11863283 (-23)].
Proof.
  apply (search_results_are_nodes 8 (map of_Z32 [1; 0; 0]) 3 1 4 3 world_star
           (snd (search_example world_star)) search_example_result).
  - reflexivity.
  - vm_compute. reflexivity.
  - reflexivity.
  - reflexivity.
Defined.

(** ** The largest vector a page takes *)

(** X18.  An insertion succeeds only for a node that fits into an empty
    page: the dimension is not negative and the node of the lowest level,
    [48 + 4 dim + 8 m] bytes rounded up to a multiple of 8, is no larger
    than the free space of a fresh page; whatever [m], the dimension is
    at most 2024. *)
Theorem insert_dimension_limit (log : double -> double) (fuel : nat)
    (vector : list float4) (dim : Z) (heapPtr : ItemPointerData) (w w' : World) :
  INT_MIN <= dim <= INT_MAX ->
  hnswInsertNode log fuel vector dim heapPtr w = (Ok tt, w') ->
  0 <= dim <= 2024
  /\ node_size_exact dim 0 (meta_m (w_meta w)) <= fresh_page_free_space.
Proof.
  intros Hdim H. unfold hnswInsertNode in H.
  step H as meta w0 E. apply get_meta_Ok in E. destruct E as [-> ->].
  step H as L w1 Hlevel.
  apply hnswGetRandomLevel_Ok in Hlevel. destruct Hlevel as [HL _].
  destruct (Z.geb_spec L HNSW_MAX_LEVEL) as [Hge|_]; [unfold HNSW_MAX_LEVEL in Hge; lia|].
  destruct (hnswValidateLevelSafe L); cbn [negb] in H; [|discriminate].
  destruct (hnswComputeNodeSizeSafe dim L (meta_m (w_meta w))) as [nodeSize overflow]
    eqn:Hsize.
  destruct overflow; [discriminate|]. cbn [orb] in H.
  pose proof (node_size_flag _ _ _ _ Hsize) as Hm.
  unfold HNSW_MIN_M, HNSW_MAX_M in Hm.
  rewrite node_size_int in Hsize by (unfold INT_MIN, INT_MAX in *; lia).
  destruct (Z.ltb_spec dim 0) as [|Hpos]; [cbn [orb] in Hsize; discriminate|].
  destruct (Z.ltb_spec L (-1)); [cbn [orb] in Hsize; discriminate|].
  cbn [orb] in Hsize. inversion Hsize as [Hexact]. clear Hsize. subst nodeSize.
  destruct (_ =? 0); [discriminate|].
  step H as t w2 E. clear E t.
  step H as node w3 E. clear E.
  step H as t w4 E. clear E t.
  step H as blkno w5 E. clear E.
  step H as t w6 E. clear E t.
  step H as t w7 E. clear H.
  destruct (Z.ltb_spec fresh_page_free_space (node_size_exact dim L (meta_m (w_meta w))))
    as [|Hfits]; [discriminate|].
  clear E.
  unfold node_size_exact, align8, sizeof_HnswNodeData, fresh_page_free_space, BLCKSZ in *.
  assert (Hmono : (48 + dim * 4 + (0 + 1) * (2 * meta_m (w_meta w)) * 4 + 7) / 8
                  <= (48 + dim * 4 + (L + 1) * (2 * meta_m (w_meta w)) * 4 + 7) / 8).
  { apply Z.div_le_mono; [lia | nia]. }
  split; [|lia].
  split; [lia|].
  assert (Hlow : (48 + dim * 4 + 16 + 7) / 8
                 <= (48 + dim * 4 + (0 + 1) * (2 * meta_m (w_meta w)) * 4 + 7) / 8).
  { apply Z.div_le_mono; [lia | nia]. }
  pose proof (Z.mul_div_le (48 + dim * 4 + 16 + 7) 8 ltac:(lia)) as Hd1.
  pose proof (Z.mod_pos_bound (48 + dim * 4 + 16 + 7) 8 ltac:(lia)) as Hd2.
  pose proof (Z.div_mod (48 + dim * 4 + 16 + 7) 8 ltac:(lia)) as Hd3.
  lia.
Qed.

Lemma insert_dimension_limit_witness :
  0 <= 3 <= 2024 /\ node_size_exact 3 0 (meta_m (w_meta world_one)) <= fresh_page_free_space.
Proof.
  apply (insert_dimension_limit log_example 8 (map of_Z32 [1; 0; 0]) 3
           {| ip_blkid := 0; ip_posid := 2 |} world_one world_two).
  - unfold INT_MIN, INT_MAX. lia.
  - vm_compute. reflexivity.
Defined.

(** ** A row inserted through hnswinsert is found by a scan *)

Lemma for_res_total {S} (body : Z -> S -> res S) :
  forall (n : nat) (i : Z) (acc : S),
    (forall j a, i <= j < i + Z.of_nat n -> exists a', body j a = Ok a') ->
    exists r, for_res n i body acc = Ok r.
Proof.
  induction n as [|n IH]; intros i acc Hbody; cbn [for_res]; [eauto|].
  destruct (Hbody i acc ltac:(lia)) as [a' Ha]. rewrite Ha. cbn [res_bind].
  apply IH. intros j a Hj. apply Hbody. lia.
Qed.

Lemma aref_in_bound {A} (T : list A) (j : Z) :
  0 <= j < Z.of_nat (length T) -> exists x, aref T j = Ok x.
Proof.
  intros Hj. destruct (tbl_in_bound T j Hj) as [x Hx]. exists x. apply aref_tbl. exact Hx.
Qed.

(** The distance is defined for the three strategies, on vectors of at
    least [dim] components. *)
Lemma distance_defined (v1 v2 : list float4) (dim strategy : Z) :
  1 <= strategy <= 3 ->
  dim <= Z.of_nat (length v1) -> dim <= Z.of_nat (length v2) ->
  exists d, hnswComputeDistance v1 v2 dim strategy = Ok d.
Proof.
  intros Hs H1 H2. unfold hnswComputeDistance.
  assert (Hx : forall j, 0 <= j < 0 + Z.of_nat (Z.to_nat dim) ->
                 exists x y, aref v1 j = Ok x /\ aref v2 j = Ok y).
  { intros j Hj. destruct (aref_in_bound v1 j ltac:(lia)) as [x Hx].
    destruct (aref_in_bound v2 j ltac:(lia)) as [y Hy]. eauto. }
  destruct (Z.eqb_spec strategy 1); [|destruct (Z.eqb_spec strategy 2);
                                      [|destruct (Z.eqb_spec strategy 3); [|lia]]].
  - destruct (for_res_total (l2_step v1 v2) (Z.to_nat dim) 0 zero) as [r Hr].
    { intros j a Hj. destruct (Hx j Hj) as (x & y & Ex & Ey).
      unfold l2_step. rewrite Ex, Ey. cbn. eauto. }
    rewrite Hr. cbn. eauto.
  - destruct (for_res_total (cos_step v1 v2) (Z.to_nat dim) 0 (zero, zero, zero))
      as [[[dp n1] n2] Hr].
    { intros j [[a b] c] Hj. destruct (Hx j Hj) as (x & y & Ex & Ey).
      unfold cos_step. rewrite Ex, Ey. cbn. eauto. }
    rewrite Hr. cbn [res_bind]. destruct (_ || _); eauto.
  - destruct (for_res_total (ip_step v1 v2) (Z.to_nat dim) 0 zero) as [r Hr].
    { intros j a Hj. destruct (Hx j Hj) as (x & y & Ex & Ey).
      unfold ip_step. rewrite Ex, Ey. cbn. eauto. }
    rewrite Hr. cbn. eauto.
Qed.

(** A call of [hnswgettuple] after the first, at a position inside the
    results. *)
Lemma returns_gettuple_next (so : HnswScanOpaqueData) (w : World)
    (results : list BlockNumber) (b : BlockNumber) (p : Page) (node : HnswNodeData) :
  so_currentResult so < so_resultCount so ->
  so_results so = Some results ->
  aref results (so_currentResult so) = Ok b ->
  valid_block w b = true ->
  page_at w b = Some p -> PageIsEmpty p = false -> first_node p = Ok node ->
  returns (gettuple_next so) w
          (true, with_current so (so_currentResult so + 1) (Some (node_heapPtr node))).
Proof.
  intros Hcur Hres Hb Hv Hp Hne Hnode. unfold gettuple_next.
  destruct (Z.ltb_spec (so_currentResult so) (so_resultCount so)); [|lia].
  rewrite Hres.
  apply (returns_bind _ _ w b); [apply returns_lift; exact Hb|]. intros w1 Hr1.
  apply (returns_bind _ _ w1 true).
  { rewrite <- Hv, <- (read_only_valid w w1 b Hr1). apply returns_validate. }
  intros w2 Hr2. cbn [negb].
  assert (Hr02 : read_only w w2) by (eapply read_only_trans; eassumption).
  apply (returns_bind _ _ w2 p).
  { apply returns_ReadBuffer. rewrite (read_only_page_at w w2 b Hr02). exact Hp. }
  intros w3 Hr3. rewrite Hne.
  apply (returns_bind _ _ w3 node); [apply returns_lift; exact Hnode|].
  intros w4 Hr4. apply returns_ret.
Qed.

(** X19.  A row inserted through [hnswinsert] into an index without entry
    point is what the next scan for the same value returns: after
    [hnswrescan] with that value as the order-by argument, under any of the
    three strategies, the first [hnswgettuple] returns true with the heap
    pointer of the row, and the second returns false. *)
Theorem scan_returns_inserted_row (log : double -> double) (fuel fuel1 fuel2 : nat)
    (value : KeyDatum) (isnull : bool) (tid : ItemPointerData)
    (strategy ef_guc k_guc : Z) (w w1 : World) :
  meta_entryPoint (w_meta w) = InvalidBlockNumber ->
  hnswinsert log fuel value isnull tid w = (Ok true, w1) ->
  1 <= strategy <= 3 ->
  1 <= ef_guc \/ 1 <= meta_efSearch (w_meta w) ->
  exists so1 w2 so2 w3 so3 w4,
    hnswrescan ef_guc k_guc hnswbeginscan
               [{| sk_strategy := strategy; sk_argument := Some value |}] w1
    = (Ok so1, w2)
    /\ hnswgettuple (S fuel1) so1 w2 = (Ok (true, so2), w3)
    /\ xs_heaptid so2 = Some tid
    /\ hnswgettuple fuel2 so2 w3 = (Ok (false, so3), w4).
Proof.
  intros Hentry Hins Hs Hef. unfold hnswinsert in Hins.
  destruct isnull.
  { apply ret_Ok in Hins. destruct Hins as [Hx _]. discriminate. }
  step Hins as extracted wa E. apply lift_Ok in E. destruct E as [Hext ->].
  destruct extracted as [vector dim].
  step Hins as p wb E. apply ReadBuffer_read_only in E. destruct E as [_ Hrb].
  step Hins as t wc E. destruct t. apply ret_Ok in Hins. destruct Hins as [_ <-].
  pose proof Hrb as (Hmb & _).
  rewrite <- Hmb in Hentry.
  destruct (insert_entryless log fuel vector dim tid wb w1 Hentry E)
    as (level & node & HL & Hnode & Hpages & He & Hl & Hlim & Hm & Hm' & Hefs).
  rewrite Hmb in Hefs.
  set (b := RelationGetNumberOfBlocks wb) in *.
  assert (Hiso : isolated w1 (meta_entryPoint (w_meta w1)) node).
  { apply (new_node_isolated w1 _ node tid vector dim level (meta_m (w_meta wb)) [] false);
      [exact Hnode | exact HL | rewrite Hm'; exact Hm | | ].
    - rewrite He. unfold b, RelationGetNumberOfBlocks in *. lia.
    - rewrite He, Hpages. unfold b, RelationGetNumberOfBlocks.
      replace (Z.to_nat (1 + Z.of_nat (length (w_pages wb)) - 1))
        with (length (w_pages wb) + 0)%nat by lia.
      rewrite lookup_app_r by lia.
      replace (length (w_pages wb) + 0 - length (w_pages wb))%nat with 0%nat by lia.
      reflexivity. }
  assert (Hd : exists d, hnswComputeDistance vector (node_vector node) dim strategy = Ok d).
  { unfold new_node in Hnode.
    destruct (Z.ltb_spec (Z.of_nat (length vector)) dim); [discriminate|].
    inversion Hnode; subst node. cbn [node_vector]. rewrite distance_take.
    apply distance_defined; [exact Hs | lia | lia]. }
  destruct Hd as [d Hd].
  assert (Hptr : node_heapPtr node = tid).
  { unfold new_node in Hnode. destruct (_ <? dim); [discriminate|].
    inversion Hnode. reflexivity. }
  set (ef0 := if ef_guc >? 0 then ef_guc else meta_efSearch (w_meta w1)).
  set (ef := if ef0 >? 100000 then 100000 else ef0).
  set (kk := if k_guc >? 0 then k_guc else 10).
  assert (Hef1 : 1 <= ef).
  { unfold ef, ef0. destruct (Z.gtb_spec ef_guc 0).
    - destruct (Z.gtb_spec ef_guc 100000); lia.
    - destruct (Z.gtb_spec (meta_efSearch (w_meta w1)) 100000); lia. }
  assert (Hkk : 1 <= kk) by (unfold kk; destruct (Z.gtb_spec k_guc 0); lia).
  set (so1 := {| so_efSearch := ef; so_strategy := strategy;
                 so_queryVector := Some {| vec_dim := dim; vec_data := vector |};
                 so_k := kk; so_firstCall := true; so_resultCount := 0;
                 so_results := None; so_distances := None;
                 so_currentResult := 0; xs_heaptid := None |}).
  assert (Hrescan : returns (hnswrescan ef_guc k_guc hnswbeginscan
                               [{| sk_strategy := strategy; sk_argument := Some value |}])
                            w1 so1).
  { unfold hnswrescan.
    apply (returns_bind _ _ w1 ef0).
    - unfold ef0. destruct (ef_guc >? 0); [apply returns_ret|].
      apply (returns_bind _ _ w1 (PageInit [])); [apply returns_ReadBuffer; reflexivity|].
      intros wx Hx. apply (returns_bind _ _ wx (w_meta wx)); [apply returns_get_meta|].
      intros wy Hy. destruct Hx as (Hmx & _). rewrite Hmx. apply returns_ret.
    - intros wx Hx. cbn [sk_argument sk_strategy].
      apply (returns_bind _ _ wx (vector, dim)); [apply returns_lift; exact Hext|].
      intros wy Hy. apply returns_ret. }
  destruct Hrescan as (w2 & Hrun1 & Hr12).
  set (so2 := {| so_efSearch := ef; so_strategy := strategy;
                 so_queryVector := Some {| vec_dim := dim; vec_data := vector |};
                 so_k := kk; so_firstCall := false; so_resultCount := 1;
                 so_results := Some [meta_entryPoint (w_meta w1)];
                 so_distances := Some [d];
                 so_currentResult := 0 + 1; xs_heaptid := Some (node_heapPtr node) |}).
  assert (Hfirst : returns (hnswgettuple (S fuel1) so1) w2 (true, so2)).
  { unfold hnswgettuple. change (so_firstCall so1) with true. cbv iota.
    apply (returns_bind _ _ w2 (PageInit [])); [apply returns_ReadBuffer; reflexivity|].
    intros w3 Hr3. change (so_queryVector so1)
      with (Some {| vec_dim := dim; vec_data := vector |}). cbv iota.
    cbn [vec_data vec_dim so_strategy so_efSearch so_k so1 so_queryVector xs_heaptid].
    assert (Hr13 : read_only w1 w3) by (eapply read_only_trans; eassumption).
    pose proof (isolated_read_only w1 w3 _ node Hr13 Hiso) as Hiso3.
    assert (Hm3 : meta_entryPoint (w_meta w3) = meta_entryPoint (w_meta w1)).
    { destruct Hr13 as (Hmm & _). rewrite Hmm. reflexivity. }
    rewrite <- Hm3 in Hiso3.
    apply (returns_bind _ _ w3
             {| sr_results := Some [meta_entryPoint (w_meta w3)];
                sr_distances := Some [d]; sr_resultCount := 1 |}).
    { apply (search_isolated fuel1 vector dim strategy ef kk w3 node d Hiso3 Hd Hef1 Hkk). }
    intros w4 Hr4. cbn [sr_resultCount sr_results sr_distances].
    rewrite Hm3.
    assert (Hr14 : read_only w1 w4) by (eapply read_only_trans; eassumption).
    pose proof (isolated_read_only w1 w4 _ node Hr14 Hiso) as Hiso4.
    destruct (isolated_page w4 _ node Hiso4) as (pg & Hpg & _ & Hne & Hfn).
    destruct Hiso4 as (_ & Hv4 & _).
    refine (returns_gettuple_next _ w4 [meta_entryPoint (w_meta w1)]
              (meta_entryPoint (w_meta w1)) pg node _ _ _ Hv4 Hpg Hne Hfn).
    - cbn. lia.
    - reflexivity.
    - reflexivity. }
  destruct Hfirst as (w3 & Hrun2 & Hr23).
  exists so1, w2, so2, w3, so2, w3.
  split; [exact Hrun1|]. split; [exact Hrun2|].
  split; [cbn; rewrite Hptr; reflexivity|].
  unfold hnswgettuple. change (so_firstCall so2) with false. cbv iota.
  unfold gettuple_next. cbn [so_currentResult so_resultCount so2]. reflexivity.
Qed.

Lemma scan_returns_inserted_row_witness :
  exists so1 w2 so2 w3 so3 w4,
    hnswrescan 0 0 hnswbeginscan
               [{| sk_strategy := 2; sk_argument := Some (DatumBit 3 [160]) |}]
               (snd (hnswinsert log_example 8 (DatumBit 3 [160]) false
                                {| ip_blkid := 0; ip_posid := 1 |}
                                (world_init [draw0; draw0])))
    = (Ok so1, w2)
    /\ hnswgettuple 1 so1 w2 = (Ok (true, so2), w3)
    /\ xs_heaptid so2 = Some {| ip_blkid := 0; ip_posid := 1 |}
    /\ hnswgettuple 0 so2 w3 = (Ok (false, so3), w4).
Proof.
  apply (scan_returns_inserted_row log_example 8 0 0 (DatumBit 3 [160]) false
           {| ip_blkid := 0; ip_posid := 1 |} 2 0 0 (world_init [draw0; draw0])).
  - reflexivity.
  - vm_compute. reflexivity.
  - lia.
  - right. cbn. lia.
Defined.

(** ** A vacuum that finds nothing to delete *)

Lemma returns_for_up_same {S} (body : Z -> S -> M (ctl S)) (s : S) (lo hi : Z) (w0 : World) :
  (forall i w, lo <= i < hi -> read_only w0 w -> returns (body i s) w (Next s)) ->
  forall (n : nat) (i : Z) (w : World),
    lo <= i -> i + Z.of_nat n <= hi -> read_only w0 w ->
    returns (for_up n i body s) w s.
Proof.
  intros Hbody. induction n as [|n IH]; intros i w Hlo Hhi Hr; cbn [for_up].
  - apply returns_ret.
  - apply (returns_bind _ _ w (Next s)); [apply Hbody; [lia | exact Hr]|].
    intros w1 Hr1. apply IH; [lia | lia |]. eapply read_only_trans; eassumption.
Qed.

Lemma selects_none_item (callback : ItemPointerData -> bool) (w : World)
    (b : BlockNumber) (p : Page) (it : Item) :
  selects_none callback w = true ->
  page_at w b = Some p -> In it (page_items p) -> lp_dead it = false ->
  callback (node_heapPtr (it_node it)) = false.
Proof.
  unfold selects_none, page_at. intros Hnone Hp Hit Hlive.
  destruct (b =? 0).
  { inversion Hp; subst p. destruct Hit. }
  destruct (b <? 0); [discriminate|].
  apply list_elem_of_lookup_2, list_elem_of_In in Hp.
  rewrite forallb_forall in Hnone. specialize (Hnone p Hp).
  rewrite forallb_forall in Hnone. specialize (Hnone it Hit).
  rewrite Hlive in Hnone. cbn in Hnone. destruct (callback _); [discriminate | reflexivity].
Qed.

Lemma bulkdelete_item_kept (callback : ItemPointerData -> bool) (w0 w : World)
    (blkno : BlockNumber) (p : Page) (offnum n : Z) :
  selects_none callback w0 = true -> read_only w0 w ->
  page_at w0 blkno = Some p ->
  FirstOffsetNumber <= offnum < PageGetMaxOffsetNumber p + 1 ->
  returns (bulkdelete_item callback blkno offnum n) w (Next n).
Proof.
  intros Hnone Hr Hp Hoff. unfold bulkdelete_item.
  apply (returns_bind _ _ w w); [apply returns_get|]. intros w1 Hr1.
  rewrite (read_only_page_at w0 w blkno Hr), Hp.
  unfold FirstOffsetNumber, PageGetMaxOffsetNumber in Hoff.
  destruct (aref_in_bound (page_items p) (offnum - 1) ltac:(lia)) as [it Hit].
  apply (returns_bind _ _ w1 it); [apply returns_lift; exact Hit|]. intros w2 Hr2.
  destruct (lp_dead it) eqn:Hdead; [apply returns_ret|].
  destruct (hnswValidateLevelSafe (node_level (it_node it))); cbn [negb];
    [|apply returns_ret].
  assert (Hin : In it (page_items p)).
  { unfold aref in Hit. destruct (offnum - 1 <? 0); [discriminate|].
    destruct (page_items p !! Z.to_nat (offnum - 1)) as [x|] eqn:Hx; [|discriminate].
    inversion Hit; subst x. apply list_elem_of_In. eapply list_elem_of_lookup_2. exact Hx. }
  rewrite (selects_none_item callback w0 blkno p it Hnone Hp Hin Hdead).
  apply returns_ret.
Qed.

Lemma bulkdelete_page_kept (callback : ItemPointerData -> bool) (w0 w : World)
    (blkno n : Z) :
  selects_none callback w0 = true -> read_only w0 w ->
  1 <= blkno < RelationGetNumberOfBlocks w0 ->
  returns (bulkdelete_page callback blkno n) w (Next n).
Proof.
  intros Hnone Hr Hb. unfold bulkdelete_page.
  destruct (page_at_in_range w0 blkno Hb) as [p Hp].
  apply (returns_bind _ _ w p).
  { apply returns_ReadBuffer. rewrite (read_only_page_at w0 w blkno Hr). exact Hp. }
  intros w1 Hr1.
  destruct (PageIsNew p || PageIsEmpty p); [apply returns_ret|].
  apply (returns_bind _ _ w1 n); [|intros w2 Hr2; apply returns_ret].
  assert (Hr01 : read_only w0 w1) by (eapply read_only_trans; eassumption).
  unfold forZ.
  apply (returns_for_up_same _ n FirstOffsetNumber (PageGetMaxOffsetNumber p + 1) w0);
    [| lia | unfold FirstOffsetNumber, PageGetMaxOffsetNumber; lia | exact Hr01].
  intros i wi Hi Hri. apply (bulkdelete_item_kept callback w0 wi blkno p i n); assumption.
Qed.

(** X20.  A vacuum whose callback asks for no live tuple of the index
    completes, changes nothing in the index and reports the count it was
    given (zero without a statistics record). *)
Theorem bulkdelete_without_dead_tuples (callback : ItemPointerData -> bool)
    (stats : option Z) (w : World) :
  selects_none callback w = true ->
  exists w',
    hnswbulkdelete callback stats w = (Ok (default 0 stats), w')
    /\ read_only w w'.
Proof.
  intros Hnone. unfold hnswbulkdelete.
  change (match stats with Some n => n | None => 0 end) with (default 0 stats).
  change (returns
            (ReadBuffer 0 ;;;
             w1 <- get ;;
             forZ 1 (RelationGetNumberOfBlocks w1) (bulkdelete_page callback) (default 0 stats))
            w (default 0 stats)).
  apply (returns_bind _ _ w (PageInit [])); [apply returns_ReadBuffer; reflexivity|].
  intros w1 Hr1.
  apply (returns_bind _ _ w1 w1); [apply returns_get|]. intros w2 Hr2.
  rewrite (read_only_blocks w w1 Hr1).
  assert (Hr02 : read_only w w2) by (eapply read_only_trans; eassumption).
  unfold forZ.
  apply (returns_for_up_same _ (default 0 stats) 1 (RelationGetNumberOfBlocks w) w);
    [| lia | unfold RelationGetNumberOfBlocks; lia | exact Hr02].
  intros i wi Hi Hri. apply (bulkdelete_page_kept callback w wi i); assumption.
Qed.

Lemma bulkdelete_without_dead_tuples_witness :
  exists w',
    hnswbulkdelete (fun tid => ip_posid tid =? 9) (Some 5) world_star = (Ok 5, w')
    /\ read_only world_star w'.
Proof.
  apply (bulkdelete_without_dead_tuples (fun tid => ip_posid tid =? 9) (Some 5) world_star).
  reflexivity.
Defined.

(** ** What an insertion leaves of the nodes it links *)

Lemma keeps_data_refl (w : World) : keeps_data w w.
Proof. split; [lia|]. intros b _. apply same_skeleton_refl. Qed.

Lemma keeps_data_trans (w1 w2 w3 : World) :
  keeps_data w1 w2 -> keeps_data w2 w3 -> keeps_data w1 w3.
Proof.
  intros [L1 K1] [L2 K2]. split; [lia|]. intros b Hb.
  eapply same_skeleton_trans; [apply K1; exact Hb | apply K2; lia].
Qed.

Lemma pages_keeps (w w' : World) : w_pages w' = w_pages w -> keeps_data w w'.
Proof.
  intros Hp. split; [unfold RelationGetNumberOfBlocks; rewrite Hp; lia|].
  intros b _. rewrite (page_at_pages w w' b Hp). apply same_skeleton_refl.
Qed.

Lemma read_only_keeps (w w' : World) : read_only w w' -> keeps_data w w'.
Proof. intros (_ & Hp & _). apply pages_keeps. exact Hp. Qed.

Lemma same_but_lists_sym (n1 n2 : HnswNodeData) :
  same_but_lists n1 n2 -> same_but_lists n2 n1.
Proof. unfold same_but_lists. intros (A1 & A2 & A3 & A4 & A5 & A6). repeat split; congruence. Qed.

(** A store of a node that differs from the stored one in its lists only. *)
Lemma store_node_keeps (b : BlockNumber) (node node' : HnswNodeData) (w w' : World) :
  store_node b FirstOffsetNumber node' w = (Ok tt, w') ->
  first_node_at w b = Some node -> same_but_lists node node' ->
  keeps_data w w'.
Proof.
  intros H Hnode Hsame. apply store_node_Ok in H.
  destruct H as (it & rest & Hp & Hb & _ & Hpages).
  unfold first_node_at in Hnode. rewrite Hp in Hnode. inversion Hnode; subst node.
  split.
  { unfold RelationGetNumberOfBlocks. rewrite Hpages, length_insert. lia. }
  intros b' _. rewrite (page_at_insert w w' b b' _ Hb Hpages).
  destruct (Z.eqb_spec b' b) as [->|_]; [|apply same_skeleton_refl].
  rewrite Hp. cbn. constructor.
  - split; [reflexivity | exact Hsame].
  - pose proof (same_skeleton_refl (Some (PageInit rest))) as Hr. exact Hr.
Qed.

Lemma node_at_first (b : BlockNumber) (w w' : World) (node : HnswNodeData) :
  node_at b FirstOffsetNumber w = (Ok node, w') ->
  w' = w /\ first_node_at w b = Some node.
Proof.
  intros H. apply node_at_Ok in H. destruct H as (-> & p & it & Hp & Hit & ->).
  split; [reflexivity|]. unfold first_node_at. rewrite Hp.
  destruct p as [|[|it0 rest]]; try discriminate.
  cbn in Hit. inversion Hit. reflexivity.
Qed.

Lemma prune_apply_same (m currentLevel : Z) (neighborIndices : list (option Z)) :
  forall (n : nat) (j : Z) (node node' : HnswNodeData),
    for_res n j
      (fun j node =>
         res_bind (cell_ref neighborIndices j) (fun ij =>
         res_bind (get_neighbor node currentLevel m ij) (fun b =>
         set_neighbor node currentLevel m j b)))
      node = Ok node' ->
    same_but_lists node node'.
Proof.
  induction n as [|n IH]; intros j node node' H.
  - cbn in H. inversion H. apply same_but_lists_refl.
  - cbn [for_res] in H.
    destruct (cell_ref neighborIndices j) as [ij| | |]; try discriminate.
    cbn [res_bind] in H.
    destruct (get_neighbor node currentLevel m ij) as [b| | |]; try discriminate.
    cbn [res_bind] in H.
    destruct (set_neighbor node currentLevel m j b) as [n1| | |] eqn:Hset; try discriminate.
    cbn [res_bind] in H. apply set_neighbor_Ok in Hset. destruct Hset as [Hs _].
    eapply same_but_lists_trans; [exact Hs | exact (IH _ _ _ H)].
Qed.

Lemma prune_neighbor_keeps (dim m currentLevel : Z) (blkno sel : BlockNumber)
    (selectedDistance : float4) (w w' : World) :
  prune_neighbor dim m currentLevel blkno sel selectedDistance w = (Ok tt, w') ->
  keeps_data w w'.
Proof.
  intros H. unfold prune_neighbor in H.
  step H as neighborNode w1 E. apply node_at_first in E. destruct E as [-> Hnode].
  step H as cnt w1 E. apply lift_Ok in E. destruct E as [_ ->].
  step H as t w1 E. apply NDB_ALLOC_Ok in E. destruct E as [_ ->]. clear t.
  step H as t w1 E. apply NDB_ALLOC_Ok in E. destruct E as [_ ->]. clear t.
  step H as filled w1 E.
  assert (Hr : read_only w w1).
  { apply (preserves_Ok read_only _ _ _ _) in E; [exact E|].
    apply (preserves_prune_fill read_only (fun _ => True)
             read_only_refl read_only_trans read_only_log); intros; exact I. }
  clear E.
  step H as sorted w2 E. apply lift_Ok in E. destruct E as [_ ->].
  step H as n1 w2 E. apply lift_Ok in E. destruct E as [Hn1 ->].
  step H as n2 w2 E. apply lift_Ok in E. destruct E as [Hn2 ->].
  apply set_count_Ok in Hn1. destruct Hn1 as [Hs1 _].
  unfold prune_apply in Hn2. apply prune_apply_same in Hn2.
  pose proof Hr as (_ & Hp & _).
  eapply keeps_data_trans; [apply read_only_keeps; exact Hr|].
  apply (store_node_keeps sel neighborNode n2 w1 w' H).
  - rewrite (first_node_at_pages w w1 sel Hp). exact Hnode.
  - eapply same_but_lists_trans; eassumption.
Qed.

Lemma link_neighbor_keeps (dim m currentLevel : Z) (blkno : BlockNumber)
    (selectedNeighbors : list BlockNumber) (selectedDistances : list float4)
    (idx : Z) (u : unit) (w w' : World) (r : ctl unit) :
  link_neighbor dim m currentLevel blkno selectedNeighbors selectedDistances idx u w
  = (Ok r, w') ->
  keeps_data w w'.
Proof.
  intros H. unfold link_neighbor in H.
  step H as sel w1 E. apply lift_Ok in E. destruct E as [_ ->].
  step H as t w1 E.
  assert (K1 : keeps_data w w1).
  { destruct (idx <? m).
    - step E as newNode wa Ea. apply node_at_first in Ea. destruct Ea as [-> Hnew].
      step E as n1 wa Ea. apply lift_Ok in Ea. destruct Ea as [Hn1 ->].
      step E as n2 wa Ea. apply lift_Ok in Ea. destruct Ea as [Hn2 ->].
      destruct t. apply set_neighbor_Ok in Hn1. destruct Hn1 as [Hs1 _].
      apply set_count_Ok in Hn2. destruct Hn2 as [Hs2 _].
      apply (store_node_keeps blkno newNode n2 w w1 E Hnew).
      eapply same_but_lists_trans; eassumption.
    - apply ret_Ok in E. destruct E as [_ ->]. apply keeps_data_refl. }
  clear E t.
  step H as pg w2 E. apply ReadBuffer_read_only in E. destruct E as [_ Hr2].
  step H as neighborNode w3 E. apply node_at_first in E. destruct E as [-> Hnb].
  assert (K2 : keeps_data w w2).
  { eapply keeps_data_trans; [exact K1 | apply read_only_keeps; exact Hr2]. }
  destruct (hnswValidateLevelSafe (node_level neighborNode)); cbn [negb] in H.
  2:{ apply ret_Ok in H. destruct H as [_ ->]. exact K2. }
  step H as cnt w3 E. apply lift_Ok in E. destruct E as [_ ->].
  step H as insertPos w3 E. apply lift_Ok in E. destruct E as [_ ->].
  step H as t w3 E.
  assert (K3 : keeps_data w2 w3).
  { destruct (insertPos <? m * 2).
    - step E as n1 wa Ea. apply lift_Ok in Ea. destruct Ea as [Hn1 ->].
      step E as n2 wa Ea. apply lift_Ok in Ea. destruct Ea as [Hn2 ->].
      destruct t. apply set_neighbor_Ok in Hn1. destruct Hn1 as [Hs1 _].
      apply (store_node_keeps sel neighborNode n2 w2 w3 E Hnb).
      destruct (insertPos >=? _).
      + apply set_count_Ok in Hn2. destruct Hn2 as [Hs2 _].
        eapply same_but_lists_trans; eassumption.
      + inversion Hn2; subst n2. exact Hs1.
    - apply ret_Ok in E. destruct E as [_ ->]. apply keeps_data_refl. }
  clear E t.
  step H as neighborNode' w4 E. apply node_at_first in E. destruct E as [-> _].
  step H as cnt' w4 E. apply lift_Ok in E. destruct E as [_ ->].
  step H as t w4 E. apply ret_Ok in H. destruct H as [_ ->].
  eapply keeps_data_trans; [exact K2|]. eapply keeps_data_trans; [exact K3|].
  destruct (cnt' >? m * 2).
  - step E as selectedDistance wa Ea. apply lift_Ok in Ea. destruct Ea as [_ ->].
    destruct t. exact (prune_neighbor_keeps _ _ _ _ _ _ _ _ E).
  - apply ret_Ok in E. destruct E as [_ ->]. apply keeps_data_refl.
Qed.

Lemma link_level_keeps (fuel : nat) (vector : list float4) (dim m efConstruction : Z)
    (blkno : BlockNumber) (currentLevel : Z) (u : unit) (w w' : World) (r : ctl unit) :
  link_level fuel vector dim m efConstruction blkno currentLevel u w = (Ok r, w') ->
  keeps_data w w'.
Proof.
  intros H. unfold link_level in H.
  step H as found w1 E.
  assert (Hr1 : read_only w w1).
  { exact (preserves_Ok read_only _ _ _ _ (preserves_read_only_search _ _ _ _ _ _) E). }
  clear E.
  step H as t w2 E.
  assert (Hw2 : w2 = w1).
  { destruct (_ >? 0).
    - step E as t1 wa Ea. apply NDB_ALLOC_Ok in Ea. destruct Ea as [_ ->].
      apply NDB_ALLOC_Ok in E. tauto.
    - apply ret_Ok in E. tauto. }
  subst w2. clear E t.
  step H as selected w2 E. apply lift_Ok in E. destruct E as [_ ->].
  step H as newNodePage w2 E. apply ReadBuffer_read_only in E. destruct E as [_ Hr2].
  destruct (PageIsNew newNodePage || PageIsEmpty newNodePage); [discriminate|].
  step H as t w3 E. apply ret_Ok in H. destruct H as [_ ->].
  assert (K2 : keeps_data w w2).
  { apply read_only_keeps. eapply read_only_trans; eassumption. }
  unfold forZ in E.
  refine (for_up_state_inv (fun _ wx => keeps_data w wx) _ _ _ _ tt w2 t w3 K2 E).
  intros i s wi ri wi' Ki Hi. eapply keeps_data_trans; [exact Ki|].
  exact (link_neighbor_keeps _ _ _ _ _ _ _ _ _ _ _ Hi).
Qed.

Lemma for_down_state_inv {S} (I : S -> World -> Prop) (body : Z -> S -> M (ctl S)) :
  (forall i s w r w', I s w -> body i s w = (Ok r, w') -> I (ctl_state r) w') ->
  forall (n : nat) (i : Z) (s : S) (w : World) (s' : S) (w' : World),
    I s w -> for_down n i body s w = (Ok s', w') -> I s' w'.
Proof.
  intros Hbody. induction n as [|n IH]; intros i s w s' w' Hinv H.
  - cbn in H. apply ret_Ok in H. destruct H as [-> ->]. exact Hinv.
  - cbn [for_down] in H. step H as r w1 E.
    pose proof (Hbody i s w r w1 Hinv E) as Hinv1.
    destruct r as [s1|s1]; cbn [ctl_state] in Hinv1.
    + exact (IH _ _ _ _ _ Hinv1 H).
    + apply ret_Ok in H. destruct H as [-> ->]. exact Hinv1.
Qed.

Lemma append_keeps (w w' : World) (l : list Page) :
  w_pages w' = w_pages w ++ l -> keeps_data w w'.
Proof.
  intros Hp. unfold keeps_data, RelationGetNumberOfBlocks. rewrite Hp, length_app.
  split; [lia|]. intros b Hb. unfold page_at. rewrite Hp.
  destruct (b =? 0); [apply same_skeleton_refl|].
  destruct (b <? 0); [apply same_skeleton_refl|].
  rewrite lookup_app_l by lia. apply same_skeleton_refl.
Qed.

Lemma write_new_keeps (w0 w w' : World) (b : BlockNumber) (p : Page) :
  keeps_data w0 w -> write_page b p w = (Ok tt, w') ->
  RelationGetNumberOfBlocks w0 <= b ->
  keeps_data w0 w'.
Proof.
  intros [L K] H Hb. apply write_page_Ok in H. destruct H as (Hr & _ & Hpages).
  split.
  { unfold RelationGetNumberOfBlocks in *. rewrite Hpages, length_insert. lia. }
  intros b' Hb'. rewrite (page_at_insert w w' b b' p Hr Hpages).
  destruct (Z.eqb_spec b' b); [lia|]. apply K. exact Hb'.
Qed.

(** X21.  An insertion into an index without dead items leaves the data of
    the index in place: every block that existed before holds the same
    items as before, all live, and each node keeps its heap pointer, level,
    dimension and vector; an insertion changes existing nodes in their
    neighbor lists only. *)
Theorem insert_keeps_stored_data (log : double -> double) (fuel : nat)
    (vector : list float4) (dim : Z) (heapPtr : ItemPointerData) (w w' : World) :
  live_index w = true ->
  hnswInsertNode log fuel vector dim heapPtr w = (Ok tt, w') ->
  forall b, 1 <= b < RelationGetNumberOfBlocks w ->
            same_skeleton (page_at w b) (page_at w' b).
Proof.
  intros _ H. enough (K : keeps_data w w') by exact (proj2 K).
  unfold hnswInsertNode in H.
  step H as meta w0 E. apply get_meta_Ok in E. destruct E as [-> ->].
  step H as L w1 Hlevel.
  pose proof (preserves_Ok _ _ _ _ _ (random_level_same_index log _) Hlevel) as [_ Hp1].
  clear Hlevel.
  destruct (hnswValidateLevelSafe _); cbn [negb] in H; [|discriminate].
  destruct (hnswComputeNodeSizeSafe dim _ (meta_m (w_meta w))) as [nodeSize overflow].
  destruct (overflow || (nodeSize =? 0)); [discriminate|].
  step H as t w2 E. apply NDB_ALLOC_Ok in E. destruct E as [_ ->]. clear t.
  step H as node w2 E. apply lift_Ok in E. destruct E as [_ ->].
  step H as t w2 E.
  assert (Hr2 : read_only w1 w2).
  { apply (preserves_Ok read_only _ _ _ _) in E; [exact E|].
    destruct (_ && _); [|apply (preserves_ret _ read_only_refl)].
    apply (preserves_bind _ read_only_trans);
      [|intros ?; apply (preserves_ret _ read_only_refl)].
    apply (preserves_forZ _ read_only_refl read_only_trans). intros i st.
    apply (preserves_insert_greedy_step read_only (fun _ => True)
             read_only_refl read_only_trans read_only_log); intros; exact I. }
  clear E t.
  assert (K2 : keeps_data w w2).
  { eapply keeps_data_trans; [apply pages_keeps; exact Hp1 | apply read_only_keeps; exact Hr2]. }
  assert (Hblocks : RelationGetNumberOfBlocks w2 = RelationGetNumberOfBlocks w).
  { rewrite (read_only_blocks w1 w2 Hr2). unfold RelationGetNumberOfBlocks.
    rewrite Hp1. reflexivity. }
  step H as blkno w3 E. apply ReadBuffer_P_NEW_pages in E.
  destruct E as (Hblk & _ & _ & Hp3).
  assert (K3 : keeps_data w w3).
  { eapply keeps_data_trans; [exact K2 | exact (append_keeps w2 w3 _ Hp3)]. }
  step H as t w4 E. destruct t.
  assert (K4 : keeps_data w w4) by (apply (write_new_keeps w w3 w4 blkno _ K3 E); lia).
  clear E.
  step H as t w5 E. destruct t.
  assert (K5 : keeps_data w w5).
  { destruct (fresh_page_free_space <? nodeSize); [discriminate|].
    apply (write_new_keeps w w4 w5 blkno _ K4 E). lia. }
  clear E.
  step H as t w6 E. destruct t.
  assert (K6 : keeps_data w w6).
  { destruct (_ && _).
    - step E as valid wa Ea. apply validate_Ok in Ea. destruct Ea as [-> ->].
      destruct (valid_block w5 blkno); cbn [negb] in E; [|discriminate].
      step E as t wa Ea. apply NDB_ALLOC_Ok in Ea. destruct Ea as [_ ->]. clear t.
      step E as t wa Ea. apply NDB_ALLOC_Ok in Ea. destruct Ea as [_ ->]. clear t.
      unfold forZ_down in E.
      refine (for_down_state_inv (fun _ wx => keeps_data w wx) _ _ _ _ tt w5 tt w6 K5 E).
      intros i s wi ri wi' Ki Hi. eapply keeps_data_trans; [exact Ki|].
      exact (link_level_keeps _ _ _ _ _ _ _ _ _ _ _ Hi).
    - apply ret_Ok in E. destruct E as [_ ->]. exact K5. }
  clear E.
  apply update_meta_Ok in H. destruct H as (Hp7 & _).
  eapply keeps_data_trans; [exact K6 | apply pages_keeps; exact Hp7].
Qed.

Lemma insert_keeps_stored_data_witness :
  same_skeleton (page_at world_one 1) (page_at world_two 1).
Proof.
  apply (insert_keeps_stored_data log_example 8 (map of_Z32 [1; 0; 0]) 3
           {| ip_blkid := 0; ip_posid := 2 |} world_one world_two).
  - reflexivity.
  - vm_compute. reflexivity.
  - vm_compute. split; [discriminate | reflexivity].
Defined.

(** ** The scan delivers the results of its search *)

Lemma candidate_page (query : list float4) (dim strategy : Z) (w0 w : World)
    (b : BlockNumber) (d : float4) :
  candidate_ok query dim strategy w0 b d -> read_only w0 w ->
  exists p node,
    valid_block w b = true /\ page_at w b = Some p /\ PageIsEmpty p = false
    /\ first_node p = Ok node /\ first_node_at w b = Some node.
Proof.
  intros (Hv & node & Hn & _) Hr. pose proof Hr as (_ & Hp & _).
  rewrite <- (read_only_valid w0 w b Hr) in Hv.
  rewrite <- (first_node_at_pages w0 w b Hp) in Hn.
  pose proof Hn as Hn'. unfold first_node_at in Hn'.
  destruct (page_at w b) as [[|[|it rest]]|] eqn:Hpg; try discriminate.
  inversion Hn'; subst node.
  exists (PageInit (it :: rest)), (it_node it). repeat (split; [reflexivity || assumption|]).
  exact Hn.
Qed.

Lemma gettuple_next_delivers (query : list float4) (dim strategy : Z) (w0 w : World)
    (rs : list BlockNumber) (ds : list float4) (so : HnswScanOpaqueData) :
  Forall2 (candidate_ok query dim strategy w0) rs ds -> read_only w0 w ->
  so_results so = Some rs ->
  0 <= so_currentResult so < so_resultCount so ->
  so_resultCount so <= Z.of_nat (length rs) ->
  exists b node,
    tbl rs (so_currentResult so) = Some b
    /\ first_node_at w b = Some node
    /\ returns (gettuple_next so) w
               (true, with_current so (so_currentResult so + 1) (Some (node_heapPtr node))).
Proof.
  intros Hall Hr Hres Hcur Hlen.
  destruct (tbl_in_bound rs (so_currentResult so) ltac:(lia)) as [b Hb].
  assert (Hd : exists d, candidate_ok query dim strategy w0 b d).
  { unfold tbl in Hb. destruct (so_currentResult so <? 0); [discriminate|].
    destruct (Forall2_lookup_l _ _ _ _ _ Hall Hb) as (d & _ & Hd). eauto. }
  destruct Hd as [d Hd].
  destruct (candidate_page _ _ _ _ _ _ _ Hd Hr) as (p & node & Hv & Hp & Hne & Hfn & Hfa).
  exists b, node. split; [exact Hb|]. split; [exact Hfa|].
  apply (returns_gettuple_next so w rs b p node); try assumption; try lia.
  apply aref_tbl. exact Hb.
Qed.

(** X22.  On an index without dead items, after its first call a scan
    delivers every result of its search: as long as the index is unchanged
    and the position is inside the results, [hnswgettuple] returns true
    with the heap pointer of the first node on the result block at that
    position, and moves on by one.  It never stops early. *)
Theorem scan_delivers_every_result (fuel fuel' : nat) (query : list float4)
    (dim strategy efSearch k : Z) (w0 w1 w : World) (r : SearchResult)
    (rs : list BlockNumber) (so : HnswScanOpaqueData) :
  live_index w0 = true ->
  hnswSearch fuel query dim strategy efSearch k w0 = (Ok r, w1) ->
  sr_results r = Some rs ->
  so_firstCall so = false -> so_results so = Some rs ->
  so_resultCount so = sr_resultCount r ->
  0 <= so_currentResult so < so_resultCount so ->
  read_only w0 w ->
  exists b node w',
    tbl rs (so_currentResult so) = Some b
    /\ first_node_at w b = Some node
    /\ hnswgettuple fuel' so w
       = (Ok (true, with_current so (so_currentResult so + 1) (Some (node_heapPtr node))), w')
    /\ read_only w w'.
Proof.
  intros _ H Hrs Hfirst Hres Hcount Hcur Hr.
  destruct (search_final _ _ _ _ _ _ _ _ _ H)
    as [->|(st & rs' & ds & Hinv & Htop & Hmin & ->)]; [discriminate|].
  cbn in Hrs, Hcount. inversion Hrs; subst rs'.
  destruct Hinv as (Hall & Hnd & _).
  destruct (top_k_results _ _ _ _ _ _ Htop Hall Hnd) as (Hlr & _ & Hok & _).
  destruct (gettuple_next_delivers query dim strategy w0 w rs ds so Hok Hr Hres Hcur)
    as (b & node & Hb & Hn & w' & Hrun & Hro).
  { unfold candidateCount in *. rewrite Hcount, Hlr. lia. }
  exists b, node, w'. split; [exact Hb|]. split; [exact Hn|].
  split; [|exact Hro]. unfold hnswgettuple. rewrite Hfirst. exact Hrun.
Qed.

Lemma scan_delivers_every_result_witness :
  exists b node w',
    tbl [2; 1; 3] (so_currentResult scan_example) = Some b
    /\ first_node_at world_star b = Some node
    /\ hnswgettuple 0 scan_example world_star
       = (Ok (true, with_current scan_example (so_currentResult scan_example + 1)
                                 (Some (node_heapPtr node))), w')
    /\ read_only world_star w'.
Proof.
  apply (scan_delivers_every_result 8 0 (map of_Z32 [1; 0; 0]) 3 1 4 3 world_star
           (snd (search_example world_star)) world_star search_example_result
           [2; 1; 3] scan_example).
  - reflexivity.
  - vm_compute. reflexivity.
  - reflexivity.
  - reflexivity.
  - reflexivity.
  - reflexivity.
  - cbn. lia.
  - apply read_only_refl.
Defined.

(** X23.  On an index without dead items, the first [hnswgettuple] of a
    scan with a query vector runs the search with the strategy, [efSearch]
    and [k] of the scan state and keeps its arrays and count; it returns
    true exactly when the search found something, and then with the heap
    pointer of the first node on the first result block. *)
Theorem first_gettuple_runs_search (fuel : nat) (so so' : HnswScanOpaqueData)
    (qv : Vector) (found : bool) (w w' : World) :
  live_index w = true ->
  so_firstCall so = true -> so_queryVector so = Some qv ->
  hnswgettuple fuel so w = (Ok (found, so'), w') ->
  exists r w1 w2,
    read_only w w1
    /\ hnswSearch fuel (vec_data qv) (vec_dim qv) (so_strategy so) (so_efSearch so)
                  (so_k so) w1 = (Ok r, w2)
    /\ so_firstCall so' = false
    /\ so_results so' = sr_results r /\ so_distances so' = sr_distances r
    /\ so_resultCount so' = sr_resultCount r
    /\ found = (0 <? sr_resultCount r)
    /\ so_currentResult so' = (if found then 1 else 0)
    /\ (found = true ->
        exists rs b node,
          sr_results r = Some rs /\ tbl rs 0 = Some b
          /\ first_node_at w b = Some node
          /\ xs_heaptid so' = Some (node_heapPtr node)).
Proof.
  intros _ Hfirst Hq H. unfold hnswgettuple in H. rewrite Hfirst in H.
  step H as p w1 E. apply ReadBuffer_read_only in E. destruct E as [_ Hr1].
  rewrite Hq in H. step H as r w2 E.
  exists r, w1, w2. split; [exact Hr1|]. split; [exact E|].
  pose proof (preserves_Ok read_only _ _ _ _ (preserves_read_only_search _ _ _ _ _ _) E)
    as Hr2.
  set (so1 := {| so_efSearch := so_efSearch so; so_strategy := so_strategy so;
                 so_queryVector := Some qv; so_k := so_k so;
                 so_firstCall := false; so_resultCount := sr_resultCount r;
                 so_results := sr_results r; so_distances := sr_distances r;
                 so_currentResult := 0; xs_heaptid := xs_heaptid so |}) in *.
  assert (Hnone : sr_resultCount r <= 0 ->
                  found = false /\ so' = so1).
  { intros Hz. unfold gettuple_next in H.
    change (so_currentResult so1) with 0 in H.
    change (so_resultCount so1) with (sr_resultCount r) in H.
    destruct (Z.ltb_spec 0 (sr_resultCount r)); [lia|].
    apply ret_Ok in H. destruct H as [H _]. inversion H. auto. }
  destruct (Z.ltb_spec 0 (sr_resultCount r)) as [Hpos|Hzero].
  2:{ destruct (Hnone Hzero) as [-> ->]. cbn.
      repeat (split; [reflexivity|]). intros Hx. discriminate. }
  destruct (search_final _ _ _ _ _ _ _ _ _ E)
    as [Hr|(st & rs & ds & Hinv & Htop & Hmin & Hr)]; rewrite Hr in Hpos;
    [cbn in Hpos; lia|].
  cbn in Hpos.
  destruct Hinv as (Hall & Hnd & _).
  destruct (top_k_results _ _ _ _ _ _ Htop Hall Hnd) as (Hlr & _ & Hok & _).
  assert (Hr12 : read_only w1 w2) by exact Hr2.
  destruct (gettuple_next_delivers (vec_data qv) (vec_dim qv) (so_strategy so)
              w1 w2 rs ds so1 Hok Hr12) as (b & node & Hb & Hn & w3 & Hrun & _).
  { unfold so1. rewrite Hr. reflexivity. }
  { unfold so1. rewrite Hr. cbn. lia. }
  { unfold so1. rewrite Hr. cbn. unfold candidateCount in *. rewrite Hlr. lia. }
  rewrite Hrun in H. inversion H; subst found so' w3. cbn.
  repeat (split; [reflexivity|]). intros _.
  exists rs, b, node. rewrite Hr. cbn. split; [reflexivity|]. split; [exact Hb|].
  split; [|reflexivity].
  assert (Hr02 : read_only w w2) by (eapply read_only_trans; eassumption).
  pose proof Hr02 as (_ & Hp & _).
  rewrite <- (first_node_at_pages w w2 b Hp). exact Hn.
Qed.

Lemma first_gettuple_runs_search_witness :
  exists r w1 w2,
    read_only world_star w1
    /\ hnswSearch 8 (map of_Z32 [1; 0; 0]) 3 (so_strategy scan_start)
                  (so_efSearch scan_start) (so_k scan_start) w1 = (Ok r, w2)
    /\ so_firstCall scan_example = false
    /\ so_results scan_example = sr_results r
    /\ so_distances scan_example = sr_distances r
    /\ so_resultCount scan_example = sr_resultCount r
    /\ true = (0 <? sr_resultCount r)
    /\ so_currentResult scan_example = 1
    /\ (true = true ->
        exists rs b node,
          sr_results r = Some rs /\ tbl rs 0 = Some b
          /\ first_node_at world_star b = Some node
          /\ xs_heaptid scan_example = Some (node_heapPtr node)).
Proof.
  apply (first_gettuple_runs_search 8 scan_start scan_example
           {| vec_dim := 3; vec_data := map of_Z32 [1; 0; 0] |} true world_star
           (snd (hnswgettuple 8 scan_start world_star))).
  - reflexivity.
  - reflexivity.
  - reflexivity.
  - vm_compute. reflexivity.
Defined.

(** ** hnswRemoveNodeFromNeighbor on the list of the neighbor *)

Lemma remove_first_delete (u : BlockNumber) (l : list BlockNumber) :
  forall i : nat,
    (forall j, (j < i)%nat -> l !! j <> Some u) -> l !! i = Some u ->
    remove_first u l = delete i l.
Proof.
  induction l as [|x t IH]; intros i Hbefore Hi; [discriminate|].
  destruct i as [|i].
  - cbn in Hi. inversion Hi; subst x. cbn. rewrite Z.eqb_refl. reflexivity.
  - cbn [remove_first]. destruct (Z.eqb_spec x u) as [->|Hne].
    + exfalso. apply (Hbefore 0%nat); [lia | reflexivity].
    + cbn. f_equal. apply IH; [|exact Hi].
      intros j Hj. apply (Hbefore (S j)). lia.
Qed.

Lemma remove_first_absent (u : BlockNumber) (l : list BlockNumber) :
  ~ In u l -> remove_first u l = l.
Proof.
  induction l as [|x t IH]; intros Hnot; [reflexivity|].
  cbn [remove_first]. destruct (Z.eqb_spec x u) as [->|Hne].
  - exfalso. apply Hnot. left. reflexivity.
  - f_equal. apply IH. intros Hin. apply Hnot. right. exact Hin.
Qed.

Lemma layer_list_lookup (m : Z) (node : HnswNodeData) (level : Z) (j : nat) :
  0 <= level * m * 2 ->
  layer_list m node level !! j
  = if Z.of_nat j <? layer_count m node level
    then tbl (node_neighbors node) (level * m * 2 + Z.of_nat j)
    else None.
Proof.
  intros HB. unfold layer_list. rewrite lookup_take.
  destruct (decide (j < Z.to_nat (layer_count m node level))%nat) as [Hlt|Hge].
  - destruct (Z.ltb_spec (Z.of_nat j) (layer_count m node level)); [|lia].
    rewrite lookup_drop. unfold tbl.
    destruct (Z.ltb_spec (level * m * 2 + Z.of_nat j) 0); [lia|].
    f_equal. lia.
  - destruct (Z.ltb_spec (Z.of_nat j) (layer_count m node level)); [lia | reflexivity].
Qed.

Section RemovedList.

Variables (m level : Z) (u : BlockNumber) (node node' : HnswNodeData) (i0 : Z).
Hypothesis Hm : 2 <= m <= 128.
Hypothesis Hlevel : 0 <= level < HNSW_MAX_LEVEL.
Hypothesis Hok : node_ok m node = true.
Hypothesis Hrem : removed_at level m (layer_count m node level) u node node' i0.
Hypothesis Hfirst :
  forall j, 0 <= j < i0 -> tbl (node_neighbors node) (level * m * 2 + j) <> Some u.

Lemma removed_list_same_level :
  layer_list m node' level = remove_first u (layer_list m node level).
Proof.
  assert (HB : 0 <= level * m * 2) by nia.
  pose proof (removed_count m level u node node' i0 Hm Hlevel Hok Hrem level Hlevel) as Hc.
  rewrite Z.eqb_refl in Hc.
  destruct Hrem as (Hi & Hu & _ & _ & Hp & _).
  rewrite (remove_first_delete u _ (Z.to_nat i0)).
  - apply list_eq. intros j. rewrite list_lookup_delete.
    rewrite !layer_list_lookup by exact HB. rewrite Hc, Hp.
    destruct (decide (j < Z.to_nat i0)%nat) as [Hlt|Hge].
    + destruct (Z.ltb_spec (Z.of_nat j) (layer_count m node level - 1)); [|lia].
      destruct (Z.ltb_spec (Z.of_nat j) (layer_count m node level)); [|lia].
      destruct (Z.leb_spec (level * m * 2 + i0) (level * m * 2 + Z.of_nat j)); [lia|].
      cbn [andb].
      destruct (Z.eqb_spec (level * m * 2 + Z.of_nat j)
                           (level * m * 2 + layer_count m node level - 1)); [lia|].
      reflexivity.
    + destruct (Z.ltb_spec (Z.of_nat j) (layer_count m node level - 1)).
      * destruct (Z.ltb_spec (Z.of_nat (S j)) (layer_count m node level)); [|lia].
        destruct (Z.leb_spec (level * m * 2 + i0) (level * m * 2 + Z.of_nat j)); [|lia].
        destruct (Z.ltb_spec (level * m * 2 + Z.of_nat j)
                             (level * m * 2 + layer_count m node level - 1)); [|lia].
        cbn [andb]. f_equal. lia.
      * destruct (Z.ltb_spec (Z.of_nat (S j)) (layer_count m node level)); [lia|].
        reflexivity.
  - intros j Hj. rewrite layer_list_lookup by exact HB.
    destruct (Z.ltb_spec (Z.of_nat j) (layer_count m node level)); [|discriminate].
    apply Hfirst. lia.
  - rewrite layer_list_lookup by exact HB.
    destruct (Z.ltb_spec (Z.of_nat (Z.to_nat i0)) (layer_count m node level)); [|lia].
    rewrite Z2Nat.id by lia. exact Hu.
Qed.

Lemma removed_list_other_level (l : Z) :
  0 <= l < HNSW_MAX_LEVEL -> l <> level ->
  layer_list m node' l = layer_list m node l.
Proof.
  intros Hl Hne.
  assert (HB : 0 <= l * m * 2) by nia.
  pose proof (removed_count m level u node node' i0 Hm Hlevel Hok Hrem l Hl) as Hc.
  destruct (Z.eqb_spec l level); [contradiction|].
  destruct (layer_count_ok m node l ltac:(lia) Hok Hl) as (rl & _ & Hlc & Hrl).
  destruct (layer_count_ok m node level ltac:(lia) Hok Hlevel) as (raw & _ & Hlc' & Hr).
  destruct Hrem as (Hi & _ & _ & _ & Hp & _).
  apply list_eq. intros j. rewrite !layer_list_lookup by exact HB. rewrite Hc.
  destruct (Z.ltb_spec (Z.of_nat j) (layer_count m node l)); [|reflexivity].
  rewrite Hp.
  assert (l * m * 2 + Z.of_nat j < level * m * 2
          \/ level * m * 2 + m * 2 <= l * m * 2 + Z.of_nat j) by nia.
  zbool; auto.
Qed.

End RemovedList.

(** X24.  On a well-formed index and for a neighbor that is a live item,
    [hnswRemoveNodeFromNeighbor] removes the first occurrence of the node
    from the list of the neighbor at the given level and keeps the order of
    the other entries; a list that does not hold the node stays as it is.  The other levels of the neighbor,
    the rest of its node, every other page and the meta page are left
    alone. *)
Theorem remove_from_neighbor_list (nb u : BlockNumber) (level : Z) (w w' : World)
    (node : HnswNodeData) :
  index_ok w = true -> 0 <= level < HNSW_MAX_LEVEL ->
  live_at w nb = true ->
  first_node_at w nb = Some node ->
  hnswRemoveNodeFromNeighbor nb u level w = (Ok tt, w') ->
  exists node',
    first_node_at w' nb = Some node'
    /\ same_but_lists node node'
    /\ layer_list (meta_m (w_meta w)) node' level
       = remove_first u (layer_list (meta_m (w_meta w)) node level)
    /\ (forall l, 0 <= l < HNSW_MAX_LEVEL -> l <> level ->
                  layer_list (meta_m (w_meta w)) node' l
                  = layer_list (meta_m (w_meta w)) node l)
    /\ (forall b, b <> nb -> page_at w' b = page_at w b)
    /\ w_meta w' = w_meta w.
Proof.
  intros Hok Hlevel _ Hfirst_node H. unfold hnswRemoveNodeFromNeighbor in H.
  step H as valid wv E. apply validate_Ok in E. destruct E as [-> ->].
  destruct (valid_block w nb) eqn:Hv; cbn [negb] in H.
  2:{ rewrite (first_node_at_invalid w nb Hok Hv) in Hfirst_node. discriminate. }
  assert (Hlv : hnswValidateLevelSafe level = true).
  { unfold hnswValidateLevelSafe. zbool; reflexivity. }
  rewrite Hlv in H. cbn [negb] in H.
  step H as page w0 E. apply ReadBuffer_Ok in E. destruct E as (Hpage & Hm1 & Hp1).
  unfold first_node_at in Hfirst_node. rewrite Hpage in Hfirst_node.
  destruct page as [|[|it rest]]; try discriminate.
  inversion Hfirst_node; subst node; clear Hfirst_node.
  cbn [PageIsEmpty] in H.
  destruct (index_ok_page w nb it rest Hok Hpage) as [-> Hnode].
  step H as neighbor wn E. apply lift_Ok in E. destruct E as [E ->].
  cbn in E. inversion E; subst neighbor; clear E.
  assert (Hlevel_nb : hnswValidateLevelSafe (node_level (it_node it)) = true).
  { apply node_ok_spec in Hnode. destruct Hnode as (Hl & _).
    unfold hnswValidateLevelSafe. zbool; reflexivity. }
  rewrite Hlevel_nb in H. cbn [negb] in H.
  step H as mp w1 E. apply ReadBuffer_Ok in E. destruct E as (_ & Hm2 & Hp2).
  step H as meta wm E. apply get_meta_Ok in E. destruct E as [-> ->].
  step H as cnt wc E. apply lift_Ok in E. destruct E as [Hcnt ->].
  unfold get_count in Hcnt. apply aref_tbl in Hcnt.
  step H as r wr E. apply lift_Ok in E. destruct E as [Hrem ->].
  assert (Hm : w_meta w1 = w_meta w) by congruence.
  assert (Hp : w_pages w1 = w_pages w) by congruence.
  rewrite Hm in *.
  assert (Hidx : index_ok w = true) by exact Hok.
  apply index_ok_spec in Hidx. destruct Hidx as (Hmr & Hn & Hpages).
  set (m := meta_m (w_meta w)) in *.
  assert (Hc : hnswValidateNeighborCount cnt m level = layer_count m (it_node it) level).
  { unfold layer_count. rewrite Hcnt. reflexivity. }
  rewrite Hc in Hrem.
  assert (HB : 0 <= level * m * 2) by nia.
  apply (remove_from_list_Ok level m _ u (it_node it) r HB) in Hrem.
  destruct r as [node'|].
  - destruct Hrem as (i0 & Hfirst & Hrem).
    apply store_node_Ok in H. destruct H as (it1 & rest1 & Hpage1 & Hb & Hm3 & Hp3).
    rewrite (page_at_pages w w1 nb Hp) in Hpage1. rewrite Hpage in Hpage1.
    inversion Hpage1; subst it1 rest1; clear Hpage1.
    rewrite Hp in Hp3.
    assert (Hb' : 1 <= nb < RelationGetNumberOfBlocks w).
    { unfold RelationGetNumberOfBlocks in *. rewrite Hp in Hb. exact Hb. }
    exists node'.
    split.
    { rewrite (first_node_at_insert w w' nb nb _ [] Hb' Hp3), Z.eqb_refl. reflexivity. }
    split; [destruct Hrem as (_ & _ & S & _); exact S|].
    split; [exact (removed_list_same_level m level u (it_node it) node' i0
                     Hmr Hlevel Hnode Hrem Hfirst)|].
    split; [exact (removed_list_other_level m level u (it_node it) node' i0
                     Hmr Hlevel Hnode Hrem)|].
    split; [|congruence].
    intros b Hb0. rewrite (page_at_insert w w' nb b _ Hb' Hp3).
    destruct (Z.eqb_spec b nb); [contradiction | reflexivity].
  - apply ret_Ok in H. destruct H as [_ ->].
    exists (it_node it).
    split; [unfold first_node_at; rewrite (page_at_pages w w1 nb Hp), Hpage; reflexivity|].
    split; [apply same_but_lists_refl|].
    split.
    { symmetry. apply remove_first_absent. rewrite in_layer_list by exact HB.
      intros [i [Hi Ht]]. destruct (Hrem i Hi) as (x & Hx & Hxu). congruence. }
    split; [reflexivity|].
    split; [intros b _; apply page_at_pages; exact Hp | exact Hm].
Qed.

Lemma remove_from_neighbor_list_witness :
  exists node',
    first_node_at (snd (hnswRemoveNodeFromNeighbor 1 2 0 world_star)) 1 = Some node'
    /\ same_but_lists (default origin_node (first_node_at world_star 1)) node'
    /\ layer_list (meta_m (w_meta world_star)) node' 0
       = remove_first 2 (layer_list (meta_m (w_meta world_star))
                                    (default origin_node (first_node_at world_star 1)) 0)
    /\ (forall l, 0 <= l < HNSW_MAX_LEVEL -> l <> 0 ->
                  layer_list (meta_m (w_meta world_star)) node' l
                  = layer_list (meta_m (w_meta world_star))
                               (default origin_node (first_node_at world_star 1)) l)
    /\ (forall b, b <> 1 ->
                  page_at (snd (hnswRemoveNodeFromNeighbor 1 2 0 world_star)) b
                  = page_at world_star b)
    /\ w_meta (snd (hnswRemoveNodeFromNeighbor 1 2 0 world_star)) = w_meta world_star.
Proof.
  apply (remove_from_neighbor_list 1 2 0 world_star
           (snd (hnswRemoveNodeFromNeighbor 1 2 0 world_star))
           (default origin_node (first_node_at world_star 1))).
  - reflexivity.
  - unfold HNSW_MAX_LEVEL. lia.
  - reflexivity.
  - reflexivity.
  - vm_compute. reflexivity.
Defined.

(** ** The node an insertion stores *)

(** X25.  A successful insertion appends one block, and that block holds
    the new node alone, live: with the given heap pointer, the level that
    [hnswGetRandomLevel] draws in the state before the insertion, the
    dimension, and the first [dim] components of the vector. *)
Theorem insert_stores_new_node (log : double -> double) (fuel : nat)
    (vector : list float4) (dim : Z) (heapPtr : ItemPointerData) (w w' : World) :
  hnswInsertNode log fuel vector dim heapPtr w = (Ok tt, w') ->
  exists level w1 node',
    hnswGetRandomLevel log (meta_ml (w_meta w)) w = (Ok level, w1)
    /\ 0 <= level <= 15
    /\ page_at w' (RelationGetNumberOfBlocks w)
       = Some (PageInit [{| lp_dead := false; it_node := node' |}])
    /\ node_heapPtr node' = heapPtr
    /\ node_level node' = level
    /\ node_dim node' = int16 dim
    /\ node_vector node' = take (Z.to_nat dim) vector
    /\ RelationGetNumberOfBlocks w' = RelationGetNumberOfBlocks w + 1.
Proof.
  intros H. unfold hnswInsertNode in H.
  step H as meta w0 E. apply get_meta_Ok in E. destruct E as [-> ->].
  step H as L w1 Hlevel.
  pose proof (preserves_Ok _ _ _ _ _ (random_level_same_index log _) Hlevel) as [_ Hp1].
  pose proof Hlevel as Hdraw.
  apply hnswGetRandomLevel_Ok in Hlevel. destruct Hlevel as [HL _].
  destruct (Z.geb_spec L HNSW_MAX_LEVEL) as [Hge|_]; [unfold HNSW_MAX_LEVEL in Hge; lia|].
  destruct (hnswValidateLevelSafe L); cbn [negb] in H; [|discriminate].
  destruct (hnswComputeNodeSizeSafe dim L (meta_m (w_meta w))) as [nodeSize overflow].
  destruct (overflow || (nodeSize =? 0)); [discriminate|].
  step H as t w2 E. apply NDB_ALLOC_Ok in E. destruct E as [_ ->]. clear t.
  step H as node w2 E. apply lift_Ok in E. destruct E as [Hnode ->].
  step H as t w2 E.
  assert (Hr2 : read_only w1 w2).
  { apply (preserves_Ok read_only _ _ _ _) in E; [exact E|].
    destruct (_ && _); [|apply (preserves_ret _ read_only_refl)].
    apply (preserves_bind _ read_only_trans);
      [|intros ?; apply (preserves_ret _ read_only_refl)].
    apply (preserves_forZ _ read_only_refl read_only_trans). intros i st.
    apply (preserves_insert_greedy_step read_only (fun _ => True)
             read_only_refl read_only_trans read_only_log); intros; exact I. }
  clear E t.
  assert (Hblocks : RelationGetNumberOfBlocks w2 = RelationGetNumberOfBlocks w).
  { rewrite (read_only_blocks w1 w2 Hr2). unfold RelationGetNumberOfBlocks.
    rewrite Hp1. reflexivity. }
  step H as blkno w3 E. apply ReadBuffer_P_NEW_pages in E.
  destruct E as (Hblk & _ & _ & Hp3).
  rewrite Hblocks in Hblk. subst blkno.
  step H as t w4 E. destruct t. apply write_page_Ok in E. destruct E as (Hb4 & _ & Hp4).
  step H as t w5 E. destruct t.
  destruct (fresh_page_free_space <? nodeSize); [discriminate|].
  apply write_page_Ok in E. destruct E as (Hb5 & _ & Hp5).
  assert (Hlen5 : RelationGetNumberOfBlocks w5 = RelationGetNumberOfBlocks w + 1).
  { unfold RelationGetNumberOfBlocks in *.
    rewrite Hp5, length_insert, Hp4, length_insert, Hp3, length_app. cbn. lia. }
  assert (Hpage5 : page_at w5 (RelationGetNumberOfBlocks w)
                   = Some (PageInit [{| lp_dead := false; it_node := node |}])).
  { rewrite (page_at_insert w4 w5 _ _ _ Hb5 Hp5), Z.eqb_refl. reflexivity. }
  step H as t w6 E. destruct t.
  assert (K6 : keeps_data w5 w6 /\ length (w_pages w6) = length (w_pages w5)).
  { destruct (_ && _).
    - step E as valid wa Ea. apply validate_Ok in Ea. destruct Ea as [-> ->].
      destruct (valid_block w5 _); cbn [negb] in E; [|discriminate].
      step E as t wa Ea. apply NDB_ALLOC_Ok in Ea. destruct Ea as [_ ->]. clear t.
      step E as t wa Ea. apply NDB_ALLOC_Ok in Ea. destruct Ea as [_ ->]. clear t.
      split.
      + unfold forZ_down in E.
        refine (for_down_state_inv (fun _ wx => keeps_data w5 wx) _ _ _ _ tt w5 tt w6
                  (keeps_data_refl w5) E).
        intros i s wi ri wi' Ki Hi. eapply keeps_data_trans; [exact Ki|].
        exact (link_level_keeps _ _ _ _ _ _ _ _ _ _ _ Hi).
      + exact (proj2 (preserves_Ok _ _ _ _ _ (link_levels_same _ _ _ _ _ _ _) E)).
    - apply ret_Ok in E. destruct E as [_ ->].
      split; [apply keeps_data_refl | reflexivity]. }
  clear E. destruct K6 as [[_ K6] Hlen6].
  apply update_meta_Ok in H. destruct H as (Hp7 & _).
  assert (Hskel : same_skeleton (page_at w5 (RelationGetNumberOfBlocks w))
                                (page_at w' (RelationGetNumberOfBlocks w))).
  { rewrite (page_at_pages w6 w' _ Hp7). apply K6.
    unfold RelationGetNumberOfBlocks in *. lia. }
  rewrite Hpage5 in Hskel. unfold same_skeleton in Hskel.
  destruct (page_at w' (RelationGetNumberOfBlocks w)) as [[|items']|] eqn:Hpage';
    try discriminate.
  inversion Hskel as [|it0 it' l0 l' [Hdead Hsame] Hrest]; subst.
  inversion Hrest; subst.
  destruct it' as [dead' node']. cbn in Hdead, Hsame. subst dead'.
  destruct Hsame as (S1 & S2 & S3 & S4 & _).
  unfold new_node in Hnode. destruct (_ <? dim); [discriminate|].
  inversion Hnode; subst node. cbn in S1, S2, S3, S4.
  exists L, w1, node'. split; [exact Hdraw|]. split; [exact HL|]. split; [reflexivity|].
  split; [exact S1|]. split; [exact S2|]. split; [exact S3|]. split; [exact S4|].
  unfold RelationGetNumberOfBlocks in *. rewrite Hp7, Hlen6. lia.
Qed.

Lemma insert_stores_new_node_witness :
  exists level w1 node',
    hnswGetRandomLevel log_example (meta_ml (w_meta world_one)) world_one = (Ok level, w1)
    /\ 0 <= level <= 15
    /\ page_at world_two (RelationGetNumberOfBlocks world_one)
       = Some (PageInit [{| lp_dead := false; it_node := node' |}])
    /\ node_heapPtr node' = {| ip_blkid := 0; ip_posid := 2 |}
    /\ node_level node' = level
    /\ node_dim node' = int16 3
    /\ node_vector node' = take (Z.to_nat 3) (map of_Z32 [1; 0; 0])
    /\ RelationGetNumberOfBlocks world_two = RelationGetNumberOfBlocks world_one + 1.
Proof.
  apply (insert_stores_new_node log_example 8 (map of_Z32 [1; 0; 0]) 3
           {| ip_blkid := 0; ip_posid := 2 |} world_one world_two).
  vm_compute. reflexivity.
Defined.

(** ** The shape of an extracted vector *)

Lemma for_res_grows {S} (step : Z -> list S -> res (list S)) (k : nat) :
  (forall j acc r, step j acc = Ok r -> length r = (length acc + k)%nat) ->
  forall (n : nat) (i : Z) (acc r : list S),
    for_res n i step acc = Ok r -> length r = (length acc + n * k)%nat.
Proof.
  intros Hstep. induction n as [|n IH]; intros i acc r H.
  - cbn in H. inversion H. lia.
  - cbn [for_res] in H. destruct (step i acc) as [a| | |] eqn:Ha; try discriminate.
    cbn [res_bind] in H. apply IH in H. apply Hstep in Ha. lia.
Qed.




Lemma aset_length {A} (T T' : list A) (i : Z) (x : A) :
  aset T i x = Ok T' -> length T' = length T.
Proof. intros H. apply aset_Ok in H. tauto. Qed.

(** X26.  For a halfvec, sparsevec or bit key, a vector that
    [hnswExtractVectorData] returns has the dimension the key value
    declares, between 1 and 32767, and exactly that many components. *)
Theorem extract_shape (value : KeyDatum) (v : list float4) (dim : Z) :
  is_dense value = false ->
  hnswExtractVectorData value = Ok (v, dim) ->
  datum_dim value = Some dim
  /\ 0 < dim <= 32767
  /\ Z.of_nat (length v) = dim.
Proof.
  destruct value as [d data|d data|d nnz indices values|d bit_data|];
    cbn [hnswExtractVectorData is_dense]; try discriminate; intros _;
    (destruct (Z.leb_spec d 0) as [Hle|Hgt]; [discriminate|]);
    (destruct (Z.gtb_spec d 32767) as [Hbig|Hsmall]; [discriminate|]); cbn [orb]; intros H;
    match type of H with
    | res_bind ?c _ = _ => destruct c as [r| | |] eqn:Hloop; try discriminate
    end; cbn [res_bind] in H; inversion H; subst; clear H;
    (split; [reflexivity|]); (split; [lia|]).
  - apply (for_res_grows _ 1) in Hloop; [cbn [length] in Hloop; unfold float4 in *; lia|].
    intros j acc r Hr. destruct (aref data j); try discriminate.
    cbn in Hr. inversion Hr. rewrite length_app. reflexivity.
  - apply (for_res_grows _ 0) in Hloop; [rewrite length_replicate in Hloop; lia|].
    intros j acc r Hr. destruct (aref indices j) as [ix| | |]; try discriminate.
    cbn [res_bind] in Hr. destruct (_ && _).
    + destruct (aref values j) as [x| | |]; try discriminate. cbn [res_bind] in Hr.
      apply aset_length in Hr. lia.
    + inversion Hr. lia.
  - apply (for_res_grows _ 1) in Hloop; [cbn [length] in Hloop; unfold float4 in *; lia|].
    intros j acc r Hr. destruct (aref bit_data (j / 8)); try discriminate.
    cbn in Hr. inversion Hr. rewrite length_app. reflexivity.
Qed.

Lemma extract_shape_witness :
  datum_dim (DatumSparsevec 4 2 [3; 9] [one32; two32]) = Some 4
  /\ 0 < 4 <= 32767
  /\ Z.of_nat (length [zero; zero; zero; one32]) = 4.
Proof.
  apply (extract_shape (DatumSparsevec 4 2 [3; 9] [one32; two32])
           [zero; zero; zero; one32] 4).
  - reflexivity.
  - vm_compute. reflexivity.
Defined.

